(** * MCP Logger: a shallow embedding of the data-access and query layer

    The development follows the two source files of the repository:
    [src/db.py] (schema, connection, tag serialisation) and [src/main.py]
    (the public tools).  Python strings are sequences of Unicode code
    points, SQLite tables are lists of rows in rowid order, a connection is
    a working copy of the store that becomes visible on [commit], and every
    public tool is a computation in a small state-and-exception monad.

    The tools decode JSON texts with [loads], a decoder with room to
    spare; the two limits the interpreter sets to [json.loads], its
    recursion depth and its cap on the digits of an integer, are
    modelled by [json_loads] and enter the statements on
    [deserialize_tags] and on the text arguments of [log_workout].
    Other resource exhaustion (memory, disk, 64-bit overflow of SQLite
    integers, lock time-outs) is outside the model, and so are REAL
    values that are not finite. *)

From Stdlib Require Import List NArith ZArith Bool Lia String Ascii Sorted Permutation.
From Stdlib Require QArith.
Import ListNotations.

Set Implicit Arguments.

(* ================================================================== *)
(** * Part I: definitions *)
(* ================================================================== *)

(** ** Python strings *)

(** A Python [str] is a sequence of code points. *)
Definition pystr := list N.

(** Literals are written as Rocq strings and read byte by byte (ASCII). *)
Definition py (s : string) : pystr :=
  map N_of_ascii (list_ascii_of_string s).

Definition pystr_eqb (a b : pystr) : bool :=
  if list_eq_dec N.eq_dec a b then true else false.

Fixpoint starts_with (p s : pystr) : bool :=
  match p, s with
  | [], _ => true
  | a :: p', b :: s' => N.eqb a b && starts_with p' s'
  | _ :: _, [] => false
  end.

(** Storing under a key of a [dict]: a key already present keeps its
    position and takes the new value. *)
Fixpoint dict_set {V : Type} (k : pystr) (v : V) (d : list (pystr * V)) : list (pystr * V) :=
  match d with
  | [] => [(k, v)]
  | (k', v') :: d' =>
    if pystr_eqb k k' then (k', v) :: d' else (k', v') :: dict_set k v d'
  end.

(** ** The JSON codec used for tags ([json.dumps] / [json.loads]) *)

Module Json.
Local Open Scope N_scope.

(** Values [json.loads] can produce.  A number with a fraction or an
    exponent is kept as the lexeme handed to [float]; the three constants
    NaN, Infinity and -Infinity are floats as well. *)
#[warnings="-register-all"]
Inductive json : Type :=
| JNull
| JBool (b : bool)
| JInt (z : Z)
| JFloat (lexeme : pystr)
| JStr (s : pystr)
| JArr (items : list json)
| JObj (members : list (pystr * json)).

(** *** Encoder: [encode_basestring_ascii] and the list encoder *)

(** One lower-case hexadecimal digit, as printed by ['{0:04x}']. *)
Definition hex_digit (d : N) : N :=
  if d <? 10 then 48 + d else 87 + d.

Definition hex4 (n : N) : pystr :=
  [ hex_digit ((n / 4096) mod 16); hex_digit ((n / 256) mod 16);
    hex_digit ((n / 16) mod 16); hex_digit (n mod 16) ].

(** [\uXXXX] *)
Definition u_escape (n : N) : pystr := 92 :: 117 :: hex4 n.

(** The replacement of one character: [ESCAPE_DCT] for the short escapes,
    the character itself inside [' '..'~'], a [\u] escape below 0x10000
    and a surrogate pair above. *)
Definition encode_char (c : N) : pystr :=
  if c =? 34 then [92; 34]            (* quote *)
  else if c =? 92 then [92; 92]       (* backslash *)
  else if c =? 10 then [92; 110]      (* \n *)
  else if c =? 13 then [92; 114]      (* \r *)
  else if c =? 9 then [92; 116]       (* \t *)
  else if c =? 8 then [92; 98]        (* \b *)
  else if c =? 12 then [92; 102]      (* \f *)
  else if (32 <=? c) && (c <=? 126) then [c]
  else if c <? 65536 then u_escape c
  else
    let n := c - 65536 in
    let s1 := N.lor 55296 (N.land (N.shiftr n 10) 1023) in
    let s2 := N.lor 56320 (N.land n 1023) in
    u_escape s1 ++ u_escape s2.

Definition encode_basestring_ascii (s : pystr) : pystr :=
  34 :: flat_map encode_char s ++ [34].

(** [', '.join] of the encoded items. *)
Fixpoint join_items (items : list pystr) : pystr :=
  match items with
  | [] => []
  | [x] => x
  | x :: rest => x ++ 44 :: 32 :: join_items rest
  end.

(** [json.dumps] on a list of strings, default separators. *)
Definition dumps_str_list (l : list pystr) : pystr :=
  91 :: join_items (map encode_basestring_ascii l) ++ [93].

(** *** Decoder *)

Definition is_ws (c : N) : bool :=
  (c =? 32) || (c =? 9) || (c =? 10) || (c =? 13).

Fixpoint skip_ws (s : pystr) : pystr :=
  match s with
  | c :: s' => if is_ws c then skip_ws s' else s
  | [] => []
  end.

Definition hex_value (c : N) : option N :=
  if (48 <=? c) && (c <=? 57) then Some (c - 48)
  else if (97 <=? c) && (c <=? 102) then Some (c - 87)
  else if (65 <=? c) && (c <=? 70) then Some (c - 55)
  else None.

(** [_decode_uXXXX]: exactly four hexadecimal digits. *)
Definition decode_hex4 (a b c d : N) : option N :=
  match hex_value a, hex_value b, hex_value c, hex_value d with
  | Some x, Some y, Some z, Some w => Some (4096 * x + 256 * y + 16 * z + w)
  | _, _, _, _ => None
  end.

(** The [BACKSLASH] table of the decoder. *)
Definition backslash (e : N) : option N :=
  if e =? 34 then Some 34
  else if e =? 92 then Some 92
  else if e =? 47 then Some 47
  else if e =? 98 then Some 8
  else if e =? 102 then Some 12
  else if e =? 110 then Some 10
  else if e =? 114 then Some 13
  else if e =? 116 then Some 9
  else None.

Definition is_high_surrogate (u : N) : bool := (55296 <=? u) && (u <=? 56319).
Definition is_low_surrogate (u : N) : bool := (56320 <=? u) && (u <=? 57343).

Definition join_surrogates (hi lo : N) : N :=
  65536 + N.lor (N.shiftl (hi - 55296) 10) (lo - 56320).

Definition cons_char (c : N) (r : option (pystr * pystr)) : option (pystr * pystr) :=
  match r with
  | Some (str, rest) => Some (c :: str, rest)
  | None => None
  end.

(** [scanstring] in strict mode, entered after the opening quote: the
    decoded string and the text after the closing quote, or [None] for a
    decode error (unterminated string, control character, bad escape). *)
Fixpoint scanstring (s : pystr) : option (pystr * pystr) :=
  match s with
  | [] => None
  | c :: s1 =>
    if c =? 34 then Some ([], s1)
    else if c =? 92 then
      match s1 with
      | [] => None
      | e :: s2 =>
        if e =? 117 then
          match s2 with
          | h1 :: h2 :: h3 :: h4 :: s3 =>
            match decode_hex4 h1 h2 h3 h4 with
            | None => None
            | Some uni =>
              if is_high_surrogate uni then
                match s3 with
                | b1 :: b2 :: s4 =>
                  if (b1 =? 92) && (b2 =? 117) then
                    match s4 with
                    | k1 :: k2 :: k3 :: k4 :: s5 =>
                      match decode_hex4 k1 k2 k3 k4 with
                      | None => None
                      | Some uni2 =>
                        if is_low_surrogate uni2
                        then cons_char (join_surrogates uni uni2) (scanstring s5)
                        else cons_char uni (scanstring s3)
                      end
                    | _ => None
                    end
                  else cons_char uni (scanstring s3)
                | _ => cons_char uni (scanstring s3)
                end
              else cons_char uni (scanstring s3)
            end
          | _ => None
          end
        else
          match backslash e with
          | Some ch => cons_char ch (scanstring s2)
          | None => None
          end
      end
    else if c <? 32 then None
    else cons_char c (scanstring s1)
  end.

(** [NUMBER_RE]: an integer part (optional minus, then a single 0 or a
    non-zero digit followed by digits), an optional fraction (a dot and at
    least one digit) and an optional exponent (e or E, optional sign, at
    least one digit). *)
Definition is_digit (c : N) : bool := (48 <=? c) && (c <=? 57).

Fixpoint span_digits (s : pystr) : pystr * pystr :=
  match s with
  | c :: s' =>
    if is_digit c then let (ds, r) := span_digits s' in (c :: ds, r)
    else ([], s)
  | [] => ([], [])
  end.

Definition match_integer (s : pystr) : option (pystr * pystr) :=
  let (sign, s1) :=
    match s with
    | c :: s' => if c =? 45 then ([45], s') else ([], s)
    | [] => ([], s)
    end in
  match s1 with
  | c :: s2 =>
    if c =? 48 then Some (sign ++ [48], s2)
    else if is_digit c then
      let (ds, r) := span_digits s2 in Some (sign ++ c :: ds, r)
    else None
  | [] => None
  end.

Definition match_frac (s : pystr) : pystr * pystr :=
  match s with
  | c :: s1 =>
    if c =? 46 then
      match span_digits s1 with
      | ([], _) => ([], s)
      | (ds, r) => (46 :: ds, r)
      end
    else ([], s)
  | [] => ([], s)
  end.

Definition match_exp (s : pystr) : pystr * pystr :=
  match s with
  | e :: s1 =>
    if (e =? 101) || (e =? 69) then
      let (sign, s2) :=
        match s1 with
        | c :: s' => if (c =? 45) || (c =? 43) then ([c], s') else ([], s1)
        | [] => ([], s1)
        end in
      match span_digits s2 with
      | ([], _) => ([], s)
      | (ds, r) => (e :: sign ++ ds, r)
      end
    else ([], s)
  | [] => ([], s)
  end.

(** [int] on a lexeme matched by the integer group, without the cap on
    its number of digits. *)
Definition digits_value (ds : pystr) : Z :=
  fold_left (fun acc c => (10 * acc + Z.of_N (c - 48))%Z) ds 0%Z.

Definition parse_int (lexeme : pystr) : Z :=
  match lexeme with
  | c :: ds => if c =? 45 then (- digits_value ds)%Z else digits_value lexeme
  | [] => 0%Z
  end.

Definition match_number (s : pystr) : option (json * pystr) :=
  match match_integer s with
  | None => None
  | Some (integer, r1) =>
    let (frac, r2) := match_frac r1 in
    let (exp, r3) := match_exp r2 in
    match frac, exp with
    | [], [] => Some (JInt (parse_int integer), r3)
    | _, _ => Some (JFloat (integer ++ frac ++ exp), r3)
    end
  end.

Definition dict_of_pairs (pairs : list (pystr * json)) : list (pystr * json) :=
  fold_left (fun d kv => dict_set (fst kv) (snd kv) d) pairs [].

(** Outcome of a scanning function.  [OutOfFuel] only bounds the
    recursion of the model; [loads] always supplies enough fuel. *)
Inductive scan (A : Type) : Type :=
| Scanned (a : A) (rest : pystr)
| DecodeError
| OutOfFuel.
Arguments DecodeError {A}.
Arguments OutOfFuel {A}.

Definition scan_map {A B} (f : A -> B) (r : scan A) : scan B :=
  match r with
  | Scanned a rest => Scanned (f a) rest
  | DecodeError => DecodeError
  | OutOfFuel => OutOfFuel
  end.

(** [scan_once], [JSONArray] and [JSONObject].  [array_items] is entered
    where a value is expected, [object_items] after the opening quote of
    a key. *)
Fixpoint scan_once (fuel : nat) (s : pystr) {struct fuel} : scan json :=
  match fuel with
  | O => OutOfFuel
  | S fuel' =>
    match s with
    | [] => DecodeError
    | c :: s1 =>
      if c =? 34 then
        match scanstring s1 with
        | Some (str, r) => Scanned (JStr str) r
        | None => DecodeError
        end
      else if c =? 123 then
        match skip_ws s1 with
        | c' :: r =>
          if c' =? 125 then Scanned (JObj []) r
          else if c' =? 34 then
            scan_map (fun ps => JObj (dict_of_pairs ps)) (object_items fuel' r)
          else DecodeError
        | [] => DecodeError
        end
      else if c =? 91 then
        match skip_ws s1 with
        | c' :: r =>
          if c' =? 93 then Scanned (JArr []) r
          else scan_map JArr (array_items fuel' (c' :: r))
        | [] => DecodeError
        end
      else if starts_with [110; 117; 108; 108] s then Scanned JNull (skipn 4 s)
      else if starts_with [116; 114; 117; 101] s then Scanned (JBool true) (skipn 4 s)
      else if starts_with [102; 97; 108; 115; 101] s then Scanned (JBool false) (skipn 5 s)
      else
        match match_number s with
        | Some (v, r) => Scanned v r
        | None =>
          if starts_with [78; 97; 78] s
          then Scanned (JFloat [78; 97; 78]) (skipn 3 s)
          else if starts_with [73; 110; 102; 105; 110; 105; 116; 121] s
          then Scanned (JFloat [73; 110; 102; 105; 110; 105; 116; 121]) (skipn 8 s)
          else if starts_with [45; 73; 110; 102; 105; 110; 105; 116; 121] s
          then Scanned (JFloat [45; 73; 110; 102; 105; 110; 105; 116; 121]) (skipn 9 s)
          else DecodeError
        end
    end
  end

with array_items (fuel : nat) (s : pystr) {struct fuel} : scan (list json) :=
  match fuel with
  | O => OutOfFuel
  | S fuel' =>
    match scan_once fuel' s with
    | Scanned v r1 =>
      match skip_ws r1 with
      | c :: r2 =>
        if c =? 93 then Scanned [v] r2
        else if c =? 44 then scan_map (cons v) (array_items fuel' (skip_ws r2))
        else DecodeError
      | [] => DecodeError
      end
    | DecodeError => DecodeError
    | OutOfFuel => OutOfFuel
    end
  end

with object_items (fuel : nat) (s : pystr) {struct fuel} : scan (list (pystr * json)) :=
  match fuel with
  | O => OutOfFuel
  | S fuel' =>
    match scanstring s with
    | None => DecodeError
    | Some (key, r1) =>
      match skip_ws r1 with
      | c :: r2 =>
        if c =? 58 then
          match scan_once fuel' (skip_ws r2) with
          | Scanned v r3 =>
            match skip_ws r3 with
            | c' :: r4 =>
              if c' =? 125 then Scanned [(key, v)] r4
              else if c' =? 44 then
                match skip_ws r4 with
                | q :: r5 =>
                  if q =? 34
                  then scan_map (cons (key, v)) (object_items fuel' r5)
                  else DecodeError
                | [] => DecodeError
                end
              else DecodeError
            | [] => DecodeError
            end
          | DecodeError => DecodeError
          | OutOfFuel => OutOfFuel
          end
        else DecodeError
      | [] => DecodeError
      end
    end
  end.

(** Fuel that no text can exhaust: every recursive call is preceded by
    the consumption of at least one character within two calls. *)
Definition fuel_for (s : pystr) : nat := (2 * List.length s + 2)%nat.

(** [json.loads] on a [str]: [None] stands for [JSONDecodeError]. *)
Definition loads (s : pystr) : option json :=
  if starts_with [65279] s then None
  else
    match scan_once (fuel_for s) (skip_ws s) with
    | Scanned v rest =>
      match skip_ws rest with
      | [] => Some v
      | _ :: _ => None
      end
    | DecodeError => None
    | OutOfFuel => None
    end.

End Json.
Import Json.

(** ** [db.py]: tag serialisation *)

Definition serialize_tags (tags : option (list pystr)) : option pystr :=
  match tags with
  | None => None
  | Some l => Some (dumps_str_list l)
  end.

(** The result is whatever [json.loads] returns, hence a [json] value:
    the Python [None] is [JNull], a list is [JArr]. *)
Definition deserialize_tags (text : option pystr) : json :=
  match text with
  | None => JArr []
  | Some [] => JArr []
  | Some t =>
    match loads t with
    | Some v => v
    | None => JArr []
    end
  end.

(** *** Strings the codec carries without loss *)

Local Open Scope N_scope.

(** A code point of a Python string. *)
Definition code_point (c : N) : bool := c <? 1114112.

(** No high surrogate is directly followed by a low surrogate. *)
Fixpoint no_surrogate_pair (s : pystr) : bool :=
  match s with
  | a :: s' =>
    match s' with
    | b :: _ => negb (is_high_surrogate a && is_low_surrogate b)
    | [] => true
    end && no_surrogate_pair s'
  | [] => true
  end.

Definition lossless (s : pystr) : bool :=
  forallb code_point s && no_surrogate_pair s.

(** Whether the decoder, having read a high surrogate escape, would
    combine it with what follows (or fail on it). *)
Definition pairs_with_low (t : pystr) : bool :=
  match t with
  | b1 :: b2 :: t' =>
    (b1 =? 92) && (b2 =? 117) &&
    match t' with
    | k1 :: k2 :: k3 :: k4 :: _ =>
      match decode_hex4 k1 k2 k3 k4 with
      | Some u => is_low_surrogate u
      | None => true
      end
    | _ => true
    end
  | _ => false
  end.

(** Exhaustive checks over an interval of code points. *)
Fixpoint all_from (n : nat) (c : N) (p : N -> bool) : bool :=
  match n with
  | O => true
  | S k => if p c then all_from k (N.succ c) p else false
  end.

Definition hex4_ok (c : N) : bool :=
  match decode_hex4 (hex_digit ((c / 4096) mod 16)) (hex_digit ((c / 256) mod 16))
          (hex_digit ((c / 16) mod 16)) (hex_digit (c mod 16)) with
  | Some x => x =? c
  | None => false
  end.

Definition pair_ok (n : N) : bool :=
  let s1 := N.lor 55296 (N.land (N.shiftr n 10) 1023) in
  let s2 := N.lor 56320 (N.land n 1023) in
  is_high_surrogate s1 && is_low_surrogate s2
  && (join_surrogates s1 s2 =? 65536 + n).

Local Close Scope N_scope.

(** ** Text comparison and small text utilities *)

Local Open Scope N_scope.

(** SQLite compares TEXT with the BINARY collation: byte order of the
    UTF-8 encoding, which is the order of the code points. *)
Fixpoint pystr_compare (a b : pystr) : comparison :=
  match a, b with
  | [], [] => Eq
  | [], _ :: _ => Lt
  | _ :: _, [] => Gt
  | x :: a', y :: b' =>
    match N.compare x y with
    | Eq => pystr_compare a' b'
    | c => c
    end
  end.

Definition pystr_leb (a b : pystr) : bool :=
  match pystr_compare a b with Gt => false | _ => true end.

(** ASCII case folding, as done by the [re.IGNORECASE] match of a literal
    and by SQLite's [LOWER] and [LIKE]. *)
Definition ascii_lower (c : N) : N :=
  if (65 <=? c) && (c <=? 90) then c + 32 else c.

Definition eq_nocase (a b : N) : bool := ascii_lower a =? ascii_lower b.

Definition sql_lower (s : pystr) : pystr := map ascii_lower s.

(** The comparison of SQLite's [LIKE]: [%] matches any run of
    characters, [_] one character, everything else itself up to ASCII
    case. *)
Fixpoint like_chars (p s : pystr) : bool :=
  match p with
  | [] => match s with [] => true | _ :: _ => false end
  | c :: p' =>
    if c =? 37 then
      (fix star (t : pystr) : bool :=
         like_chars p' t || match t with [] => false | _ :: t' => star t' end) s
    else
      match s with
      | [] => false
      | x :: s' => ((c =? 95) || eq_nocase c x) && like_chars p' s'
      end
  end.

(** The part of a text before its first NUL. *)
Fixpoint until_nul (s : pystr) : pystr :=
  match s with
  | [] => []
  | c :: s' => if c =? 0 then [] else c :: until_nul s'
  end.

(** SQLite's [LIKE] reads the pattern and the text as C strings, each up
    to its first NUL.  It refuses a pattern of more than 50000 bytes,
    which is not modelled. *)
Definition like (p s : pystr) : bool := like_chars (until_nul p) (until_nul s).

(** [column LIKE pattern] on a nullable column: NULL never matches. *)
Definition like_opt (p : pystr) (col : option pystr) : bool :=
  match col with
  | Some s => like p s
  | None => false
  end.

(** The pattern built by [f"%{query}%"]. *)
Definition contains_pattern (q : pystr) : pystr := (37 :: q ++ [37])%list.

(** ** Dates: [strptime], [isoformat] and the two validators of [main.py] *)

Module Dates.

(** One character class and one alternative of a directive's regular
    expression. *)
Inductive cclass : Type :=
| CRange (lo hi : N)
| COne (c : N)
| CDecimal.

(** The decimal digits of Unicode 14.0.0 (category Nd, the table of
    CPython 3.11) come in runs of ten, valued 0 to 9 in order: the first
    code point of each run.  [\d] in a [str] pattern of [re] matches all
    of them and [int] reads them all. *)
Definition decimal_runs : list N :=
  [48; 1632; 1776; 1984; 2406; 2534; 2662; 2790; 2918; 3046; 3174; 3302;
   3430; 3558; 3664; 3792; 3872; 4160; 4240; 6112; 6160; 6470; 6608; 6784;
   6800; 6992; 7088; 7232; 7248; 42528; 43216; 43264; 43472; 43504; 43600;
   44016; 65296; 66720; 68912; 69734; 69872; 69942; 70096; 70384; 70736;
   70864; 71248; 71360; 71472; 71904; 72016; 72784; 73040; 73120; 92768;
   92864; 93008; 120782; 120792; 120802; 120812; 120822; 123200; 123632;
   125264; 130032].

Definition decimal_value (c : N) : option N :=
  match find (fun s => (s <=? c) && (c <? s + 10)) decimal_runs with
  | Some s => Some (c - s)
  | None => None
  end.

Definition is_decimal (c : N) : bool :=
  match decimal_value c with Some _ => true | None => false end.

Definition cclass_matches (k : cclass) (c : N) : bool :=
  match k with
  | CRange lo hi => (lo <=? c) && (c <=? hi)
  | COne x => c =? x
  | CDecimal => is_decimal c
  end.

Inductive item : Type :=
| Lit (c : N)
| Group (alts : list (list cclass)).

Fixpoint match_alt (a : list cclass) (s : pystr) : option (pystr * pystr) :=
  match a with
  | [] => Some ([], s)
  | k :: a' =>
    match s with
    | c :: s' =>
      if cclass_matches k c then
        match match_alt a' s' with
        | Some (txt, r) => Some (c :: txt, r)
        | None => None
        end
      else None
    | [] => None
    end
  end.

(** Ordered choice with backtracking, as [re.match] does it: the first
    alternative after which the rest of the pattern matches.  Literals
    match up to ASCII case ([re.IGNORECASE]). *)
Fixpoint match_items (p : list item) (s : pystr) : option (list pystr * pystr) :=
  match p with
  | [] => Some ([], s)
  | Lit c :: p' =>
    match s with
    | x :: s' => if eq_nocase c x then match_items p' s' else None
    | [] => None
    end
  | Group alts :: p' =>
    (fix try (l : list (list cclass)) : option (list pystr * pystr) :=
       match l with
       | [] => None
       | a :: l' =>
         match match_alt a s with
         | Some (txt, r) =>
           match match_items p' r with
           | Some (caps, r') => Some (txt :: caps, r')
           | None => try l'
           end
         | None => try l'
         end
       end) alts
  end.

(** [\d] *)
Definition digit : cclass := CDecimal.

(** The directives of [_strptime.TimeRE]. *)
Definition re_Y : item := Group [[digit; digit; digit; digit]].
Definition re_m : item :=
  Group [[COne 49; CRange 48 50]; [COne 48; CRange 49 57]; [CRange 49 57]].
Definition re_d : item :=
  Group [[COne 51; CRange 48 49]; [CRange 49 50; digit]; [COne 48; CRange 49 57];
         [CRange 49 57]; [COne 32; CRange 49 57]].
Definition re_H : item :=
  Group [[COne 50; CRange 48 51]; [CRange 48 49; digit]; [digit]].
Definition re_M : item := Group [[CRange 48 53; digit]; [digit]].
Definition re_S : item :=
  Group [[COne 54; CRange 48 49]; [CRange 48 53; digit]; [digit]].

(** ["%Y-%m-%d"] and ["%Y-%m-%dT%H:%M:%S"]. *)
Definition fmt_date : list item := [re_Y; Lit 45; re_m; Lit 45; re_d].
Definition fmt_datetime : list item :=
  (fmt_date ++ [Lit 84; re_H; Lit 58; re_M; Lit 58; re_S])%list.

(** [int] of a captured group; a leading blank (day) is ignored. *)
Definition int_of (txt : pystr) : N :=
  fold_left (fun acc c => match decimal_value c with
                          | Some v => 10 * acc + v
                          | None => acc
                          end) txt 0.

Definition is_leap (y : N) : bool :=
  (y mod 4 =? 0) && (negb (y mod 100 =? 0) || (y mod 400 =? 0)).

Definition days_in_month (y m : N) : N :=
  if m =? 2 then (if is_leap y then 29 else 28)
  else if (m =? 4) || (m =? 6) || (m =? 9) || (m =? 11) then 30
  else 31.

Definition valid_date (y m d : N) : bool :=
  (1 <=? y) && (y <=? 9999) && (1 <=? m) && (m <=? 12)
  && (1 <=? d) && (d <=? days_in_month y m).

Definition valid_time (h mi sec : N) : bool :=
  (h <=? 23) && (mi <=? 59) && (sec <=? 59).

(** [datetime.strptime(value, fmt).date()] for the two formats: the whole
    text has to be consumed and the fields have to form a date and a
    time; [None] is [ValueError]. *)
Definition strptime_date (fmt : list item) (value : pystr) : option (N * N * N) :=
  match match_items fmt value with
  | Some (caps, []) =>
    match map int_of caps with
    | [y; m; d] => if valid_date y m d then Some (y, m, d) else None
    | [y; m; d; h; mi; sec] =>
      if valid_date y m d && valid_time h mi sec then Some (y, m, d) else None
    | _ => None
    end
  | _ => None
  end.

(** Zero-padded decimal fields. *)
Definition fmt02 (n : N) : pystr := [48 + (n / 10) mod 10; 48 + n mod 10].
Definition fmt04 (n : N) : pystr :=
  [48 + (n / 1000) mod 10; 48 + (n / 100) mod 10; 48 + (n / 10) mod 10; 48 + n mod 10].
Definition fmt06 (n : N) : pystr :=
  [48 + (n / 100000) mod 10; 48 + (n / 10000) mod 10; 48 + (n / 1000) mod 10;
   48 + (n / 100) mod 10; 48 + (n / 10) mod 10; 48 + n mod 10].

(** [date.isoformat()] *)
Definition date_isoformat (y m d : N) : pystr :=
  (fmt04 y ++ 45 :: fmt02 m ++ 45 :: fmt02 d)%list.

(** A [datetime] value; [utcoffset] is the offset of an aware value in
    microseconds. *)
Record datetime : Type := {
  year : N; month : N; day : N;
  hour : N; minute : N; second : N; microsecond : N;
  utcoffset : option Z
}.

(** [_format_offset] *)
Definition format_offset (off : option Z) : pystr :=
  match off with
  | None => []
  | Some o =>
    let sign := if (o <? 0)%Z then 45 else 43 in
    let a := Z.to_N (Z.abs o) in
    let hh := a / 3600000000 in
    let r := a mod 3600000000 in
    let mm := r / 60000000 in
    let ss := r mod 60000000 in
    (sign :: fmt02 hh ++ 58 :: fmt02 mm
     ++ (if ss =? 0 then []
         else 58 :: fmt02 (ss / 1000000)
              ++ (if ss mod 1000000 =? 0 then [] else 46 :: fmt06 (ss mod 1000000))))%list
  end.

(** [datetime.isoformat()] *)
Definition isoformat (dt : datetime) : pystr :=
  (date_isoformat (year dt) (month dt) (day dt)
   ++ 84 :: fmt02 (hour dt) ++ 58 :: fmt02 (minute dt) ++ 58 :: fmt02 (second dt)
   ++ (if microsecond dt =? 0 then [] else 46 :: fmt06 (microsecond dt))
   ++ format_offset (utcoffset dt))%list.

End Dates.
Import Dates.

(** ** Exceptions *)

Inductive exn : Type :=
| ValueError
| TypeError
| IntegrityError
| ProgrammingError
| JSONDecodeError
| RecursionError.

Inductive res (A : Type) : Type :=
| Ok (a : A)
| Raise (e : exn).
Arguments Raise {A} e.

(** [_ensure_date] (main.py 27-34): the first format that parses wins. *)
Definition _ensure_date (value : pystr) : res pystr :=
  match strptime_date fmt_date value with
  | Some (y, m, d) => Ok (date_isoformat y m d)
  | None =>
    match strptime_date fmt_datetime value with
    | Some (y, m, d) => Ok (date_isoformat y m d)
    | None => Raise ValueError
    end
  end.

(** ** [json.loads] within the limits of the interpreter *)

(** [loads] is the decoder with room to spare.  The interpreter sets it
    two limits.  Every array and every object that is opened nests one
    call, and [nesting_room] calls can still be nested when the decoder
    starts: opening one more raises [RecursionError].  Raising
    [JSONDecodeError] nests calls as well, no more than [raise_room] of
    them (3 in CPython 3.11): with less room left, the construction of
    the exception may end in [RecursionError] itself.  An integer
    literal of more than 640 digits and of more than [max_str_digits]
    digits (4300 unless changed; 0 for no cap) raises [ValueError]. *)
Record limits : Type := {
  nesting_room : nat;
  raise_room : nat;
  max_str_digits : N
}.

(** How the decoder gives up. *)
Inductive gave_up : Type :=
| Malformed
| MalformedOrDeep
| TooDeep
| TooManyDigits.

(** The exceptions that may come of it. *)
Definition possible (g : gave_up) : list exn :=
  match g with
  | Malformed => [JSONDecodeError]
  | MalformedOrDeep => [JSONDecodeError; RecursionError]
  | TooDeep => [RecursionError]
  | TooManyDigits => [ValueError]
  end.

Inductive scan_in (A : Type) : Type :=
| Got (a : A) (rest : pystr)
| GaveUp (g : gave_up)
| NoFuel.
Arguments GaveUp {A} g.
Arguments NoFuel {A}.

Definition scan_in_map {A B} (f : A -> B) (r : scan_in A) : scan_in B :=
  match r with
  | Got a rest => Got (f a) rest
  | GaveUp g => GaveUp g
  | NoFuel => NoFuel
  end.

(** A decode error raised with room for [left] more calls. *)
Definition refusal (lim : limits) (left : nat) : gave_up :=
  if (raise_room lim <=? left)%nat then Malformed else MalformedOrDeep.

(** [int] on the lexeme of an integer literal: whether it is over the
    cap on the number of digits. *)
Definition over_cap (lim : limits) (s : pystr) : bool :=
  match match_integer s with
  | Some (integer, r1) =>
    match match_frac r1 with
    | ([], r2) =>
      match match_exp r2 with
      | ([], _) =>
        let n := N.of_nat (List.length (filter is_digit integer)) in
        (640 <? n) && (0 <? max_str_digits lim) && (max_str_digits lim <? n)
      | _ => false
      end
    | _ => false
    end
  | None => false
  end.

(** [scan_once], [JSONArray] and [JSONObject] as above, with the calls
    that can still be nested. *)
Fixpoint scan_once_in (lim : limits) (left fuel : nat) (s : pystr) {struct fuel}
    : scan_in json :=
  match fuel with
  | O => NoFuel
  | S fuel' =>
    match s with
    | [] => GaveUp (refusal lim left)
    | c :: s1 =>
      if c =? 34 then
        match scanstring s1 with
        | Some (str, r) => Got (JStr str) r
        | None => GaveUp (refusal lim left)
        end
      else if c =? 123 then
        match left with
        | O => GaveUp TooDeep
        | S left' =>
          match skip_ws s1 with
          | c' :: r =>
            if c' =? 125 then Got (JObj []) r
            else if c' =? 34 then
              scan_in_map (fun ps => JObj (dict_of_pairs ps))
                (object_items_in lim left' fuel' r)
            else GaveUp (refusal lim left')
          | [] => GaveUp (refusal lim left')
          end
        end
      else if c =? 91 then
        match left with
        | O => GaveUp TooDeep
        | S left' =>
          match skip_ws s1 with
          | c' :: r =>
            if c' =? 93 then Got (JArr []) r
            else scan_in_map JArr (array_items_in lim left' fuel' (c' :: r))
          | [] => GaveUp (refusal lim left')
          end
        end
      else if starts_with [110; 117; 108; 108] s then Got JNull (skipn 4 s)
      else if starts_with [116; 114; 117; 101] s then Got (JBool true) (skipn 4 s)
      else if starts_with [102; 97; 108; 115; 101] s then Got (JBool false) (skipn 5 s)
      else
        match match_number s with
        | Some (v, r) => if over_cap lim s then GaveUp TooManyDigits else Got v r
        | None =>
          if starts_with [78; 97; 78] s
          then Got (JFloat [78; 97; 78]) (skipn 3 s)
          else if starts_with [73; 110; 102; 105; 110; 105; 116; 121] s
          then Got (JFloat [73; 110; 102; 105; 110; 105; 116; 121]) (skipn 8 s)
          else if starts_with [45; 73; 110; 102; 105; 110; 105; 116; 121] s
          then Got (JFloat [45; 73; 110; 102; 105; 110; 105; 116; 121]) (skipn 9 s)
          else GaveUp (refusal lim left)
        end
    end
  end

with array_items_in (lim : limits) (left fuel : nat) (s : pystr) {struct fuel}
    : scan_in (list json) :=
  match fuel with
  | O => NoFuel
  | S fuel' =>
    match scan_once_in lim left fuel' s with
    | Got v r1 =>
      match skip_ws r1 with
      | c :: r2 =>
        if c =? 93 then Got [v] r2
        else if c =? 44
        then scan_in_map (cons v) (array_items_in lim left fuel' (skip_ws r2))
        else GaveUp (refusal lim left)
      | [] => GaveUp (refusal lim left)
      end
    | GaveUp g => GaveUp g
    | NoFuel => NoFuel
    end
  end

with object_items_in (lim : limits) (left fuel : nat) (s : pystr) {struct fuel}
    : scan_in (list (pystr * json)) :=
  match fuel with
  | O => NoFuel
  | S fuel' =>
    match scanstring s with
    | None => GaveUp (refusal lim left)
    | Some (key, r1) =>
      match skip_ws r1 with
      | c :: r2 =>
        if c =? 58 then
          match scan_once_in lim left fuel' (skip_ws r2) with
          | Got v r3 =>
            match skip_ws r3 with
            | c' :: r4 =>
              if c' =? 125 then Got [(key, v)] r4
              else if c' =? 44 then
                match skip_ws r4 with
                | q :: r5 =>
                  if q =? 34
                  then scan_in_map (cons (key, v)) (object_items_in lim left fuel' r5)
                  else GaveUp (refusal lim left)
                | [] => GaveUp (refusal lim left)
                end
              else GaveUp (refusal lim left)
            | [] => GaveUp (refusal lim left)
            end
          | GaveUp g => GaveUp g
          | NoFuel => NoFuel
          end
        else GaveUp (refusal lim left)
      | [] => GaveUp (refusal lim left)
      end
    end
  end.

(** [json.loads] on a [str] under given limits: the outcomes that are
    possible.  There is one, except where a decode error is raised with
    less than [raise_room] left. *)
Definition json_loads (lim : limits) (s : pystr) : list (res json) :=
  let refused := map (@Raise json) (possible (refusal lim (nesting_room lim))) in
  if starts_with [65279] s then refused
  else
    match scan_once_in lim (nesting_room lim) (fuel_for s) (skip_ws s) with
    | Got v rest =>
      match skip_ws rest with
      | [] => [Ok v]
      | _ :: _ => refused
      end
    | GaveUp g => map (@Raise json) (possible g)
    | NoFuel => []
    end.

(** [deserialize_tags] (db.py 142-148) under given limits: only
    [JSONDecodeError] is caught. *)
Definition deserialize_tags_in (lim : limits) (text : option pystr) : list (res json) :=
  match text with
  | None => [Ok (JArr [])]
  | Some [] => [Ok (JArr [])]
  | Some t =>
    map (fun r => match r with
                  | Raise JSONDecodeError => Ok (JArr [])
                  | _ => r
                  end)
        (json_loads lim t)
  end.

(** The limits of an interpreter started afresh, some twenty calls deep. *)
Definition default_limits : limits :=
  {| nesting_room := 980; raise_room := 3; max_str_digits := 4300 |}.

(** The limit-aware scanner against the scanner with room to spare. *)
Definition agrees {A : Type} (x : scan_in A) (y : scan A) : Prop :=
  match x with
  | Got a r => y = Scanned a r
  | GaveUp Malformed => y = DecodeError
  | GaveUp MalformedOrDeep => y = DecodeError
  | GaveUp _ => True
  | NoFuel => y = OutOfFuel
  end.

(** Giving up for want of room or over the digits of a number. *)
Definition hits_limit {A : Type} (x : scan_in A) : bool :=
  match x with
  | GaveUp Malformed => false
  | GaveUp _ => true
  | _ => false
  end.

(** A text short enough for the cap on digits not to apply. *)
Definition under_cap (lim : limits) (n : nat) : Prop :=
  max_str_digits lim = 0 \/ N.of_nat n <= max_str_digits lim.

Local Close Scope N_scope.
Local Open Scope Z_scope.

(** ** The schema of [db.py] *)

(** REAL columns carry numbers that are stored and read back unchanged. *)
Definition real := QArith_base.Q.

(** Rows of the eight tables (db.py 7-105), one field per column. *)
Record workout_row : Type := {
  w_id : Z;
  w_date_time : pystr;
  w_workout_type : option pystr;
  w_tags : option pystr;
  w_notes : option pystr
}.

Record exercise_row : Type := {
  e_id : Z;
  e_workout_id : Z;
  e_order_index : Z;
  e_name : pystr;
  e_category : option pystr;
  e_notes : option pystr
}.

(** The nine measurement columns of a set, shared by the payload of
    [log_workout], the arguments of [add_set] and the stored row. *)
Record set_fields : Type := {
  reps : option real;
  weight_kg : option real;
  weight_lbs : option real;
  distance_m : option real;
  distance_yards : option real;
  duration_s : option real;
  side : option pystr;
  rpe : option real;
  rir : option real
}.

Record set_row : Type := {
  s_id : Z;
  s_exercise_id : Z;
  s_set_index : Z;
  s_fields : set_fields;
  s_is_warmup : Z
}.

Record nutrition_day_row : Type := {
  nd_id : Z;
  nd_date : pystr;
  nd_notes : option pystr
}.

Record meal_row : Type := {
  m_id : Z;
  m_day_id : Z;
  m_name : pystr;
  m_order_index : Z
}.

Record item_fields : Type := {
  food_id : pystr;
  food_name : pystr;
  brand_name : option pystr;
  serving_quantity : real;
  serving_unit : pystr;
  grams : option real;
  calories : real;
  protein_g : real;
  carbs_g : real;
  fats_g : real;
  fiber_g : real;
  item_notes : option pystr
}.

Record meal_item_row : Type := {
  mi_id : Z;
  mi_meal_id : Z;
  mi_fields : item_fields
}.

Record body_metrics_row : Type := {
  bm_id : Z;
  bm_date : pystr;
  bm_body_weight_kg : option real;
  bm_notes : option pystr
}.

Record skinfold_row : Type := {
  sf_id : Z;
  sf_body_metrics_id : Z;
  sf_site_name : pystr;
  sf_mm : real
}.

(** A table: its rows in rowid order and the largest rowid it ever held
    (the [sqlite_sequence] entry of an AUTOINCREMENT key). *)
Record table (R : Type) : Type := {
  rows : list R;
  autoinc : Z
}.

Record DB : Type := {
  workouts : table workout_row;
  exercises : table exercise_row;
  sets : table set_row;
  nutrition_days : table nutrition_day_row;
  meals : table meal_row;
  meal_items : table meal_item_row;
  body_metrics : table body_metrics_row;
  skinfolds : table skinfold_row
}.

Definition empty_table (R : Type) : table R := {| rows := []; autoinc := 0 |}.

(** The store right after [_initialize_tables] on a new file. *)
Definition empty_db : DB := {|
  workouts := empty_table _; exercises := empty_table _; sets := empty_table _;
  nutrition_days := empty_table _; meals := empty_table _;
  meal_items := empty_table _; body_metrics := empty_table _;
  skinfolds := empty_table _
|}.

Definition set_workouts (db : DB) (t : table workout_row) : DB :=
  {| workouts := t; exercises := exercises db; sets := sets db;
     nutrition_days := nutrition_days db; meals := meals db;
     meal_items := meal_items db; body_metrics := body_metrics db;
     skinfolds := skinfolds db |}.
Definition set_exercises (db : DB) (t : table exercise_row) : DB :=
  {| workouts := workouts db; exercises := t; sets := sets db;
     nutrition_days := nutrition_days db; meals := meals db;
     meal_items := meal_items db; body_metrics := body_metrics db;
     skinfolds := skinfolds db |}.
Definition set_sets (db : DB) (t : table set_row) : DB :=
  {| workouts := workouts db; exercises := exercises db; sets := t;
     nutrition_days := nutrition_days db; meals := meals db;
     meal_items := meal_items db; body_metrics := body_metrics db;
     skinfolds := skinfolds db |}.
Definition set_nutrition_days (db : DB) (t : table nutrition_day_row) : DB :=
  {| workouts := workouts db; exercises := exercises db; sets := sets db;
     nutrition_days := t; meals := meals db;
     meal_items := meal_items db; body_metrics := body_metrics db;
     skinfolds := skinfolds db |}.
Definition set_meals (db : DB) (t : table meal_row) : DB :=
  {| workouts := workouts db; exercises := exercises db; sets := sets db;
     nutrition_days := nutrition_days db; meals := t;
     meal_items := meal_items db; body_metrics := body_metrics db;
     skinfolds := skinfolds db |}.
Definition set_meal_items (db : DB) (t : table meal_item_row) : DB :=
  {| workouts := workouts db; exercises := exercises db; sets := sets db;
     nutrition_days := nutrition_days db; meals := meals db;
     meal_items := t; body_metrics := body_metrics db;
     skinfolds := skinfolds db |}.
Definition set_body_metrics (db : DB) (t : table body_metrics_row) : DB :=
  {| workouts := workouts db; exercises := exercises db; sets := sets db;
     nutrition_days := nutrition_days db; meals := meals db;
     meal_items := meal_items db; body_metrics := t;
     skinfolds := skinfolds db |}.
Definition set_skinfolds (db : DB) (t : table skinfold_row) : DB :=
  {| workouts := workouts db; exercises := exercises db; sets := sets db;
     nutrition_days := nutrition_days db; meals := meals db;
     meal_items := meal_items db; body_metrics := body_metrics db;
     skinfolds := t |}.

(** *** Generic table operations *)

Section Tables.
Variable R : Type.
Variable rowid : R -> Z.

Definition max_rowid (l : list R) : Z :=
  fold_right (fun r acc => Z.max (rowid r) acc) 0 l.

(** INTEGER PRIMARY KEY AUTOINCREMENT: one more than the largest rowid
    the table has ever held. *)
Definition next_rowid (t : table R) : Z :=
  Z.max (autoinc t) (max_rowid (rows t)) + 1.

Definition tbl_insert (mk : Z -> R) (t : table R) : Z * table R :=
  let id := next_rowid t in
  (id, {| rows := rows t ++ [mk id]; autoinc := id |}).

(** An INSERT that a conflict clause turns away (OR IGNORE, or ON
    CONFLICT DO UPDATE) has drawn its rowid before the conflict is seen:
    no row is added, and the sequence moves on to that rowid. *)
Definition tbl_conflict (t : table R) : table R :=
  {| rows := rows t; autoinc := next_rowid t |}.

(** DELETE ... WHERE: the rows that stay; the sequence is kept. *)
Definition tbl_delete (doomed : R -> bool) (t : table R) : table R :=
  {| rows := filter (fun r => negb (doomed r)) (rows t); autoinc := autoinc t |}.

Definition tbl_update (hit : R -> bool) (f : R -> R) (t : table R) : table R :=
  {| rows := map (fun r => if hit r then f r else r) (rows t); autoinc := autoinc t |}.

Definition count_where (p : R -> bool) (t : table R) : Z :=
  Z.of_nat (List.length (filter p (rows t))).

(** ORDER BY: the rows by ascending key.  SQLite leaves the order of
    rows with equal keys open; this stable insertion sort keeps them in
    the order of the table, and the statements on sorted results say
    that they are sorted and which rows they hold, not how rows with
    equal keys follow each other. *)
Fixpoint insert_sorted (le : R -> R -> bool) (x : R) (l : list R) : list R :=
  match l with
  | [] => [x]
  | y :: l' => if le x y then x :: l else y :: insert_sorted le x l'
  end.

Definition order_by (le : R -> R -> bool) (l : list R) : list R :=
  fold_right (insert_sorted le) [] l.

(** LIMIT ? OFFSET ?: a negative limit is no limit, a negative offset is
    no offset. *)
Definition limit_offset (limit offset : Z) (l : list R) : list R :=
  let l' := skipn (Z.to_nat offset) l in
  if limit <? 0 then l' else firstn (Z.to_nat limit) l'.

End Tables.

Definition by_Z {R} (key : R -> Z) (a b : R) : bool := key a <=? key b.
Definition by_text_desc {R} (key : R -> pystr) (a b : R) : bool :=
  pystr_leb (key b) (key a).

Definition opt_pystr_eqb (a : option pystr) (b : pystr) : bool :=
  match a with
  | Some x => pystr_eqb x b
  | None => false
  end.

(** *** Statements with constraints *)

(** Foreign keys are enforced ([PRAGMA foreign_keys = ON], db.py 118): an
    insert whose parent row is missing fails. *)
Definition has_id {R} (rowid : R -> Z) (id : Z) (t : table R) : bool :=
  existsb (fun r => rowid r =? id) (rows t).

Definition insert_workout (date_time : pystr) (workout_type tags notes : option pystr)
    (db : DB) : res (Z * DB) :=
  let (id, t) :=
    tbl_insert w_id
      (fun id => {| w_id := id; w_date_time := date_time;
                    w_workout_type := workout_type; w_tags := tags;
                    w_notes := notes |})
      (workouts db) in
  Ok (id, set_workouts db t).

Definition insert_exercise (workout_id order_index : Z) (name : pystr)
    (category notes : option pystr) (db : DB) : res (Z * DB) :=
  if has_id w_id workout_id (workouts db) then
    let (id, t) :=
      tbl_insert e_id
        (fun id => {| e_id := id; e_workout_id := workout_id;
                      e_order_index := order_index; e_name := name;
                      e_category := category; e_notes := notes |})
        (exercises db) in
    Ok (id, set_exercises db t)
  else Raise IntegrityError.

(** [CHECK(side IN ('left', 'right', 'both'))]; NULL passes a CHECK. *)
Definition side_ok (s : option pystr) : bool :=
  match s with
  | None => true
  | Some x =>
    pystr_eqb x (py "left") || pystr_eqb x (py "right") || pystr_eqb x (py "both")
  end.

Definition insert_set (exercise_id set_index : Z) (f : set_fields) (is_warmup : Z)
    (db : DB) : res (Z * DB) :=
  if negb (side_ok (side f)) then Raise IntegrityError
  else if has_id e_id exercise_id (exercises db) then
    let (id, t) :=
      tbl_insert s_id
        (fun id => {| s_id := id; s_exercise_id := exercise_id;
                      s_set_index := set_index; s_fields := f;
                      s_is_warmup := is_warmup |})
        (sets db) in
    Ok (id, set_sets db t)
  else Raise IntegrityError.

(** [body_metrics.date] is UNIQUE (db.py 91). *)
Definition insert_body_metrics (date : pystr) (body_weight_kg : option real)
    (notes : option pystr) (db : DB) : res (Z * DB) :=
  if existsb (fun r => pystr_eqb (bm_date r) date) (rows (body_metrics db))
  then Raise IntegrityError
  else
    let (id, t) :=
      tbl_insert bm_id
        (fun id => {| bm_id := id; bm_date := date;
                      bm_body_weight_kg := body_weight_kg; bm_notes := notes |})
        (body_metrics db) in
    Ok (id, set_body_metrics db t).

Definition insert_skinfold (body_metrics_id : Z) (site : pystr) (mm : real)
    (db : DB) : res (Z * DB) :=
  if has_id bm_id body_metrics_id (body_metrics db) then
    let (id, t) :=
      tbl_insert sf_id
        (fun id => {| sf_id := id; sf_body_metrics_id := body_metrics_id;
                      sf_site_name := site; sf_mm := mm |})
        (skinfolds db) in
    Ok (id, set_skinfolds db t)
  else Raise IntegrityError.

(** [COALESCE(MAX(col), 0)] over the selected rows. *)
Definition coalesce_max (l : list Z) : Z :=
  match l with
  | [] => 0
  | x :: l' => fold_left Z.max l' x
  end.

(** *** Nutrition statements *)

Definition find_day (date : pystr) (db : DB) : option nutrition_day_row :=
  find (fun r => pystr_eqb (nd_date r) date) (rows (nutrition_days db)).

Definition find_meal (day_id : Z) (name : pystr) (db : DB) : option meal_row :=
  find (fun r => (m_day_id r =? day_id) && pystr_eqb (m_name r) name) (rows (meals db)).

(** [INSERT INTO nutrition_days ... ON CONFLICT(date) DO UPDATE SET notes = ?]:
    the rowid of the inserted row, or [None] when the existing row was
    updated. *)
Definition upsert_day (date : pystr) (notes : option pystr) (db : DB)
    : res (option Z * DB) :=
  match find_day date db with
  | Some _ =>
    Ok (None,
        set_nutrition_days db
          (tbl_update (fun r => pystr_eqb (nd_date r) date)
             (fun r => {| nd_id := nd_id r; nd_date := nd_date r; nd_notes := notes |})
             (tbl_conflict nd_id (nutrition_days db))))
  | None =>
    let (id, t) :=
      tbl_insert nd_id
        (fun id => {| nd_id := id; nd_date := date; nd_notes := notes |})
        (nutrition_days db) in
    Ok (Some id, set_nutrition_days db t)
  end.

(** [INSERT OR IGNORE INTO nutrition_days (date) VALUES (?)] *)
Definition insert_or_ignore_day (date : pystr) (db : DB) : res (option Z * DB) :=
  match find_day date db with
  | Some _ => Ok (None, set_nutrition_days db (tbl_conflict nd_id (nutrition_days db)))
  | None =>
    let (id, t) :=
      tbl_insert nd_id
        (fun id => {| nd_id := id; nd_date := date; nd_notes := None |})
        (nutrition_days db) in
    Ok (Some id, set_nutrition_days db t)
  end.

(** [INSERT INTO meals ... ON CONFLICT(day_id, name) DO UPDATE SET order_index = ?] *)
Definition upsert_meal_row (day_id : Z) (name : pystr) (order_index : Z) (db : DB)
    : res (option Z * DB) :=
  match find_meal day_id name db with
  | Some _ =>
    Ok (None,
        set_meals db
          (tbl_update (fun r => (m_day_id r =? day_id) && pystr_eqb (m_name r) name)
             (fun r => {| m_id := m_id r; m_day_id := m_day_id r;
                          m_name := m_name r; m_order_index := order_index |})
             (tbl_conflict m_id (meals db))))
  | None =>
    if has_id nd_id day_id (nutrition_days db) then
      let (id, t) :=
        tbl_insert m_id
          (fun id => {| m_id := id; m_day_id := day_id; m_name := name;
                        m_order_index := order_index |})
          (meals db) in
      Ok (Some id, set_meals db t)
    else Raise IntegrityError
  end.

(** [INSERT OR IGNORE INTO meals (day_id, name, order_index) VALUES (?, ?, 0)] *)
Definition insert_or_ignore_meal (day_id : Z) (name : pystr) (db : DB)
    : res (option Z * DB) :=
  match find_meal day_id name db with
  | Some _ => Ok (None, set_meals db (tbl_conflict m_id (meals db)))
  | None =>
    if has_id nd_id day_id (nutrition_days db) then
      let (id, t) :=
        tbl_insert m_id
          (fun id => {| m_id := id; m_day_id := day_id; m_name := name;
                        m_order_index := 0 |})
          (meals db) in
      Ok (Some id, set_meals db t)
    else Raise IntegrityError
  end.

Definition insert_meal_item (meal_id : Z) (f : item_fields) (db : DB)
    : res (option Z * DB) :=
  if has_id m_id meal_id (meals db) then
    let (id, t) :=
      tbl_insert mi_id
        (fun id => {| mi_id := id; mi_meal_id := meal_id; mi_fields := f |})
        (meal_items db) in
    Ok (Some id, set_meal_items db t)
  else Raise IntegrityError.

(** [UPDATE meal_items SET ... WHERE id=?]: the number of rows changed. *)
Definition update_meal_item (item_id : Z) (f : item_fields) (db : DB) : res (Z * DB) :=
  Ok (count_where (fun r => mi_id r =? item_id) (meal_items db),
      set_meal_items db
        (tbl_update (fun r => mi_id r =? item_id)
           (fun r => {| mi_id := mi_id r; mi_meal_id := mi_meal_id r; mi_fields := f |})
           (meal_items db))).

(** *** Deletes and the ON DELETE CASCADE clauses *)

Definition mem_Z (x : Z) (l : list Z) : bool := existsb (Z.eqb x) l.

(** Deleting exercises removes the sets that reference them (db.py 43). *)
Definition delete_exercises_where (doomed : exercise_row -> bool) (db : DB) : DB :=
  let ids := map e_id (filter doomed (rows (exercises db))) in
  set_sets
    (set_exercises db (tbl_delete doomed (exercises db)))
    (tbl_delete (fun s => mem_Z (s_exercise_id s) ids) (sets db)).

(** Deleting workouts removes the exercises that reference them
    (db.py 25), and through them their sets. *)
Definition delete_workouts_where (doomed : workout_row -> bool) (db : DB) : DB :=
  let ids := map w_id (filter doomed (rows (workouts db))) in
  delete_exercises_where (fun e => mem_Z (e_workout_id e) ids)
    (set_workouts db (tbl_delete doomed (workouts db))).

(** [DELETE FROM workouts WHERE id = ?] *)
Definition delete_workout (workout_id : Z) (db : DB) : DB :=
  delete_workouts_where (fun w => w_id w =? workout_id) db.

(** [DELETE FROM sets WHERE id = ?] *)
Definition delete_set (set_id : Z) (db : DB) : DB :=
  set_sets db (tbl_delete (fun s => s_id s =? set_id) (sets db)).

(** Direct deletes report the number of rows they name ([rowcount]);
    rows removed by a cascade are not counted. *)
Definition delete_items_where (doomed : meal_item_row -> bool) (db : DB) : res (Z * DB) :=
  Ok (count_where doomed (meal_items db),
      set_meal_items db (tbl_delete doomed (meal_items db))).

Definition delete_meals_where (doomed : meal_row -> bool) (db : DB) : res (Z * DB) :=
  let ids := map m_id (filter doomed (rows (meals db))) in
  Ok (count_where doomed (meals db),
      set_meal_items
        (set_meals db (tbl_delete doomed (meals db)))
        (tbl_delete (fun i => mem_Z (mi_meal_id i) ids) (meal_items db))).

Definition delete_days_where (doomed : nutrition_day_row -> bool) (db : DB)
    : res (Z * DB) :=
  let ids := map nd_id (filter doomed (rows (nutrition_days db))) in
  match delete_meals_where (fun m => mem_Z (m_day_id m) ids)
          (set_nutrition_days db (tbl_delete doomed (nutrition_days db))) with
  | Ok (_, db') => Ok (count_where doomed (nutrition_days db), db')
  | Raise e => Raise e
  end.

(** ** Connections and the monad of the tools *)

Inductive table_name : Type :=
| Tworkouts | Texercises | Tsets
| Tnutrition_days | Tmeals | Tmeal_items
| Tbody_metrics | Tskinfolds.

(** The statements a call hands to [execute], in order; a SELECT records
    the value bound to its LIMIT. *)
Inductive stmt : Type :=
| SPragma
| SSelect (t : table_name) (limit : option Z)
| SInsert (t : table_name)
| SUpdate (t : table_name)
| SDelete (t : table_name).

(** An open connection: the store as this connection sees it, including
    its own uncommitted writes, and [sqlite3_last_insert_rowid]. *)
Record connection : Type := {
  c_db : DB;
  c_last_insert_rowid : Z
}.

Inductive conn_state : Type :=
| NotConnected
| Open (c : connection)
| Closed.

(** The world of one call: the committed store, the connection of the
    call and the statements issued so far. *)
Record World : Type := {
  store : DB;
  conn : conn_state;
  trace : list stmt
}.

Definition M (A : Type) : Type := World -> res A * World.

Definition ret {A} (a : A) : M A := fun w => (Ok a, w).

Definition bind {A B} (m : M A) (k : A -> M B) : M B :=
  fun w =>
    match m w with
    | (Ok a, w') => k a w'
    | (Raise e, w') => (Raise e, w')
    end.

Definition raise {A} (e : exn) : M A := fun w => (Raise e, w).

Definition lift {A} (r : res A) : M A := fun w => (r, w).

Declare Scope tool_scope.
Delimit Scope tool_scope with tool.
Notation "x <- m ;; k" := (bind m (fun x => k))
  (at level 61, m at next level, right associativity) : tool_scope.
Notation "m ;; k" := (bind m (fun _ => k))
  (at level 61, right associativity) : tool_scope.
Local Open Scope tool_scope.

Fixpoint mapM {A B} (f : A -> M B) (l : list A) : M (list B) :=
  match l with
  | [] => ret []
  | x :: l' => y <- f x ;; ys <- mapM f l' ;; ret (y :: ys)
  end.

(** [for i, x in enumerate(l, start=i0)] *)
Fixpoint for_enumerate {A} (f : Z -> A -> M unit) (i0 : Z) (l : list A) : M unit :=
  match l with
  | [] => ret tt
  | x :: l' => f i0 x ;; for_enumerate f (i0 + 1) l'
  end.

Definition log_stmt (q : stmt) (w : World) : World :=
  {| store := store w; conn := conn w; trace := trace w ++ [q] |}.

(** [get_connection] (db.py 114-119): a new connection on the committed
    store with foreign keys switched on. *)
Definition get_connection : M unit :=
  fun w =>
    (Ok tt,
     {| store := store w;
        conn := Open {| c_db := store w; c_last_insert_rowid := 0 |};
        trace := trace w ++ [SPragma] |}).

(** [cursor.execute] of a SELECT followed by its fetch. *)
Definition query {A} (q : stmt) (f : DB -> A) : M A :=
  fun w =>
    match conn w with
    | Open c => (Ok (f (c_db c)), log_stmt q w)
    | _ => (Raise ProgrammingError, w)
    end.

(** [cursor.execute] of an INSERT (plain, OR IGNORE or upsert): a failing
    statement changes nothing; the value is [cursor.lastrowid], the
    connection's last inserted rowid. *)
Definition insert (q : stmt) (f : DB -> res (option Z * DB)) : M Z :=
  fun w =>
    match conn w with
    | Open c =>
      match f (c_db c) with
      | Ok (new, db') =>
        let last := match new with Some id => id | None => c_last_insert_rowid c end in
        (Ok last,
         {| store := store w;
            conn := Open {| c_db := db'; c_last_insert_rowid := last |};
            trace := trace w ++ [q] |})
      | Raise e => (Raise e, log_stmt q w)
      end
    | _ => (Raise ProgrammingError, w)
    end.

Definition inserted (r : res (Z * DB)) : res (option Z * DB) :=
  match r with
  | Ok (id, db) => Ok (Some id, db)
  | Raise e => Raise e
  end.

(** [cursor.execute] of an UPDATE or DELETE; the value is [cursor.rowcount]. *)
Definition modify (q : stmt) (f : DB -> res (Z * DB)) : M Z :=
  fun w =>
    match conn w with
    | Open c =>
      match f (c_db c) with
      | Ok (n, db') =>
        (Ok n,
         {| store := store w;
            conn := Open {| c_db := db'; c_last_insert_rowid := c_last_insert_rowid c |};
            trace := trace w ++ [q] |})
      | Raise e => (Raise e, log_stmt q w)
      end
    | _ => (Raise ProgrammingError, w)
    end.

Definition commit : M unit :=
  fun w =>
    match conn w with
    | Open c => (Ok tt, {| store := c_db c; conn := conn w; trace := trace w |})
    | _ => (Raise ProgrammingError, w)
    end.

(** Closing discards whatever was not committed. *)
Definition close : M unit :=
  fun w => (Ok tt, {| store := store w; conn := Closed; trace := trace w |}).

(** A call starts without a connection. *)
Definition fresh (db : DB) : World :=
  {| store := db; conn := NotConnected; trace := [] |}.

Definition call {A} (m : M A) (db : DB) : res A * World := m (fresh db).

(** ** [main.py]: hydration *)

(** An exercise row with its ["sets"] and a workout row with its decoded
    tags and its ["exercises"]. *)
Record exercise : Type := {
  ex_row : exercise_row;
  ex_sets : list set_row
}.

Record workout : Type := {
  wk_id : Z;
  wk_date_time : pystr;
  wk_workout_type : option pystr;
  wk_tags : json;
  wk_notes : option pystr;
  wk_exercises : list exercise
}.

Definition select_sets (exercise_id : Z) (db : DB) : list set_row :=
  order_by (by_Z s_set_index)
    (filter (fun s => s_exercise_id s =? exercise_id) (rows (sets db))).

Definition select_exercises (workout_id : Z) (db : DB) : list exercise_row :=
  order_by (by_Z e_order_index)
    (filter (fun e => e_workout_id e =? workout_id) (rows (exercises db))).

(** [_load_sets] (main.py 37-40) *)
Definition _load_sets (exercise_id : Z) : M (list set_row) :=
  query (SSelect Tsets None) (select_sets exercise_id).

(** [_hydrate_workout] (main.py 43-56) *)
Definition _hydrate_workout (row : workout_row) : M workout :=
  let tags := deserialize_tags (w_tags row) in
  ex_rows <- query (SSelect Texercises None) (select_exercises (w_id row)) ;;
  exs <- mapM (fun e => ss <- _load_sets (e_id e) ;;
                        ret {| ex_row := e; ex_sets := ss |}) ex_rows ;;
  ret {| wk_id := w_id row; wk_date_time := w_date_time row;
         wk_workout_type := w_workout_type row; wk_tags := tags;
         wk_notes := w_notes row; wk_exercises := exs |}.

(** ** [main.py]: workout tools *)

(** A list-valued argument as the caller may pass it: nothing, a list, a
    string (possibly the JSON text of a list) or any other value. *)
Inductive py_arg (A : Type) : Type :=
| ArgNone
| ArgList (l : list A)
| ArgStr (t : pystr)
| ArgOther.
Arguments ArgNone {A}.
Arguments ArgStr {A} t.
Arguments ArgOther {A}.

(** The payload of one set and of one exercise in [log_workout], well
    typed: a field that is [None] is absent from the mapping (or null),
    and [ep_sets] is a list whenever the key is there. *)
Record set_payload : Type := {
  sp_set_index : option Z;
  sp_fields : set_fields;
  sp_is_warmup : option bool
}.

Record exercise_payload : Type := {
  ep_name : option pystr;
  ep_category : option pystr;
  ep_notes : option pystr;
  ep_sets : option (list set_payload)
}.

(** Truthiness of an optional string and of an optional integer. *)
Definition truthy_str (s : option pystr) : bool :=
  match s with
  | Some (_ :: _) => true
  | _ => false
  end.

(** [x or default] on an optional integer. *)
Definition or_default (x : option Z) (default : Z) : Z :=
  match x with
  | Some z => if z =? 0 then default else z
  | None => default
  end.

Definition warmup_flag (b : option bool) : Z :=
  match b with
  | Some true => 1
  | _ => 0
  end.

Section Tools.

(** [datetime.fromisoformat]; [None] is its [ValueError].  The accepted
    syntax depends on the interpreter version and is left open. *)
Variable fromisoformat : pystr -> option datetime.

(** How the elements of a decoded JSON list are read as tags and as
    exercise payloads. *)
Variable tags_view : list json -> list pystr.
Variable exercises_view : list json -> list exercise_payload.

(** [_ensure_iso_date] (main.py 20-24) *)
Definition _ensure_iso_date (value : pystr) : res pystr :=
  match fromisoformat value with
  | Some dt => Ok (isoformat dt)
  | None => Raise ValueError
  end.

(** [_parse_json_array] (main.py 64-73) *)
Definition _parse_json_array {A} (view : list json -> list A) (value : py_arg A)
    : py_arg A :=
  match value with
  | ArgStr t =>
    match loads t with
    | Some (JArr l) => ArgList (view l)
    | _ => value
    end
  | _ => value
  end.

(** [_parse_json_array] as the interpreter runs it within its limits:
    besides every way [json.loads] can end that the handler catches or
    that gives a value, the call can end in the [RecursionError] or the
    [ValueError] of [json.loads], which the handler lets through. *)
Definition _parse_json_array_in {A} (lim : limits) (view : list json -> list A)
    (value : py_arg A) : list (res (py_arg A)) :=
  match value with
  | ArgStr t =>
    map (fun parsed =>
           match parsed with
           | Ok (JArr l) => Ok (ArgList (view l))
           | Ok _ => Ok value
           | Raise JSONDecodeError => Ok value
           | Raise e => Raise e
           end)
        (json_loads lim t)
  | _ => [Ok value]
  end.

(** [isinstance(x, list)] after parsing: a list, nothing, or [TypeError]. *)
Definition expect_list {A} (value : py_arg A) : M (option (list A)) :=
  match value with
  | ArgNone => ret None
  | ArgList l => ret (Some l)
  | _ => raise TypeError
  end.

(** The insert of one set of a logged exercise (main.py 132-153). *)
Definition log_set (exercise_id : Z) (set_index : Z) (p : set_payload) : M unit :=
  insert (SInsert Tsets)
    (fun db => inserted
       (insert_set exercise_id (or_default (sp_set_index p) set_index)
          (sp_fields p) (warmup_flag (sp_is_warmup p)) db)) ;;
  ret tt.

(** The body of the loop over the exercises (main.py 121-153). *)
Definition log_exercise (workout_id : Z) (order_index : Z) (e : exercise_payload)
    : M unit :=
  match ep_name e with
  | Some (c :: n) =>
    exercise_id <-
      insert (SInsert Texercises)
        (fun db => inserted
           (insert_exercise workout_id order_index (c :: n)
              (ep_category e) (ep_notes e) db)) ;;
    for_enumerate (log_set exercise_id) 1
      (match ep_sets e with Some l => l | None => [] end)
  | _ => raise ValueError
  end.

(** [log_workout] from the type checks on (main.py 103-162), on the two
    list arguments as [_parse_json_array] returned them. *)
Definition log_workout_parsed (date_time : pystr) (workout_type : option pystr)
    (tags : py_arg pystr) (notes : option pystr)
    (exercises : py_arg exercise_payload) : M workout :=
  tags <- expect_list tags ;;
  exercises <- expect_list exercises ;;
  date_time <- lift (_ensure_iso_date date_time) ;;
  let tags_json := serialize_tags tags in
  get_connection ;;
  workout_id <-
    insert (SInsert Tworkouts)
      (fun db => inserted (insert_workout date_time workout_type tags_json notes db)) ;;
  for_enumerate (log_exercise workout_id) 1
    (match exercises with Some l => l | None => [] end) ;;
  commit ;;
  row <- query (SSelect Tworkouts None)
           (fun db => find (fun w => w_id w =? workout_id) (rows (workouts db))) ;;
  match row with
  | Some r =>
    result <- _hydrate_workout r ;;
    close ;;
    ret result
  | None => raise TypeError
  end.

(** [log_workout] (main.py 76-162) *)
Definition log_workout (date_time : pystr) (workout_type : option pystr)
    (tags : py_arg pystr) (notes : option pystr)
    (exercises : py_arg exercise_payload) : M workout :=
  let tags := _parse_json_array tags_view tags in
  let exercises := _parse_json_array exercises_view exercises in
  log_workout_parsed date_time workout_type tags notes exercises.

(** [log_workout] as the interpreter runs it within its limits: every
    way the call can end.  The two list arguments are parsed in turn,
    and an error [_parse_json_array] lets through ends the call before
    a connection is opened. *)
Definition log_workout_in (lim : limits) (date_time : pystr)
    (workout_type : option pystr) (tags : py_arg pystr) (notes : option pystr)
    (exercises : py_arg exercise_payload) (w : World)
    : list (res workout * World) :=
  flat_map
    (fun tags =>
       match tags with
       | Raise e => [(Raise e, w)]
       | Ok tags =>
         flat_map
           (fun exercises =>
              match exercises with
              | Raise e => [(Raise e, w)]
              | Ok exercises =>
                [log_workout_parsed date_time workout_type tags notes exercises w]
              end)
           (_parse_json_array_in lim exercises_view exercises)
       end)
    (_parse_json_array_in lim tags_view tags).

(** [add_exercise] (main.py 165-194) *)
Definition add_exercise (workout_id : Z) (name : pystr)
    (category notes : option pystr) : M Z :=
  get_connection ;;
  max_order <-
    query (SSelect Texercises None)
      (fun db => coalesce_max
         (map e_order_index
            (filter (fun e => e_workout_id e =? workout_id) (rows (exercises db))))) ;;
  exercise_id <-
    insert (SInsert Texercises)
      (fun db => inserted
         (insert_exercise workout_id (max_order + 1) name category notes db)) ;;
  commit ;;
  close ;;
  ret exercise_id.

(** [add_set] (main.py 197-246) *)
Definition add_set (exercise_id : Z) (f : set_fields) (is_warmup : bool) : M Z :=
  get_connection ;;
  max_set <-
    query (SSelect Tsets None)
      (fun db => coalesce_max
         (map s_set_index
            (filter (fun s => s_exercise_id s =? exercise_id) (rows (sets db))))) ;;
  set_id <-
    insert (SInsert Tsets)
      (fun db => inserted
         (insert_set exercise_id (max_set + 1) f (if is_warmup then 1 else 0) db)) ;;
  commit ;;
  close ;;
  ret set_id.

(** The bound of a date filter: [_ensure_date(d)] followed by a suffix
    such as [T00:00:00], when the argument is given and not empty. *)
Definition date_bound (d : option pystr) (suffix : pystr) : res (option pystr) :=
  match d with
  | Some (c :: d') =>
    match _ensure_date (c :: d') with
    | Ok day => Ok (Some (day ++ suffix)%list)
    | Raise e => Raise e
    end
  | _ => Ok None
  end.

Definition ge_bound (bound : option pystr) (col : pystr) : bool :=
  match bound with
  | Some b => pystr_leb b col
  | None => true
  end.

Definition le_bound (bound : option pystr) (col : pystr) : bool :=
  match bound with
  | Some b => pystr_leb col b
  | None => true
  end.

(** [workout_type = ?] and [tags LIKE ?], each applied when its argument
    is given and not empty. *)
Definition type_filter (workout_type : option pystr) (w : workout_row) : bool :=
  match workout_type with
  | Some (c :: t) => opt_pystr_eqb (w_workout_type w) (c :: t)
  | _ => true
  end.

Definition tag_pattern (tag : pystr) : pystr :=
  (37%N :: 34%N :: tag ++ [34%N; 37%N])%list.

Definition tag_filter (tag : option pystr) (w : workout_row) : bool :=
  match tag with
  | Some (c :: t) => like_opt (tag_pattern (c :: t)) (w_tags w)
  | _ => true
  end.

Definition midnight : pystr := py "T00:00:00".
Definition last_second : pystr := py "T23:59:59".

(** The WHERE clause of [get_workouts]. *)
Definition workouts_where (lo hi workout_type tag : option pystr) (w : workout_row)
    : bool :=
  ge_bound lo (w_date_time w) && le_bound hi (w_date_time w)
  && type_filter workout_type w && tag_filter tag w.

(** [get_workouts] (main.py 249-290); [exercise_name_contains] is accepted
    and not used. *)
Definition get_workouts (from_date to_date workout_type tag : option pystr)
    (exercise_name_contains : option pystr) (limit offset : Z) : M (list workout) :=
  get_connection ;;
  lo <- lift (date_bound from_date midnight) ;;
  hi <- lift (date_bound to_date last_second) ;;
  selected <-
    query (SSelect Tworkouts (Some limit))
      (fun db =>
         limit_offset limit offset
           (order_by (by_text_desc w_date_time)
              (filter (workouts_where lo hi workout_type tag) (rows (workouts db))))) ;;
  workouts <- mapM _hydrate_workout selected ;;
  close ;;
  ret workouts.

(** [get_last_workout] (main.py 293-327) *)
Definition get_last_workout (workout_type tag : option pystr) : M (option workout) :=
  if negb (truthy_str workout_type) && negb (truthy_str tag) then raise ValueError
  else
    get_connection ;;
    row <-
      query (SSelect Tworkouts (Some 1))
        (fun db =>
           hd_error
             (order_by (by_text_desc w_date_time)
                (filter (fun w => type_filter workout_type w && tag_filter tag w)
                   (rows (workouts db))))) ;;
    match row with
    | None => close ;; ret None
    | Some r =>
      workout <- _hydrate_workout r ;;
      close ;;
      ret (Some workout)
    end.

(** One entry of [get_exercise_history]: the joined workout and exercise
    columns, the decoded tags and the sets. *)
Record history_entry : Type := {
  he_workout : workout_row;
  he_exercise : exercise_row;
  he_tags : json;
  he_sets : list set_row
}.

Definition history_join (exercise_name : pystr) (lo hi : option pystr) (db : DB)
    : list (workout_row * exercise_row) :=
  flat_map
    (fun w =>
       map (fun e => (w, e))
         (filter
            (fun e =>
               (e_workout_id e =? w_id w)
               && pystr_eqb (sql_lower (e_name e)) (sql_lower exercise_name)
               && ge_bound lo (w_date_time w) && le_bound hi (w_date_time w))
            (rows (exercises db))))
    (rows (workouts db)).

(** [get_exercise_history] (main.py 330-371) *)
Definition get_exercise_history (exercise_name : pystr) (from_date to_date : option pystr)
    (limit : Z) : M (list history_entry) :=
  get_connection ;;
  lo <- lift (date_bound from_date midnight) ;;
  hi <- lift (date_bound to_date last_second) ;;
  joined <-
    query (SSelect Tworkouts (Some limit))
      (fun db =>
         limit_offset limit 0
           (order_by (by_text_desc (fun we => w_date_time (fst we)))
              (history_join exercise_name lo hi db))) ;;
  entries <-
    mapM (fun we =>
            ss <- _load_sets (e_id (snd we)) ;;
            ret {| he_workout := fst we; he_exercise := snd we;
                   he_tags := deserialize_tags (w_tags (fst we));
                   he_sets := ss |})
         joined ;;
  close ;;
  ret entries.

(** ** [main.py]: nutrition tools *)

(** [upsert_nutrition_day] (main.py 379-392); [lastrowid or SELECT id]. *)
Definition upsert_nutrition_day (date : pystr) (notes : option pystr) : M Z :=
  date <- lift (_ensure_date date) ;;
  get_connection ;;
  lastrowid <- insert (SInsert Tnutrition_days) (upsert_day date notes) ;;
  day_id <-
    (if lastrowid =? 0 then
       found <- query (SSelect Tnutrition_days None) (find_day date) ;;
       match found with
       | Some r => ret (nd_id r)
       | None => raise TypeError
       end
     else ret lastrowid) ;;
  commit ;;
  close ;;
  ret day_id.

(** The day of a date, created when missing (main.py 403-405, 450-452). *)
Definition ensure_day (date : pystr) : M Z :=
  insert (SInsert Tnutrition_days) (insert_or_ignore_day date) ;;
  found <- query (SSelect Tnutrition_days None) (find_day date) ;;
  match found with
  | Some r => ret (nd_id r)
  | None => raise TypeError
  end.

(** [upsert_meal] (main.py 395-419) *)
Definition upsert_meal (date : pystr) (name : pystr) (order_index : Z) : M Z :=
  date <- lift (_ensure_date date) ;;
  get_connection ;;
  day_id <- ensure_day date ;;
  lastrowid <- insert (SInsert Tmeals) (upsert_meal_row day_id name order_index) ;;
  meal_id <-
    (if lastrowid =? 0 then
       found <- query (SSelect Tmeals None) (find_meal day_id name) ;;
       match found with
       | Some r => ret (m_id r)
       | None => raise TypeError
       end
     else ret lastrowid) ;;
  commit ;;
  close ;;
  ret meal_id.

(** [add_or_update_meal_item] (main.py 422-489): the item, meal and day
    identifiers; a missing or zero [item_id] inserts. *)
Definition add_or_update_meal_item (date meal_name : pystr) (f : item_fields)
    (item_id : option Z) : M (option Z * Z * Z) :=
  date <- lift (_ensure_date date) ;;
  get_connection ;;
  day_id <- ensure_day date ;;
  insert (SInsert Tmeals) (insert_or_ignore_meal day_id meal_name) ;;
  found <- query (SSelect Tmeals None) (find_meal day_id meal_name) ;;
  match found with
  | None => raise TypeError
  | Some meal =>
    let meal_id := m_id meal in
    item_id <-
      (match item_id with
       | Some id =>
         if id =? 0 then
           new <- insert (SInsert Tmeal_items) (insert_meal_item meal_id f) ;;
           ret (Some new)
         else
           modify (SUpdate Tmeal_items) (update_meal_item id f) ;;
           ret (Some id)
       | None =>
         new <- insert (SInsert Tmeal_items) (insert_meal_item meal_id f) ;;
         ret (Some new)
       end) ;;
    commit ;;
    close ;;
    ret (item_id, meal_id, day_id)
  end.

(** A value computed by Python's [sum]: the addends, REAL values or such
    sums themselves, in the order in which [sum] adds them up from 0.
    The additions are the interpreter's, on doubles, and their outcome
    depends on that order; they are not carried out here. *)
#[warnings="-register-all"]
Inductive summed : Type :=
| Addend (x : real)
| Sum (addends : list summed).

(** [sum(...)] *)
Definition sum_real (l : list summed) : summed := Sum l.

(** The five macro totals. *)
Record totals : Type := {
  t_calories : summed;
  t_protein_g : summed;
  t_carbs_g : summed;
  t_fats_g : summed;
  t_fiber_g : summed
}.

Definition item_totals (items : list meal_item_row) : totals :=
  {| t_calories := sum_real (map (fun i => Addend (calories (mi_fields i))) items);
     t_protein_g := sum_real (map (fun i => Addend (protein_g (mi_fields i))) items);
     t_carbs_g := sum_real (map (fun i => Addend (carbs_g (mi_fields i))) items);
     t_fats_g := sum_real (map (fun i => Addend (fats_g (mi_fields i))) items);
     t_fiber_g := sum_real (map (fun i => Addend (fiber_g (mi_fields i))) items) |}.

Record meal : Type := {
  ml_row : meal_row;
  ml_items : list meal_item_row;
  ml_totals : totals
}.

Record nutrition_day : Type := {
  day_row : nutrition_day_row;
  day_totals : totals;
  day_meals : list meal
}.

Definition select_items (meal_id : Z) (db : DB) : list meal_item_row :=
  filter (fun i => mi_meal_id i =? meal_id) (rows (meal_items db)).

(** [get_nutrition_day] (main.py 492-536) *)
Definition get_nutrition_day (date : pystr) : M (option nutrition_day) :=
  date <- lift (_ensure_date date) ;;
  get_connection ;;
  day_row <- query (SSelect Tnutrition_days None) (find_day date) ;;
  match day_row with
  | None => close ;; ret None
  | Some day =>
    meal_rows <-
      query (SSelect Tmeals None)
        (fun db => order_by (by_Z m_order_index)
                     (filter (fun m => m_day_id m =? nd_id day) (rows (meals db)))) ;;
    meals <-
      mapM (fun m =>
              items <- query (SSelect Tmeal_items None) (select_items (m_id m)) ;;
              ret {| ml_row := m; ml_items := items; ml_totals := item_totals items |})
           meal_rows ;;
    let day_totals :=
      {| t_calories := sum_real (map (fun m => t_calories (ml_totals m)) meals);
         t_protein_g := sum_real (map (fun m => t_protein_g (ml_totals m)) meals);
         t_carbs_g := sum_real (map (fun m => t_carbs_g (ml_totals m)) meals);
         t_fats_g := sum_real (map (fun m => t_fats_g (ml_totals m)) meals);
         t_fiber_g := sum_real (map (fun m => t_fiber_g (ml_totals m)) meals) |} in
    close ;;
    ret (Some {| day_row := day; day_totals := day_totals; day_meals := meals |})
  end.

(** The bound of a plain date filter: [_ensure_date(d)]. *)
Definition day_bound (d : option pystr) : res (option pystr) := date_bound d [].

(** [get_nutrition_days_summary] (main.py 539-585) *)
Definition get_nutrition_days_summary (from_date to_date : option pystr)
    (limit offset : Z) : M (list (nutrition_day_row * totals)) :=
  get_connection ;;
  lo <- lift (day_bound from_date) ;;
  hi <- lift (day_bound to_date) ;;
  day_rows <-
    query (SSelect Tnutrition_days (Some limit))
      (fun db =>
         limit_offset limit offset
           (order_by (by_text_desc nd_date)
              (filter (fun d => ge_bound lo (nd_date d) && le_bound hi (nd_date d))
                 (rows (nutrition_days db))))) ;;
  days <-
    mapM (fun day =>
            meal_rows <-
              query (SSelect Tmeals None)
                (fun db => filter (fun m => m_day_id m =? nd_id day) (rows (meals db))) ;;
            items <-
              mapM (fun m => query (SSelect Tmeal_items None) (select_items (m_id m)))
                   meal_rows ;;
            (* [sum(...) if items else 0]: what [sum] gives on no item *)
            ret (day, item_totals (List.concat items)))
         day_rows ;;
  close ;;
  ret days.

(** [delete_meal_item] (main.py 588-596) *)
Definition delete_meal_item (item_id : Z) : M bool :=
  get_connection ;;
  rowcount <-
    modify (SDelete Tmeal_items) (delete_items_where (fun i => mi_id i =? item_id)) ;;
  commit ;;
  close ;;
  ret (0 <? rowcount).

(** [delete_meal] (main.py 599-609) *)
Definition delete_meal (meal_id : Z) (delete_items : bool) : M bool :=
  get_connection ;;
  (if delete_items
   then modify (SDelete Tmeal_items)
          (delete_items_where (fun i => mi_meal_id i =? meal_id)) ;; ret tt
   else ret tt) ;;
  rowcount <- modify (SDelete Tmeals) (delete_meals_where (fun m => m_id m =? meal_id)) ;;
  commit ;;
  close ;;
  ret (0 <? rowcount).

(** [delete_nutrition_day] (main.py 612-629) *)
Definition delete_nutrition_day (date : pystr) (cascade : bool) : M bool :=
  date <- lift (_ensure_date date) ;;
  get_connection ;;
  let day_ids db :=
    map nd_id (filter (fun d => pystr_eqb (nd_date d) date) (rows (nutrition_days db))) in
  (if cascade then
     meal_ids <-
       query (SSelect Tmeals None)
         (fun db => map m_id (filter (fun m => mem_Z (m_day_id m) (day_ids db))
                                     (rows (meals db)))) ;;
     (match meal_ids with
      | [] => ret tt
      | _ :: _ =>
        modify (SDelete Tmeal_items)
          (delete_items_where (fun i => mem_Z (mi_meal_id i) meal_ids)) ;; ret tt
      end) ;;
     modify (SDelete Tmeals)
       (fun db => delete_meals_where (fun m => mem_Z (m_day_id m) (day_ids db)) db) ;;
     ret tt
   else ret tt) ;;
  rowcount <-
    modify (SDelete Tnutrition_days)
      (delete_days_where (fun d => pystr_eqb (nd_date d) date)) ;;
  commit ;;
  close ;;
  ret (0 <? rowcount).

(** ** [main.py]: body metrics tools *)

(** [log_body_metrics] (main.py 637-679); [skinfolds] are the items of
    the mapping in iteration order. *)
Definition log_body_metrics (date : pystr) (body_weight_kg : option real)
    (skinfolds : option (list (pystr * real))) (notes : option pystr) : M Z :=
  date <- lift (_ensure_date date) ;;
  get_connection ;;
  metrics_id <-
    insert (SInsert Tbody_metrics)
      (fun db => inserted (insert_body_metrics date body_weight_kg notes db)) ;;
  mapM (fun site_mm =>
          insert (SInsert Tskinfolds)
            (fun db => inserted
               (insert_skinfold metrics_id (fst site_mm) (snd site_mm) db)))
       (match skinfolds with Some l => l | None => [] end) ;;
  commit ;;
  close ;;
  ret metrics_id.

(** [get_body_metrics] (main.py 682-718): each row with the mapping from
    site name to millimetres. *)
Definition get_body_metrics (from_date to_date : option pystr) (limit offset : Z)
    : M (list (body_metrics_row * list (pystr * real))) :=
  get_connection ;;
  lo <- lift (day_bound from_date) ;;
  hi <- lift (day_bound to_date) ;;
  metric_rows <-
    query (SSelect Tbody_metrics (Some limit))
      (fun db =>
         limit_offset limit offset
           (order_by (by_text_desc bm_date)
              (filter (fun b => ge_bound lo (bm_date b) && le_bound hi (bm_date b))
                 (rows (body_metrics db))))) ;;
  metrics_list <-
    mapM (fun b =>
            sf <-
              query (SSelect Tskinfolds None)
                (fun db => filter (fun s => sf_body_metrics_id s =? bm_id b)
                             (rows (skinfolds db))) ;;
            ret (b, fold_left (fun d s => dict_set (sf_site_name s) (sf_mm s) d) sf []))
         metric_rows ;;
  close ;;
  ret metrics_list.

(** ** [main.py]: the search tool *)

Inductive search_result : Type :=
| RWorkout (w : workout)
| RNutrition (d : nutrition_day_row)
| RBody (b : body_metrics_row).

(** The ["domain"] entry of a result. *)
Definition domain_of (r : search_result) : pystr :=
  match r with
  | RWorkout _ => py "workout"
  | RNutrition _ => py "nutrition"
  | RBody _ => py "body"
  end.

Definition in_domains (d : pystr) (domains : list pystr) : bool :=
  existsb (pystr_eqb d) domains.

(** [results[:limit]] *)
Definition slice_to {A} (limit : Z) (l : list A) : list A :=
  if limit <? 0 then firstn (Z.to_nat (Z.of_nat (List.length l) + limit)) l
  else firstn (Z.to_nat limit) l.

Definition workout_matches (q : pystr) (lo hi : option pystr) (w : workout_row) : bool :=
  (like_opt (contains_pattern q) (w_notes w)
   || like_opt (contains_pattern q) (w_workout_type w)
   || like_opt (contains_pattern q) (w_tags w))
  && ge_bound lo (w_date_time w) && le_bound hi (w_date_time w).

Definition day_matches (q : pystr) (lo hi : option pystr) (d : nutrition_day_row) : bool :=
  like_opt (contains_pattern q) (nd_notes d)
  && ge_bound lo (nd_date d) && le_bound hi (nd_date d).

Definition body_matches (q : pystr) (lo hi : option pystr) (b : body_metrics_row) : bool :=
  like_opt (contains_pattern q) (bm_notes b)
  && ge_bound lo (bm_date b) && le_bound hi (bm_date b).

Definition search_workouts (q : pystr) (from_date to_date : option pystr) (limit : Z)
    : M (list search_result) :=
  lo <- lift (date_bound from_date midnight) ;;
  hi <- lift (date_bound to_date last_second) ;;
  found <-
    query (SSelect Tworkouts (Some limit))
      (fun db => limit_offset limit 0
                   (filter (workout_matches q lo hi) (rows (workouts db)))) ;;
  hydrated <- mapM _hydrate_workout found ;;
  ret (map RWorkout hydrated).

Definition search_nutrition (q : pystr) (from_date to_date : option pystr) (remaining : Z)
    : M (list search_result) :=
  lo <- lift (day_bound from_date) ;;
  hi <- lift (day_bound to_date) ;;
  found <-
    query (SSelect Tnutrition_days (Some remaining))
      (fun db => limit_offset remaining 0
                   (filter (day_matches q lo hi) (rows (nutrition_days db)))) ;;
  ret (map RNutrition found).

Definition search_body (q : pystr) (from_date to_date : option pystr) (remaining : Z)
    : M (list search_result) :=
  lo <- lift (day_bound from_date) ;;
  hi <- lift (day_bound to_date) ;;
  found <-
    query (SSelect Tbody_metrics (Some remaining))
      (fun db => limit_offset remaining 0
                   (filter (body_matches q lo hi) (rows (body_metrics db)))) ;;
  ret (map RBody found).

Definition all_domains : list pystr := [py "workout"; py "nutrition"; py "body"].

(** [search_logs] (main.py 726-800) *)
Definition search_logs (q : pystr) (domains : option (list pystr))
    (from_date to_date : option pystr) (limit : Z) : M (list search_result) :=
  let domains :=
    match domains with
    | Some (d :: ds) => d :: ds
    | _ => all_domains
    end in
  get_connection ;;
  results <-
    (if in_domains (py "workout") domains
     then search_workouts q from_date to_date limit
     else ret []) ;;
  if limit <=? Z.of_nat (List.length results) then
    close ;; ret (slice_to limit results)
  else
    let remaining := limit - Z.of_nat (List.length results) in
    more <-
      (if in_domains (py "nutrition") domains
       then search_nutrition q from_date to_date remaining
       else ret []) ;;
    let results := (results ++ more)%list in
    if limit <=? Z.of_nat (List.length results) then
      close ;; ret (slice_to limit results)
    else
      let remaining := limit - Z.of_nat (List.length results) in
      more <-
        (if in_domains (py "body") domains
         then search_body q from_date to_date remaining
         else ret []) ;;
      close ;;
      ret (results ++ more)%list.

End Tools.

(** ** Every public tool as one call *)

(** The value is dropped; only the effect on the world is kept. *)
Definition discard {A} (m : M A) : M unit :=
  fun w =>
    match m w with
    | (Ok _, w') => (Ok tt, w')
    | (Raise e, w') => (Raise e, w')
    end.

Inductive tool_call : Type :=
| CallLogWorkout (date_time : pystr) (workout_type : option pystr)
    (tags : py_arg pystr) (notes : option pystr) (exercises : py_arg exercise_payload)
| CallAddExercise (workout_id : Z) (name : pystr) (category notes : option pystr)
| CallAddSet (exercise_id : Z) (f : set_fields) (is_warmup : bool)
| CallGetWorkouts (from_date to_date workout_type tag : option pystr)
    (exercise_name_contains : option pystr) (limit offset : Z)
| CallGetLastWorkout (workout_type tag : option pystr)
| CallGetExerciseHistory (exercise_name : pystr) (from_date to_date : option pystr)
    (limit : Z)
| CallUpsertNutritionDay (date : pystr) (notes : option pystr)
| CallUpsertMeal (date name : pystr) (order_index : Z)
| CallAddOrUpdateMealItem (date meal_name : pystr) (f : item_fields)
    (item_id : option Z)
| CallGetNutritionDay (date : pystr)
| CallGetNutritionDaysSummary (from_date to_date : option pystr) (limit offset : Z)
| CallDeleteMealItem (item_id : Z)
| CallDeleteMeal (meal_id : Z) (delete_items : bool)
| CallDeleteNutritionDay (date : pystr) (cascade : bool)
| CallLogBodyMetrics (date : pystr) (body_weight_kg : option real)
    (skinfolds : option (list (pystr * real))) (notes : option pystr)
| CallGetBodyMetrics (from_date to_date : option pystr) (limit offset : Z)
| CallSearchLogs (q : pystr) (domains : option (list pystr))
    (from_date to_date : option pystr) (limit : Z).

Section Dispatch.
Variable fromisoformat : pystr -> option datetime.
Variable tags_view : list json -> list pystr.
Variable exercises_view : list json -> list exercise_payload.

Definition run_tool (t : tool_call) : M unit :=
  match t with
  | CallLogWorkout dt ty tags notes exs =>
    discard (log_workout fromisoformat tags_view exercises_view dt ty tags notes exs)
  | CallAddExercise wid name cat notes => discard (add_exercise wid name cat notes)
  | CallAddSet eid f wu => discard (add_set eid f wu)
  | CallGetWorkouts fd td ty tag enc limit offset =>
    discard (get_workouts fd td ty tag enc limit offset)
  | CallGetLastWorkout ty tag => discard (get_last_workout ty tag)
  | CallGetExerciseHistory name fd td limit =>
    discard (get_exercise_history name fd td limit)
  | CallUpsertNutritionDay date notes => discard (upsert_nutrition_day date notes)
  | CallUpsertMeal date name oi => discard (upsert_meal date name oi)
  | CallAddOrUpdateMealItem date meal f item =>
    discard (add_or_update_meal_item date meal f item)
  | CallGetNutritionDay date => discard (get_nutrition_day date)
  | CallGetNutritionDaysSummary fd td limit offset =>
    discard (get_nutrition_days_summary fd td limit offset)
  | CallDeleteMealItem id => discard (delete_meal_item id)
  | CallDeleteMeal id di => discard (delete_meal id di)
  | CallDeleteNutritionDay date cascade => discard (delete_nutrition_day date cascade)
  | CallLogBodyMetrics date bw sf notes => discard (log_body_metrics date bw sf notes)
  | CallGetBodyMetrics fd td limit offset => discard (get_body_metrics fd td limit offset)
  | CallSearchLogs q domains fd td limit => discard (search_logs q domains fd td limit)
  end.

End Dispatch.

(** ** Pure readings used to state the results *)

(** What [_hydrate_workout] assembles from a given store. *)
Definition hydrate (db : DB) (row : workout_row) : workout :=
  {| wk_id := w_id row; wk_date_time := w_date_time row;
     wk_workout_type := w_workout_type row;
     wk_tags := deserialize_tags (w_tags row);
     wk_notes := w_notes row;
     wk_exercises :=
       map (fun e => {| ex_row := e; ex_sets := select_sets (e_id e) db |})
           (select_exercises (w_id row) db) |}.

Fixpoint distinct (l : list Z) : bool :=
  match l with
  | [] => true
  | x :: l' => negb (mem_Z x l') && distinct l'
  end.

(** The exercises of a workout and the sets of those exercises. *)
Definition exercises_of (workout_id : Z) (db : DB) : list exercise_row :=
  filter (fun e => e_workout_id e =? workout_id) (rows (exercises db)).

Definition sets_of_workout (workout_id : Z) (db : DB) : list set_row :=
  filter (fun s => mem_Z (s_exercise_id s) (map e_id (exercises_of workout_id db)))
         (rows (sets db)).

Definition sets_of (exercise_id : Z) (db : DB) : list set_row :=
  filter (fun s => s_exercise_id s =? exercise_id) (rows (sets db)).

(** Rows in the three workout tables. *)
Definition workout_rows (db : DB) : nat :=
  List.length (rows (workouts db)) + List.length (rows (exercises db))
  + List.length (rows (sets db)).

(** [1; 2; ...; n] *)
Definition one_to (n : nat) : list Z := map Z.of_nat (List.seq 1 n).

(** The positions [i0, i0 + 1, ...] paired with the elements, as
    [enumerate] yields them. *)
Fixpoint enumerate_from {A} (i0 : Z) (l : list A) : list (Z * A) :=
  match l with
  | [] => []
  | x :: l' => (i0, x) :: enumerate_from (i0 + 1) l'
  end.

(** Successive [add_set] calls on one exercise, each on the store the
    previous one left. *)
Fixpoint add_sets (exercise_id : Z) (ps : list (set_fields * bool)) (db : DB) : DB :=
  match ps with
  | [] => db
  | (f, wu) :: ps' =>
    add_sets exercise_id ps' (store (snd (call (add_set exercise_id f wu) db)))
  end.

(** The SELECTs of [search_logs] on the three domain tables, with the
    value bound to LIMIT. *)
Definition domain_query (q : stmt) : option (table_name * Z) :=
  match q with
  | SSelect Tworkouts (Some l) => Some (Tworkouts, l)
  | SSelect Tnutrition_days (Some l) => Some (Tnutrition_days, l)
  | SSelect Tbody_metrics (Some l) => Some (Tbody_metrics, l)
  | _ => None
  end.

Fixpoint domain_queries (tr : list stmt) : list (table_name * Z) :=
  match tr with
  | [] => []
  | q :: tr' =>
    match domain_query q with
    | Some d => d :: domain_queries tr'
    | None => domain_queries tr'
    end
  end.

(** A date filter argument that is absent, empty or a date
    [_ensure_date] accepts. *)
Definition bound_ok (d : option pystr) : bool :=
  match d with
  | Some (c :: d') =>
    match _ensure_date (c :: d') with
    | Ok _ => true
    | Raise _ => false
    end
  | _ => true
  end.

(** An integer that grows with the calendar order of dates. *)
Definition date_key (y m d : N) : N := (y * 10000 + m * 100 + d)%N.

(** ** Notions used to state the results *)

(** *** What a call does to its connection and to the store *)

(** The computation never closes a connection that is not closed. *)
Definition keeps_open {A} (m : M A) : Prop :=
  forall w, conn w <> Closed -> conn (snd (m w)) <> Closed.

(** The computation closes the connection exactly when it returns. *)
Definition releases {A} (m : M A) : Prop :=
  forall w, conn w <> Closed ->
    match m w with
    | (Ok _, w') => conn w' = Closed
    | (Raise _, w') => conn w' <> Closed
    end.

(** The computation leaves the committed store alone. *)
Definition keeps_store {A} (m : M A) : Prop :=
  forall w, store (snd (m w)) = store w.

(** A world whose connection is open on [db]. *)
Definition opened (s : DB) (db : DB) (l : Z) (t : list stmt) : World :=
  {| store := s; conn := Open {| c_db := db; c_last_insert_rowid := l |}; trace := t |}.

(** The computation only reads through the open connection, returns
    [f db] and issues no domain query. *)
Definition reads {A} (m : M A) (f : DB -> A) : Prop :=
  forall s db l t,
    exists extra,
      m (opened s db l t) = (Ok (f db), opened s db l (t ++ extra))
      /\ domain_queries extra = [].

(** *** [log_workout] *)

Definition payload_sets (e : exercise_payload) : list set_payload :=
  match ep_sets e with Some l => l | None => [] end.

Definition list_of {A} (o : option (list A)) : list A :=
  match o with Some l => l | None => [] end.

(** A list argument after [_parse_json_array] and the type check. *)
Definition normalized {A} (view : list json -> list A) (a : py_arg A)
    : res (option (list A)) :=
  match _parse_json_array view a with
  | ArgNone => Ok None
  | ArgList l => Ok (Some l)
  | _ => Raise TypeError
  end.

(** The columns of a set row and of an exercise row other than the key. *)
Definition set_view (s : set_row) : Z * Z * set_fields * Z :=
  (s_exercise_id s, s_set_index s, s_fields s, s_is_warmup s).

Definition exercise_view (e : exercise_row)
    : Z * Z * option pystr * option pystr * option pystr :=
  (e_workout_id e, e_order_index e, Some (e_name e), e_category e, e_notes e).

(** The columns [log_workout] binds for the set at a position and for
    the exercise at a position. *)
Definition expected_set (exercise_id : Z) (ip : Z * set_payload) : Z * Z * set_fields * Z :=
  (exercise_id, or_default (sp_set_index (snd ip)) (fst ip), sp_fields (snd ip),
   warmup_flag (sp_is_warmup (snd ip))).

Definition expected_exercise (workout_id : Z) (ip : Z * exercise_payload)
    : Z * Z * option pystr * option pystr * option pystr :=
  (workout_id, fst ip, ep_name (snd ip), ep_category (snd ip), ep_notes (snd ip)).

Definition expected_sets (ep : exercise_row * exercise_payload)
    : list (Z * Z * set_fields * Z) :=
  map (expected_set (e_id (fst ep))) (enumerate_from 1 (payload_sets (snd ep))).

(** Payloads no statement rejects: every exercise is named and every
    side passes the CHECK. *)
Definition sets_valid (ps : list set_payload) : bool :=
  forallb (fun p => side_ok (side (sp_fields p))) ps.

Definition exercise_valid (e : exercise_payload) : bool :=
  truthy_str (ep_name e) && sets_valid (payload_sets e).

Definition exercises_valid (exs : list exercise_payload) : bool :=
  forallb exercise_valid exs.

Section LogWorkoutOutcome.
Variable fromisoformat : pystr -> option datetime.
Variable tags_view : list json -> list pystr.
Variable exercises_view : list json -> list exercise_payload.

(** Arguments [log_workout] accepts. *)
Definition log_workout_accepts (date_time : pystr) (tags : py_arg pystr)
    (exs : py_arg exercise_payload) : bool :=
  match normalized tags_view tags, normalized exercises_view exs,
        fromisoformat date_time with
  | Ok _, Ok ex, Some _ => exercises_valid (list_of ex)
  | _, _, _ => false
  end.

(** What a call of [log_workout] on [db] comes to. *)
Definition log_workout_outcome (date_time : pystr) (workout_type : option pystr)
    (tags : py_arg pystr) (notes : option pystr) (exs : py_arg exercise_payload)
    (db : DB) (out : res workout * World) : Prop :=
  match normalized tags_view tags, normalized exercises_view exs,
        fromisoformat date_time with
  | Ok tg, Ok ex, Some d =>
    if exercises_valid (list_of ex) then
      exists tw te ts newex newsets,
        let wrow := {| w_id := next_rowid w_id (workouts db);
                       w_date_time := isoformat d; w_workout_type := workout_type;
                       w_tags := serialize_tags tg; w_notes := notes |} in
        let db' := set_sets (set_exercises (set_workouts db tw) te) ts in
        fst out = Ok (hydrate db' wrow)
        /\ store (snd out) = db' /\ conn (snd out) = Closed
        /\ rows tw = rows (workouts db) ++ [wrow]
        /\ rows te = rows (exercises db) ++ newex
        /\ rows ts = rows (sets db) ++ newsets
        /\ map exercise_view newex
           = map (expected_exercise (w_id wrow)) (enumerate_from 1 (list_of ex))
        /\ map set_view newsets = flat_map expected_sets (combine newex (list_of ex))
        /\ map e_id newex = map fst (enumerate_from (next_rowid e_id (exercises db)) newex)
        /\ map s_id newsets = map fst (enumerate_from (next_rowid s_id (sets db)) newsets)
        /\ autoinc tw = w_id wrow
        /\ autoinc te = last (map e_id newex) (autoinc (exercises db))
        /\ autoinc ts = last (map s_id newsets) (autoinc (sets db))
    else exists e, fst out = Raise e /\ store (snd out) = db
  | _, _, _ => exists e, fst out = Raise e /\ store (snd out) = db
  end.

End LogWorkoutOutcome.

(** *** [add_set] *)

Definition next_set_index (exercise_id : Z) (db : DB) : Z :=
  coalesce_max (map s_set_index (sets_of exercise_id db)) + 1.

(** The row [add_set] inserts. *)
Definition added_set (exercise_id : Z) (f : set_fields) (is_warmup : bool) (db : DB)
    : set_row :=
  {| s_id := next_rowid s_id (sets db); s_exercise_id := exercise_id;
     s_set_index := next_set_index exercise_id db; s_fields := f;
     s_is_warmup := if is_warmup then 1 else 0 |}.

(** [start; start + 1; ...], [n] numbers. *)
Fixpoint count_up (start : Z) (n : nat) : list Z :=
  match n with
  | O => []
  | S k => start :: count_up (start + 1) k
  end.

(** *** [log_body_metrics] *)

Definition skinfold_view (r : skinfold_row) : Z * pystr * real :=
  (sf_body_metrics_id r, sf_site_name r, sf_mm r).

Definition date_logged (d : pystr) (db : DB) : bool :=
  existsb (fun r => pystr_eqb (bm_date r) d) (rows (body_metrics db)).

(** *** Dates as texts *)

Local Open Scope N_scope.

Definition cmp_eqb (a b : comparison) : bool :=
  match a, b with
  | Eq, Eq | Lt, Lt | Gt, Gt => true
  | _, _ => false
  end.

(** [HH:MM:SS] *)
Definition time_text (h mi s : N) : pystr :=
  (fmt02 h ++ 58 :: fmt02 mi ++ 58 :: fmt02 s)%list.

(** Exhaustive checks on the fixed-width fields. *)
Definition fmt02_ok (a : N) : bool :=
  all_from (N.to_nat 100) 0
    (fun b => cmp_eqb (pystr_compare (fmt02 a) (fmt02 b)) (N.compare a b)).

Definition fmt04_ok (n : N) : bool :=
  pystr_eqb (fmt04 n) (fmt02 (n / 100) ++ fmt02 (n mod 100)).

Definition time_ok (h : N) : bool :=
  all_from (N.to_nat 60) 0 (fun mi =>
    all_from (N.to_nat 60) 0 (fun s =>
      pystr_leb (time_text h mi s) (py "23:59:59")
      && pystr_leb (py "00:00:00") (time_text h mi s))).

Local Close Scope N_scope.

(** A [datetime] whose fields are in range. *)
Definition valid_datetime (dt : datetime) : bool :=
  valid_date (year dt) (month dt) (day dt)
  && valid_time (hour dt) (minute dt) (second dt).

(** A timestamp within the last second of its day that carries a
    fraction of a second or an offset: its text goes on after the
    seconds. *)
Definition after_last_second (dt : datetime) : bool :=
  ((hour dt =? 23) && (minute dt =? 59) && (second dt =? 59))%N
  && negb ((microsecond dt =? 0)%N
           && match utcoffset dt with None => true | Some _ => false end).

(** *** [get_workouts] and [search_logs] *)

(** The rows [get_workouts] selects, before hydration. *)
Definition selected_workouts (lo hi workout_type tag : option pystr) (limit offset : Z)
    (db : DB) : list workout_row :=
  limit_offset limit offset
    (order_by (by_text_desc w_date_time)
       (filter (workouts_where lo hi workout_type tag) (rows (workouts db)))).

(** The day a date argument denotes, when it is given, not empty and
    accepted. *)
Definition bound_day (d : option pystr) : option pystr :=
  match d with
  | Some (c :: d') =>
    match _ensure_date (c :: d') with
    | Ok day => Some day
    | Raise _ => None
    end
  | _ => None
  end.

Definition with_suffix (suffix : pystr) (day : option pystr) : option pystr :=
  match day with
  | Some s => Some (s ++ suffix)
  | None => None
  end.

(** The requested domains after the default is filled in. *)
Definition effective_domains (domains : option (list pystr)) : list pystr :=
  match domains with
  | Some (d :: ds) => d :: ds
  | _ => all_domains
  end.

Definition found_workouts (q : pystr) (fd td : option pystr) (limit : Z) (db : DB)
    : list workout_row :=
  limit_offset limit 0
    (filter (workout_matches q (with_suffix midnight (bound_day fd))
               (with_suffix last_second (bound_day td)))
            (rows (workouts db))).

Definition found_days (q : pystr) (fd td : option pystr) (remaining : Z) (db : DB)
    : list nutrition_day_row :=
  limit_offset remaining 0
    (filter (day_matches q (bound_day fd) (bound_day td)) (rows (nutrition_days db))).

Definition found_bodies (q : pystr) (fd td : option pystr) (remaining : Z) (db : DB)
    : list body_metrics_row :=
  limit_offset remaining 0
    (filter (body_matches q (bound_day fd) (bound_day td)) (rows (body_metrics db))).

(** The three parts of a search result, domain by domain: each domain
    is asked only while the budget is not filled, and for no more than
    what is left of it. *)
Definition search_workout_part (q : pystr) (domains : option (list pystr))
    (fd td : option pystr) (limit : Z) (db : DB) : list workout_row :=
  if in_domains (py "workout") (effective_domains domains)
  then found_workouts q fd td limit db else [].

Definition search_nutrition_part (q : pystr) (domains : option (list pystr))
    (fd td : option pystr) (limit : Z) (db : DB) : list nutrition_day_row :=
  let gathered := Z.of_nat (List.length (search_workout_part q domains fd td limit db)) in
  if limit <=? gathered then []
  else if in_domains (py "nutrition") (effective_domains domains)
       then found_days q fd td (limit - gathered) db else [].

Definition search_body_part (q : pystr) (domains : option (list pystr))
    (fd td : option pystr) (limit : Z) (db : DB) : list body_metrics_row :=
  let gathered :=
    Z.of_nat (List.length (search_workout_part q domains fd td limit db))
    + Z.of_nat (List.length (search_nutrition_part q domains fd td limit db)) in
  if limit <=? gathered then []
  else if in_domains (py "body") (effective_domains domains)
       then found_bodies q fd td (limit - gathered) db else [].

Definition search_results (q : pystr) (domains : option (list pystr))
    (fd td : option pystr) (limit : Z) (db : DB) : list search_result :=
  map RWorkout (map (hydrate db) (search_workout_part q domains fd td limit db))
  ++ map RNutrition (search_nutrition_part q domains fd td limit db)
  ++ map RBody (search_body_part q domains fd td limit db).

(** The domain queries of a search: in the order workout, nutrition,
    body, each with the budget left when it is issued, none once the
    budget is filled. *)
Definition expected_queries (q : pystr) (domains : option (list pystr))
    (fd td : option pystr) (limit : Z) (db : DB) : list (table_name * Z) :=
  let ds := effective_domains domains in
  let n1 := Z.of_nat (List.length (search_workout_part q domains fd td limit db)) in
  let n2 := Z.of_nat (List.length (search_nutrition_part q domains fd td limit db)) in
  (if in_domains (py "workout") ds then [(Tworkouts, limit)] else [])
  ++ (if limit <=? n1 then []
      else (if in_domains (py "nutrition") ds then [(Tnutrition_days, limit - n1)] else [])
           ++ (if limit <=? n1 + n2 then []
               else if in_domains (py "body") ds
                    then [(Tbody_metrics, limit - (n1 + n2))] else [])).

(** ** Sample data for the examples *)

(** [n] ASCII digits at the head of a text, read as a number, and a
    given character at the head of a text. *)
Fixpoint ascii_digits (n : nat) (acc : N) (s : pystr) : option (N * pystr) :=
  match n, s with
  | O, _ => Some (acc, s)
  | S n', c :: s' =>
    if ((48 <=? c) && (c <=? 57))%N
    then ascii_digits n' (acc * 10 + (c - 48))%N s'
    else None
  | S _, [] => None
  end.

Definition literal (c : N) (s : pystr) : option pystr :=
  match s with
  | x :: s' => if (x =? c)%N then Some s' else None
  | [] => None
  end.

Definition and_then {A B} (a : option A) (f : A -> option B) : option B :=
  match a with
  | Some x => f x
  | None => None
  end.

(** The fields of a text that starts with [YYYY-MM-DDTHH:MM:SS], when
    they form a date and a time, and what follows them. *)
Definition iso_seconds (s : pystr) : option (datetime * pystr) :=
  and_then (ascii_digits 4 0%N s) (fun '(y, s) =>
  and_then (literal 45%N s) (fun s =>
  and_then (ascii_digits 2 0%N s) (fun '(m, s) =>
  and_then (literal 45%N s) (fun s =>
  and_then (ascii_digits 2 0%N s) (fun '(d, s) =>
  and_then (literal 84%N s) (fun s =>
  and_then (ascii_digits 2 0%N s) (fun '(h, s) =>
  and_then (literal 58%N s) (fun s =>
  and_then (ascii_digits 2 0%N s) (fun '(mi, s) =>
  and_then (literal 58%N s) (fun s =>
  and_then (ascii_digits 2 0%N s) (fun '(sec, s) =>
  if valid_date y m d && valid_time h mi sec
  then Some ({| year := y; month := m; day := d; hour := h; minute := mi;
                second := sec; microsecond := 0%N; utcoffset := None |}, s)
  else None))))))))))).

(** A reading of [fromisoformat] that accepts [YYYY-MM-DDTHH:MM:SS] and
    nothing else. *)
Definition fromisoformat_seconds (s : pystr) : option datetime :=
  match iso_seconds s with
  | Some (dt, []) => Some dt
  | _ => None
  end.

(** A reading of [fromisoformat] that accepts [YYYY-MM-DDTHH:MM:SS],
    also when six digits of a fraction of the second follow, and
    nothing else. *)
Definition fromisoformat_micros (s : pystr) : option datetime :=
  match iso_seconds s with
  | Some (dt, []) => Some dt
  | Some (dt, c :: fraction) =>
    if (c =? 46)%N then
      match ascii_digits 6 0%N fraction with
      | Some (us, []) =>
        Some {| year := year dt; month := month dt; day := day dt;
                hour := hour dt; minute := minute dt; second := second dt;
                microsecond := us; utcoffset := None |}
      | _ => None
      end
    else None
  | None => None
  end.

(** Decoded lists read as tags: the strings among the elements. *)
Definition strings_view (l : list json) : list pystr :=
  flat_map (fun v => match v with JStr s => [s] | _ => [] end) l.

Definition no_exercises_view (_ : list json) : list exercise_payload := [].

Definition no_fields : set_fields :=
  {| reps := None; weight_kg := None; weight_lbs := None; distance_m := None;
     distance_yards := None; duration_s := None; side := None; rpe := None;
     rir := None |}.

Definition plain_set (explicit_index : option Z) : set_payload :=
  {| sp_set_index := explicit_index; sp_fields := no_fields; sp_is_warmup := None |}.

(** An exercise with three sets: no explicit index, an explicit 0 and an
    explicit 7. *)
Definition squat : exercise_payload :=
  {| ep_name := Some (py "Squat"); ep_category := None; ep_notes := None;
     ep_sets := Some [plain_set None; plain_set (Some 0); plain_set (Some 7)] |}.

Definition nameless : exercise_payload :=
  {| ep_name := None; ep_category := None; ep_notes := None; ep_sets := None |}.

Definition demo_log (exs : list exercise_payload) : M workout :=
  log_workout fromisoformat_seconds strings_view no_exercises_view
    (py "2026-01-06T23:59:59") None (ArgList [py "legs"; py "sprint"]) None
    (ArgList exs).

(** One workout with one exercise and three sets. *)
Definition demo_db : DB := store (snd (call (demo_log [squat]) empty_db)).

(** One workout with one exercise and no set. *)
Definition bare_db : DB :=
  store (snd (call (demo_log
    [{| ep_name := Some (py "Row"); ep_category := None; ep_notes := None;
        ep_sets := None |}]) empty_db)).

(** Seven nutrition days whose notes mention pizza. *)
Definition pizza_week : DB :=
  fold_left
    (fun db d => store (snd (call (upsert_nutrition_day d (Some (py "pizza night"))) db)))
    [py "2026-01-01"; py "2026-01-02"; py "2026-01-03"; py "2026-01-04";
     py "2026-01-05"; py "2026-01-06"; py "2026-01-07"]
    empty_db.

(** ** Notions for the remaining tools *)

Unset Implicit Arguments.

(** A computation that raises has left the committed store alone. *)
Definition aborts_clean {A} (m : M A) : Prop :=
  forall w,
    match m w with
    | (Raise _, w') => store w' = store w
    | (Ok _, _) => True
    end.

(** The tools that only query. *)
Definition read_only (t : tool_call) : bool :=
  match t with
  | CallGetWorkouts _ _ _ _ _ _ _ | CallGetLastWorkout _ _
  | CallGetExerciseHistory _ _ _ _ | CallGetNutritionDay _
  | CallGetNutritionDaysSummary _ _ _ _ | CallGetBodyMetrics _ _ _ _
  | CallSearchLogs _ _ _ _ _ => true
  | _ => false
  end.

(** The day of a date and the meal of a name on a day, with the store
    after [INSERT OR IGNORE] has created what was missing (main.py
    450-459). *)
Definition day_ensured (date : pystr) (db : DB) : nutrition_day_row * DB :=
  match find_day date db with
  | Some day =>
    (day,
     set_nutrition_days db
       {| rows := rows (nutrition_days db);
          autoinc := next_rowid nd_id (nutrition_days db) |})
  | None =>
    let day := {| nd_id := next_rowid nd_id (nutrition_days db); nd_date := date;
                  nd_notes := None |} in
    (day,
     set_nutrition_days db
       {| rows := rows (nutrition_days db) ++ [day];
          autoinc := next_rowid nd_id (nutrition_days db) |})
  end.

Definition meal_ensured (day_id : Z) (name : pystr) (db : DB) : meal_row * DB :=
  match find_meal day_id name db with
  | Some m =>
    (m, set_meals db {| rows := rows (meals db);
                       autoinc := next_rowid m_id (meals db) |})
  | None =>
    let m := {| m_id := next_rowid m_id (meals db); m_day_id := day_id;
                m_name := name; m_order_index := 0 |} in
    (m, set_meals db {| rows := rows (meals db) ++ [m];
                       autoinc := next_rowid m_id (meals db) |})
  end.

(** ** Further sample data *)

Definition oats : item_fields :=
  {| food_id := py "fd_oats"; food_name := py "Oats"; brand_name := None;
     serving_quantity := QArith_base.Qmake 1 1; serving_unit := py "cup";
     grams := Some (QArith_base.Qmake 80 1);
     calories := QArith_base.Qmake 300 1; protein_g := QArith_base.Qmake 10 1;
     carbs_g := QArith_base.Qmake 54 1; fats_g := QArith_base.Qmake 5 1;
     fiber_g := QArith_base.Qmake 8 1; item_notes := None |}.

(** One day, 2026-01-06, with the meal lunch and one item. *)
Definition lunch_db : DB :=
  store (snd (call (add_or_update_meal_item (py "2026-01-06") (py "lunch") oats None)
                   empty_db)).

(** ** Notions on texts *)

(** Printable ASCII, and the characters [json.dumps] writes as they
    are: printable ASCII other than the quote and the backslash. *)
Definition printable (c : N) : bool := ((32 <=? c) && (c <=? 126))%N.

Definition plain_char (c : N) : bool :=
  (printable c && negb (c =? 34) && negb (c =? 92))%N.

Definition has_non_ascii (s : pystr) : bool := existsb (fun c => (128 <=? c)%N) s.

(** A text the driver can hand to SQLite as UTF-8: code points, none of
    them a surrogate. *)
Definition utf8_text (s : pystr) : bool :=
  forallb (fun c => code_point c && negb (is_high_surrogate c)
                    && negb (is_low_surrogate c)) s.

(** A list argument that, when it is a text, [json.loads] decodes or
    refuses as the decoder with room to spare does, without reaching a
    limit of the interpreter. *)
Definition within_limits {A : Type} (lim : limits) (a : py_arg A) : Prop :=
  match a with
  | ArgStr t =>
    json_loads lim t
    = [match loads t with Some v => Ok v | None => Raise JSONDecodeError end]
  | _ => True
  end.

(** The number of bytes of the UTF-8 encoding of a text. *)
Definition utf8_size (s : pystr) : N :=
  fold_right (fun c n => ((if c <? 128 then 1 else if c <? 2048 then 2
                           else if c <? 65536 then 3 else 4) + n)%N) 0%N s.

(** ** Checks on the date formats *)

Local Open Scope N_scope.

(** The month and the day written with two digits are read back by
    [%m-%d] as they were written. *)
Definition month_day_ok (m d : N) : bool :=
  match match_items [re_m; Lit 45; re_d] (fmt02 m ++ 45 :: fmt02 d) with
  | Some ([a; b], []) => (int_of a =? m) && (int_of b =? d)
  | _ => false
  end.

Definition months_days_ok : bool :=
  all_from 12 1 (fun m => all_from 31 1 (month_day_ok m)).

Definition year_ok (y : N) : bool := int_of (fmt04 y) =? y.

Local Close Scope N_scope.

(** ** Readings of the body-metrics queries *)

(** The mapping from site to millimetres [get_body_metrics] builds for
    one row. *)
Definition skinfolds_of (metrics_id : Z) (db : DB) : list (pystr * real) :=
  fold_left (fun d s => dict_set (sf_site_name s) (sf_mm s) d)
    (filter (fun s => sf_body_metrics_id s =? metrics_id) (rows (skinfolds db))) [].

(** The rows a page of [get_body_metrics] shows. *)
Definition selected_metrics (lo hi : option pystr) (limit offset : Z) (db : DB)
    : list body_metrics_row :=
  limit_offset limit offset
    (order_by (by_text_desc bm_date)
       (filter (fun b => ge_bound lo (bm_date b) && le_bound hi (bm_date b))
          (rows (body_metrics db)))).

(** ** Readings of the history and nutrition queries *)

(** The joined rows a call of [get_exercise_history] shows. *)
Definition selected_history (exercise_name : pystr) (lo hi : option pystr)
    (limit : Z) (db : DB) : list (workout_row * exercise_row) :=
  limit_offset limit 0
    (order_by (by_text_desc (fun we => w_date_time (fst we)))
       (history_join exercise_name lo hi db)).

Definition history_of (db : DB) (we : workout_row * exercise_row) : history_entry :=
  {| he_workout := fst we; he_exercise := snd we;
     he_tags := deserialize_tags (w_tags (fst we));
     he_sets := select_sets (e_id (snd we)) db |}.

(** The bounds of the date filters of a query on [workouts]. *)
Definition in_window (from_date to_date : option pystr) (date_time : pystr) : bool :=
  ge_bound (with_suffix midnight (bound_day from_date)) date_time
  && le_bound (with_suffix last_second (bound_day to_date)) date_time.

(** The meals of a day as [get_nutrition_day] lists them. *)
Definition meals_of_day (day_id : Z) (db : DB) : list meal_row :=
  order_by (by_Z m_order_index)
    (filter (fun m => m_day_id m =? day_id) (rows (meals db))).

Definition meal_of (db : DB) (m : meal_row) : meal :=
  {| ml_row := m; ml_items := select_items (m_id m) db;
     ml_totals := item_totals (select_items (m_id m) db) |}.

(** The day as [get_nutrition_day] returns it. *)
Definition day_view (db : DB) (day : nutrition_day_row) : nutrition_day :=
  let meals := map (meal_of db) (meals_of_day (nd_id day) db) in
  {| day_row := day;
     day_totals :=
       {| t_calories := sum_real (map (fun m => t_calories (ml_totals m)) meals);
          t_protein_g := sum_real (map (fun m => t_protein_g (ml_totals m)) meals);
          t_carbs_g := sum_real (map (fun m => t_carbs_g (ml_totals m)) meals);
          t_fats_g := sum_real (map (fun m => t_fats_g (ml_totals m)) meals);
          t_fiber_g := sum_real (map (fun m => t_fiber_g (ml_totals m)) meals) |};
     day_meals := meals |}.

(** ** Invariants of the store *)

(** Every row of the child table refers to a row of the parent table. *)
Definition refers {R P : Type} (ref : R -> Z) (rowid : P -> Z)
    (child : table R) (parent : table P) : bool :=
  forallb (fun r => has_id rowid (ref r) parent) (rows child).

(** The five FOREIGN KEY clauses of [db.py]. *)
Definition references_resolve (db : DB) : bool :=
  refers e_workout_id w_id (exercises db) (workouts db)
  && refers s_exercise_id e_id (sets db) (exercises db)
  && refers m_day_id nd_id (meals db) (nutrition_days db)
  && refers mi_meal_id m_id (meal_items db) (meals db)
  && refers sf_body_metrics_id bm_id (skinfolds db) (body_metrics db).

(** Every [tags] column is empty or was written by [serialize_tags]. *)
Definition tags_serialized (db : DB) : Prop :=
  forall w, In w (rows (workouts db)) -> exists tags, w_tags w = serialize_tags tags.

(** Both invariants pass from one store to another. *)
Definition invariants_kept (db db' : DB) : Prop :=
  (references_resolve db = true -> references_resolve db' = true)
  /\ (tags_serialized db -> tags_serialized db').

(** The days a page of [get_nutrition_days_summary] shows, and the items
    the totals of a day are computed over. *)
Definition selected_days (lo hi : option pystr) (limit offset : Z) (db : DB)
    : list nutrition_day_row :=
  limit_offset limit offset
    (order_by (by_text_desc nd_date)
       (filter (fun d => ge_bound lo (nd_date d) && le_bound hi (nd_date d))
          (rows (nutrition_days db)))).

Definition items_of_day (day_id : Z) (db : DB) : list meal_item_row :=
  List.concat
    (map (fun m => select_items (m_id m) db)
         (filter (fun m => m_day_id m =? day_id) (rows (meals db)))).


(* ================================================================== *)
(** * Part II: lemmas and theorems *)
(* ================================================================== *)

Unset Implicit Arguments.

(** ** The JSON codec *)

Local Open Scope N_scope.

Lemma all_from_spec n : forall c0 p,
  all_from n c0 p = true -> forall c, c0 <= c -> c < c0 + N.of_nat n -> p c = true.
Proof.
  induction n as [|k IH]; simpl; intros c0 p H c Hlo Hhi; [lia|].
  destruct (p c0) eqn:Hk; [|discriminate].
  destruct (N.eq_dec c c0) as [E|E]; [subst; exact Hk|].
  apply (IH _ _ H); lia.
Qed.

Lemma hex4_all : all_from (N.to_nat 65536) 0 hex4_ok = true.
Proof. vm_compute. reflexivity. Qed.

Lemma pair_all : all_from (N.to_nat 1048576) 0 pair_ok = true.
Proof. vm_compute. reflexivity. Qed.

Lemma decode_hex4_hex4 c :
  c < 65536 ->
  decode_hex4 (hex_digit ((c / 4096) mod 16)) (hex_digit ((c / 256) mod 16))
    (hex_digit ((c / 16) mod 16)) (hex_digit (c mod 16)) = Some c.
Proof.
  intros Hc.
  assert (H : hex4_ok c = true).
  { apply (@all_from_spec _ _ _ hex4_all); [lia|].
    rewrite N2Nat.id. lia. }
  unfold hex4_ok in H.
  destruct (decode_hex4 _ _ _ _) as [x|]; [|discriminate].
  apply N.eqb_eq in H. congruence.
Qed.

Lemma surrogate_pair_ok c :
  65536 <= c -> c < 1114112 ->
  let n := c - 65536 in
  let s1 := N.lor 55296 (N.land (N.shiftr n 10) 1023) in
  let s2 := N.lor 56320 (N.land n 1023) in
  is_high_surrogate s1 = true /\ is_low_surrogate s2 = true
  /\ join_surrogates s1 s2 = c.
Proof.
  intros Hlo Hhi n s1 s2.
  assert (H : pair_ok n = true).
  { apply (@all_from_spec _ _ _ pair_all); [lia|].
    rewrite N2Nat.id. unfold n. lia. }
  unfold pair_ok in H. fold s1 s2 in H.
  apply andb_prop in H. destruct H as [H H3].
  apply andb_prop in H. destruct H as [H1 H2].
  apply N.eqb_eq in H3. repeat split; auto. rewrite H3. unfold n. lia.
Qed.

Lemma is_high_lt c : is_high_surrogate c = true -> c < 65536.
Proof. unfold is_high_surrogate. intros H. apply andb_prop in H. destruct H as [_ H]. apply N.leb_le in H. lia. Qed.

Lemma scanstring_u_escape c t :
  c < 65536 ->
  (is_high_surrogate c = true -> pairs_with_low t = false) ->
  scanstring (u_escape c ++ t) = cons_char c (scanstring t).
Proof.
  intros Hc Hla. unfold u_escape, hex4.
  cbn [app scanstring].
  change (92 =? 34) with false. change (92 =? 92) with true.
  change (117 =? 117) with true. cbv iota.
  rewrite (decode_hex4_hex4 _ Hc).
  destruct (is_high_surrogate c) eqn:Hh; [|reflexivity].
  specialize (Hla eq_refl).
  destruct t as [|b1 [|b2 t']]; try reflexivity.
  unfold pairs_with_low in Hla.
  destruct ((b1 =? 92) && (b2 =? 117)) eqn:Hb; [|reflexivity].
  simpl in Hla.
  destruct t' as [|k1 [|k2 [|k3 [|k4 t'']]]]; try discriminate.
  destruct (decode_hex4 k1 k2 k3 k4) as [u|]; [|discriminate].
  rewrite Hla. reflexivity.
Qed.

Lemma is_low_lt c : is_low_surrogate c = true -> c < 65536.
Proof.
  unfold is_low_surrogate. intros H. apply andb_prop in H.
  destruct H as [_ H]. apply N.leb_le in H. lia.
Qed.

Ltac case_eqb c k :=
  destruct (N.eqb_spec c k) as [->|?].

Lemma scanstring_pair c t :
  65536 <= c -> c < 1114112 ->
  scanstring (encode_char c ++ t) = cons_char c (scanstring t).
Proof.
  intros Hlo Hhi.
  destruct (surrogate_pair_ok _ Hlo Hhi) as (H1 & H2 & H3).
  unfold encode_char.
  repeat match goal with
  | |- context [c =? ?k] => destruct (N.eqb_spec c k); [lia|]
  end.
  replace ((32 <=? c) && (c <=? 126)) with false
    by (symmetry; apply andb_false_intro2; apply N.leb_gt; lia).
  replace (c <? 65536) with false by (symmetry; apply N.ltb_ge; lia).
  cbv zeta.
  set (s1 := N.lor 55296 (N.land (N.shiftr (c - 65536) 10) 1023)) in *.
  set (s2 := N.lor 56320 (N.land (c - 65536) 1023)) in *.
  rewrite <- app_assoc.
  unfold u_escape at 1, hex4 at 1.
  cbn [app scanstring].
  change (92 =? 34) with false. change (92 =? 92) with true.
  change (117 =? 117) with true. cbv iota.
  rewrite (decode_hex4_hex4 _ (is_high_lt _ H1)). rewrite H1.
  unfold u_escape, hex4. cbn [app].
  change ((92 =? 92) && (117 =? 117)) with true. cbv iota.
  rewrite (decode_hex4_hex4 _ (is_low_lt _ H2)). rewrite H2, H3. reflexivity.
Qed.

Lemma scanstring_encode_char c t :
  c < 1114112 ->
  (is_high_surrogate c = true -> pairs_with_low t = false) ->
  scanstring (encode_char c ++ t) = cons_char c (scanstring t).
Proof.
  intros Hc Hla.
  destruct (N.ltb_spec c 65536) as [Hsmall|Hbig];
    [|apply scanstring_pair; assumption].
  unfold encode_char.
  case_eqb c 34; [reflexivity|].
  case_eqb c 92; [reflexivity|].
  case_eqb c 10; [reflexivity|].
  case_eqb c 13; [reflexivity|].
  case_eqb c 9; [reflexivity|].
  case_eqb c 8; [reflexivity|].
  case_eqb c 12; [reflexivity|].
  destruct ((32 <=? c) && (c <=? 126)) eqn:Hp.
  - apply andb_prop in Hp. destruct Hp as [Hp1 Hp2].
    apply N.leb_le in Hp1.
    cbn [app scanstring].
    destruct (N.eqb_spec c 34); [contradiction|].
    destruct (N.eqb_spec c 92); [contradiction|].
    replace (c <? 32) with false by (symmetry; apply N.ltb_ge; lia).
    reflexivity.
  - replace (c <? 65536) with true by (symmetry; apply N.ltb_lt; lia).
    apply scanstring_u_escape; assumption.
Qed.

Lemma pairs_with_low_quote rest : pairs_with_low (34 :: rest) = false.
Proof. destruct rest; reflexivity. Qed.

Lemma pairs_with_low_encode c t :
  c < 1114112 -> is_low_surrogate c = false ->
  pairs_with_low (encode_char c ++ t) = false.
Proof.
  intros Hc Hl. unfold encode_char.
  case_eqb c 34; [reflexivity|].
  case_eqb c 92; [reflexivity|].
  case_eqb c 10; [reflexivity|].
  case_eqb c 13; [reflexivity|].
  case_eqb c 9; [reflexivity|].
  case_eqb c 8; [reflexivity|].
  case_eqb c 12; [reflexivity|].
  destruct ((32 <=? c) && (c <=? 126)) eqn:Hp.
  - cbn [app]. unfold pairs_with_low.
    destruct (N.eqb_spec c 92); [contradiction|].
    destruct t; reflexivity.
  - destruct (N.ltb_spec c 65536) as [Hsmall|Hbig].
    + unfold u_escape, hex4. cbn [app pairs_with_low].
      rewrite (decode_hex4_hex4 _ Hsmall). rewrite Hl. reflexivity.
    + destruct (surrogate_pair_ok _ Hbig Hc) as (H1 & H2 & H3).
      cbv zeta.
      set (s1 := N.lor 55296 (N.land (N.shiftr (c - 65536) 10) 1023)) in *.
      rewrite <- app_assoc. unfold u_escape at 1, hex4 at 1.
      cbn [app pairs_with_low].
      rewrite (decode_hex4_hex4 _ (is_high_lt _ H1)).
      change ((92 =? 92) && (117 =? 117)) with true. cbv iota.
      unfold is_high_surrogate in H1. unfold is_low_surrogate.
      apply andb_prop in H1. destruct H1 as [_ H1]. apply N.leb_le in H1.
      cbn [andb]. apply andb_false_intro1. apply N.leb_gt. lia.
Qed.

Lemma scanstring_encoded s : forall rest,
  lossless s = true ->
  scanstring (flat_map encode_char s ++ 34 :: rest) = Some (s, rest).
Proof.
  unfold lossless.
  induction s as [|c s' IH]; intros rest H.
  - reflexivity.
  - apply andb_prop in H. destruct H as [Hcp Hns].
    cbn [forallb] in Hcp. apply andb_prop in Hcp. destruct Hcp as [Hc Hcp].
    cbn [no_surrogate_pair] in Hns. apply andb_prop in Hns.
    destruct Hns as [Hpair Hns].
    apply N.ltb_lt in Hc.
    cbn [flat_map]. rewrite <- app_assoc.
    rewrite scanstring_encode_char.
    + rewrite IH; [reflexivity|]. rewrite Hcp, Hns. reflexivity.
    + exact Hc.
    + intros Hh. destruct s' as [|b s''].
      * apply pairs_with_low_quote.
      * cbn [flat_map]. rewrite <- app_assoc.
        cbn [forallb] in Hcp. apply andb_prop in Hcp. destruct Hcp as [Hb _].
        apply N.ltb_lt in Hb.
        apply pairs_with_low_encode; [exact Hb|].
        rewrite Hh in Hpair. cbn in Hpair.
        destruct (is_low_surrogate b); [discriminate|reflexivity].
Qed.

Lemma encoded_app s tail :
  (encode_basestring_ascii s ++ tail = 34 :: (flat_map encode_char s ++ 34 :: tail))%list.
Proof.
  unfold encode_basestring_ascii. cbn [app]. rewrite <- app_assoc. reflexivity.
Qed.

Lemma scan_once_string f s rest :
  lossless s = true ->
  scan_once (S f) (encode_basestring_ascii s ++ rest) = Scanned (JStr s) rest.
Proof.
  intros H. rewrite encoded_app. cbn [scan_once].
  change (34 =? 34) with true. cbv iota.
  rewrite (@scanstring_encoded s _ H). reflexivity.
Qed.

Lemma skip_ws_encoded s tail :
  skip_ws (encode_basestring_ascii s ++ tail) = (encode_basestring_ascii s ++ tail)%list.
Proof. rewrite encoded_app. reflexivity. Qed.

Lemma join_items_cons x y l :
  join_items (x :: y :: l) = (x ++ 44 :: 32 :: join_items (y :: l))%list.
Proof. reflexivity. Qed.

Lemma join_items_encoded_head x l :
  exists t, join_items (map encode_basestring_ascii (x :: l)) = 34 :: t.
Proof.
  destruct l; cbn [map]; [|rewrite join_items_cons];
    unfold encode_basestring_ascii; cbn [app join_items]; eexists; reflexivity.
Qed.

Lemma array_items_S f s :
  array_items (S f) s =
  match scan_once f s with
  | Scanned v r1 =>
    match skip_ws r1 with
    | c :: r2 =>
      if c =? 93 then Scanned [v] r2
      else if c =? 44 then scan_map (cons v) (array_items f (skip_ws r2))
      else DecodeError
    | [] => DecodeError
    end
  | DecodeError => DecodeError
  | OutOfFuel => OutOfFuel
  end.
Proof. reflexivity. Qed.

Lemma array_items_strs l : forall x f rest,
  forallb lossless (x :: l) = true ->
  (2 * List.length (x :: l) <= f)%nat ->
  array_items f (join_items (map encode_basestring_ascii (x :: l)) ++ 93 :: rest)
  = Scanned (map JStr (x :: l)) rest.
Proof.
  induction l as [|y l IH]; intros x f rest Hl Hf.
  - cbn [List.length] in Hf.
    destruct f as [|[|f]]; [lia|lia|].
    cbn [forallb] in Hl. apply andb_prop in Hl. destruct Hl as [Hx _].
    cbn [map join_items]. rewrite array_items_S.
    rewrite (@scan_once_string _ x _ Hx).
    reflexivity.
  - cbn [List.length] in Hf.
    destruct f as [|[|f]]; [lia|lia|].
    cbn [forallb] in Hl. apply andb_prop in Hl. destruct Hl as [Hx Hl].
    change (map encode_basestring_ascii (x :: y :: l))
      with (encode_basestring_ascii x :: map encode_basestring_ascii (y :: l)).
    cbn [map]. rewrite join_items_cons. rewrite <- app_assoc.
    rewrite array_items_S.
    rewrite (@scan_once_string _ x _ Hx).
    destruct (join_items_encoded_head y l) as [t Ht].
    cbn [map] in Ht.
    change ((44 :: 32 :: join_items (encode_basestring_ascii y :: map encode_basestring_ascii l)) ++ 93 :: rest)%list
      with (44 :: 32 :: (join_items (encode_basestring_ascii y :: map encode_basestring_ascii l) ++ 93 :: rest))%list.
    change (skip_ws (44 :: ?u)) with (44 :: u).
    change (44 =? 93) with false. change (44 =? 44) with true. cbv iota.
    change (skip_ws (32 :: ?u)) with (skip_ws u).
    assert (Hs : skip_ws (join_items (encode_basestring_ascii y :: map encode_basestring_ascii l) ++ 93 :: rest)
                 = (join_items (encode_basestring_ascii y :: map encode_basestring_ascii l) ++ 93 :: rest)%list)
      by (rewrite Ht; reflexivity).
    rewrite Hs.
    change (encode_basestring_ascii y :: map encode_basestring_ascii l)
      with (map encode_basestring_ascii (y :: l)).
    rewrite (@IH y (S f) rest); [reflexivity|exact Hl|].
    cbn [List.length] in Hf |- *. lia.
Qed.

Lemma length_join_items l :
  (2 * List.length l <= List.length (join_items (map encode_basestring_ascii l)))%nat.
Proof.
  induction l as [|x l IH]; [simpl; lia|].
  destruct l as [|y l'].
  - cbn [map join_items List.length]. unfold encode_basestring_ascii.
    cbn [List.length]. rewrite length_app. cbn [List.length]. lia.
  - cbn [map] in IH |- *. rewrite join_items_cons.
    rewrite length_app. cbn [List.length] in IH |- *. lia.
Qed.

Theorem loads_dumps_str_list l :
  forallb lossless l = true ->
  loads (dumps_str_list l) = Some (JArr (map JStr l)).
Proof.
  intros Hl. unfold loads, dumps_str_list.
  change (starts_with [65279] (91 :: ?t)) with false. cbv iota.
  change (skip_ws (91 :: ?t)) with (91 :: t).
  unfold fuel_for.
  destruct l as [|x l].
  - reflexivity.
  - set (body := join_items (map encode_basestring_ascii (x :: l))).
    assert (Hlen : (2 * List.length (x :: l) <= List.length body)%nat)
      by apply length_join_items.
    cbn [List.length] in Hlen |- *. rewrite length_app. cbn [List.length].
    replace (2 * S (List.length body + 1) + 2)%nat
      with (S (2 * List.length body + 5))%nat by lia.
    cbn [scan_once].
    change (91 =? 34) with false. change (91 =? 123) with false.
    change (91 =? 91) with true. cbv iota.
    destruct (join_items_encoded_head x l) as [t Ht]. fold body in Ht.
    assert (Hs : skip_ws (body ++ [93]) = (body ++ [93])%list)
      by (rewrite Ht; reflexivity).
    rewrite Hs.
    assert (Hc : exists t', (body ++ [93])%list = 34 :: t')
      by (rewrite Ht; eexists; reflexivity).
    destruct Hc as [t' Ht']. rewrite Ht'.
    change (34 =? 93) with false. cbv iota. rewrite <- Ht'.
    unfold body.
    rewrite array_items_strs; [reflexivity|exact Hl|].
    fold body. cbn [List.length]. lia.
Qed.

Abbreviation len := (@List.length N).

Lemma skip_ws_length s : (len (skip_ws s) <= len s)%nat.
Proof.
  induction s as [|c s IH]; cbn [skip_ws List.length]; [lia|].
  destruct (is_ws c); cbn [List.length]; lia.
Qed.

Lemma skip_ws_cons s c r : skip_ws s = c :: r -> (len r < len s)%nat.
Proof.
  intros H. pose proof (skip_ws_length s) as L. rewrite H in L.
  cbn [List.length] in L. lia.
Qed.

Lemma cons_char_Some c x str rest :
  cons_char c x = Some (str, rest) ->
  exists str', x = Some (str', rest).
Proof.
  destruct x as [[s r]|]; cbn; intros H; [|discriminate].
  inversion H; subst. eexists; reflexivity.
Qed.

Lemma scanstring_length s : forall str r,
  scanstring s = Some (str, r) -> (len r < len s)%nat.
Proof.
  induction s as [s IH] using (well_founded_induction
    (Wf_nat.well_founded_ltof _ (@List.length N))).
  unfold Wf_nat.ltof in IH.
  intros str r H. destruct s as [|c s1]; [discriminate|].
  cbn [scanstring] in H.
  assert (Hrec : forall t x str', cons_char x (scanstring t) = Some (str', r) ->
            (len t < len (c :: s1))%nat -> (len r < len (c :: s1))%nat).
  { intros t x str' Hc Ht. apply cons_char_Some in Hc. destruct Hc as [s' Hs'].
    apply IH in Hs'; [lia|exact Ht]. }
  destruct (c =? 34).
  { inversion H; subst. cbn [List.length]. lia. }
  destruct (c =? 92).
  2:{ destruct (c <? 32); [discriminate|].
      eapply Hrec; [exact H|cbn [List.length]; lia]. }
  destruct s1 as [|e s2]; [discriminate|].
  destruct (e =? 117).
  2:{ destruct (backslash e); [|discriminate].
      eapply Hrec; [exact H|cbn [List.length]; lia]. }
  destruct s2 as [|h1 [|h2 [|h3 [|h4 s3]]]]; try discriminate.
  destruct (decode_hex4 h1 h2 h3 h4) as [uni|]; [|discriminate].
  destruct (is_high_surrogate uni).
  2:{ eapply Hrec; [exact H|cbn [List.length]; lia]. }
  destruct s3 as [|b1 [|b2 s4]];
    try (eapply Hrec; [exact H|cbn [List.length]; lia]).
  destruct ((b1 =? 92) && (b2 =? 117)).
  2:{ eapply Hrec; [exact H|cbn [List.length]; lia]. }
  destruct s4 as [|k1 [|k2 [|k3 [|k4 s5]]]]; try discriminate.
  destruct (decode_hex4 k1 k2 k3 k4) as [uni2|]; [|discriminate].
  destruct (is_low_surrogate uni2);
    (eapply Hrec; [exact H|cbn [List.length]; lia]).
Qed.

Lemma span_digits_length s : forall ds r,
  span_digits s = (ds, r) -> (len r <= len s)%nat.
Proof.
  induction s as [|c s IH]; cbn [span_digits]; intros ds r H.
  - inversion H; subst. cbn. lia.
  - destruct (is_digit c).
    + destruct (span_digits s) as [ds' r'] eqn:E. inversion H; subst.
      specialize (IH _ _ eq_refl). cbn [List.length]. lia.
    + inversion H; subst. lia.
Qed.

Lemma match_integer_length s lex r :
  match_integer s = Some (lex, r) -> (len r < len s)%nat.
Proof.
  unfold match_integer. intros H.
  destruct s as [|c s']; [discriminate|].
  destruct (c =? 45).
  - destruct s' as [|d s'']; [discriminate|].
    destruct (d =? 48); [inversion H; subst; cbn [List.length]; lia|].
    destruct (is_digit d); [|discriminate].
    destruct (span_digits s'') as [ds r'] eqn:E. inversion H; subst.
    apply span_digits_length in E. cbn [List.length]. lia.
  - destruct (c =? 48); [inversion H; subst; cbn [List.length]; lia|].
    destruct (is_digit c); [|discriminate].
    destruct (span_digits s') as [ds r'] eqn:E. inversion H; subst.
    apply span_digits_length in E. cbn [List.length]. lia.
Qed.

Lemma match_frac_length s f r : match_frac s = (f, r) -> (len r <= len s)%nat.
Proof.
  unfold match_frac. intros H.
  destruct s as [|c s']; [inversion H; subst; lia|].
  destruct (c =? 46); [|inversion H; subst; lia].
  destruct (span_digits s') as [[|d ds] r'] eqn:E; inversion H; subst; [lia|].
  apply span_digits_length in E. cbn [List.length]. lia.
Qed.

Lemma match_exp_length s f r : match_exp s = (f, r) -> (len r <= len s)%nat.
Proof.
  unfold match_exp. intros H.
  destruct s as [|e s1]; [inversion H; subst; lia|].
  destruct ((e =? 101) || (e =? 69)); [|inversion H; subst; lia].
  destruct s1 as [|c s'].
  - cbn [span_digits] in H. inversion H; subst. lia.
  - destruct ((c =? 45) || (c =? 43)).
    + destruct (span_digits s') as [[|d ds] r'] eqn:E; inversion H; subst; [lia|].
      apply span_digits_length in E. cbn [List.length]. lia.
    + destruct (span_digits (c :: s')) as [[|d ds] r'] eqn:E; inversion H; subst; [lia|].
      apply span_digits_length in E. cbn [List.length] in *. lia.
Qed.

Lemma match_number_length s v r :
  match_number s = Some (v, r) -> (len r < len s)%nat.
Proof.
  unfold match_number. intros H.
  destruct (match_integer s) as [[lex r1]|] eqn:E1; [|discriminate].
  destruct (match_frac r1) as [fr r2] eqn:E2.
  destruct (match_exp r2) as [ex r3] eqn:E3.
  apply match_integer_length in E1. apply match_frac_length in E2.
  apply match_exp_length in E3.
  destruct fr, ex; inversion H; subst; lia.
Qed.

Lemma scan_map_Scanned A B (f : A -> B) x v r :
  scan_map f x = Scanned v r -> exists a, x = Scanned a r.
Proof.
  destruct x; cbn; intros H; try discriminate.
  inversion H; subst. eexists; reflexivity.
Qed.

Lemma scan_map_fuel A B (f : A -> B) x :
  scan_map f x = OutOfFuel -> x = OutOfFuel.
Proof. destruct x; cbn; intros H; try discriminate; reflexivity. Qed.

Lemma skipn_length_lt (n : nat) (s : pystr) :
  (0 < n)%nat -> s <> [] -> (len (skipn n s) < len s)%nat.
Proof.
  intros Hn Hs. rewrite length_skipn. destruct s; [contradiction|].
  cbn [List.length]. lia.
Qed.

Ltac scanned_skipn H :=
  match type of H with
  | Scanned _ (skipn ?n ?s) = Scanned _ ?r =>
    assert (r = skipn n s) by congruence; subst r;
    apply skipn_length_lt; [lia|discriminate]
  end.

Lemma scan_consumes f :
  (forall s v r, scan_once f s = Scanned v r -> (len r < len s)%nat)
  /\ (forall s v r, array_items f s = Scanned v r -> (len r < len s)%nat)
  /\ (forall s v r, object_items f s = Scanned v r -> (len r < len s)%nat).
Proof.
  induction f as [|f (IHs & IHa & IHo)].
  - repeat split; intros; discriminate.
  - repeat split; intros s v r H.
    + cbn [scan_once] in H.
      destruct s as [|c s1]; [discriminate|].
      destruct (c =? 34).
      { destruct (scanstring s1) as [[str r']|] eqn:E; inversion H; subst.
        apply scanstring_length in E. cbn [List.length]. lia. }
      destruct (c =? 123).
      { destruct (skip_ws s1) as [|c' r'] eqn:E; [discriminate|].
        apply skip_ws_cons in E.
        destruct (c' =? 125); [inversion H; subst; cbn [List.length]; lia|].
        destruct (c' =? 34); [|discriminate].
        apply scan_map_Scanned in H. destruct H as [ps H].
        apply IHo in H. cbn [List.length]. lia. }
      destruct (c =? 91).
      { destruct (skip_ws s1) as [|c' r'] eqn:E; [discriminate|].
        pose proof (skip_ws_length s1) as L. rewrite E in L.
        destruct (c' =? 93); [inversion H; subst; cbn [List.length] in *; lia|].
        apply scan_map_Scanned in H. destruct H as [ps H].
        apply IHa in H. cbn [List.length] in *. lia. }
      destruct (starts_with [110; 117; 108; 108] (c :: s1));
        [scanned_skipn H|].
      destruct (starts_with [116; 114; 117; 101] (c :: s1));
        [scanned_skipn H|].
      destruct (starts_with [102; 97; 108; 115; 101] (c :: s1));
        [scanned_skipn H|].
      destruct (match_number (c :: s1)) as [[v' r']|] eqn:E.
      { inversion H; subst. apply match_number_length in E. exact E. }
      destruct (starts_with [78; 97; 78] (c :: s1));
        [scanned_skipn H|].
      destruct (starts_with [73; 110; 102; 105; 110; 105; 116; 121] (c :: s1));
        [scanned_skipn H|].
      destruct (starts_with [45; 73; 110; 102; 105; 110; 105; 116; 121] (c :: s1));
        [scanned_skipn H|].
      discriminate.
    + cbn [array_items] in H.
      destruct (scan_once f s) as [v1 r1| |] eqn:E; try discriminate.
      apply IHs in E.
      destruct (skip_ws r1) as [|c r2] eqn:E2; [discriminate|].
      apply skip_ws_cons in E2.
      destruct (c =? 93); [inversion H; subst; lia|].
      destruct (c =? 44); [|discriminate].
      apply scan_map_Scanned in H. destruct H as [ps H].
      apply IHa in H. pose proof (skip_ws_length r2). lia.
    + cbn [object_items] in H.
      destruct (scanstring s) as [[key r1]|] eqn:E; [|discriminate].
      apply scanstring_length in E.
      destruct (skip_ws r1) as [|c r2] eqn:E2; [discriminate|].
      apply skip_ws_cons in E2.
      destruct (c =? 58); [|discriminate].
      destruct (scan_once f (skip_ws r2)) as [v1 r3| |] eqn:E3; try discriminate.
      apply IHs in E3. pose proof (skip_ws_length r2).
      destruct (skip_ws r3) as [|c' r4] eqn:E4; [discriminate|].
      apply skip_ws_cons in E4.
      destruct (c' =? 125); [inversion H; subst; lia|].
      destruct (c' =? 44); [|discriminate].
      destruct (skip_ws r4) as [|q r5] eqn:E5; [discriminate|].
      apply skip_ws_cons in E5.
      destruct (q =? 34); [|discriminate].
      apply scan_map_Scanned in H. destruct H as [ps H].
      apply IHo in H. lia.
Qed.

Lemma scan_fuel_enough f :
  (forall s, (2 * len s < f)%nat -> scan_once f s <> OutOfFuel)
  /\ (forall s, (2 * len s + 1 < f)%nat -> array_items f s <> OutOfFuel)
  /\ (forall s, (2 * len s < f)%nat -> object_items f s <> OutOfFuel).
Proof.
  induction f as [|f (IHs & IHa & IHo)].
  - repeat split; intros; lia.
  - repeat split; intros s Hf H.
    + cbn [scan_once] in H.
      destruct s as [|c s1]; [discriminate|].
      cbn [List.length] in Hf.
      destruct (c =? 34).
      { destruct (scanstring s1) as [[str r']|]; discriminate. }
      destruct (c =? 123).
      { destruct (skip_ws s1) as [|c' r'] eqn:E; [discriminate|].
        apply skip_ws_cons in E.
        destruct (c' =? 125); [discriminate|].
        destruct (c' =? 34); [|discriminate].
        apply scan_map_fuel in H. revert H. apply IHo. lia. }
      destruct (c =? 91).
      { destruct (skip_ws s1) as [|c' r'] eqn:E; [discriminate|].
        pose proof (skip_ws_length s1) as L. rewrite E in L.
        destruct (c' =? 93); [discriminate|].
        apply scan_map_fuel in H. revert H. apply IHa.
        cbn [List.length] in *. lia. }
      destruct (starts_with [110; 117; 108; 108] (c :: s1)); [discriminate|].
      destruct (starts_with [116; 114; 117; 101] (c :: s1)); [discriminate|].
      destruct (starts_with [102; 97; 108; 115; 101] (c :: s1)); [discriminate|].
      destruct (match_number (c :: s1)) as [[v' r']|]; [discriminate|].
      destruct (starts_with [78; 97; 78] (c :: s1)); [discriminate|].
      destruct (starts_with [73; 110; 102; 105; 110; 105; 116; 121] (c :: s1));
        [discriminate|].
      destruct (starts_with [45; 73; 110; 102; 105; 110; 105; 116; 121] (c :: s1));
        discriminate.
    + cbn [array_items] in H.
      destruct (scan_once f s) as [v1 r1| |] eqn:E; try discriminate.
      * apply (proj1 (scan_consumes f)) in E.
        destruct (skip_ws r1) as [|c r2] eqn:E2; [discriminate|].
        apply skip_ws_cons in E2.
        destruct (c =? 93); [discriminate|].
        destruct (c =? 44); [|discriminate].
        apply scan_map_fuel in H. revert H. apply IHa.
        pose proof (skip_ws_length r2). lia.
      * revert E. apply IHs. lia.
    + cbn [object_items] in H.
      destruct (scanstring s) as [[key r1]|] eqn:E; [|discriminate].
      apply scanstring_length in E.
      destruct (skip_ws r1) as [|c r2] eqn:E2; [discriminate|].
      apply skip_ws_cons in E2.
      destruct (c =? 58); [|discriminate].
      pose proof (skip_ws_length r2).
      destruct (scan_once f (skip_ws r2)) as [v1 r3| |] eqn:E3; try discriminate.
      * apply (proj1 (scan_consumes f)) in E3.
        destruct (skip_ws r3) as [|c' r4] eqn:E4; [discriminate|].
        apply skip_ws_cons in E4.
        destruct (c' =? 125); [discriminate|].
        destruct (c' =? 44); [|discriminate].
        destruct (skip_ws r4) as [|q r5] eqn:E5; [discriminate|].
        apply skip_ws_cons in E5.
        destruct (q =? 34); [|discriminate].
        apply scan_map_fuel in H. revert H. apply IHo. lia.
      * revert E3. apply IHs. lia.
Qed.

Theorem loads_fuel_enough s :
  scan_once (fuel_for s) (skip_ws s) <> OutOfFuel.
Proof.
  apply (proj1 (scan_fuel_enough _)).
  pose proof (skip_ws_length s). unfold fuel_for. lia.
Qed.

(** *** The decoder and the limits of the interpreter *)

Lemma agrees_refusal A lim left (y : scan A) :
  y = DecodeError -> agrees (GaveUp (refusal lim left)) y.
Proof. intros ->. unfold refusal. destruct (_ <=? _)%nat; reflexivity. Qed.

Lemma agrees_map A B (f : A -> B) x y :
  agrees x y -> agrees (scan_in_map f x) (scan_map f y).
Proof.
  destruct x as [a r|[| | |]|]; cbn [agrees scan_in_map]; intros H;
    try exact I; rewrite H; reflexivity.
Qed.

Lemma scan_in_agrees lim f :
  (forall left s, agrees (scan_once_in lim left f s) (scan_once f s))
  /\ (forall left s, agrees (array_items_in lim left f s) (array_items f s))
  /\ (forall left s, agrees (object_items_in lim left f s) (object_items f s)).
Proof.
  induction f as [|f (IHs & IHa & IHo)].
  - repeat split; intros; reflexivity.
  - repeat split; intros left s.
    + cbn [scan_once_in scan_once].
      destruct s as [|c s1]; [apply agrees_refusal; reflexivity|].
      destruct (c =? 34).
      { destruct (scanstring s1) as [[str r]|];
          [reflexivity|apply agrees_refusal; reflexivity]. }
      destruct (c =? 123).
      { destruct left as [|left']; [exact I|].
        destruct (skip_ws s1) as [|c' r]; [apply agrees_refusal; reflexivity|].
        destruct (c' =? 125); [reflexivity|].
        destruct (c' =? 34); [apply agrees_map; apply IHo|].
        apply agrees_refusal; reflexivity. }
      destruct (c =? 91).
      { destruct left as [|left']; [exact I|].
        destruct (skip_ws s1) as [|c' r]; [apply agrees_refusal; reflexivity|].
        destruct (c' =? 93); [reflexivity|].
        apply agrees_map. apply IHa. }
      destruct (starts_with [110; 117; 108; 108] (c :: s1)); [reflexivity|].
      destruct (starts_with [116; 114; 117; 101] (c :: s1)); [reflexivity|].
      destruct (starts_with [102; 97; 108; 115; 101] (c :: s1)); [reflexivity|].
      destruct (match_number (c :: s1)) as [[v r]|].
      { destruct (over_cap lim (c :: s1)); [exact I|reflexivity]. }
      destruct (starts_with [78; 97; 78] (c :: s1)); [reflexivity|].
      destruct (starts_with [73; 110; 102; 105; 110; 105; 116; 121] (c :: s1));
        [reflexivity|].
      destruct (starts_with [45; 73; 110; 102; 105; 110; 105; 116; 121] (c :: s1));
        [reflexivity|].
      apply agrees_refusal; reflexivity.
    + cbn [array_items_in array_items].
      pose proof (IHs left s) as H.
      destruct (scan_once_in lim left f s) as [v r1|g|]; cbn [agrees] in H.
      * rewrite H.
        destruct (skip_ws r1) as [|c r2]; [apply agrees_refusal; reflexivity|].
        destruct (c =? 93); [reflexivity|].
        destruct (c =? 44); [apply agrees_map; apply IHa|].
        apply agrees_refusal; reflexivity.
      * destruct g; try exact I; rewrite H; reflexivity.
      * rewrite H. reflexivity.
    + cbn [object_items_in object_items].
      destruct (scanstring s) as [[key r1]|]; [|apply agrees_refusal; reflexivity].
      destruct (skip_ws r1) as [|c r2]; [apply agrees_refusal; reflexivity|].
      destruct (c =? 58); [|apply agrees_refusal; reflexivity].
      pose proof (IHs left (skip_ws r2)) as H.
      destruct (scan_once_in lim left f (skip_ws r2)) as [v r3|g|]; cbn [agrees] in H.
      * rewrite H.
        destruct (skip_ws r3) as [|c' r4]; [apply agrees_refusal; reflexivity|].
        destruct (c' =? 125); [reflexivity|].
        destruct (c' =? 44); [|apply agrees_refusal; reflexivity].
        destruct (skip_ws r4) as [|q r5]; [apply agrees_refusal; reflexivity|].
        destruct (q =? 34); [apply agrees_map; apply IHo|].
        apply agrees_refusal; reflexivity.
      * destruct g; try exact I; rewrite H; reflexivity.
      * rewrite H. reflexivity.
Qed.

(** Whatever [json.loads] comes to under given limits, a value is the
    value of the text, a [JSONDecodeError] means that the text is not
    well formed, and the other ways out are the two limits. *)
Lemma json_loads_sound lim t r :
  In r (json_loads lim t) ->
  (exists v, r = Ok v /\ loads t = Some v)
  \/ (r = Raise JSONDecodeError /\ loads t = None)
  \/ r = Raise RecursionError
  \/ r = Raise ValueError.
Proof.
  unfold json_loads.
  assert (Hrefused : forall left,
            In r (map (@Raise json) (possible (refusal lim left))) ->
            r = Raise JSONDecodeError \/ r = Raise RecursionError).
  { intros left. unfold refusal.
    destruct (_ <=? _)%nat; cbn [possible map In]; intuition congruence. }
  destruct (starts_with [65279] t) eqn:Hbom.
  { assert (Hl : loads t = None) by (unfold loads; rewrite Hbom; reflexivity).
    intros H. destruct (Hrefused _ H) as [->| ->]; tauto. }
  pose proof (proj1 (scan_in_agrees lim (fuel_for t)) (nesting_room lim) (skip_ws t)) as H.
  destruct (scan_once_in lim (nesting_room lim) (fuel_for t) (skip_ws t)) as [v rest|g|];
    cbn [agrees] in H.
  - assert (Hl : loads t = match skip_ws rest with [] => Some v | _ :: _ => None end)
      by (unfold loads; rewrite Hbom, H; reflexivity).
    destruct (skip_ws rest) as [|c r']; cbv iota in Hl.
    + intros [<-|[]]. left. exists v. split; [reflexivity|exact Hl].
    + intros Hin. destruct (Hrefused _ Hin) as [->| ->]; tauto.
  - destruct g; cbn [possible map In]; intros Hin.
    + assert (Hl : loads t = None) by (unfold loads; rewrite Hbom, H; reflexivity).
      destruct Hin as [<-|[]]. tauto.
    + assert (Hl : loads t = None) by (unfold loads; rewrite Hbom, H; reflexivity).
      destruct Hin as [<-|[<-|[]]]; tauto.
    + destruct Hin as [<-|[]]. tauto.
    + destruct Hin as [<-|[]]. tauto.
  - intros [].
Qed.

Lemma json_loads_total lim t : json_loads lim t <> [].
Proof.
  unfold json_loads.
  assert (Hrefused : forall left, map (@Raise json) (possible (refusal lim left)) <> []).
  { intros left. unfold refusal. destruct (_ <=? _)%nat; discriminate. }
  destruct (starts_with [65279] t); [apply Hrefused|].
  pose proof (proj1 (scan_in_agrees lim (fuel_for t)) (nesting_room lim) (skip_ws t)) as H.
  destruct (scan_once_in lim (nesting_room lim) (fuel_for t) (skip_ws t)) as [v rest|g|];
    cbn [agrees] in H.
  - destruct (skip_ws rest); [discriminate|apply Hrefused].
  - destruct g; discriminate.
  - exfalso. exact (loads_fuel_enough t H).
Qed.

(** *** Texts within the limits *)

Lemma span_digits_lexeme s : forall ds r,
  span_digits s = (ds, r) -> (len ds <= len s)%nat.
Proof.
  induction s as [|c s IH]; cbn [span_digits]; intros ds r H.
  - inversion H; subst. cbn. lia.
  - destruct (is_digit c).
    + destruct (span_digits s) as [ds' r'] eqn:E. inversion H; subst.
      specialize (IH _ _ eq_refl). cbn [List.length]. lia.
    + inversion H; subst. cbn [List.length]. lia.
Qed.

Lemma match_integer_lexeme s lex r :
  match_integer s = Some (lex, r) -> (len lex <= len s)%nat.
Proof.
  unfold match_integer. intros H.
  destruct s as [|c s']; [discriminate|].
  destruct (c =? 45).
  - destruct s' as [|d s'']; [discriminate|].
    destruct (d =? 48); [inversion H; subst; cbn [List.length app]; lia|].
    destruct (is_digit d); [|discriminate].
    destruct (span_digits s'') as [ds r'] eqn:E. inversion H; subst.
    apply span_digits_lexeme in E. cbn [List.length app]. lia.
  - destruct (c =? 48); [inversion H; subst; cbn [List.length app]; lia|].
    destruct (is_digit c); [|discriminate].
    destruct (span_digits s') as [ds r'] eqn:E. inversion H; subst.
    apply span_digits_lexeme in E. cbn [List.length app]. lia.
Qed.

Lemma length_filter_le A (p : A -> bool) (l : list A) :
  (List.length (filter p l) <= List.length l)%nat.
Proof.
  induction l as [|x l IH]; [cbn; lia|]. cbn [filter].
  destruct (p x); cbn [List.length]; lia.
Qed.

Lemma under_cap_less lim n m : (m <= n)%nat -> under_cap lim n -> under_cap lim m.
Proof. unfold under_cap. intros H [E|E]; [left; exact E|right; lia]. Qed.

Lemma over_cap_short lim s : under_cap lim (len s) -> over_cap lim s = false.
Proof.
  intros Hcap. unfold over_cap.
  destruct (match_integer s) as [[lex r1]|] eqn:E; [|reflexivity].
  destruct (match_frac r1) as [[|x fr] r2]; [|reflexivity].
  destruct (match_exp r2) as [[|y ex] r3]; [|reflexivity].
  apply match_integer_lexeme in E.
  pose proof (length_filter_le N is_digit lex) as L.
  destruct Hcap as [Hz|Hle].
  - rewrite Hz. rewrite andb_false_r. reflexivity.
  - apply andb_false_intro2. apply N.ltb_ge. lia.
Qed.

Lemma refusal_with_room lim left :
  (raise_room lim <= left)%nat -> refusal lim left = Malformed.
Proof. intros H. unfold refusal. apply Nat.leb_le in H. rewrite H. reflexivity. Qed.

Lemma hits_limit_map A B (f : A -> B) x :
  hits_limit (scan_in_map f x) = hits_limit x.
Proof. destruct x as [a r|[| | |]|]; reflexivity. Qed.

(** A text that is shorter than the room left, the room to raise set
    aside, and than the cap on digits is read without reaching a
    limit. *)
Lemma scan_in_within lim f :
  (forall left s, (len s + raise_room lim <= left)%nat -> under_cap lim (len s) ->
                  hits_limit (scan_once_in lim left f s) = false)
  /\ (forall left s, (len s + raise_room lim <= left)%nat -> under_cap lim (len s) ->
                     hits_limit (array_items_in lim left f s) = false)
  /\ (forall left s, (len s + raise_room lim <= left)%nat -> under_cap lim (len s) ->
                     hits_limit (object_items_in lim left f s) = false).
Proof.
  induction f as [|f (IHs & IHa & IHo)].
  - repeat split; intros; reflexivity.
  - assert (Hno : forall A left s, (len s + raise_room lim <= left)%nat ->
                    hits_limit (@GaveUp A (refusal lim left)) = false).
    { intros A left s H. rewrite refusal_with_room by lia. reflexivity. }
    repeat split; intros left s Hroom Hcap.
    + cbn [scan_once_in].
      destruct s as [|c s1]; [apply (Hno _ left []); exact Hroom|].
      cbn [List.length] in Hroom.
      destruct (c =? 34).
      { destruct (scanstring s1) as [[str r]|];
          [reflexivity|apply (Hno _ left []); cbn [List.length]; lia]. }
      destruct (c =? 123).
      { destruct left as [|left']; [lia|].
        destruct (skip_ws s1) as [|c' r] eqn:E;
          [apply (Hno _ left' []); cbn [List.length]; lia|].
        apply skip_ws_cons in E.
        destruct (c' =? 125); [reflexivity|].
        destruct (c' =? 34); [|apply (Hno _ left' []); cbn [List.length]; lia].
        rewrite hits_limit_map. apply IHo; [lia|].
        apply (under_cap_less lim (len (c :: s1))); [cbn [List.length]; lia|exact Hcap]. }
      destruct (c =? 91).
      { destruct left as [|left']; [lia|].
        pose proof (skip_ws_length s1) as L.
        destruct (skip_ws s1) as [|c' r] eqn:E;
          [apply (Hno _ left' []); cbn [List.length]; lia|].
        destruct (c' =? 93); [reflexivity|].
        rewrite hits_limit_map. apply IHa; [lia|].
        apply (under_cap_less lim (len (c :: s1))); [cbn [List.length] in *; lia|exact Hcap]. }
      destruct (starts_with [110; 117; 108; 108] (c :: s1)); [reflexivity|].
      destruct (starts_with [116; 114; 117; 101] (c :: s1)); [reflexivity|].
      destruct (starts_with [102; 97; 108; 115; 101] (c :: s1)); [reflexivity|].
      destruct (match_number (c :: s1)) as [[v r]|].
      { rewrite (over_cap_short lim (c :: s1) Hcap). reflexivity. }
      destruct (starts_with [78; 97; 78] (c :: s1)); [reflexivity|].
      destruct (starts_with [73; 110; 102; 105; 110; 105; 116; 121] (c :: s1));
        [reflexivity|].
      destruct (starts_with [45; 73; 110; 102; 105; 110; 105; 116; 121] (c :: s1));
        [reflexivity|].
      apply (Hno _ left []); cbn [List.length]; lia.
    + cbn [array_items_in].
      pose proof (IHs left s Hroom Hcap) as H.
      pose proof (proj1 (scan_in_agrees lim f) left s) as Hag.
      destruct (scan_once_in lim left f s) as [v r1|g|]; cbn [agrees] in Hag.
      * apply (proj1 (scan_consumes f)) in Hag.
        destruct (skip_ws r1) as [|c r2] eqn:E; [apply (Hno _ left []); cbn [List.length]; lia|].
        apply skip_ws_cons in E.
        destruct (c =? 93); [reflexivity|].
        destruct (c =? 44); [|apply (Hno _ left []); cbn [List.length]; lia].
        rewrite hits_limit_map. pose proof (skip_ws_length r2).
        apply IHa; [lia|].
        apply (under_cap_less lim (len s)); [lia|exact Hcap].
      * exact H.
      * reflexivity.
    + cbn [object_items_in].
      destruct (scanstring s) as [[key r1]|] eqn:E;
        [|apply (Hno _ left []); cbn [List.length]; lia].
      apply scanstring_length in E.
      destruct (skip_ws r1) as [|c r2] eqn:E2; [apply (Hno _ left []); cbn [List.length]; lia|].
      apply skip_ws_cons in E2.
      destruct (c =? 58); [|apply (Hno _ left []); cbn [List.length]; lia].
      pose proof (skip_ws_length r2) as L2.
      assert (Hroom' : (len (skip_ws r2) + raise_room lim <= left)%nat) by lia.
      assert (Hcap' : under_cap lim (len (skip_ws r2)))
        by (apply (under_cap_less lim (len s)); [lia|exact Hcap]).
      pose proof (IHs left (skip_ws r2) Hroom' Hcap') as H.
      pose proof (proj1 (scan_in_agrees lim f) left (skip_ws r2)) as Hag.
      destruct (scan_once_in lim left f (skip_ws r2)) as [v r3|g|]; cbn [agrees] in Hag.
      * apply (proj1 (scan_consumes f)) in Hag.
        destruct (skip_ws r3) as [|c' r4] eqn:E4;
          [apply (Hno _ left []); cbn [List.length]; lia|].
        apply skip_ws_cons in E4.
        destruct (c' =? 125); [reflexivity|].
        destruct (c' =? 44); [|apply (Hno _ left []); cbn [List.length]; lia].
        destruct (skip_ws r4) as [|q r5] eqn:E5;
          [apply (Hno _ left []); cbn [List.length]; lia|].
        apply skip_ws_cons in E5.
        destruct (q =? 34); [|apply (Hno _ left []); cbn [List.length]; lia].
        rewrite hits_limit_map. apply IHo; [lia|].
        apply (under_cap_less lim (len s)); [lia|exact Hcap].
      * exact H.
      * reflexivity.
Qed.

(** Within the limits [json.loads] comes to one thing, that which the
    decoder with room to spare makes of the text. *)
Lemma json_loads_within lim t :
  (len t + raise_room lim <= nesting_room lim)%nat -> under_cap lim (len t) ->
  json_loads lim t
  = [match loads t with
     | Some v => Ok v
     | None => Raise JSONDecodeError
     end].
Proof.
  intros Hroom Hcap. unfold json_loads, loads.
  rewrite refusal_with_room by lia. cbn [possible map].
  destruct (starts_with [65279] t); [reflexivity|].
  pose proof (skip_ws_length t) as L.
  assert (Hroom' : (len (skip_ws t) + raise_room lim <= nesting_room lim)%nat) by lia.
  assert (Hcap' : under_cap lim (len (skip_ws t)))
    by (apply (under_cap_less lim (len t)); [lia|exact Hcap]).
  pose proof (proj1 (scan_in_within lim (fuel_for t)) _ _ Hroom' Hcap') as Hw.
  pose proof (proj1 (scan_in_agrees lim (fuel_for t)) (nesting_room lim) (skip_ws t)) as H.
  destruct (scan_once_in lim (nesting_room lim) (fuel_for t) (skip_ws t)) as [v rest|g|];
    cbn [agrees] in H.
  - rewrite H. destruct (skip_ws rest); reflexivity.
  - destruct g; try discriminate. rewrite H. reflexivity.
  - exfalso. exact (loads_fuel_enough t H).
Qed.



(** *** Claims on the tag codec *)

Lemma dumps_not_empty l : exists c t, dumps_str_list l = c :: t.
Proof. unfold dumps_str_list. eexists. eexists. reflexivity. Qed.

(** C2 (round trip of the tag codec, as amended).  For every list [T] of
    strings in which no high surrogate is directly followed by a low
    surrogate, decoding the encoding of [T] gives back [T], the empty list
    included; an absent list is encoded as absent, and decoding absent
    gives the empty list. *)
Theorem tags_roundtrip (T : list pystr) :
  forallb lossless T = true ->
  deserialize_tags (serialize_tags (Some T)) = JArr (map JStr T)
  /\ serialize_tags None = None
  /\ deserialize_tags (serialize_tags None) = JArr [].
Proof.
  intros H. split; [|split; reflexivity].
  cbn [serialize_tags]. destruct (dumps_not_empty T) as (c & t & E).
  unfold deserialize_tags. rewrite E, <- E.
  rewrite (loads_dumps_str_list T H). reflexivity.
Qed.

Lemma tags_roundtrip_witness :
  deserialize_tags (serialize_tags (Some [py "legs"; py "sprint"; []]))
  = JArr (map JStr [py "legs"; py "sprint"; []])
  /\ serialize_tags None = None
  /\ deserialize_tags (serialize_tags None) = JArr [].
Proof. apply (tags_roundtrip [py "legs"; py "sprint"; []]). vm_compute. reflexivity. Defined.

(** C2 as stated fails twice: absent does not come back as absent (the
    Python [None], here [JNull]) but as the empty list, and a string made
    of a high surrogate followed by a low surrogate comes back as the one
    character they encode. *)
Lemma tags_roundtrip_fails :
  deserialize_tags (serialize_tags None) <> JNull
  /\ deserialize_tags (serialize_tags (Some [[55357%N; 56832%N]]))
     <> JArr [JStr [55357%N; 56832%N]].
Proof. split; vm_compute; discriminate. Qed.

(** C5 (what [deserialize_tags] comes to, as amended).  For an absent
    and for an empty text the result is the empty list.  For any other
    text, whatever the limits of the interpreter, the call has an
    outcome, and this is all it can be: the value the text denotes, of
    whatever shape, when the text is well-formed JSON; the empty list
    when it is not; [RecursionError]; [ValueError].  A text shorter
    than the room left for nested calls, the room to raise set aside,
    and than the cap on digits does not reach the limits: the call then
    returns, the empty list for a text that is not well formed and the
    value of the text otherwise. *)
Theorem deserialize_tags_soft (lim : limits) (text : option pystr) :
  (text = None \/ text = Some [] -> deserialize_tags_in lim text = [Ok (JArr [])])
  /\ deserialize_tags_in lim text <> []
  /\ (forall t r,
        text = Some t -> t <> [] -> In r (deserialize_tags_in lim text) ->
        (exists v, r = Ok v /\ loads t = Some v)
        \/ (r = Ok (JArr []) /\ loads t = None)
        \/ r = Raise RecursionError
        \/ r = Raise ValueError)
  /\ (forall t,
        text = Some t ->
        (len t + raise_room lim <= nesting_room lim)%nat ->
        under_cap lim (len t) ->
        exists v,
          deserialize_tags_in lim text = [Ok v]
          /\ (loads t = None -> v = JArr [])
          /\ (forall w, t <> [] -> loads t = Some w -> v = w)).
Proof.
  split; [|split; [|split]].
  - intros [->| ->]; reflexivity.
  - destruct text as [[|c t]|]; try discriminate.
    cbn [deserialize_tags_in]. intros H. apply map_eq_nil in H.
    exact (json_loads_total lim (c :: t) H).
  - intros t r -> Ht Hin. destruct t as [|c t]; [contradiction|].
    cbn [deserialize_tags_in] in Hin. apply in_map_iff in Hin.
    destruct Hin as (r0 & <- & Hin).
    destruct (json_loads_sound lim (c :: t) r0 Hin)
      as [(v & -> & Hv)|[(-> & Hn)|[->| ->]]].
    + left. exists v. split; [reflexivity|exact Hv].
    + right. left. split; [reflexivity|exact Hn].
    + right. right. left. reflexivity.
    + right. right. right. reflexivity.
  - intros t -> Hroom Hcap. destruct t as [|c t].
    + exists (JArr []). split; [reflexivity|]. split; [reflexivity|].
      intros w Hne. contradiction.
    + cbn [deserialize_tags_in]. rewrite (json_loads_within lim (c :: t) Hroom Hcap).
      destruct (loads (c :: t)) as [v|]; cbn [map].
      * exists v. split; [reflexivity|]. split; [discriminate|].
        intros w _ E. congruence.
      * exists (JArr []). split; [reflexivity|]. split; [reflexivity|].
        intros w _ E. discriminate.
Qed.

(** An unterminated list decodes to the empty list. *)
Lemma deserialize_tags_soft_witness :
  exists v,
    deserialize_tags_in default_limits (Some (py "[unterminated")) = [Ok v]
    /\ v = JArr [].
Proof.
  destruct (deserialize_tags_soft default_limits (Some (py "[unterminated")))
    as (_ & _ & _ & H).
  destruct (H (py "[unterminated") eq_refl) as (v & Hv & Hn & _).
  - cbn. lia.
  - right. vm_compute. intros E. discriminate.
  - exists v. split; [exact Hv|]. apply Hn. vm_compute. reflexivity.
Defined.

(** C5 as stated fails in three ways: a text that is well-formed JSON
    without being a list comes back as the value it denotes, 1500
    opening brackets raise [RecursionError], and an integer of 5000
    digits raises [ValueError]. *)
Lemma deserialize_tags_not_soft :
  deserialize_tags_in default_limits (Some (py "5")) = [Ok (JInt 5)]
  /\ deserialize_tags_in default_limits (Some (py "null")) = [Ok JNull]
  /\ deserialize_tags_in default_limits (Some (repeat 91 1500)) = [Raise RecursionError]
  /\ deserialize_tags_in default_limits (Some (repeat 49 5000)) = [Raise ValueError].
Proof. repeat split; vm_compute; reflexivity. Qed.


Local Close Scope N_scope.

(** ** Connections *)

Lemma keeps_open_ret A (a : A) : keeps_open (ret a).
Proof. intros w H. exact H. Qed.

Lemma keeps_open_raise A (e : exn) : keeps_open (@raise A e).
Proof. intros w H. exact H. Qed.

Lemma keeps_open_lift A (r : res A) : keeps_open (lift r).
Proof. intros w H. exact H. Qed.

Lemma keeps_open_bind A B (m : M A) (k : A -> M B) :
  keeps_open m -> (forall a, keeps_open (k a)) -> keeps_open (bind m k).
Proof.
  intros Hm Hk w H. unfold bind. specialize (Hm w H).
  destruct (m w) as [[a|e] w']; cbn in *; [apply Hk; exact Hm|exact Hm].
Qed.

Lemma keeps_open_query A (q : stmt) (f : DB -> A) : keeps_open (query q f).
Proof.
  intros w H. unfold query. destruct (conn w) eqn:E; cbn; rewrite ?E; congruence.
Qed.

Lemma keeps_open_mapM A B (f : A -> M B) (l : list A) :
  (forall a, keeps_open (f a)) -> keeps_open (mapM f l).
Proof.
  intros Hf. induction l as [|x l IH]; cbn [mapM].
  - apply keeps_open_ret.
  - apply keeps_open_bind; [apply Hf|intros y].
    unfold keeps_open in *. intros w H. unfold bind.
    specialize (IH w H). destruct (mapM f l w) as [[ys|e] w']; cbn in *; exact IH.
Qed.

Lemma keeps_open_for_enumerate A (f : Z -> A -> M unit) (l : list A) :
  (forall i a, keeps_open (f i a)) -> forall i0, keeps_open (for_enumerate f i0 l).
Proof.
  intros Hf. induction l as [|x l IH]; intros i0; cbn [for_enumerate].
  - intros w H; exact H.
  - intros w H. unfold bind. specialize (Hf i0 x w H).
    destruct (f i0 x w) as [[[]|e] w']; cbn in *; [apply IH; exact Hf|exact Hf].
Qed.

Lemma releases_bind A B (m : M A) (k : A -> M B) :
  keeps_open m -> (forall a, releases (k a)) -> releases (bind m k).
Proof.
  intros Hm Hk w H. unfold bind. specialize (Hm w H).
  destruct (m w) as [[a|e] w']; cbn in *; [apply Hk; exact Hm|exact Hm].
Qed.

Lemma releases_raise A (e : exn) : releases (@raise A e).
Proof. intros w H. exact H. Qed.

Lemma releases_close_ret A (a : A) : releases (bind close (fun _ => ret a)).
Proof. intros w H. reflexivity. Qed.

Lemma releases_discard A (m : M A) : releases m -> releases (discard m).
Proof.
  intros Hm w H. unfold discard. specialize (Hm w H).
  destruct (m w) as [[a|e] w']; exact Hm.
Qed.

Lemma keeps_open_get_connection : keeps_open get_connection.
Proof. intros w H. cbn. discriminate. Qed.

Lemma keeps_open_insert q f : keeps_open (insert q f).
Proof.
  intros w H. unfold insert. destruct (conn w) eqn:E; cbn; rewrite ?E; try congruence.
  destruct (f (c_db c)) as [[new db']|e]; cbn; [discriminate|rewrite E; discriminate].
Qed.

Lemma keeps_open_modify q f : keeps_open (modify q f).
Proof.
  intros w H. unfold modify. destruct (conn w) eqn:E; cbn; rewrite ?E; try congruence.
  destruct (f (c_db c)) as [[new db']|e]; cbn; [discriminate|rewrite E; discriminate].
Qed.

Lemma keeps_open_commit : keeps_open commit.
Proof.
  intros w H. unfold commit. destruct (conn w) eqn:E; cbn; rewrite ?E; congruence.
Qed.

Ltac conn_step :=
  match goal with
  | |- keeps_open (bind _ _) => apply keeps_open_bind; [|intros ?]
  | |- keeps_open (ret _) => apply keeps_open_ret
  | |- keeps_open (raise _) => apply keeps_open_raise
  | |- keeps_open (lift _) => apply keeps_open_lift
  | |- keeps_open (query _ _) => apply keeps_open_query
  | |- keeps_open (insert _ _) => apply keeps_open_insert
  | |- keeps_open (modify _ _) => apply keeps_open_modify
  | |- keeps_open commit => apply keeps_open_commit
  | |- keeps_open get_connection => apply keeps_open_get_connection
  | |- keeps_open (mapM _ _) => apply keeps_open_mapM; intros ?
  | |- keeps_open (for_enumerate _ _ _) => apply keeps_open_for_enumerate; intros ? ?
  | |- releases (bind close (fun _ => ret _)) => apply releases_close_ret
  | |- releases (bind _ _) => apply releases_bind; [|intros ?]
  | |- releases (raise _) => apply releases_raise
  | |- releases (discard _) => apply releases_discard
  | |- keeps_open (match ?x with _ => _ end) => destruct x
  | |- releases (match ?x with _ => _ end) => destruct x
  | |- keeps_open (if ?x then _ else _) => destruct x
  | |- releases (if ?x then _ else _) => destruct x
  end.

Ltac conn_auto := repeat (cbv zeta; conn_step).

Section AllTools.
Variable fromisoformat : pystr -> option datetime.
Variable tags_view : list json -> list pystr.
Variable exercises_view : list json -> list exercise_payload.

Lemma keeps_open_hydrate row : keeps_open (_hydrate_workout row).
Proof. unfold _hydrate_workout, _load_sets. conn_auto. Qed.

Lemma releases_run_tool t :
  releases (run_tool fromisoformat tags_view exercises_view t).
Proof.
  destruct t; cbn [run_tool]; apply releases_discard.
  - unfold log_workout, log_workout_parsed, expect_list, log_exercise, log_set. conn_auto.
    all: try apply keeps_open_hydrate.
  - unfold add_exercise. conn_auto.
  - unfold add_set. conn_auto.
  - unfold get_workouts. conn_auto; try apply keeps_open_hydrate.
  - unfold get_last_workout. conn_auto; try apply keeps_open_hydrate.
  - unfold get_exercise_history, _load_sets. conn_auto.
  - unfold upsert_nutrition_day. conn_auto.
  - unfold upsert_meal, ensure_day. conn_auto.
  - unfold add_or_update_meal_item, ensure_day. conn_auto.
  - unfold get_nutrition_day. conn_auto.
  - unfold get_nutrition_days_summary, day_bound. conn_auto.
  - unfold delete_meal_item. conn_auto.
  - unfold delete_meal. conn_auto.
  - unfold delete_nutrition_day. conn_auto.
  - unfold log_body_metrics. conn_auto.
  - unfold get_body_metrics, day_bound. conn_auto.
  - unfold search_logs, search_workouts, search_nutrition, search_body, day_bound.
    conn_auto; try apply keeps_open_hydrate.
Qed.
End AllTools.


(** C4 (release of the connection, as amended).  Every public tool, on
    every input and every store, has closed its connection when it
    returns; when it raises, it has not closed it: the error was raised
    before the connection was opened, or the connection is left open. *)
Theorem tools_close_on_return
    (fromisoformat : pystr -> option datetime)
    (tags_view : list json -> list pystr)
    (exercises_view : list json -> list exercise_payload)
    (t : tool_call) (db : DB) :
  match call (run_tool fromisoformat tags_view exercises_view t) db with
  | (Ok _, w) => conn w = Closed
  | (Raise _, w) => conn w <> Closed
  end.
Proof.
  apply (releases_run_tool fromisoformat tags_view exercises_view t (fresh db)).
  discriminate.
Qed.

(** C4 as stated fails on error paths: [log_workout] with an exercise
    without a name raises after the workout row was written, and the
    connection is still open; [get_workouts] with a malformed date does
    the same. *)
Lemma connection_left_open :
  (fst (call (demo_log [squat; nameless]) empty_db) = Raise ValueError
   /\ exists c, conn (snd (call (demo_log [squat; nameless]) empty_db)) = Open c)
  /\ (fst (call (get_workouts (Some (py "yesterday")) None None None None 20 0) empty_db)
      = Raise ValueError
      /\ exists c,
           conn (snd (call (get_workouts (Some (py "yesterday")) None None None None 20 0)
                        empty_db)) = Open c).
Proof.
  split; split; try (vm_compute; reflexivity); eexists; vm_compute; reflexivity.
Qed.


(** ** Reading through an open connection *)

Lemma keeps_store_ret A (a : A) : keeps_store (ret a).
Proof. intros w. reflexivity. Qed.
Lemma keeps_store_raise A (e : exn) : keeps_store (@raise A e).
Proof. intros w. reflexivity. Qed.
Lemma keeps_store_lift A (r : res A) : keeps_store (lift r).
Proof. intros w. reflexivity. Qed.
Lemma keeps_store_bind A B (m : M A) (k : A -> M B) :
  keeps_store m -> (forall a, keeps_store (k a)) -> keeps_store (bind m k).
Proof.
  intros Hm Hk w. unfold bind. specialize (Hm w).
  destruct (m w) as [[a|e] w']; cbn in *; [rewrite Hk|]; exact Hm.
Qed.
Lemma keeps_store_query A (q : stmt) (f : DB -> A) : keeps_store (query q f).
Proof. intros w. unfold query. destruct (conn w); reflexivity. Qed.
Lemma keeps_store_insert q f : keeps_store (insert q f).
Proof.
  intros w. unfold insert. destruct (conn w); try reflexivity.
  destruct (f (c_db c)) as [[new db']|e]; reflexivity.
Qed.
Lemma keeps_store_modify q f : keeps_store (modify q f).
Proof.
  intros w. unfold modify. destruct (conn w); try reflexivity.
  destruct (f (c_db c)) as [[new db']|e]; reflexivity.
Qed.
Lemma keeps_store_get_connection : keeps_store get_connection.
Proof. intros w. reflexivity. Qed.
Lemma keeps_store_close : keeps_store close.
Proof. intros w. reflexivity. Qed.
Lemma keeps_store_mapM A B (f : A -> M B) (l : list A) :
  (forall a, keeps_store (f a)) -> keeps_store (mapM f l).
Proof.
  intros Hf. induction l as [|x l IH]; cbn [mapM].
  - apply keeps_store_ret.
  - apply keeps_store_bind; [apply Hf|intros y].
    apply keeps_store_bind; [exact IH|intros ys; apply keeps_store_ret].
Qed.
Lemma keeps_store_for_enumerate A (f : Z -> A -> M unit) (l : list A) :
  (forall i a, keeps_store (f i a)) -> forall i0, keeps_store (for_enumerate f i0 l).
Proof.
  intros Hf. induction l as [|x l IH]; intros i0; cbn [for_enumerate].
  - apply keeps_store_ret.
  - apply keeps_store_bind; [apply Hf|intros _; apply IH].
Qed.

Ltac store_step :=
  match goal with
  | |- keeps_store (bind _ _) => apply keeps_store_bind; [|intros ?]
  | |- keeps_store (ret _) => apply keeps_store_ret
  | |- keeps_store (raise _) => apply keeps_store_raise
  | |- keeps_store (lift _) => apply keeps_store_lift
  | |- keeps_store (query _ _) => apply keeps_store_query
  | |- keeps_store (insert _ _) => apply keeps_store_insert
  | |- keeps_store (modify _ _) => apply keeps_store_modify
  | |- keeps_store get_connection => apply keeps_store_get_connection
  | |- keeps_store close => apply keeps_store_close
  | |- keeps_store (mapM _ _) => apply keeps_store_mapM; intros ?
  | |- keeps_store (for_enumerate _ _ _) => apply keeps_store_for_enumerate; intros ? ?
  | |- keeps_store (match ?x with _ => _ end) => destruct x
  | |- keeps_store (if ?x then _ else _) => destruct x
  end.
Ltac store_auto := repeat (cbv zeta; store_step).

Lemma domain_queries_app a b :
  domain_queries (a ++ b) = domain_queries a ++ domain_queries b.
Proof.
  induction a as [|q a IH]; [reflexivity|].
  cbn [app domain_queries]. destruct (domain_query q); rewrite IH; reflexivity.
Qed.

Lemma reads_ret A (a : A) : reads (ret a) (fun _ => a).
Proof. intros s db l t. exists []. rewrite app_nil_r. split; reflexivity. Qed.

Lemma reads_query A q (f : DB -> A) : domain_query q = None -> reads (query q f) f.
Proof.
  intros Hq s db l t. exists [q]. split; [reflexivity|].
  cbn [domain_queries]. rewrite Hq. reflexivity.
Qed.

Lemma reads_mapM A B (f : A -> M B) (g : A -> DB -> B) (l : list A) :
  (forall a, reads (f a) (g a)) ->
  reads (mapM f l) (fun db => map (fun a => g a db) l).
Proof.
  intros Hf. induction l as [|x l IH]; cbn [mapM map].
  - apply reads_ret.
  - intros s db l0 t. unfold bind.
    destruct (Hf x s db l0 t) as (e1 & E1 & Q1). rewrite E1.
    destruct (IH s db l0 (t ++ e1)) as (e2 & E2 & Q2). rewrite E2.
    exists (e1 ++ e2). rewrite app_assoc. split; [reflexivity|].
    rewrite domain_queries_app, Q1, Q2. reflexivity.
Qed.

Lemma reads_load_sets eid : reads (_load_sets eid) (select_sets eid).
Proof. apply reads_query. reflexivity. Qed.

Lemma reads_exercise e :
  reads (ss <- _load_sets (e_id e) ;; ret {| ex_row := e; ex_sets := ss |})
        (fun db => {| ex_row := e; ex_sets := select_sets (e_id e) db |}).
Proof.
  intros s db l t. unfold bind.
  destruct (reads_load_sets (e_id e) s db l t) as (e1 & E1 & Q1). rewrite E1.
  exists e1. split; [reflexivity|exact Q1].
Qed.

Lemma reads_hydrate row : reads (_hydrate_workout row) (fun db => hydrate db row).
Proof.
  intros s db l t. unfold _hydrate_workout, bind.
  destruct (reads_query _ (SSelect Texercises None) (select_exercises (w_id row))
              eq_refl s db l t) as (e1 & E1 & Q1).
  rewrite E1.
  destruct (reads_mapM _ _ _ _ (select_exercises (w_id row) db) reads_exercise
              s db l (t ++ e1)) as (e2 & E2 & Q2).
  unfold bind in E2. rewrite E2.
  exists (e1 ++ e2). rewrite app_assoc. split; [reflexivity|].
  rewrite domain_queries_app, Q1, Q2. reflexivity.
Qed.

(** ** [log_workout] *)

(* record algebra *)
Lemma set_sets_same db : set_sets db (sets db) = db.
Proof. destruct db; reflexivity. Qed.
Lemma set_sets_twice db t1 t2 : set_sets (set_sets db t1) t2 = set_sets db t2.
Proof. reflexivity. Qed.
Lemma set_exercises_same db : set_exercises db (exercises db) = db.
Proof. destruct db; reflexivity. Qed.

Lemma existsb_app_true A (p : A -> bool) l1 l2 :
  existsb p l1 = true -> existsb p (l1 ++ l2) = true.
Proof. intros H. rewrite existsb_app, H. reflexivity. Qed.

Lemma has_id_inserted R (rowid : R -> Z) (mk : Z -> R) (t : table R) :
  (forall id, rowid (mk id) = id) ->
  has_id rowid (fst (tbl_insert rowid mk t)) (snd (tbl_insert rowid mk t)) = true.
Proof.
  intros Hmk. unfold has_id, tbl_insert. cbn [fst snd rows].
  rewrite existsb_app. cbn [existsb]. rewrite Hmk, Z.eqb_refl.
  rewrite orb_true_r. reflexivity.
Qed.

Lemma has_id_kept R (rowid : R -> Z) (mk : Z -> R) (t : table R) x :
  has_id rowid x t = true ->
  has_id rowid x (snd (tbl_insert rowid mk t)) = true.
Proof.
  intros H. unfold has_id, tbl_insert in *. cbn [snd rows].
  apply existsb_app_true. exact H.
Qed.

Lemma max_rowid_nonneg R (rowid : R -> Z) (l : list R) : 0 <= max_rowid rowid l.
Proof. unfold max_rowid. induction l as [|x l IH]; cbn [fold_right]; lia. Qed.

Lemma max_rowid_app R (rowid : R -> Z) (l l' : list R) :
  max_rowid rowid (l ++ l') = Z.max (max_rowid rowid l) (max_rowid rowid l').
Proof.
  unfold max_rowid. induction l as [|x l IH]; cbn [app fold_right].
  - pose proof (max_rowid_nonneg R rowid l') as H. unfold max_rowid in H. lia.
  - rewrite IH. lia.
Qed.

Lemma max_rowid_same_ids R (rowid : R -> Z) (l l' : list R) :
  map rowid l = map rowid l' -> max_rowid rowid l = max_rowid rowid l'.
Proof.
  unfold max_rowid. revert l'. induction l as [|x l IH]; intros [|y l'] H;
    try discriminate; [reflexivity|].
  cbn [map] in H. injection H as Hx Hl. cbn [fold_right]. rewrite Hx, (IH l' Hl).
  reflexivity.
Qed.

(** The rowid drawn next is above the rowids of the table and above its
    sequence. *)
Lemma next_rowid_over R (rowid : R -> Z) (t : table R) :
  max_rowid rowid (rows t) <= next_rowid rowid t.
Proof. unfold next_rowid. lia. Qed.

Lemma next_rowid_positive_any R (rowid : R -> Z) (t : table R) :
  0 < next_rowid rowid t.
Proof. unfold next_rowid. pose proof (max_rowid_nonneg R rowid (rows t)). lia. Qed.

(** On a table whose sequence is not below its rowids the next rowid is
    the sequence plus one. *)
Lemma next_rowid_drawn R (rowid : R -> Z) (l : list R) (a : Z) :
  max_rowid rowid l <= a -> 0 <= a ->
  next_rowid rowid {| rows := l; autoinc := a |} = a + 1.
Proof. intros H1 H2. unfold next_rowid. cbn [rows autoinc]. lia. Qed.

Lemma last_cons A (a d : A) l : last (a :: l) d = last l a.
Proof.
  revert a d. induction l as [|b l IH]; intros a d; [reflexivity|].
  change (last (a :: b :: l) d) with (last (b :: l) d). rewrite !IH. reflexivity.
Qed.

Lemma appended_next_rowid R (rowid : R -> Z) (t : table R) (row : R) :
  rowid row = next_rowid rowid t ->
  next_rowid rowid {| rows := rows t ++ [row]; autoinc := next_rowid rowid t |}
  = next_rowid rowid t + 1.
Proof.
  intros Hrow. apply next_rowid_drawn.
  - rewrite max_rowid_app. unfold max_rowid at 2. cbn [fold_right]. rewrite Hrow.
    pose proof (next_rowid_over R rowid t).
    pose proof (next_rowid_positive_any R rowid t). lia.
  - pose proof (next_rowid_positive_any R rowid t). lia.
Qed.

Lemma log_set_step eid i0 p ps s db l t :
  has_id e_id eid (exercises db) = true ->
  side_ok (side (sp_fields p)) = true ->
  let id := next_rowid s_id (sets db) in
  let row := {| s_id := id; s_exercise_id := eid;
                s_set_index := or_default (sp_set_index p) i0;
                s_fields := sp_fields p;
                s_is_warmup := warmup_flag (sp_is_warmup p) |} in
  for_enumerate (log_set eid) i0 (p :: ps) (opened s db l t)
  = for_enumerate (log_set eid) (i0 + 1) ps
      (opened s (set_sets db {| rows := rows (sets db) ++ [row]; autoinc := id |})
         id (t ++ [SInsert Tsets])).
Proof.
  intros Hex Hside id row. unfold opened.
  cbn [for_enumerate]. unfold bind at 1. unfold log_set at 1. unfold bind at 1.
  unfold insert. cbn [conn c_db store trace c_last_insert_rowid].
  unfold insert_set. rewrite Hside, Hex. reflexivity.
Qed.

Lemma log_set_fail eid i0 p ps s db l t :
  side_ok (side (sp_fields p)) = false ->
  exists e w',
    for_enumerate (log_set eid) i0 (p :: ps) (opened s db l t) = (Raise e, w').
Proof.
  intros Hside. unfold opened.
  cbn [for_enumerate]. unfold bind at 1. unfold log_set at 1. unfold bind at 1.
  unfold insert. cbn [conn c_db store trace c_last_insert_rowid].
  unfold insert_set. rewrite Hside. cbn. eexists. eexists. reflexivity.
Qed.

Lemma log_sets_run eid : forall ps i0 s db l t,
  has_id e_id eid (exercises db) = true ->
  if sets_valid ps then
    exists ts l' t' new,
      for_enumerate (log_set eid) i0 ps (opened s db l t)
      = (Ok tt, opened s (set_sets db ts) l' t')
      /\ rows ts = rows (sets db) ++ new
      /\ map set_view new = map (expected_set eid) (enumerate_from i0 ps)
      /\ map s_id new = map fst (enumerate_from (next_rowid s_id (sets db)) new)
      /\ autoinc ts = last (map s_id new) (autoinc (sets db))
      /\ next_rowid s_id ts = next_rowid s_id (sets db) + Z.of_nat (List.length new)
  else
    exists e w', for_enumerate (log_set eid) i0 ps (opened s db l t) = (Raise e, w').
Proof.
  induction ps as [|p ps IH]; intros i0 s db l t Hex.
  - cbn. exists (sets db), l, t, []. rewrite set_sets_same, app_nil_r.
    repeat split; try reflexivity. cbn [List.length Z.of_nat]. lia.
  - cbn [sets_valid forallb].
    destruct (side_ok (side (sp_fields p))) eqn:Hside; cbn [andb];
      [|apply log_set_fail; exact Hside].
    rewrite (log_set_step eid i0 p ps s db l t Hex Hside).
    set (id := next_rowid s_id (sets db)).
    set (row := {| s_id := id; s_exercise_id := eid;
                   s_set_index := or_default (sp_set_index p) i0;
                   s_fields := sp_fields p;
                   s_is_warmup := warmup_flag (sp_is_warmup p) |}).
    set (t1 := {| rows := rows (sets db) ++ [row]; autoinc := id |}).
    specialize (IH (i0 + 1) s (set_sets db t1) id (t ++ [SInsert Tsets]) Hex).
    fold (sets_valid ps) in *.
    destruct (sets_valid ps).
    + destruct IH as (ts & l' & t' & new & Hrun & Hrows & Hview & Hids & Hseq & Hnext).
      assert (Hdrawn : next_rowid s_id (sets (set_sets db t1)) = id + 1)
        by (apply (appended_next_rowid _ s_id (sets db) row); reflexivity).
      rewrite Hdrawn in Hids, Hnext.
      exists ts, l', t', (row :: new).
      split; [exact Hrun|]. repeat split.
      * rewrite Hrows. cbn [sets set_sets t1 rows]. rewrite <- app_assoc. reflexivity.
      * cbn [map enumerate_from]. rewrite Hview. reflexivity.
      * cbn [map enumerate_from fst]. rewrite Hids. reflexivity.
      * rewrite Hseq. cbn [map sets set_sets t1 autoinc]. rewrite last_cons. reflexivity.
      * rewrite Hnext. cbn [List.length]. fold id. lia.
    + exact IH.
Qed.

Lemma log_exercise_no_name wid i p s db l t :
  truthy_str (ep_name p) = false ->
  log_exercise wid i p (opened s db l t) = (Raise ValueError, opened s db l t).
Proof.
  intros H. unfold log_exercise. destruct (ep_name p) as [[|c n]|]; try reflexivity.
  discriminate.
Qed.

Lemma log_exercise_named wid i p s db l t :
  truthy_str (ep_name p) = true ->
  has_id w_id wid (workouts db) = true ->
  exists name,
    ep_name p = Some name /\
    let id := next_rowid e_id (exercises db) in
    let row := {| e_id := id; e_workout_id := wid; e_order_index := i;
                  e_name := name; e_category := ep_category p;
                  e_notes := ep_notes p |} in
    log_exercise wid i p (opened s db l t)
    = for_enumerate (log_set id) 1 (payload_sets p)
        (opened s (set_exercises db {| rows := rows (exercises db) ++ [row]; autoinc := id |})
           id (t ++ [SInsert Texercises])).
Proof.
  intros Hn Hw. unfold log_exercise.
  destruct (ep_name p) as [[|c n]|]; try discriminate.
  exists (c :: n). split; [reflexivity|]. cbv zeta.
  unfold opened, bind at 1, insert.
  cbn [conn c_db store trace c_last_insert_rowid].
  unfold insert_exercise. rewrite Hw. reflexivity.
Qed.

Lemma enumerate_from_app A (l l' : list A) : forall i,
  enumerate_from i (l ++ l')
  = enumerate_from i l ++ enumerate_from (i + Z.of_nat (List.length l)) l'.
Proof.
  induction l as [|x l IH]; intros i; cbn [app enumerate_from List.length].
  - rewrite Z.add_0_r. reflexivity.
  - rewrite IH. do 3 f_equal. lia.
Qed.

Lemma last_app_default A (l l' : list A) d : last l' (last l d) = last (l ++ l') d.
Proof.
  revert d. induction l as [|a l IH]; intros d; [reflexivity|].
  rewrite last_cons. rewrite IH. cbn [app]. rewrite last_cons. reflexivity.
Qed.

Lemma for_enumerate_cons A (f : Z -> A -> M unit) i0 x l w :
  for_enumerate f i0 (x :: l) w =
  match f i0 x w with
  | (Ok _, w') => for_enumerate f (i0 + 1) l w'
  | (Raise e, w') => (Raise e, w')
  end.
Proof. reflexivity. Qed.

Lemma log_exercises_run wid : forall exs i0 s db l t,
  has_id w_id wid (workouts db) = true ->
  if exercises_valid exs then
    exists te ts l' t' newex newsets,
      for_enumerate (log_exercise wid) i0 exs (opened s db l t)
      = (Ok tt, opened s (set_sets (set_exercises db te) ts) l' t')
      /\ rows te = rows (exercises db) ++ newex
      /\ rows ts = rows (sets db) ++ newsets
      /\ map exercise_view newex = map (expected_exercise wid) (enumerate_from i0 exs)
      /\ map set_view newsets = flat_map expected_sets (combine newex exs)
      /\ map e_id newex = map fst (enumerate_from (next_rowid e_id (exercises db)) newex)
      /\ map s_id newsets = map fst (enumerate_from (next_rowid s_id (sets db)) newsets)
      /\ autoinc te = last (map e_id newex) (autoinc (exercises db))
      /\ autoinc ts = last (map s_id newsets) (autoinc (sets db))
      /\ next_rowid e_id te
         = next_rowid e_id (exercises db) + Z.of_nat (List.length newex)
      /\ next_rowid s_id ts
         = next_rowid s_id (sets db) + Z.of_nat (List.length newsets)
  else
    exists e w', for_enumerate (log_exercise wid) i0 exs (opened s db l t) = (Raise e, w').
Proof.
  induction exs as [|p exs IH]; intros i0 s db l t Hw.
  - cbn. exists (exercises db), (sets db), l, t, [], [].
    rewrite set_exercises_same, set_sets_same, !app_nil_r.
    repeat split; try reflexivity; cbn [List.length Z.of_nat]; lia.
  - cbn [exercises_valid forallb]. unfold exercise_valid at 1.
    rewrite !for_enumerate_cons.
    destruct (truthy_str (ep_name p)) eqn:Hn; cbn [andb].
    2:{ rewrite (log_exercise_no_name wid i0 p s db l t Hn). eexists. eexists. reflexivity. }
    destruct (log_exercise_named wid i0 p s db l t Hn Hw) as (name & Hname & Hstep).
    cbv zeta in Hstep. rewrite Hstep. clear Hstep.
    set (id := next_rowid e_id (exercises db)).
    set (row := {| e_id := id; e_workout_id := wid; e_order_index := i0;
                   e_name := name; e_category := ep_category p;
                   e_notes := ep_notes p |}).
    set (te1 := {| rows := rows (exercises db) ++ [row]; autoinc := id |}).
    assert (Hid : has_id e_id id (exercises (set_exercises db te1)) = true).
    { apply (has_id_inserted _ e_id (fun id => {| e_id := id; e_workout_id := wid; e_order_index := i0;
                   e_name := name; e_category := ep_category p;
                   e_notes := ep_notes p |}) (exercises db)). reflexivity. }
    pose proof (log_sets_run id (payload_sets p) 1 s (set_exercises db te1) id
                  (t ++ [SInsert Texercises]) Hid) as Hsets.
    destruct (sets_valid (payload_sets p)).
    2:{ destruct Hsets as (e & w' & Hrun). rewrite Hrun.
        destruct (forallb exercise_valid exs); eexists; eexists; reflexivity. }
    destruct Hsets as (ts1 & l1 & t1 & new1 & Hrun & Hrows1 & Hview1 & Hids1 & Hseq1 & Hnext1).
    rewrite Hrun. clear Hrun.
    specialize (IH (i0 + 1) s (set_sets (set_exercises db te1) ts1) l1 t1 Hw).
    fold (exercises_valid exs) in *.
    destruct (exercises_valid exs).
    + destruct IH as (te & ts & l' & t' & newex & newsets & Hrun & Hre & Hrs & Hve & Hvs
                      & Hie & His & Hse & Hss & Hne & Hns).
      cbn [exercises sets set_sets set_exercises] in Hie, His, Hse, Hss, Hne, Hns,
        Hids1, Hseq1, Hnext1.
      assert (Hdrawn : next_rowid e_id te1 = id + 1)
        by (apply (appended_next_rowid _ e_id (exercises db) row); reflexivity).
      rewrite Hdrawn in Hie, Hne. rewrite Hnext1 in His, Hns.
      exists te, ts, l', t', (row :: newex), (new1 ++ newsets).
      split; [exact Hrun|]. repeat split.
      * rewrite Hre. cbn [exercises set_sets set_exercises te1 rows].
        rewrite <- app_assoc. reflexivity.
      * rewrite Hrs. cbn [sets set_sets]. rewrite Hrows1.
        cbn [sets set_exercises]. rewrite <- app_assoc. reflexivity.
      * cbn [map enumerate_from]. f_equal; [|exact Hve].
        unfold exercise_view, expected_exercise. cbn. rewrite Hname. reflexivity.
      * cbn [combine flat_map]. rewrite map_app, Hview1, Hvs. reflexivity.
      * cbn [map enumerate_from fst]. rewrite Hie. reflexivity.
      * rewrite map_app, enumerate_from_app, map_app, <- Hids1, <- His. reflexivity.
      * rewrite Hse. cbn [map te1 autoinc]. rewrite last_cons. reflexivity.
      * rewrite Hss, Hseq1, map_app. apply last_app_default.
      * rewrite Hne. cbn [List.length]. fold id. lia.
      * rewrite Hns, length_app. lia.
    + exact IH.
Qed.

Lemma expect_list_normalized A (view : list json -> list A) a w :
  expect_list (_parse_json_array view a) w = (normalized view a, w).
Proof.
  unfold expect_list, normalized.
  destruct (_parse_json_array view a); reflexivity.
Qed.

Lemma max_rowid_ge R (rowid : R -> Z) (l : list R) r :
  In r l -> rowid r <= max_rowid rowid l.
Proof.
  induction l as [|x l IH]; cbn [In max_rowid fold_right]; [tauto|].
  intros [->|H]; [lia|]. specialize (IH H). unfold max_rowid in IH. lia.
Qed.

Lemma next_rowid_fresh R (rowid : R -> Z) (t : table R) r :
  In r (rows t) -> rowid r < next_rowid rowid t.
Proof.
  intros H. apply (max_rowid_ge R rowid) in H. unfold next_rowid. lia.
Qed.

Lemma find_appended R (rowid : R -> Z) (t : table R) (row : R) :
  rowid row = next_rowid rowid t ->
  find (fun r => rowid r =? next_rowid rowid t) (rows t ++ [row]) = Some row.
Proof.
  intros Hrow.
  assert (H : forall l, (forall r, In r l -> rowid r < next_rowid rowid t) ->
            find (fun r => rowid r =? next_rowid rowid t) (l ++ [row]) = Some row).
  { induction l as [|x l IH]; intros Hl; cbn [app find].
    - rewrite Hrow, Z.eqb_refl. reflexivity.
    - destruct (Z.eqb_spec (rowid x) (next_rowid rowid t)) as [E|E].
      + specialize (Hl x (or_introl eq_refl)). lia.
      + apply IH. intros r Hr. apply Hl. right. exact Hr. }
  apply H. intros r Hr. apply next_rowid_fresh. exact Hr.
Qed.

Section LogWorkout.
Variable fromisoformat : pystr -> option datetime.
Variable tags_view : list json -> list pystr.
Variable exercises_view : list json -> list exercise_payload.

Lemma keeps_store_log_exercises wid i0 exs :
  keeps_store (for_enumerate (log_exercise wid) i0 exs).
Proof. unfold log_exercise, log_set. store_auto. Qed.

Theorem log_workout_run dt ty tags notes exs db :
  log_workout_outcome fromisoformat tags_view exercises_view dt ty tags notes exs db
    (call (log_workout fromisoformat tags_view exercises_view dt ty tags notes exs) db).
Proof.
  remember (call (log_workout fromisoformat tags_view exercises_view dt ty tags notes exs) db)
    as out eqn:Hout.
  unfold log_workout_outcome, call, log_workout, log_workout_parsed in *. cbv zeta in Hout.
  unfold bind at 1 in Hout. rewrite expect_list_normalized in Hout.
  destruct (normalized tags_view tags) as [tg|e1];
    [|subst out; exists e1; split; reflexivity].
  unfold bind at 1 in Hout. rewrite expect_list_normalized in Hout.
  destruct (normalized exercises_view exs) as [ex|e2];
    [|subst out; exists e2; split; reflexivity].
  unfold bind at 1 in Hout. unfold lift, _ensure_iso_date in Hout.
  destruct (fromisoformat dt) as [d|];
    [|subst out; exists ValueError; split; reflexivity].
  unfold bind at 1 in Hout. unfold get_connection, fresh in Hout.
  cbn [store trace app] in Hout.
  unfold bind at 1 in Hout. unfold insert at 1 in Hout.
  cbn [conn c_db store trace c_last_insert_rowid] in Hout.
  unfold insert_workout, tbl_insert, inserted in Hout.
  set (wid := next_rowid w_id (workouts db)) in *.
  set (wrow := {| w_id := wid; w_date_time := isoformat d; w_workout_type := ty;
                  w_tags := serialize_tags tg; w_notes := notes |}) in *.
  set (tw := {| rows := rows (workouts db) ++ [wrow]; autoinc := wid |}) in *.
  fold (list_of ex) in Hout.
  assert (Hw : has_id w_id wid (workouts (set_workouts db tw)) = true).
  { apply (has_id_inserted _ w_id (fun id => {| w_id := id; w_date_time := isoformat d;
              w_workout_type := ty; w_tags := serialize_tags tg; w_notes := notes |})
             (workouts db)). reflexivity. }
  pose proof (log_exercises_run wid (list_of ex) 1 db (set_workouts db tw) wid
                ([SPragma] ++ [SInsert Tworkouts]) Hw) as Hloop.
  unfold opened in Hloop. unfold bind at 1 in Hout.
  destruct (exercises_valid (list_of ex)).
  - destruct Hloop as (te & ts & l' & t' & newex & newsets & Hrun & Hre & Hrs & Hve & Hvs
                        & Hie & His & Hse & Hss & _ & _).
    cbn [app] in Hrun, Hout. rewrite Hrun in Hout.
    unfold bind at 1 in Hout. unfold commit at 1 in Hout.
    cbn [conn c_db store trace] in Hout.
    unfold bind at 1 in Hout. unfold query at 1 in Hout.
    cbn [conn c_db store trace] in Hout.
    set (db' := set_sets (set_exercises (set_workouts db tw) te) ts) in *.
    assert (Hfind : find (fun w => w_id w =? wid) (rows (workouts db')) = Some wrow).
    { cbn [db' workouts set_sets set_exercises set_workouts tw rows].
      apply (find_appended _ w_id (workouts db) wrow). reflexivity. }
    rewrite Hfind in Hout. unfold log_stmt in Hout.
    cbn [conn c_db store trace] in Hout.
    unfold bind at 1 in Hout.
    destruct (reads_hydrate wrow db' db' l' (t' ++ [SSelect Tworkouts None])) as (t2 & Hh & _).
    unfold opened in Hh. rewrite Hh in Hout.
    cbn [close bind ret] in Hout. subst out.
    exists tw, te, ts, newex, newsets. cbn [fst snd store conn].
    repeat split; try assumption; reflexivity.
  - destruct Hloop as (e & w' & Hrun). cbn [app] in Hrun, Hout. rewrite Hrun in Hout.
    subst out. exists e. split; [reflexivity|]. cbn [snd].
    pose proof (keeps_store_log_exercises wid 1 (list_of ex)) as Hk.
    specialize (Hk {| store := db;
                      conn := Open {| c_db := set_workouts db tw; c_last_insert_rowid := wid |};
                      trace := [SPragma; SInsert Tworkouts] |}).
    rewrite Hrun in Hk. exact Hk.
Qed.

End LogWorkout.



Lemma length_enumerate_from A (l : list A) : forall i,
  List.length (enumerate_from i l) = List.length l.
Proof.
  induction l as [|x l IH]; intros i; [reflexivity|].
  cbn [enumerate_from List.length]. rewrite IH. reflexivity.
Qed.

Lemma length_expected_sets (l : list exercise_payload) : forall newex,
  List.length newex = List.length l ->
  List.length (flat_map expected_sets (combine newex l))
  = List.length (flat_map payload_sets l).
Proof.
  induction l as [|p l IH]; intros [|e newex] Hl; try discriminate; [reflexivity|].
  cbn [combine flat_map]. rewrite !length_app. unfold expected_sets at 1.
  cbn [fst snd]. rewrite length_map, length_enumerate_from.
  f_equal. apply IH. cbn [List.length] in Hl. lia.
Qed.




(** ** Explicit set indices in [log_workout] *)

Lemma set_index_expected (l : list exercise_payload) : forall newex,
  List.length newex = List.length l ->
  map (fun v : Z * Z * set_fields * Z => snd (fst (fst v)))
      (flat_map expected_sets (combine newex l))
  = flat_map
      (fun e =>
         map (fun ip : Z * set_payload =>
                match sp_set_index (snd ip) with
                | Some 0 => fst ip
                | Some z => z
                | None => fst ip
                end)
             (enumerate_from 1 (payload_sets e)))
      l.
Proof.
  induction l as [|p l IH]; intros [|e newex] Hl; try discriminate; [reflexivity|].
  cbn [combine flat_map]. rewrite map_app. f_equal.
  - unfold expected_sets. cbn [fst snd]. rewrite map_map.
    apply map_ext. intros [i sp]. unfold expected_set, or_default. cbn [fst snd].
    destruct (sp_set_index sp) as [[|z|z]|]; reflexivity.
  - apply IH. cbn [List.length] in Hl. lia.
Qed.

(** C10 (explicit set indices).  When [log_workout] returns, the set
    rows it appended carry, exercise by exercise and set by set, the
    explicit [set_index] of the payload when it is given and not zero,
    and otherwise (no explicit index, or the falsy index 0) the 1-based
    position of the set in its exercise's list. *)
Theorem log_workout_set_index
    (fromisoformat : pystr -> option datetime)
    (tags_view : list json -> list pystr)
    (exercises_view : list json -> list exercise_payload)
    (date_time : pystr) (workout_type : option pystr) (tags : py_arg pystr)
    (notes : option pystr) (exs : py_arg exercise_payload) (db : DB) (r : workout) :
  let out :=
    call (log_workout fromisoformat tags_view exercises_view
            date_time workout_type tags notes exs) db in
  fst out = Ok r ->
  exists newsets ex,
    normalized exercises_view exs = Ok ex
    /\ rows (sets (store (snd out))) = rows (sets db) ++ newsets
    /\ map s_set_index newsets
       = flat_map
           (fun e =>
              map (fun ip : Z * set_payload =>
                     match sp_set_index (snd ip) with
                     | Some 0 => fst ip
                     | Some z => z
                     | None => fst ip
                     end)
                  (enumerate_from 1 (payload_sets e)))
           (list_of ex).
Proof.
  intros out Hok.
  pose proof (log_workout_run fromisoformat tags_view exercises_view
                date_time workout_type tags notes exs db) as H.
  fold out in H. unfold log_workout_outcome in H.
  destruct (normalized tags_view tags) as [tg|e1];
    [|destruct H as (e & He & _); congruence].
  destruct (normalized exercises_view exs) as [ex|e2];
    [|destruct H as (e & He & _); congruence].
  destruct (fromisoformat date_time) as [d|];
    [|destruct H as (e & He & _); congruence].
  destruct (exercises_valid (list_of ex));
    [|destruct H as (e & He & _); congruence].
  destruct H as (tw & te & ts & newex & newsets & H).
  cbv zeta in H.
  destruct H as (_ & Hs & _ & _ & _ & Hss & Hve & Hvs & _).
  exists newsets, ex. rewrite Hs.
  cbn [sets set_sets]. repeat split; [exact Hss|].
  assert (Hlen : List.length newex = List.length (list_of ex)).
  { apply (f_equal (@List.length _)) in Hve.
    rewrite !length_map, length_enumerate_from in Hve. exact Hve. }
  rewrite <- (set_index_expected (list_of ex) newex Hlen), <- Hvs, map_map.
  reflexivity.
Qed.

(** Three sets logged with no index, with index 0 and with index 7 are
    stored at 1, 2 and 7. *)
Lemma log_workout_set_index_witness :
  map s_set_index (rows (sets (store (snd (call (demo_log [squat]) empty_db)))))
  = [1; 2; 7].
Proof.
  destruct (log_workout_set_index fromisoformat_seconds strings_view no_exercises_view
              (py "2026-01-06T23:59:59") None (ArgList [py "legs"; py "sprint"]) None
              (ArgList [squat]) empty_db
              (hydrate demo_db (nth 0 (rows (workouts demo_db))
                 {| w_id := 0; w_date_time := []; w_workout_type := None;
                    w_tags := None; w_notes := None |})))
    as (newsets & ex & Hn & Hrows & Hidx).
  - vm_compute. reflexivity.
  - unfold demo_log. rewrite Hrows.
    vm_compute in Hn. injection Hn as Hex. subst ex.
    rewrite map_app, Hidx. vm_compute. reflexivity.
Defined.


(** ** [add_set] *)

Lemma add_set_call eid f wu db :
  call (add_set eid f wu) db =
  if negb (side_ok (side f)) then
    (Raise IntegrityError,
     {| store := db; conn := Open {| c_db := db; c_last_insert_rowid := 0 |};
        trace := [SPragma; SSelect Tsets None; SInsert Tsets] |})
  else if has_id e_id eid (exercises db) then
    let row := added_set eid f wu db in
    let db' := set_sets db {| rows := rows (sets db) ++ [row]; autoinc := s_id row |} in
    (Ok (s_id row),
     {| store := db'; conn := Closed;
        trace := [SPragma; SSelect Tsets None; SInsert Tsets] |})
  else
    (Raise IntegrityError,
     {| store := db; conn := Open {| c_db := db; c_last_insert_rowid := 0 |};
        trace := [SPragma; SSelect Tsets None; SInsert Tsets] |}).
Proof.
  unfold call, add_set, fresh.
  unfold bind, get_connection, query, insert, commit, close, ret, log_stmt.
  cbn [conn c_db store trace c_last_insert_rowid fst snd app].
  unfold insert_set.
  destruct (side_ok (side f)); cbn [negb inserted]; [|reflexivity].
  destruct (has_id e_id eid (exercises db)); reflexivity.
Qed.

Lemma add_set_run eid f wu db :
  has_id e_id eid (exercises db) = true ->
  side_ok (side f) = true ->
  let row := added_set eid f wu db in
  fst (call (add_set eid f wu) db) = Ok (s_id row)
  /\ store (snd (call (add_set eid f wu) db))
     = set_sets db {| rows := rows (sets db) ++ [row]; autoinc := s_id row |}
  /\ conn (snd (call (add_set eid f wu) db)) = Closed.
Proof.
  intros Hex Hside row. rewrite add_set_call, Hside, Hex. cbn.
  repeat split.
Qed.

Lemma add_set_fails eid f wu db :
  has_id e_id eid (exercises db) = false \/ side_ok (side f) = false ->
  fst (call (add_set eid f wu) db) = Raise IntegrityError
  /\ store (snd (call (add_set eid f wu) db)) = db.
Proof.
  intros H. rewrite add_set_call.
  destruct (side_ok (side f)); cbn [negb].
  - destruct (has_id e_id eid (exercises db)); [destruct H; discriminate|].
    split; reflexivity.
  - split; reflexivity.
Qed.

Lemma sets_of_added eid f wu db :
  sets_of eid (set_sets db {| rows := rows (sets db) ++ [added_set eid f wu db];
                              autoinc := s_id (added_set eid f wu db) |})
  = sets_of eid db ++ [added_set eid f wu db].
Proof.
  unfold sets_of. cbn [sets set_sets rows]. rewrite filter_app.
  cbn [filter added_set s_exercise_id]. rewrite Z.eqb_refl. reflexivity.
Qed.

Lemma fold_max_ge l : forall x, x <= fold_left Z.max l x.
Proof.
  induction l as [|y l IH]; intros x; cbn [fold_left]; [lia|].
  specialize (IH (Z.max x y)). lia.
Qed.

Lemma fold_max_In l : forall x y, In y l -> y <= fold_left Z.max l x.
Proof.
  induction l as [|z l IH]; intros x y H; [contradiction|].
  cbn [fold_left]. destruct H as [->|H].
  - pose proof (fold_max_ge l (Z.max x y)). lia.
  - apply IH. exact H.
Qed.

Lemma coalesce_max_ge l y : In y l -> y <= coalesce_max l.
Proof.
  destruct l as [|x l]; [contradiction|]. cbn [coalesce_max].
  intros [->|H]; [apply fold_max_ge|apply fold_max_In; exact H].
Qed.

Lemma coalesce_max_snoc l :
  coalesce_max (l ++ [coalesce_max l + 1]) = coalesce_max l + 1.
Proof.
  destruct l as [|x l]; [reflexivity|].
  cbn [app coalesce_max]. rewrite fold_left_app. cbn [fold_left]. lia.
Qed.

Lemma has_exercise_after_add eid f wu db :
  exercises (set_sets db {| rows := rows (sets db) ++ [added_set eid f wu db];
                            autoinc := s_id (added_set eid f wu db) |})
  = exercises db.
Proof. reflexivity. Qed.

Lemma map_seq_count_up n : forall a : nat,
  map Z.of_nat (List.seq a n) = count_up (Z.of_nat a) n.
Proof.
  induction n as [|k IH]; intros a; [reflexivity|].
  cbn [List.seq map count_up]. rewrite IH. f_equal. f_equal. lia.
Qed.

Lemma add_sets_indices eid : forall ps db,
  has_id e_id eid (exercises db) = true ->
  forallb (fun p => side_ok (side (fst p))) ps = true ->
  map (fun s => (s_set_index s, s_fields s)) (sets_of eid (add_sets eid ps db))
  = map (fun s => (s_set_index s, s_fields s)) (sets_of eid db)
    ++ combine (count_up (next_set_index eid db) (List.length ps)) (map fst ps).
Proof.
  induction ps as [|[f wu] ps IH]; intros db Hex Hs.
  - cbn. rewrite app_nil_r. reflexivity.
  - cbn [forallb fst] in Hs. apply andb_prop in Hs. destruct Hs as [Hside Hs].
    cbn [add_sets].
    destruct (add_set_run eid f wu db Hex Hside) as (_ & Hstore & _).
    rewrite Hstore. rewrite IH; [|exact Hex|exact Hs].
    rewrite sets_of_added. rewrite map_app. rewrite <- app_assoc. f_equal.
    cbn [map List.length count_up combine fst added_set s_set_index s_fields app].
    f_equal. f_equal. f_equal.
    unfold next_set_index. rewrite sets_of_added, map_app. cbn [map added_set s_set_index].
    unfold next_set_index. rewrite coalesce_max_snoc. reflexivity.
Qed.

Lemma one_to_count_up n : one_to n = count_up 1 n.
Proof. exact (map_seq_count_up n 1%nat). Qed.

(** C7 (amended).  On an exercise with no set, [N] successive [add_set]
    calls leave the set indices [1..N], in call order.  Each call
    appends one row whose index is the largest index stored for the
    exercise (0 when there is none) plus one, which is greater than
    every index stored for the exercise at that moment. *)
Theorem add_set_positions (exercise_id : Z) (ps : list (set_fields * bool)) (db : DB) :
  has_id e_id exercise_id (exercises db) = true ->
  forallb (fun p => side_ok (side (fst p))) ps = true ->
  (sets_of exercise_id db = [] ->
     map (fun s => (s_set_index s, s_fields s))
         (sets_of exercise_id (add_sets exercise_id ps db))
     = combine (one_to (List.length ps)) (map fst ps))
  /\ (forall f is_warmup,
        side_ok (side f) = true ->
        let out := call (add_set exercise_id f is_warmup) db in
        exists row,
          fst out = Ok (s_id row)
          /\ rows (sets (store (snd out))) = rows (sets db) ++ [row]
          /\ s_exercise_id row = exercise_id
          /\ s_set_index row
             = coalesce_max (map s_set_index (sets_of exercise_id db)) + 1
          /\ forall s, In s (sets_of exercise_id db) ->
                       s_set_index s < s_set_index row).
Proof.
  intros Hex Hps. split.
  - intros Hnone.
    rewrite (add_sets_indices exercise_id ps db Hex Hps), Hnone.
    unfold next_set_index. rewrite Hnone, one_to_count_up. reflexivity.
  - intros f wu Hside out.
    destruct (add_set_run exercise_id f wu db Hex Hside) as (Hr & Hs & _).
    exists (added_set exercise_id f wu db). fold out in Hr, Hs.
    rewrite Hs. cbn [sets set_sets rows added_set s_exercise_id s_set_index].
    repeat split; try assumption; try reflexivity.
    intros s Hin. unfold next_set_index.
    assert (s_set_index s <= coalesce_max (map s_set_index (sets_of exercise_id db))).
    { apply coalesce_max_ge. apply in_map. exact Hin. }
    lia.
Qed.

(** Three sets added to an exercise that had none are numbered 1, 2, 3. *)
Lemma add_set_positions_witness :
  map s_set_index
      (sets_of 1 (add_sets 1 [(no_fields, false); (no_fields, true); (no_fields, false)]
                    bare_db))
  = [1; 2; 3].
Proof.
  destruct (add_set_positions 1
              [(no_fields, false); (no_fields, true); (no_fields, false)] bare_db)
    as (Hall & _).
  - vm_compute. reflexivity.
  - vm_compute. reflexivity.
  - assert (Hnone : sets_of 1 bare_db = []) by (vm_compute; reflexivity).
    specialize (Hall Hnone). apply (f_equal (map fst)) in Hall.
    rewrite map_map in Hall. cbn [fst] in Hall.
    etransitivity; [exact Hall|]. vm_compute. reflexivity.
Defined.

(** C7 (as stated) fails: once the set with the largest index is
    deleted from the store, the next [add_set] assigns that index again.
    Two sets are added (indices 1 and 2), the second row is deleted, and
    the set added next is stored under index 2. *)
Lemma set_index_reused_after_delete :
  let db2 := add_sets 1 [(no_fields, false); (no_fields, false)] bare_db in
  let db3 := delete_set 2 db2 in
  let db4 := add_sets 1 [(no_fields, false)] db3 in
  map (fun s => (s_id s, s_set_index s)) (sets_of 1 db2) = [(1, 1); (2, 2)]
  /\ map (fun s => (s_id s, s_set_index s)) (sets_of 1 db3) = [(1, 1)]
  /\ map (fun s => (s_id s, s_set_index s)) (sets_of 1 db4) = [(1, 1); (3, 2)].
Proof. vm_compute. repeat split. Qed.


(** ** [log_body_metrics] *)

Lemma set_skinfolds_same db : set_skinfolds db (skinfolds db) = db.
Proof. destruct db; reflexivity. Qed.

Lemma mapM_cons A B (f : A -> M B) x l w :
  mapM f (x :: l) w =
  match f x w with
  | (Ok y, w') =>
    match mapM f l w' with
    | (Ok ys, w'') => (Ok (y :: ys), w'')
    | (Raise e, w'') => (Raise e, w'')
    end
  | (Raise e, w') => (Raise e, w')
  end.
Proof.
  cbn [mapM]. unfold bind, ret. destruct (f x w) as [[y|e] w']; [|reflexivity].
  destruct (mapM f l w') as [[ys|e] w'']; reflexivity.
Qed.

Lemma insert_skinfold_step mid site mm s db l t :
  has_id bm_id mid (body_metrics db) = true ->
  let id := next_rowid sf_id (skinfolds db) in
  let row := {| sf_id := id; sf_body_metrics_id := mid; sf_site_name := site; sf_mm := mm |} in
  insert (SInsert Tskinfolds) (fun db => inserted (insert_skinfold mid site mm db))
    (opened s db l t)
  = (Ok id,
     opened s (set_skinfolds db {| rows := rows (skinfolds db) ++ [row]; autoinc := id |})
       id (t ++ [SInsert Tskinfolds])).
Proof.
  intros Hm id row. unfold opened, insert.
  cbn [conn c_db store trace c_last_insert_rowid].
  unfold insert_skinfold. rewrite Hm. reflexivity.
Qed.

Lemma log_skinfolds_run mid : forall items s db l t,
  has_id bm_id mid (body_metrics db) = true ->
  exists ids tsf l' t' new,
    mapM (fun site_mm =>
            insert (SInsert Tskinfolds)
              (fun db => inserted (insert_skinfold mid (fst site_mm) (snd site_mm) db)))
         items (opened s db l t)
    = (Ok ids, opened s (set_skinfolds db tsf) l' t')
    /\ rows tsf = rows (skinfolds db) ++ new
    /\ map skinfold_view new = map (fun sm => (mid, fst sm, snd sm)) items.
Proof.
  induction items as [|[site mm] items IH]; intros s db l t Hm.
  - exists [], (skinfolds db), l, t, []. rewrite set_skinfolds_same, app_nil_r.
    repeat split; reflexivity.
  - rewrite mapM_cons. cbn [fst snd].
    rewrite (insert_skinfold_step mid site mm s db l t Hm).
    set (id := next_rowid sf_id (skinfolds db)).
    set (row := {| sf_id := id; sf_body_metrics_id := mid; sf_site_name := site; sf_mm := mm |}).
    set (t1 := {| rows := rows (skinfolds db) ++ [row]; autoinc := id |}).
    destruct (IH s (set_skinfolds db t1) id (t ++ [SInsert Tskinfolds]) Hm)
      as (ids & tsf & l' & t' & new & Hrun & Hrows & Hview).
    rewrite Hrun.
    exists (id :: ids), tsf, l', t', (row :: new).
    split; [reflexivity|]. split.
    + rewrite Hrows. cbn [skinfolds set_skinfolds t1 rows]. rewrite <- app_assoc. reflexivity.
    + cbn [map]. rewrite Hview. reflexivity.
Qed.

Theorem log_body_metrics_run date d bw sf notes db :
  _ensure_date date = Ok d ->
  let out := call (log_body_metrics date bw sf notes) db in
  if date_logged d db then
    fst out = Raise IntegrityError /\ store (snd out) = db
  else
    exists tsf new,
      let row := {| bm_id := next_rowid bm_id (body_metrics db); bm_date := d;
                    bm_body_weight_kg := bw; bm_notes := notes |} in
      fst out = Ok (bm_id row)
      /\ store (snd out)
         = set_skinfolds
             (set_body_metrics db
                {| rows := rows (body_metrics db) ++ [row]; autoinc := bm_id row |})
             tsf
      /\ rows tsf = rows (skinfolds db) ++ new
      /\ map skinfold_view new
         = map (fun sm => (bm_id row, fst sm, snd sm)) (list_of sf).
Proof.
  intros Hd out. remember out as o eqn:Ho. unfold out in Ho. clear out.
  unfold call, log_body_metrics in Ho. unfold bind at 1 in Ho.
  unfold lift in Ho. rewrite Hd in Ho.
  unfold bind at 1 in Ho. unfold get_connection, fresh in Ho. cbn [store trace app] in Ho.
  unfold bind at 1 in Ho. unfold insert at 1 in Ho.
  cbn [conn c_db store trace c_last_insert_rowid] in Ho.
  unfold insert_body_metrics in Ho. fold (date_logged d db) in Ho.
  destruct (date_logged d db).
  - cbn [inserted] in Ho. subst o. split; reflexivity.
  - cbn [inserted tbl_insert] in Ho.
    set (id := next_rowid bm_id (body_metrics db)) in *.
    set (row := {| bm_id := id; bm_date := d; bm_body_weight_kg := bw; bm_notes := notes |}) in *.
    set (tb := {| rows := rows (body_metrics db) ++ [row]; autoinc := id |}) in *.
    assert (Hm : has_id bm_id id (body_metrics (set_body_metrics db tb)) = true).
    { apply (has_id_inserted _ bm_id (fun id => {| bm_id := id; bm_date := d;
                 bm_body_weight_kg := bw; bm_notes := notes |}) (body_metrics db)).
      reflexivity. }
    fold (list_of sf) in Ho.
    destruct (log_skinfolds_run id (list_of sf) db (set_body_metrics db tb) id
                ([SPragma] ++ [SInsert Tbody_metrics]) Hm)
      as (ids & tsf & l' & t' & new & Hrun & Hrows & Hview).
    unfold opened in Hrun. cbn [app] in Hrun, Ho. unfold bind at 1 in Ho.
    rewrite Hrun in Ho.
    unfold bind, commit, close, ret in Ho. cbn [conn c_db store trace] in Ho.
    subst o. exists tsf, new. cbn [fst snd store bm_id row].
    repeat split; assumption.
Qed.

(** C1 (amended).  For a date [_ensure_date] accepts: when no
    [body_metrics] row holds that date, [log_body_metrics] appends one
    [body_metrics] row for it and one skinfold row per site, in the
    order of the mapping, all pointing at the new row, and returns its
    id; when a row for the date exists, the UNIQUE constraint on
    [body_metrics.date] makes the call raise [IntegrityError] and the
    store is left as it was. *)
Theorem log_body_metrics_once (date d : pystr) (body_weight_kg : option real)
    (sf : option (list (pystr * real))) (notes : option pystr) (db : DB) :
  _ensure_date date = Ok d ->
  let out := call (log_body_metrics date body_weight_kg sf notes) db in
  (date_logged d db = false ->
     exists id new,
       fst out = Ok id
       /\ rows (body_metrics (store (snd out)))
          = rows (body_metrics db)
            ++ [{| bm_id := id; bm_date := d; bm_body_weight_kg := body_weight_kg;
                   bm_notes := notes |}]
       /\ rows (skinfolds (store (snd out))) = rows (skinfolds db) ++ new
       /\ map skinfold_view new = map (fun sm => (id, fst sm, snd sm)) (list_of sf))
  /\ (date_logged d db = true ->
        fst out = Raise IntegrityError /\ store (snd out) = db).
Proof.
  intros Hd out.
  pose proof (log_body_metrics_run date d body_weight_kg sf notes db Hd) as H.
  cbv zeta in H. fold out in H.
  destruct (date_logged d db); split; try discriminate.
  - intros _. exact H.
  - intros _. destruct H as (tsf & new & Hr & Hs & Hrows & Hview).
    eexists. exists new. rewrite Hs.
    cbn [body_metrics skinfolds set_skinfolds set_body_metrics rows].
    repeat split; [exact Hr|exact Hrows|exact Hview].
Qed.

(** The first measurement of a day, with one skinfold site, on an empty
    store: row 1 and one skinfold row pointing at it. *)
Lemma log_body_metrics_once_witness :
  let out :=
    call (log_body_metrics (py "2026-01-06") None
            (Some [(py "abdomen", QArith_base.Qmake 10 1)]) None) empty_db in
  fst out = Ok 1
  /\ map bm_date (rows (body_metrics (store (snd out)))) = [py "2026-01-06"]
  /\ map skinfold_view (rows (skinfolds (store (snd out))))
     = [(1, py "abdomen", QArith_base.Qmake 10 1)].
Proof.
  intros out.
  destruct (log_body_metrics_once (py "2026-01-06") (py "2026-01-06") None
              (Some [(py "abdomen", QArith_base.Qmake 10 1)]) None empty_db)
    as (Hnew & _).
  - vm_compute. reflexivity.
  - destruct Hnew as (id & new & Hr & Hb & Hsf & Hview).
    + vm_compute. reflexivity.
    + fold out in Hr, Hb, Hsf.
      assert (Hid : id = 1) by (vm_compute in Hr; congruence).
      subst id. rewrite Hb, Hsf. cbn [rows empty_db empty_table skinfolds app map].
      rewrite Hview. split; [exact Hr|].
      split; vm_compute; reflexivity.
Defined.

(** C1 (as stated) fails: a second call for a date that is already
    logged raises and adds nothing. *)
Lemma second_body_metrics_rejected :
  let first := call (log_body_metrics (py "2026-01-06") None None None) empty_db in
  let second :=
    call (log_body_metrics (py "2026-01-06") (Some (QArith_base.Qmake 80 1)) None None)
         (store (snd first)) in
  fst first = Ok 1
  /\ fst second = Raise IntegrityError
  /\ store (snd second) = store (snd first)
  /\ List.length (rows (body_metrics (store (snd second)))) = 1%nat.
Proof. vm_compute. repeat split. Qed.


(** ** Cascading deletes *)

Lemma length_filter_split A (p : A -> bool) (l : list A) :
  List.length l
  = (List.length (filter p l) + List.length (filter (fun x => negb (p x)) l))%nat.
Proof.
  induction l as [|x l IH]; [reflexivity|].
  cbn [filter List.length]. destruct (p x); cbn [negb List.length]; lia.
Qed.

Lemma mem_Z_In x l : mem_Z x l = true <-> In x l.
Proof.
  unfold mem_Z. rewrite existsb_exists. split.
  - intros (y & Hy & E). apply Z.eqb_eq in E. subst. exact Hy.
  - intros H. exists x. split; [exact H|apply Z.eqb_refl].
Qed.

Lemma filter_none A (p : A -> bool) (l : list A) :
  (forall x, In x l -> p x = false) -> filter p l = [].
Proof.
  induction l as [|x l IH]; intros H; [reflexivity|].
  cbn [filter]. rewrite (H x (or_introl eq_refl)). apply IH.
  intros y Hy. apply H. right. exact Hy.
Qed.

Lemma distinct_one (l : list workout_row) wid :
  distinct (map w_id l) = true ->
  existsb (fun r => w_id r =? wid) l = true ->
  List.length (filter (fun w => w_id w =? wid) l) = 1%nat.
Proof.
  induction l as [|x l IH]; cbn [map distinct existsb filter]; intros Hd He; [discriminate|].
  apply andb_prop in Hd. destruct Hd as [Hx Hd].
  destruct (Z.eqb_spec (w_id x) wid) as [E|E].
  - cbn [List.length]. f_equal.
    rewrite filter_none; [reflexivity|].
    intros y Hy. apply Z.eqb_neq. intros Ey.
    apply negb_true_iff in Hx.
    assert (Hin : mem_Z (w_id x) (map w_id l) = true).
    { apply mem_Z_In. rewrite E, <- Ey. apply in_map. exact Hy. }
    congruence.
  - cbn [orb] in He. apply IH; assumption.
Qed.

Lemma doomed_ids (l : list workout_row) wid :
  existsb (fun r => w_id r =? wid) l = true ->
  forall x, mem_Z x (map w_id (filter (fun w => w_id w =? wid) l)) = (x =? wid).
Proof.
  intros He x. destruct (Z.eqb_spec x wid) as [->|Hne].
  - apply mem_Z_In. apply existsb_exists in He. destruct He as (r & Hr & E).
    apply Z.eqb_eq in E. subst wid. apply in_map. apply filter_In.
    split; [exact Hr|apply Z.eqb_refl].
  - destruct (mem_Z x _) eqn:Hm; [|reflexivity].
    apply mem_Z_In in Hm. apply in_map_iff in Hm. destruct Hm as (r & Hr & Hin).
    apply filter_In in Hin. destruct Hin as [_ E]. apply Z.eqb_eq in E. congruence.
Qed.

(** C6 (cascade).  In a store whose workout ids are distinct, deleting
    the row of an existing workout with [K] exercises and [M] sets in
    all removes exactly [1 + K + M] rows from the three workout tables;
    afterwards the workout is gone, no exercise row refers to it and no
    set row refers to one of its exercises. *)
Theorem delete_workout_cascade_rows db wid :
  distinct (map w_id (rows (workouts db))) = true ->
  has_id w_id wid (workouts db) = true ->
  let db' := delete_workout wid db in
  workout_rows db
  = (workout_rows db' + (1 + List.length (exercises_of wid db)
                         + List.length (sets_of_workout wid db)))%nat
  /\ has_id w_id wid (workouts db') = false
  /\ exercises_of wid db' = []
  /\ filter (fun s => mem_Z (s_exercise_id s) (map e_id (exercises_of wid db)))
            (rows (sets db')) = [].
Proof.
  intros Hd He db'. unfold has_id in He.
  pose proof (doomed_ids (rows (workouts db)) wid He) as Hids.
  assert (HE : filter (fun e => mem_Z (e_workout_id e)
                 (map w_id (filter (fun w => w_id w =? wid) (rows (workouts db)))))
                 (rows (exercises db)) = exercises_of wid db).
  { unfold exercises_of. apply filter_ext. intros e. apply Hids. }
  assert (Hw' : rows (workouts db') = filter (fun w => negb (w_id w =? wid)) (rows (workouts db)))
    by reflexivity.
  assert (He' : rows (exercises db')
                = filter (fun e => negb (e_workout_id e =? wid)) (rows (exercises db))).
  { cbn. apply filter_ext. intros e. rewrite Hids. reflexivity. }
  assert (Hs' : rows (sets db')
                = filter (fun s => negb (mem_Z (s_exercise_id s)
                                           (map e_id (exercises_of wid db))))
                    (rows (sets db))).
  { cbn. rewrite HE. reflexivity. }
  repeat split.
  - unfold workout_rows. rewrite Hw', He', Hs'.
    rewrite (length_filter_split _ (fun w => w_id w =? wid) (rows (workouts db))).
    rewrite (length_filter_split _ (fun e => e_workout_id e =? wid) (rows (exercises db))).
    rewrite (length_filter_split _
               (fun s => mem_Z (s_exercise_id s) (map e_id (exercises_of wid db)))
               (rows (sets db))).
    rewrite (distinct_one _ wid Hd He).
    unfold sets_of_workout, exercises_of. lia.
  - unfold has_id. rewrite Hw'. apply not_true_is_false. intros E.
    apply existsb_exists in E. destruct E as (r & Hr & E).
    apply filter_In in Hr. destruct Hr as [_ Hr]. rewrite E in Hr. discriminate.
  - unfold exercises_of. rewrite He'. apply filter_none.
    intros e Hin. apply filter_In in Hin. destruct Hin as [_ Hin].
    apply negb_true_iff in Hin. exact Hin.
  - rewrite Hs'. apply filter_none.
    intros s Hin. apply filter_In in Hin. destruct Hin as [_ Hin].
    apply negb_true_iff in Hin. exact Hin.
Qed.

(** The workout of the sample store has one exercise and three sets:
    deleting it removes five rows and empties the three tables. *)
Lemma delete_workout_cascade_rows_witness :
  workout_rows demo_db = (workout_rows (delete_workout 1 demo_db) + (1 + 1 + 3))%nat
  /\ workout_rows (delete_workout 1 demo_db) = 0%nat.
Proof.
  destruct (delete_workout_cascade_rows demo_db 1) as (Hcount & _).
  - vm_compute. reflexivity.
  - vm_compute. reflexivity.
  - split; [|vm_compute; reflexivity].
    etransitivity; [exact Hcount|]. vm_compute. reflexivity.
Defined.


(** ** Date bounds *)

Local Open Scope N_scope.

Lemma all_below k p c :
  all_from (N.to_nat k) 0 p = true -> c < k -> p c = true.
Proof.
  intros H Hc. apply (all_from_spec _ _ _ H); [lia|]. rewrite N2Nat.id. lia.
Qed.

Lemma cmp_eqb_eq a b : cmp_eqb a b = true -> a = b.
Proof. destruct a, b; cbn; congruence. Qed.

Lemma fmt02_all : all_from (N.to_nat 100) 0 fmt02_ok = true.
Proof. vm_compute. reflexivity. Qed.

Lemma fmt04_all : all_from (N.to_nat 10000) 0 fmt04_ok = true.
Proof. vm_compute. reflexivity. Qed.

Lemma time_all : all_from (N.to_nat 24) 0 time_ok = true.
Proof. vm_compute. reflexivity. Qed.

Lemma fmt02_compare a b :
  a < 100 -> b < 100 -> pystr_compare (fmt02 a) (fmt02 b) = N.compare a b.
Proof.
  intros Ha Hb. apply cmp_eqb_eq.
  pose proof (all_below _ _ a fmt02_all Ha) as H.
  unfold fmt02_ok in H. apply (all_below _ _ b H Hb).
Qed.

Lemma pystr_eqb_eq a b : pystr_eqb a b = true -> a = b.
Proof. unfold pystr_eqb. destruct (list_eq_dec N.eq_dec a b); congruence. Qed.

Lemma fmt04_split n :
  n < 10000 -> fmt04 n = (fmt02 (n / 100) ++ fmt02 (n mod 100))%list.
Proof.
  intros Hn. apply pystr_eqb_eq.
  apply (all_below _ _ n fmt04_all Hn).
Qed.

Lemma pystr_compare_app a : forall b x y,
  List.length a = List.length b ->
  pystr_compare (a ++ x) (b ++ y)
  = match pystr_compare a b with
    | Eq => pystr_compare x y
    | c => c
    end.
Proof.
  induction a as [|c a IH]; intros [|d b] x y Hl; try discriminate.
  - reflexivity.
  - cbn [app pystr_compare]. destruct (N.compare c d); try reflexivity.
    apply IH. cbn in Hl. lia.
Qed.

Lemma pystr_compare_cons c x y :
  pystr_compare (c :: x) (c :: y) = pystr_compare x y.
Proof. cbn [pystr_compare]. rewrite N.compare_refl. reflexivity. Qed.

Lemma fmt04_compare a b :
  a < 10000 -> b < 10000 -> pystr_compare (fmt04 a) (fmt04 b) = N.compare a b.
Proof.
  intros Ha Hb. rewrite (fmt04_split a Ha), (fmt04_split b Hb).
  rewrite <- (app_nil_r (fmt02 (a mod 100))), <- (app_nil_r (fmt02 (b mod 100))).
  rewrite !app_assoc. rewrite <- !app_assoc.
  rewrite pystr_compare_app by reflexivity.
  assert (Ha1 : a / 100 < 100) by (apply N.Div0.div_lt_upper_bound; lia).
  assert (Hb1 : b / 100 < 100) by (apply N.Div0.div_lt_upper_bound; lia).
  assert (Ha2 : a mod 100 < 100) by (apply N.mod_lt; lia).
  assert (Hb2 : b mod 100 < 100) by (apply N.mod_lt; lia).
  rewrite (fmt02_compare _ _ Ha1 Hb1).
  rewrite pystr_compare_app by reflexivity.
  rewrite (fmt02_compare _ _ Ha2 Hb2). cbn [pystr_compare].
  pose proof (N.div_mod a 100 ltac:(lia)) as Ea.
  pose proof (N.div_mod b 100 ltac:(lia)) as Eb.
  destruct (N.compare_spec (a / 100) (b / 100)) as [E|E|E];
    destruct (N.compare_spec (a mod 100) (b mod 100)) as [E'|E'|E'];
    symmetry; first [apply N.compare_eq_iff|apply N.compare_lt_iff|apply N.compare_gt_iff];
    clear Ha1 Hb1; revert Ea Eb E E' Ha2 Hb2;
    generalize (a / 100) (b / 100) (a mod 100) (b mod 100); intros; lia.
Qed.

Lemma date_isoformat_compare y1 m1 d1 y2 m2 d2 x y :
  y1 < 10000 -> m1 < 100 -> d1 < 100 -> y2 < 10000 -> m2 < 100 -> d2 < 100 ->
  pystr_compare (date_isoformat y1 m1 d1 ++ x) (date_isoformat y2 m2 d2 ++ y)
  = match N.compare (date_key y1 m1 d1) (date_key y2 m2 d2) with
    | Eq => pystr_compare x y
    | c => c
    end.
Proof.
  intros Hy1 Hm1 Hd1 Hy2 Hm2 Hd2. unfold date_isoformat, date_key.
  rewrite <- !app_assoc. rewrite pystr_compare_app by reflexivity.
  rewrite (fmt04_compare _ _ Hy1 Hy2).
  cbn [app]. rewrite pystr_compare_cons.
  rewrite <- !app_assoc. rewrite pystr_compare_app by reflexivity.
  rewrite (fmt02_compare _ _ Hm1 Hm2).
  cbn [app]. rewrite pystr_compare_cons.
  rewrite pystr_compare_app by reflexivity.
  rewrite (fmt02_compare _ _ Hd1 Hd2).
  destruct (N.compare_spec y1 y2) as [E|E|E];
    destruct (N.compare_spec m1 m2) as [E'|E'|E'];
    destruct (N.compare_spec d1 d2) as [E''|E''|E''];
    destruct (N.compare_spec (y1 * 10000 + m1 * 100 + d1) (y2 * 10000 + m2 * 100 + d2));
    try reflexivity; lia.
Qed.

Local Close Scope N_scope.

Lemma get_workouts_run fd td ty tag enc limit offset db lo hi :
  date_bound fd midnight = Ok lo ->
  date_bound td last_second = Ok hi ->
  fst (call (get_workouts fd td ty tag enc limit offset) db)
  = Ok (map (hydrate db) (selected_workouts lo hi ty tag limit offset db)).
Proof.
  intros Hlo Hhi.
  remember (call (get_workouts fd td ty tag enc limit offset) db) as out eqn:Ho.
  unfold call, get_workouts in Ho.
  unfold bind at 1 in Ho. unfold get_connection, fresh in Ho. cbn [store trace app] in Ho.
  unfold bind at 1 in Ho. unfold lift at 1 in Ho. rewrite Hlo in Ho.
  unfold bind at 1 in Ho. unfold lift at 1 in Ho. rewrite Hhi in Ho.
  unfold bind at 1 in Ho. unfold query at 1 in Ho. cbn [conn c_db store trace] in Ho.
  unfold log_stmt in Ho. cbn [conn c_db store trace] in Ho.
  fold (selected_workouts lo hi ty tag limit offset db) in Ho.
  unfold bind at 1 in Ho.
  destruct (reads_mapM _ _ _hydrate_workout (fun row db => hydrate db row)
              (selected_workouts lo hi ty tag limit offset db) reads_hydrate
              db db 0 ([SPragma] ++ [SSelect Tworkouts (Some limit)])) as (t' & Hm & _).
  unfold opened in Hm. cbn [app] in Hm, Ho. rewrite Hm in Ho.
  unfold bind, close, ret in Ho. subst out. reflexivity.
Qed.

Lemma In_insert_sorted R (le : R -> R -> bool) x y l :
  In y (insert_sorted le x l) <-> y = x \/ In y l.
Proof.
  induction l as [|z l IH]; cbn [insert_sorted In].
  - intuition.
  - destruct (le x z); cbn [In]; [intuition|]. rewrite IH. intuition.
Qed.

Lemma In_order_by R (le : R -> R -> bool) y l :
  In y (order_by le l) <-> In y l.
Proof.
  unfold order_by. induction l as [|x l IH]; cbn [fold_right In]; [tauto|].
  rewrite In_insert_sorted, IH. intuition.
Qed.

Lemma In_skipn_weaken R (n : nat) : forall (l : list R) y,
  In y (skipn n l) -> In y l.
Proof.
  induction n as [|n IH]; intros [|x l] y H; cbn [skipn] in H; try exact H.
  right. apply IH. exact H.
Qed.

Lemma In_firstn_weaken R (n : nat) : forall (l : list R) y,
  In y (firstn n l) -> In y l.
Proof.
  induction n as [|n IH]; intros [|x l] y H; cbn [firstn] in H; try contradiction.
  destruct H as [->|H]; [left; reflexivity|right; apply IH; exact H].
Qed.

Lemma In_limit_offset R limit offset (l : list R) y :
  In y (limit_offset limit offset l) -> In y l.
Proof.
  unfold limit_offset. intros H.
  destruct (limit <? 0).
  - apply (In_skipn_weaken _ _ _ _ H).
  - apply In_firstn_weaken in H. apply (In_skipn_weaken _ _ _ _ H).
Qed.

Lemma limit_offset_all R (l : list R) : limit_offset (-1) 0 l = l.
Proof. reflexivity. Qed.

Lemma In_selected lo hi ty tag limit offset db w :
  In w (selected_workouts lo hi ty tag limit offset db) ->
  In w (rows (workouts db)) /\ workouts_where lo hi ty tag w = true.
Proof.
  unfold selected_workouts. intros H. apply In_limit_offset in H.
  apply In_order_by in H. apply filter_In in H. exact H.
Qed.

Lemma In_selected_all lo hi ty tag db w :
  In w (selected_workouts lo hi ty tag (-1) 0 db) <->
  In w (rows (workouts db)) /\ workouts_where lo hi ty tag w = true.
Proof.
  unfold selected_workouts. rewrite limit_offset_all, In_order_by, filter_In. tauto.
Qed.

Lemma strptime_date_valid fmt v y m d :
  strptime_date fmt v = Some (y, m, d) -> valid_date y m d = true.
Proof.
  unfold strptime_date. intros H.
  destruct (match_items fmt v) as [[caps [|c r]]|]; try discriminate.
  destruct (map int_of caps) as [|a [|b [|c [|e [|f [|g [|h l]]]]]]]; try discriminate.
  - destruct (valid_date a b c) eqn:E; [|discriminate]. inversion H; subst. exact E.
  - destruct (valid_date a b c) eqn:E; [|discriminate].
    cbn [andb] in H. destruct (valid_time e f g); [|discriminate].
    inversion H; subst. exact E.
Qed.

Lemma ensure_date_valid v s :
  _ensure_date v = Ok s ->
  exists y m d, s = date_isoformat y m d /\ valid_date y m d = true.
Proof.
  unfold _ensure_date. intros H.
  destruct (strptime_date fmt_date v) as [[[y m] d]|] eqn:E1.
  - inversion H; subst. exists y, m, d. split; [reflexivity|].
    apply (strptime_date_valid _ _ _ _ _ E1).
  - destruct (strptime_date fmt_datetime v) as [[[y m] d]|] eqn:E2; [|discriminate].
    inversion H; subst. exists y, m, d. split; [reflexivity|].
    apply (strptime_date_valid _ _ _ _ _ E2).
Qed.

Local Open Scope N_scope.

Lemma valid_date_bounds y m d :
  valid_date y m d = true -> y < 10000 /\ m < 100 /\ d < 100.
Proof.
  unfold valid_date. intros H.
  repeat (apply andb_prop in H; destruct H as [H ?]).
  repeat match goal with
  | H : (_ <=? _) = true |- _ => apply N.leb_le in H
  end.
  assert (days_in_month y m <= 31).
  { unfold days_in_month. destruct (m =? 2); [destruct (is_leap y); lia|].
    destruct ((m =? 4) || (m =? 6) || (m =? 9) || (m =? 11)); lia. }
  lia.
Qed.

Lemma time_text_bounds h mi s :
  valid_time h mi s = true ->
  pystr_leb (time_text h mi s) (py "23:59:59") = true
  /\ pystr_leb (py "00:00:00") (time_text h mi s) = true.
Proof.
  unfold valid_time. intros H.
  repeat (apply andb_prop in H; destruct H as [H ?]).
  repeat match goal with
  | H : (_ <=? _) = true |- _ => apply N.leb_le in H
  end.
  pose proof (all_below 24 _ h time_all ltac:(lia)) as Ka. unfold time_ok in Ka.
  pose proof (all_below 60 _ mi Ka ltac:(lia)) as Kb. cbv beta in Kb.
  pose proof (all_below 60 _ s Kb ltac:(lia)) as Kc. cbv beta in Kc.
  apply andb_prop in Kc. exact Kc.
Qed.

Lemma isoformat_shape dt :
  isoformat dt
  = (date_isoformat (year dt) (month dt) (day dt)
     ++ 84 :: (time_text (hour dt) (minute dt) (second dt)
               ++ ((if microsecond dt =? 0 then [] else 46 :: fmt06 (microsecond dt))
                   ++ format_offset (utcoffset dt))))%list.
Proof.
  unfold isoformat, time_text.
  repeat (rewrite <- ?app_assoc; cbn [app]). reflexivity.
Qed.

Lemma pystr_leb_compare a b :
  pystr_leb a b = match pystr_compare a b with Gt => false | _ => true end.
Proof. reflexivity. Qed.

Lemma length_time_text h mi s : List.length (time_text h mi s) = 8%nat.
Proof. reflexivity. Qed.

(** upper bound *)
Lemma le_last_second dt y m d :
  valid_datetime dt = true -> microsecond dt = 0 -> utcoffset dt = None ->
  valid_date y m d = true ->
  pystr_leb (isoformat dt) (date_isoformat y m d ++ last_second)
  = (date_key (year dt) (month dt) (day dt) <=? date_key y m d).
Proof.
  intros Hv Hus Htz Hd. unfold valid_datetime in Hv.
  apply andb_prop in Hv. destruct Hv as [Hvd Hvt].
  destruct (valid_date_bounds _ _ _ Hvd) as (H1 & H2 & H3).
  destruct (valid_date_bounds _ _ _ Hd) as (H4 & H5 & H6).
  rewrite isoformat_shape, Hus, Htz. cbn [N.eqb format_offset app].
  rewrite app_nil_r.
  change last_second with (84 :: py "23:59:59").
  rewrite pystr_leb_compare.
  rewrite (date_isoformat_compare _ _ _ _ _ _ _ _ H1 H2 H3 H4 H5 H6).
  rewrite pystr_compare_cons.
  destruct (time_text_bounds _ _ _ Hvt) as [Hle _].
  rewrite pystr_leb_compare in Hle.
  destruct (N.compare_spec (date_key (year dt) (month dt) (day dt)) (date_key y m d)) as [E|E|E].
  - rewrite Hle. symmetry. apply N.leb_le. lia.
  - symmetry. apply N.leb_le. lia.
  - symmetry. apply N.leb_gt. lia.
Qed.

Lemma time_text_compare h mi s :
  h < 100 -> mi < 100 -> s < 100 ->
  pystr_compare (time_text h mi s) (py "23:59:59")
  = match N.compare h 23 with
    | Eq => match N.compare mi 59 with
            | Eq => N.compare s 59
            | c => c
            end
    | c => c
    end.
Proof.
  intros Hh Hmi Hs.
  change (py "23:59:59") with (time_text 23 59 59). unfold time_text.
  rewrite pystr_compare_app by reflexivity.
  rewrite (fmt02_compare h 23 Hh) by lia.
  destruct (N.compare h 23); try reflexivity.
  rewrite pystr_compare_cons. rewrite pystr_compare_app by reflexivity.
  rewrite (fmt02_compare mi 59 Hmi) by lia.
  destruct (N.compare mi 59); try reflexivity.
  rewrite pystr_compare_cons. apply fmt02_compare; lia.
Qed.

Lemma format_offset_some o : exists c t, format_offset (Some o) = c :: t.
Proof. unfold format_offset. cbv zeta. eexists. eexists. reflexivity. Qed.

(** upper bound, whatever follows the seconds *)
Lemma le_last_second_any dt y m d :
  valid_datetime dt = true -> valid_date y m d = true ->
  pystr_leb (isoformat dt) (date_isoformat y m d ++ last_second)
  = (date_key (year dt) (month dt) (day dt) <? date_key y m d)
    || ((date_key (year dt) (month dt) (day dt) =? date_key y m d)
        && negb (after_last_second dt)).
Proof.
  intros Hv Hd. unfold valid_datetime in Hv.
  apply andb_prop in Hv. destruct Hv as [Hvd Hvt].
  destruct (valid_date_bounds _ _ _ Hvd) as (H1 & H2 & H3).
  destruct (valid_date_bounds _ _ _ Hd) as (H4 & H5 & H6).
  rewrite isoformat_shape.
  change last_second with (84 :: (py "23:59:59" ++ [])%list).
  rewrite pystr_leb_compare.
  rewrite (date_isoformat_compare _ _ _ _ _ _ _ _ H1 H2 H3 H4 H5 H6).
  rewrite pystr_compare_cons.
  rewrite pystr_compare_app by reflexivity.
  unfold valid_time in Hvt.
  apply andb_prop in Hvt. destruct Hvt as [Hvt Hsec].
  apply andb_prop in Hvt. destruct Hvt as [Hh Hmi].
  apply N.leb_le in Hh, Hmi, Hsec.
  rewrite time_text_compare by lia.
  unfold after_last_second.
  destruct (N.compare_spec (date_key (year dt) (month dt) (day dt)) (date_key y m d))
    as [E|E|E].
  2:{ symmetry. apply orb_true_iff. left. apply N.ltb_lt. exact E. }
  2:{ symmetry. apply orb_false_iff. split; [apply N.ltb_ge; lia|].
      apply andb_false_iff. left. apply N.eqb_neq. lia. }
  rewrite E, N.ltb_irrefl, N.eqb_refl. cbn [orb andb].
  destruct (N.compare_spec (hour dt) 23) as [Eh|Eh|Eh]; [|clear E|lia].
  2:{ replace (hour dt =? 23) with false by (symmetry; apply N.eqb_neq; lia).
      reflexivity. }
  destruct (N.compare_spec (minute dt) 59) as [Em|Em|Em]; [|clear E|lia].
  2:{ replace (minute dt =? 59) with false by (symmetry; apply N.eqb_neq; lia).
      rewrite andb_false_r. reflexivity. }
  destruct (N.compare_spec (second dt) 59) as [Es|Es|Es]; [|clear E|lia].
  2:{ replace (second dt =? 59) with false by (symmetry; apply N.eqb_neq; lia).
      rewrite andb_false_r. reflexivity. }
  rewrite Eh, Em, Es. cbn [N.eqb Pos.eqb andb]. rewrite negb_involutive.
  destruct (microsecond dt =? 0); cbn [app andb].
  - destruct (utcoffset dt) as [o|]; [|reflexivity].
    destruct (format_offset_some o) as (c & t & ->). reflexivity.
  - reflexivity.
Qed.

(** lower bound, whatever follows the seconds *)
Lemma ge_midnight dt y m d :
  valid_datetime dt = true -> valid_date y m d = true ->
  pystr_leb (date_isoformat y m d ++ midnight) (isoformat dt)
  = (date_key y m d <=? date_key (year dt) (month dt) (day dt)).
Proof.
  intros Hv Hd. unfold valid_datetime in Hv.
  apply andb_prop in Hv. destruct Hv as [Hvd Hvt].
  destruct (valid_date_bounds _ _ _ Hvd) as (H1 & H2 & H3).
  destruct (valid_date_bounds _ _ _ Hd) as (H4 & H5 & H6).
  rewrite isoformat_shape.
  change midnight with (84 :: (py "00:00:00" ++ [])%list).
  rewrite pystr_leb_compare.
  rewrite (date_isoformat_compare _ _ _ _ _ _ _ _ H4 H5 H6 H1 H2 H3).
  rewrite pystr_compare_cons.
  rewrite pystr_compare_app by reflexivity.
  destruct (time_text_bounds _ _ _ Hvt) as [_ Hge].
  rewrite pystr_leb_compare in Hge.
  destruct (N.compare_spec (date_key y m d) (date_key (year dt) (month dt) (day dt))) as [E|E|E].
  - symmetry. rewrite (proj2 (N.leb_le _ _)) by lia.
    destruct (pystr_compare (py "00:00:00") _); try discriminate; [|reflexivity].
    destruct ((if microsecond dt =? 0 then [] else 46 :: fmt06 (microsecond dt)) ++
              format_offset (utcoffset dt))%list; reflexivity.
  - symmetry. apply N.leb_le. lia.
  - symmetry. apply N.leb_gt. lia.
Qed.

Local Close Scope N_scope.

Lemma workouts_where_hi hi w :
  workouts_where None hi None None w = le_bound hi (w_date_time w).
Proof.
  unfold workouts_where. cbn [ge_bound type_filter tag_filter andb].
  rewrite !andb_true_r. reflexivity.
Qed.

Lemma workouts_where_lo lo w :
  workouts_where lo None None None w = ge_bound lo (w_date_time w).
Proof.
  unfold workouts_where. cbn [le_bound type_filter tag_filter andb].
  rewrite !andb_true_r. reflexivity.
Qed.

Lemma In_hydrated db w sel :
  In (hydrate db w) (map (hydrate db) sel) ->
  exists w', In w' sel /\ w_date_time w' = w_date_time w.
Proof.
  intros H. apply in_map_iff in H. destruct H as (w' & E & Hin).
  exists w'. split; [exact Hin|].
  apply (f_equal wk_date_time) in E. exact E.
Qed.

Lemma date_bound_some c d sfx s :
  _ensure_date (c :: d) = Ok s ->
  date_bound (Some (c :: d)) sfx = Ok (Some (s ++ sfx)%list).
Proof. intros H. unfold date_bound. rewrite H. reflexivity. Qed.

(** C8 (bounds of [get_workouts], as amended).  With [to_date] set to
    2026-01-06, a stored workout dated 2026-01-06T23:59:59 is returned
    (when no LIMIT cuts the page) and none dated 2026-01-07T00:00:00
    ever is.  For an accepted [to_date] a stored workout is returned
    exactly when its day is before that date, or is that date and its
    timestamp is not one of the last second with a fraction of a second
    or an offset: the day is covered through 23:59:59 sharp, not to its
    end.  For an accepted [from_date] a workout is returned exactly
    when its day is not before that date, so that the day is covered
    from 00:00:00 on. *)
Theorem get_workouts_day_bounds :
  (forall db w,
      In w (rows (workouts db)) ->
      w_date_time w = py "2026-01-06T23:59:59" ->
      exists ws,
        fst (call (get_workouts None (Some (py "2026-01-06")) None None None (-1) 0) db)
        = Ok ws
        /\ In (hydrate db w) ws)
  /\ (forall db limit offset,
      exists ws,
        fst (call (get_workouts None (Some (py "2026-01-06")) None None None limit offset) db)
        = Ok ws
        /\ forall h, In h ws -> wk_date_time h <> py "2026-01-07T00:00:00")
  /\ (forall c td s,
      _ensure_date (c :: td) = Ok s ->
      exists y m d,
        s = date_isoformat y m d /\
        forall db w dt,
          In w (rows (workouts db)) ->
          w_date_time w = isoformat dt ->
          valid_datetime dt = true ->
          exists ws,
            fst (call (get_workouts None (Some (c :: td)) None None None (-1) 0) db) = Ok ws
            /\ (In (hydrate db w) ws
                <-> (date_key (year dt) (month dt) (day dt) < date_key y m d)%N
                    \/ (date_key (year dt) (month dt) (day dt) = date_key y m d
                        /\ after_last_second dt = false)))
  /\ (forall c fd s,
      _ensure_date (c :: fd) = Ok s ->
      exists y m d,
        s = date_isoformat y m d /\
        forall db w dt,
          In w (rows (workouts db)) ->
          w_date_time w = isoformat dt ->
          valid_datetime dt = true ->
          exists ws,
            fst (call (get_workouts (Some (c :: fd)) None None None None (-1) 0) db) = Ok ws
            /\ (In (hydrate db w) ws
                <-> (date_key y m d <= date_key (year dt) (month dt) (day dt))%N)).
Proof.
  split; [|split; [|split]].
  - intros db w Hin Hdt. eexists. split.
    + apply get_workouts_run; reflexivity.
    + apply in_map. apply In_selected_all. split; [exact Hin|].
      rewrite workouts_where_hi. cbn [le_bound]. rewrite Hdt. vm_compute. reflexivity.
  - intros db limit offset. eexists. split.
    + apply get_workouts_run; reflexivity.
    + intros h Hh Hbad. apply in_map_iff in Hh. destruct Hh as (w & E & Hw).
      apply In_selected in Hw. destruct Hw as [_ Hw].
      rewrite workouts_where_hi in Hw. cbn [le_bound] in Hw.
      subst h. cbn [hydrate wk_date_time] in Hbad. rewrite Hbad in Hw.
      vm_compute in Hw. discriminate.
  - intros c td s Hs. destruct (ensure_date_valid _ _ Hs) as (y & m & d & -> & Hv).
    exists y, m, d. split; [reflexivity|].
    intros db w dt Hin Hdt Hvd. eexists. split.
    + apply get_workouts_run; [reflexivity|]. apply date_bound_some. exact Hs.
    + assert (Hcut :
        (date_key (year dt) (month dt) (day dt) < date_key y m d)%N
        \/ (date_key (year dt) (month dt) (day dt) = date_key y m d
            /\ after_last_second dt = false)
        <-> pystr_leb (w_date_time w) (date_isoformat y m d ++ last_second) = true).
      { rewrite Hdt, (le_last_second_any dt y m d Hvd Hv).
        rewrite orb_true_iff, andb_true_iff, N.ltb_lt, N.eqb_eq, negb_true_iff.
        tauto. }
      rewrite Hcut. split.
      * intros H. apply In_hydrated in H. destruct H as (w' & Hsel & E).
        apply In_selected in Hsel. destruct Hsel as [_ Hsel].
        rewrite workouts_where_hi in Hsel. cbn [le_bound] in Hsel. rewrite <- E. exact Hsel.
      * intros H. apply in_map. apply In_selected_all. split; [exact Hin|].
        rewrite workouts_where_hi. exact H.
  - intros c fd s Hs. destruct (ensure_date_valid _ _ Hs) as (y & m & d & -> & Hv).
    exists y, m, d. split; [reflexivity|].
    intros db w dt Hin Hdt Hvd. eexists. split.
    + apply get_workouts_run; [|reflexivity]. apply date_bound_some. exact Hs.
    + rewrite <- N.leb_le, <- (ge_midnight dt y m d Hvd Hv), <- Hdt. split.
      * intros H. apply In_hydrated in H. destruct H as (w' & Hsel & E).
        apply In_selected in Hsel. destruct Hsel as [_ Hsel].
        rewrite workouts_where_lo in Hsel. cbn [ge_bound] in Hsel. rewrite <- E. exact Hsel.
      * intros H. apply in_map. apply In_selected_all. split; [exact Hin|].
        rewrite workouts_where_lo. exact H.
Qed.

(** The workout of the sample store is dated 2026-01-06T23:59:59: it is
    returned for [to_date] 2026-01-06. *)
Lemma get_workouts_day_bounds_witness :
  exists w ws,
    In w (rows (workouts demo_db))
    /\ w_date_time w = py "2026-01-06T23:59:59"
    /\ fst (call (get_workouts None (Some (py "2026-01-06")) None None None (-1) 0)
                 demo_db) = Ok ws
    /\ In (hydrate demo_db w) ws.
Proof.
  destruct get_workouts_day_bounds as (Hin & _).
  pose (w := {| w_id := 1; w_date_time := py "2026-01-06T23:59:59";
                w_workout_type := None;
                w_tags := serialize_tags (Some [py "legs"; py "sprint"]);
                w_notes := None |}).
  assert (Hw : In w (rows (workouts demo_db))) by (vm_compute; left; reflexivity).
  destruct (Hin demo_db w Hw eq_refl) as (ws & Hws & Hmem).
  exists w, ws. repeat split; assumption.
Defined.

(** C8 as stated fails: the bounds are not whole days.  A workout
    logged at half a second past 2026-01-06T23:59:59 is stored with
    that timestamp; it is on 2026-01-06, [from_date] 2026-01-06 returns
    it, and [to_date] 2026-01-06 does not. *)
Lemma get_workouts_last_second_cut :
  let logged :=
    call (log_workout fromisoformat_micros strings_view no_exercises_view
            (py "2026-01-06T23:59:59.500000") None ArgNone None ArgNone) empty_db in
  let db := store (snd logged) in
  map w_date_time (rows (workouts db)) = [py "2026-01-06T23:59:59.500000"]
  /\ fst (call (get_workouts None (Some (py "2026-01-06")) None None None (-1) 0) db)
     = Ok []
  /\ map wk_date_time
       (match fst (call (get_workouts (Some (py "2026-01-06")) None None None None
                           (-1) 0) db) with
        | Ok ws => ws
        | Raise _ => []
        end)
     = [py "2026-01-06T23:59:59.500000"].
Proof. vm_compute. repeat split. Qed.


(** ** [search_logs] *)

Lemma date_bound_ok d sfx :
  bound_ok d = true -> date_bound d sfx = Ok (with_suffix sfx (bound_day d)).
Proof.
  unfold bound_ok, date_bound, bound_day. destruct d as [[|c d']|]; try reflexivity.
  destruct (_ensure_date (c :: d')); [reflexivity|discriminate].
Qed.

Lemma day_bound_ok d :
  bound_ok d = true -> day_bound d = Ok (bound_day d).
Proof.
  intros H. unfold day_bound. rewrite (date_bound_ok d [] H).
  destruct (bound_day d); cbn [with_suffix]; [rewrite app_nil_r|]; reflexivity.
Qed.

Lemma search_workouts_run q fd td limit s db l t :
  bound_ok fd = true -> bound_ok td = true ->
  exists extra,
    search_workouts q fd td limit (opened s db l t)
    = (Ok (map RWorkout (map (hydrate db) (found_workouts q fd td limit db))),
       opened s db l (t ++ SSelect Tworkouts (Some limit) :: extra))
    /\ domain_queries extra = [].
Proof.
  intros Hf Ht. unfold search_workouts.
  unfold bind at 1. unfold lift at 1. rewrite (date_bound_ok fd midnight Hf).
  unfold bind at 1. unfold lift at 1. rewrite (date_bound_ok td last_second Ht).
  unfold bind at 1. unfold query at 1, opened at 1. cbn [conn c_db store trace].
  unfold log_stmt. cbn [conn c_db store trace].
  destruct (reads_mapM _ _ _hydrate_workout (fun row db => hydrate db row)
              (found_workouts q fd td limit db) reads_hydrate
              s db l (t ++ [SSelect Tworkouts (Some limit)])) as (extra & Hm & Hq).
  unfold opened, found_workouts in *. unfold bind at 1.
  cbn [conn c_db store trace]. rewrite Hm.
  exists extra. unfold ret. rewrite <- app_assoc. split; [reflexivity|exact Hq].
Qed.

Lemma search_nutrition_run q fd td remaining s db l t :
  bound_ok fd = true -> bound_ok td = true ->
  search_nutrition q fd td remaining (opened s db l t)
  = (Ok (map RNutrition (found_days q fd td remaining db)),
     opened s db l (t ++ [SSelect Tnutrition_days (Some remaining)])).
Proof.
  intros Hf Ht. unfold search_nutrition.
  unfold bind at 1. unfold lift at 1. rewrite (day_bound_ok fd Hf).
  unfold bind at 1. unfold lift at 1. rewrite (day_bound_ok td Ht).
  reflexivity.
Qed.

Lemma search_body_run q fd td remaining s db l t :
  bound_ok fd = true -> bound_ok td = true ->
  search_body q fd td remaining (opened s db l t)
  = (Ok (map RBody (found_bodies q fd td remaining db)),
     opened s db l (t ++ [SSelect Tbody_metrics (Some remaining)])).
Proof.
  intros Hf Ht. unfold search_body.
  unfold bind at 1. unfold lift at 1. rewrite (day_bound_ok fd Hf).
  unfold bind at 1. unfold lift at 1. rewrite (day_bound_ok td Ht).
  reflexivity.
Qed.

Lemma length_limit_offset R limit (l : list R) :
  0 <= limit -> Z.of_nat (List.length (limit_offset limit 0 l)) <= limit.
Proof.
  intros H. unfold limit_offset. cbn [Z.to_nat skipn].
  destruct (Z.ltb_spec limit 0); [lia|].
  rewrite length_firstn. lia.
Qed.

Lemma slice_to_all A limit (l : list A) :
  0 <= limit -> Z.of_nat (List.length l) <= limit -> slice_to limit l = l.
Proof.
  intros H0 H. unfold slice_to. destruct (Z.ltb_spec limit 0); [lia|].
  apply firstn_all2. lia.
Qed.
Ltac norm_len :=
  rewrite ?length_app, ?length_map, ?Nat2Z.inj_add;
  cbn [List.length]; change (Z.of_nat 0) with 0;
  rewrite ?Z.add_0_r, ?Z.add_0_l, ?Z.sub_0_r.

Ltac settle_leb :=
  repeat match goal with
  | |- context [?a <=? ?b] =>
    destruct (Z.leb_spec a b); try (exfalso; cbn [List.length] in *; lia)
  end.

Ltac search_leaf Hq :=
  unfold bind, close, ret, opened; cbn [store conn trace];
  rewrite ?slice_to_all by (rewrite ?length_app, ?length_map; cbn [List.length]; lia);
  settle_leb; cbn [map List.length];
  rewrite ?app_nil_r; rewrite <- ?app_assoc;
  eexists; split;
  [reflexivity
  |rewrite <- ?app_assoc; cbn [app domain_queries domain_query];
   rewrite ?domain_queries_app, ?Hq; cbn [app domain_queries domain_query];
   rewrite ?app_nil_r; reflexivity].

Lemma search_logs_call q domains fd td limit db :
  0 <= limit -> bound_ok fd = true -> bound_ok td = true ->
  exists tr,
    call (search_logs q domains fd td limit) db
    = (Ok (search_results q domains fd td limit db),
       {| store := db; conn := Closed; trace := tr |})
    /\ domain_queries tr = expected_queries q domains fd td limit db.
Proof.
  intros Hl Hf Ht.
  unfold search_results, expected_queries, search_body_part, search_nutrition_part,
    search_workout_part.
  unfold call, search_logs. cbv zeta. fold (effective_domains domains).
  unfold bind at 1. unfold get_connection, fresh. cbn [store trace app].
  change {| store := db; conn := Open {| c_db := db; c_last_insert_rowid := 0 |};
            trace := [SPragma] |} with (opened db db 0 [SPragma]).
  unfold bind at 1.
  destruct (in_domains (py "workout") (effective_domains domains)).
  - destruct (search_workouts_run q fd td limit db db 0 [SPragma] Hf Ht)
      as (extra & Hw & Hq).
    rewrite Hw. clear Hw.
    set (ws := found_workouts q fd td limit db).
    assert (Hws : Z.of_nat (List.length ws) <= limit)
      by (apply length_limit_offset; exact Hl).
    norm_len.
    destruct (Z.leb_spec limit (Z.of_nat (List.length ws))) as [Hfull|Hroom];
      [search_leaf Hq|].
    unfold bind at 1.
    destruct (in_domains (py "nutrition") (effective_domains domains)).
    + rewrite (search_nutrition_run q fd td _ db db 0 _ Hf Ht).
      set (ns := found_days q fd td (limit - Z.of_nat (List.length ws)) db).
      assert (Hns : Z.of_nat (List.length ns) <= limit - Z.of_nat (List.length ws))
        by (apply length_limit_offset; lia).
      norm_len.
      destruct (Z.leb_spec limit (Z.of_nat (List.length ws) + Z.of_nat (List.length ns)))
        as [Hfull|Hroom2]; [search_leaf Hq|].
      unfold bind at 1.
      destruct (in_domains (py "body") (effective_domains domains)).
      { rewrite (search_body_run q fd td _ db db 0 _ Hf Ht). search_leaf Hq. }
      { search_leaf Hq. }
    + unfold ret at 1. cbv beta iota. rewrite app_nil_r. norm_len.
      destruct (Z.leb_spec limit (Z.of_nat (List.length ws))) as [Hfull|_]; [lia|].
      unfold bind at 1.
      destruct (in_domains (py "body") (effective_domains domains)).
      { rewrite (search_body_run q fd td _ db db 0 _ Hf Ht). search_leaf Hq. }
      { search_leaf Hq. }
  - unfold ret at 1. cbv beta iota. norm_len.
    assert (Hq : domain_queries [] = []) by reflexivity.
    destruct (Z.leb_spec limit 0) as [Hz|Hpos]; [search_leaf Hq|].
    unfold bind at 1.
    destruct (in_domains (py "nutrition") (effective_domains domains)).
    + rewrite (search_nutrition_run q fd td _ db db 0 _ Hf Ht).
      set (ns := found_days q fd td limit db).
      assert (Hns : Z.of_nat (List.length ns) <= limit)
        by (apply length_limit_offset; lia).
      cbn [app]. norm_len.
      destruct (Z.leb_spec limit (Z.of_nat (List.length ns))) as [Hfull|Hroom2];
        [search_leaf Hq|].
      unfold bind at 1.
      destruct (in_domains (py "body") (effective_domains domains)).
      { rewrite (search_body_run q fd td _ db db 0 _ Hf Ht). search_leaf Hq. }
      { search_leaf Hq. }
    + unfold ret at 1. cbv beta iota. cbn [app]. norm_len.
      destruct (Z.leb_spec limit 0) as [Hz|_]; [lia|].
      unfold bind at 1.
      destruct (in_domains (py "body") (effective_domains domains)).
      { rewrite (search_body_run q fd td _ db db 0 _ Hf Ht). search_leaf Hq. }
      { search_leaf Hq. }
Qed.

Lemma search_results_budget q domains fd td limit db :
  0 <= limit ->
  Z.of_nat (List.length (search_results q domains fd td limit db)) <= limit.
Proof.
  intros Hl. unfold search_results. rewrite !length_app, !length_map.
  set (ws := search_workout_part q domains fd td limit db).
  set (ns := search_nutrition_part q domains fd td limit db).
  assert (Hw : Z.of_nat (List.length ws) <= limit).
  { unfold ws, search_workout_part.
    destruct (in_domains _ _); [apply length_limit_offset; exact Hl|cbn; lia]. }
  assert (Hn : Z.of_nat (List.length ws) + Z.of_nat (List.length ns) <= limit).
  { unfold ns, search_nutrition_part. cbv zeta. fold ws.
    destruct (Z.leb_spec limit (Z.of_nat (List.length ws))); [cbn; lia|].
    destruct (in_domains _ _); [|cbn; lia].
    pose proof (length_limit_offset nutrition_day_row
                  (limit - Z.of_nat (List.length ws))
                  (filter (day_matches q (bound_day fd) (bound_day td))
                          (rows (nutrition_days db)))) as Hb.
    unfold found_days. lia. }
  unfold search_body_part. cbv zeta. fold ws. fold ns.
  destruct (Z.leb_spec limit (Z.of_nat (List.length ws) + Z.of_nat (List.length ns)));
    [cbn; lia|].
  destruct (in_domains _ _); [|cbn; lia].
  pose proof (length_limit_offset body_metrics_row
                (limit - (Z.of_nat (List.length ws) + Z.of_nat (List.length ns)))
                (filter (body_matches q (bound_day fd) (bound_day td))
                        (rows (body_metrics db)))) as Hb.
  unfold found_bodies. lia.
Qed.

Lemma search_results_domains q domains fd td limit db :
  map domain_of (search_results q domains fd td limit db)
  = repeat (py "workout") (List.length (search_workout_part q domains fd td limit db))
    ++ repeat (py "nutrition")
         (List.length (search_nutrition_part q domains fd td limit db))
    ++ repeat (py "body") (List.length (search_body_part q domains fd td limit db)).
Proof.
  unfold search_results. rewrite !map_app, !map_map.
  assert (Hrep : forall A (f : A -> search_result) d (l : list A),
            (forall x, domain_of (f x) = d) ->
            map (fun x => domain_of (f x)) l = repeat d (List.length l)).
  { intros A f d l Hf. induction l as [|x l IH]; [reflexivity|].
    cbn [map List.length repeat]. rewrite Hf, IH. reflexivity. }
  rewrite (Hrep _ (fun x => RWorkout (hydrate db x)) (py "workout")) by reflexivity.
  rewrite (Hrep _ RNutrition (py "nutrition")) by reflexivity.
  rewrite (Hrep _ RBody (py "body")) by reflexivity.
  reflexivity.
Qed.

Lemma search_logs_call_negative q domains fd td limit db :
  limit < 0 -> bound_ok fd = true -> bound_ok td = true ->
  exists tr,
    call (search_logs q domains fd td limit) db
    = (Ok (slice_to limit
             (map RWorkout
                (map (hydrate db) (search_workout_part q domains fd td limit db)))),
       {| store := db; conn := Closed; trace := tr |})
    /\ domain_queries tr
       = if in_domains (py "workout") (effective_domains domains)
         then [(Tworkouts, limit)] else [].
Proof.
  intros Hl Hf Ht. unfold search_workout_part.
  unfold call, search_logs. cbv zeta. fold (effective_domains domains).
  unfold bind at 1. unfold get_connection, fresh. cbn [store trace app].
  change {| store := db; conn := Open {| c_db := db; c_last_insert_rowid := 0 |};
            trace := [SPragma] |} with (opened db db 0 [SPragma]).
  unfold bind at 1.
  destruct (in_domains (py "workout") (effective_domains domains)).
  - destruct (search_workouts_run q fd td limit db db 0 [SPragma] Hf Ht)
      as (extra & Hw & Hq).
    rewrite Hw. clear Hw.
    destruct (Z.leb_spec limit
                (Z.of_nat (List.length
                   (map RWorkout (map (hydrate db) (found_workouts q fd td limit db))))))
      as [_|Hbad]; [|lia].
    unfold bind, close, ret, opened. cbn [store conn trace].
    eexists. split; [reflexivity|].
    cbn [app domain_queries domain_query]. rewrite Hq. reflexivity.
  - unfold ret at 1. cbv beta iota. cbn [List.length].
    destruct (Z.leb_spec limit (Z.of_nat 0)) as [_|Hbad]; [|cbn in Hbad; lia].
    unfold bind, close, ret, opened. cbn [store conn trace].
    eexists. split; reflexivity.
Qed.

(** C9 (budget of [search_logs], as amended).  With date filters that
    are absent, empty or accepted, [search_logs] returns, closes the
    connection and leaves the store as it was.  For a limit that is not
    negative its results are the workout matches, then the nutrition
    matches, then the body matches, each tagged with its domain.  The
    queries it sends to the three domain tables are, in that order and
    for the requested domains only, one on [workouts] with LIMIT
    [limit], one on [nutrition_days] with LIMIT [limit] minus the
    workouts found, and one on [body_metrics] with LIMIT [limit] minus
    everything found so far; the second and third are not sent once
    [limit] results are gathered.  No more than [limit] results are
    returned.  For a negative limit the one query, on [workouts] when
    that domain is requested, has a LIMIT that bounds nothing: it finds
    every matching workout, and the results are these workouts but the
    last [-limit] of them. *)
Theorem search_logs_budget (q : pystr) (domains : option (list pystr))
    (from_date to_date : option pystr) (limit : Z) (db : DB) :
  bound_ok from_date = true -> bound_ok to_date = true ->
  let out := call (search_logs q domains from_date to_date limit) db in
  let ds := effective_domains domains in
  (0 <= limit ->
   exists ws ns bs,
    let n1 := Z.of_nat (List.length ws) in
    let n2 := Z.of_nat (List.length ns) in
    fst out = Ok (map RWorkout ws ++ map RNutrition ns ++ map RBody bs)
    /\ domain_queries (trace (snd out))
       = (if in_domains (py "workout") ds then [(Tworkouts, limit)] else [])
         ++ (if limit <=? n1 then []
             else (if in_domains (py "nutrition") ds
                   then [(Tnutrition_days, limit - n1)] else [])
                  ++ (if limit <=? n1 + n2 then []
                      else if in_domains (py "body") ds
                           then [(Tbody_metrics, limit - (n1 + n2))] else []))
    /\ n1 + n2 + Z.of_nat (List.length bs) <= limit
    /\ conn (snd out) = Closed
    /\ store (snd out) = db)
  /\ (limit < 0 ->
      exists found,
        Permutation found
          (if in_domains (py "workout") ds
           then filter (workout_matches q
                          (with_suffix midnight (bound_day from_date))
                          (with_suffix last_second (bound_day to_date)))
                       (rows (workouts db))
           else [])
        /\ fst out
           = Ok (map RWorkout
                   (map (hydrate db)
                      (firstn (List.length found - Z.to_nat (- limit)) found)))
        /\ domain_queries (trace (snd out))
           = (if in_domains (py "workout") ds then [(Tworkouts, limit)] else [])
        /\ conn (snd out) = Closed
        /\ store (snd out) = db).
Proof.
  intros Hfd Htd out ds. split; intros Hl.
  - destruct (search_logs_call q domains from_date to_date limit db Hl Hfd Htd)
      as (tr & Hcall & Htr).
    exists (map (hydrate db) (search_workout_part q domains from_date to_date limit db)),
           (search_nutrition_part q domains from_date to_date limit db),
           (search_body_part q domains from_date to_date limit db).
    cbv zeta. unfold out. rewrite Hcall. cbn [fst snd trace conn store].
    rewrite length_map.
    repeat split.
    + exact Htr.
    + pose proof (search_results_budget q domains from_date to_date limit db Hl) as Hb.
      unfold search_results in Hb. rewrite !length_app, !length_map in Hb. lia.
  - destruct (search_logs_call_negative q domains from_date to_date limit db Hl Hfd Htd)
      as (tr & Hcall & Htr).
    exists (search_workout_part q domains from_date to_date limit db).
    unfold out. rewrite Hcall. cbn [fst snd trace conn store].
    split; [|split; [|split; [exact Htr|split; reflexivity]]].
    + unfold search_workout_part. fold ds. destruct (in_domains (py "workout") ds);
        [|constructor].
      unfold found_workouts, limit_offset. cbn [Z.to_nat skipn].
      destruct (Z.ltb_spec limit 0); [reflexivity|lia].
    + f_equal. unfold slice_to. destruct (Z.ltb_spec limit 0); [|lia].
      rewrite !length_map, <- !firstn_map. f_equal. lia.
Qed.

(** Seven nutrition days mention pizza; a search for it in the
    nutrition domain with limit 5 returns five results, all tagged
    nutrition, after one query with LIMIT 5. *)
Lemma search_logs_budget_witness :
  let out :=
    call (search_logs (py "pizza") (Some [py "nutrition"]) None None 5) pizza_week in
  (exists ws ns bs,
      fst out = Ok (map RWorkout ws ++ map RNutrition ns ++ map RBody bs)
      /\ Z.of_nat (List.length ws) + Z.of_nat (List.length ns)
         + Z.of_nat (List.length bs) <= 5
      /\ conn (snd out) = Closed)
  /\ (exists rs,
        fst out = Ok rs /\ List.length rs = 5%nat
        /\ map domain_of rs = repeat (py "nutrition") 5)
  /\ domain_queries (trace (snd out)) = [(Tnutrition_days, 5)]
  /\ List.length (rows (nutrition_days pizza_week)) = 7%nat.
Proof.
  intros out. split; [|split; [|split]].
  - destruct (search_logs_budget (py "pizza") (Some [py "nutrition"]) None None 5
                pizza_week eq_refl eq_refl) as (Hpos & _).
    destruct Hpos as (ws & ns & bs & Hr & _ & Hle & Hc & _); [lia|].
    exists ws, ns, bs. repeat split; assumption.
  - eexists. split; [vm_compute; reflexivity|]. split; vm_compute; reflexivity.
  - vm_compute. reflexivity.
  - vm_compute. reflexivity.
Defined.

(** C9 as stated fails for a negative limit.  With three workouts whose
    notes mention pizza and one such nutrition day, a search with limit
    -1 sends one query, on [workouts] with LIMIT -1, which finds the
    three workouts, and returns two results: more than the limit, and
    no nutrition result although that domain was requested. *)
Lemma search_logs_negative_limit :
  let log (db : DB) (date_time : pystr) :=
    store (snd (call (log_workout fromisoformat_seconds strings_view no_exercises_view
                        date_time None ArgNone (Some (py "pizza run")) ArgNone) db)) in
  let db :=
    store (snd (call (upsert_nutrition_day (py "2026-01-01") (Some (py "pizza night")))
                  (fold_left log
                     [py "2026-01-01T10:00:00"; py "2026-01-02T10:00:00";
                      py "2026-01-03T10:00:00"] empty_db))) in
  let out := call (search_logs (py "pizza") None None None (-1)) db in
  List.length (rows (workouts db)) = 3%nat
  /\ List.length (rows (nutrition_days db)) = 1%nat
  /\ domain_queries (trace (snd out)) = [(Tworkouts, -1)]
  /\ (exists rs,
        fst out = Ok rs
        /\ map domain_of rs = [py "workout"; py "workout"]
        /\ -1 < Z.of_nat (List.length rs)).
Proof.
  cbv zeta. split; [vm_compute; reflexivity|]. split; [vm_compute; reflexivity|].
  split; [vm_compute; reflexivity|].
  eexists. split; [vm_compute; reflexivity|]. split; vm_compute; reflexivity.
Qed.

(* ================================================================== *)
(** * Part III: the remaining tools *)
(* ================================================================== *)

(** A text handed to a statement as a parameter is taken to be one the
    driver can encode: a lone surrogate in it makes the driver raise
    before the statement runs, which the embedding does not follow. *)

(** ** What a failing call leaves behind *)

Lemma aborts_clean_keeps_store A (m : M A) : keeps_store m -> aborts_clean m.
Proof. intros H w. specialize (H w). destruct (m w) as [[a|e] w']; [exact I|exact H]. Qed.

Lemma aborts_clean_bind A B (m : M A) (k : A -> M B) :
  keeps_store m -> (forall a, aborts_clean (k a)) -> aborts_clean (bind m k).
Proof.
  intros Hm Hk w. unfold bind. specialize (Hm w).
  destruct (m w) as [[a|e] w']; cbn [snd] in Hm; [|exact Hm].
  specialize (Hk a w'). destruct (k a w') as [[b|e] w'']; [exact I|].
  rewrite Hk. exact Hm.
Qed.

(** The common tail of the writing tools: once [commit] went through,
    nothing is left that can raise. *)
Lemma aborts_clean_commit A (a : A) : aborts_clean (commit ;; close ;; ret a).
Proof.
  intros w. unfold bind, commit, close, ret.
  destruct (conn w); cbn; auto.
Qed.

Lemma aborts_clean_discard A (m : M A) : aborts_clean m -> aborts_clean (discard m).
Proof.
  intros H w. unfold discard. specialize (H w).
  destruct (m w) as [[a|e] w']; [exact I|exact H].
Qed.

Lemma keeps_store_discard A (m : M A) : keeps_store m -> keeps_store (discard m).
Proof.
  intros H w. unfold discard. specialize (H w).
  destruct (m w) as [[a|e] w']; exact H.
Qed.

Ltac clean_step :=
  match goal with
  | |- aborts_clean (bind commit _) => apply aborts_clean_commit
  | |- aborts_clean (bind _ _) => apply aborts_clean_bind; [store_auto|intros ?]
  | |- aborts_clean (match ?x with _ => _ end) => destruct x
  | |- aborts_clean (if ?x then _ else _) => destruct x
  | |- aborts_clean _ => apply aborts_clean_keeps_store; store_auto
  end.
Ltac clean_auto := repeat (cbv zeta; clean_step).

Lemma keeps_store_hydrate row : keeps_store (_hydrate_workout row).
Proof. unfold _hydrate_workout, _load_sets. store_auto. Qed.

Section ToolsAndTheStore.
Variable fromisoformat : pystr -> option datetime.
Variable tags_view : list json -> list pystr.
Variable exercises_view : list json -> list exercise_payload.

Lemma keeps_store_read_only t :
  read_only t = true ->
  keeps_store (run_tool fromisoformat tags_view exercises_view t).
Proof.
  destruct t; cbn [read_only]; try discriminate; intros _;
    cbn [run_tool]; apply keeps_store_discard.
  - unfold get_workouts. store_auto. apply keeps_store_hydrate.
  - unfold get_last_workout. store_auto. apply keeps_store_hydrate.
  - unfold get_exercise_history, _load_sets. store_auto.
  - unfold get_nutrition_day. store_auto.
  - unfold get_nutrition_days_summary. store_auto.
  - unfold get_body_metrics. store_auto.
  - unfold search_logs, search_workouts, search_nutrition, search_body. store_auto.
    all: try apply keeps_store_hydrate.
Qed.

Lemma aborts_clean_other_tools t :
  match t with CallLogWorkout _ _ _ _ _ => True
  | _ => aborts_clean (run_tool fromisoformat tags_view exercises_view t)
  end.
Proof.
  destruct t; try exact I; cbn [run_tool]; apply aborts_clean_discard.
  - unfold add_exercise. clean_auto.
  - unfold add_set. clean_auto.
  - unfold get_workouts. clean_auto. apply keeps_store_hydrate.
  - unfold get_last_workout. clean_auto. apply keeps_store_hydrate.
  - unfold get_exercise_history, _load_sets. clean_auto.
  - unfold upsert_nutrition_day. clean_auto.
  - unfold upsert_meal, ensure_day. clean_auto.
  - unfold add_or_update_meal_item, ensure_day. clean_auto.
  - unfold get_nutrition_day. clean_auto.
  - unfold get_nutrition_days_summary. clean_auto.
  - unfold delete_meal_item. clean_auto.
  - unfold delete_meal. clean_auto.
  - unfold delete_nutrition_day. clean_auto.
  - unfold log_body_metrics. clean_auto.
  - unfold get_body_metrics. clean_auto.
  - unfold search_logs, search_workouts, search_nutrition, search_body. clean_auto.
    all: try apply keeps_store_hydrate.
Qed.

Lemma run_tool_raise_store t db e :
  fst (call (run_tool fromisoformat tags_view exercises_view t) db) = Raise e ->
  store (snd (call (run_tool fromisoformat tags_view exercises_view t) db)) = db.
Proof.
  intros Hr.
  assert (Hother :
    aborts_clean (run_tool fromisoformat tags_view exercises_view t) ->
    store (snd (call (run_tool fromisoformat tags_view exercises_view t) db)) = db).
  { intros Hc. specialize (Hc (fresh db)). unfold call in *.
    destruct (run_tool _ _ _ t (fresh db)) as [[a|e'] w']; [discriminate|exact Hc]. }
  pose proof (aborts_clean_other_tools t) as Ht.
  destruct t as [dt wt tg nt exs| | | | | | | | | | | | | | | |];
    try (apply Hother; exact Ht).
  clear Hother Ht. cbn [run_tool] in *. unfold call, discard in *.
  pose proof (log_workout_run fromisoformat tags_view exercises_view
                dt wt tg nt exs db) as H.
  unfold call in H.
  destruct (log_workout fromisoformat tags_view exercises_view dt wt
              tg nt exs (fresh db)) as [[r|e'] w'] eqn:E;
    [discriminate|].
  cbn [snd fst] in *. unfold log_workout_outcome in H.
  destruct (normalized tags_view tg); [|destruct H as (? & _ & H); exact H].
  destruct (normalized exercises_view exs); [|destruct H as (? & _ & H); exact H].
  destruct (fromisoformat dt); [|destruct H as (? & _ & H); exact H].
  destruct (exercises_valid _); [|destruct H as (? & _ & H); exact H].
  destruct H as (? & ? & ? & ? & ? & H). cbv zeta in H. destruct H as (H & _).
  discriminate.
Qed.

End ToolsAndTheStore.

(** X1 (failing calls).  Whatever public tool is called, on whatever
    arguments and store: when the call raises, the committed store is
    the one the call started with. *)
Theorem failing_tool_changes_nothing
    (fromisoformat : pystr -> option datetime)
    (tags_view : list json -> list pystr)
    (exercises_view : list json -> list exercise_payload)
    (t : tool_call) (db : DB) (e : exn) :
  fst (call (run_tool fromisoformat tags_view exercises_view t) db) = Raise e ->
  store (snd (call (run_tool fromisoformat tags_view exercises_view t) db)) = db.
Proof. apply run_tool_raise_store. Qed.

(** A set added to an exercise that does not exist is refused and the
    sample store stays as it is. *)
Lemma failing_tool_changes_nothing_witness :
  fst (call (run_tool fromisoformat_seconds strings_view no_exercises_view
               (CallAddSet 99 no_fields false)) demo_db) = Raise IntegrityError
  /\ store (snd (call (run_tool fromisoformat_seconds strings_view no_exercises_view
                         (CallAddSet 99 no_fields false)) demo_db)) = demo_db.
Proof.
  assert (H : fst (call (run_tool fromisoformat_seconds strings_view no_exercises_view
                           (CallAddSet 99 no_fields false)) demo_db)
              = Raise IntegrityError) by (vm_compute; reflexivity).
  split; [exact H|].
  exact (failing_tool_changes_nothing _ _ _ _ _ _ H).
Defined.

(** X2 (queries).  The seven tools that only query never change the
    committed store, whether they return or raise. *)
Theorem query_tools_keep_store
    (fromisoformat : pystr -> option datetime)
    (tags_view : list json -> list pystr)
    (exercises_view : list json -> list exercise_payload)
    (t : tool_call) (db : DB) :
  read_only t = true ->
  store (snd (call (run_tool fromisoformat tags_view exercises_view t) db)) = db.
Proof.
  intros H. exact (keeps_store_read_only fromisoformat tags_view exercises_view t H (fresh db)).
Qed.

Lemma query_tools_keep_store_witness :
  store (snd (call (run_tool fromisoformat_seconds strings_view no_exercises_view
                      (CallSearchLogs (py "legs") None None None 20)) demo_db))
  = demo_db.
Proof.
  apply (query_tools_keep_store fromisoformat_seconds strings_view no_exercises_view
           (CallSearchLogs (py "legs") None None None 20) demo_db).
  reflexivity.
Defined.

(** ** [add_exercise] *)

Lemma add_exercise_call wid name cat notes db :
  call (add_exercise wid name cat notes) db =
  if has_id w_id wid (workouts db) then
    let row := {| e_id := next_rowid e_id (exercises db); e_workout_id := wid;
                  e_order_index :=
                    coalesce_max (map e_order_index (exercises_of wid db)) + 1;
                  e_name := name; e_category := cat; e_notes := notes |} in
    (Ok (e_id row),
     {| store := set_exercises db
                   {| rows := rows (exercises db) ++ [row]; autoinc := e_id row |};
        conn := Closed;
        trace := [SPragma; SSelect Texercises None; SInsert Texercises] |})
  else
    (Raise IntegrityError,
     {| store := db; conn := Open {| c_db := db; c_last_insert_rowid := 0 |};
        trace := [SPragma; SSelect Texercises None; SInsert Texercises] |}).
Proof.
  unfold call, add_exercise, fresh.
  unfold bind, get_connection, query, insert, commit, close, ret, log_stmt.
  cbn [conn c_db store trace c_last_insert_rowid fst snd app].
  unfold insert_exercise.
  destruct (has_id w_id wid (workouts db)); reflexivity.
Qed.

Lemma max_rowid_In R (rowid : R -> Z) (l : list R) r :
  In r l -> rowid r <= max_rowid rowid l.
Proof.
  induction l as [|x l IH]; [contradiction|].
  cbn [max_rowid fold_right]. intros [->|H]; [lia|].
  specialize (IH H). unfold max_rowid in IH. lia.
Qed.

Lemma next_rowid_above R (rowid : R -> Z) (t : table R) r :
  In r (rows t) -> rowid r < next_rowid rowid t.
Proof.
  intros H. pose proof (max_rowid_In R rowid (rows t) r H). unfold next_rowid. lia.
Qed.

Lemma next_rowid_positive R (rowid : R -> Z) (t : table R) :
  0 <= autoinc t -> 0 < next_rowid rowid t.
Proof. unfold next_rowid. lia. Qed.

(** X3 ([add_exercise]).  On a workout that exists the call appends one
    exercise row carrying the arguments as given (the name is not
    checked, an empty one included), under a fresh id and at the
    position one above the largest position among the workout's
    exercises, so above all of them; nothing else changes.  On a workout
    that does not exist the call raises [IntegrityError] and the store
    is unchanged. *)
Theorem add_exercise_appends (workout_id : Z) (name : pystr)
    (category notes : option pystr) (db : DB) :
  let out := call (add_exercise workout_id name category notes) db in
  (has_id w_id workout_id (workouts db) = true ->
     exists row,
       fst out = Ok (e_id row)
       /\ store (snd out)
          = set_exercises db
              {| rows := rows (exercises db) ++ [row]; autoinc := e_id row |}
       /\ (e_workout_id row, e_name row, e_category row, e_notes row)
          = (workout_id, name, category, notes)
       /\ e_order_index row
          = coalesce_max (map e_order_index (exercises_of workout_id db)) + 1
       /\ (forall e, In e (exercises_of workout_id db) ->
                     e_order_index e < e_order_index row)
       /\ (forall e, In e (rows (exercises db)) -> e_id e < e_id row))
  /\ (has_id w_id workout_id (workouts db) = false ->
        fst out = Raise IntegrityError /\ store (snd out) = db).
Proof.
  intros out. unfold out. rewrite add_exercise_call. split; intros H; rewrite H.
  - cbv zeta. eexists. cbn [fst snd store].
    split; [reflexivity|]. split; [reflexivity|].
    cbn [e_id e_workout_id e_name e_category e_notes e_order_index].
    split; [reflexivity|]. split; [reflexivity|]. split.
    + intros e He.
      assert (e_order_index e
              <= coalesce_max (map e_order_index (exercises_of workout_id db))).
      { apply coalesce_max_ge. apply in_map. exact He. }
      lia.
    + intros e He. apply next_rowid_above. exact He.
  - split; reflexivity.
Qed.

(** A second exercise for the workout of the sample store, with an
    empty name, is stored at position 2; workout 9 does not exist. *)
Lemma add_exercise_appends_witness :
  (exists row,
      fst (call (add_exercise 1 [] None None) demo_db) = Ok (e_id row)
      /\ e_name row = [] /\ e_order_index row = 2)
  /\ fst (call (add_exercise 9 (py "Row") None None) demo_db) = Raise IntegrityError.
Proof.
  split.
  - destruct (add_exercise_appends 1 [] None None demo_db) as (Hok & _).
    destruct Hok as (row & Hr & _ & Hcols & Hidx & _); [vm_compute; reflexivity|].
    exists row. split; [exact Hr|]. split; [congruence|].
    rewrite Hidx. vm_compute. reflexivity.
  - destruct (add_exercise_appends 9 (py "Row") None None demo_db) as (_ & Hbad).
    apply Hbad. vm_compute. reflexivity.
Defined.

(** ** ORDER BY, LIMIT and OFFSET *)

Section Sorting.
Variable R : Type.
Variable le : R -> R -> bool.
Hypothesis le_total : forall a b, le a b = true \/ le b a = true.
Hypothesis le_trans : forall a b c, le a b = true -> le b c = true -> le a c = true.

Lemma insert_sorted_sorted x l :
  StronglySorted (fun a b => le a b = true) l -> StronglySorted (fun a b => le a b = true) (insert_sorted le x l).
Proof.
  induction 1 as [|y l Hs IH Hall]; cbn [insert_sorted].
  - constructor; [constructor|constructor].
  - destruct (le x y) eqn:E.
    + constructor; [constructor; assumption|].
      constructor; [exact E|].
      rewrite Forall_forall in *. intros z Hz.
      apply (le_trans x y z E). apply Hall. exact Hz.
    + constructor; [exact IH|].
      rewrite Forall_forall in *. intros z Hz.
      apply In_insert_sorted in Hz. destruct Hz as [->|Hz].
      * destruct (le_total x y) as [H|H]; [congruence|exact H].
      * apply Hall. exact Hz.
Qed.

Lemma order_by_sorted l : StronglySorted (fun a b => le a b = true) (order_by le l).
Proof.
  unfold order_by. induction l as [|x l IH]; cbn [fold_right].
  - constructor.
  - apply insert_sorted_sorted. exact IH.
Qed.

Lemma sorted_head_least x l y :
  StronglySorted (fun a b => le a b = true) (x :: l) -> In y (x :: l) -> le x y = true.
Proof.
  intros Hs [->|Hy].
  - destruct (le_total y y); assumption.
  - apply StronglySorted_inv in Hs. destruct Hs as [_ Hall].
    rewrite Forall_forall in Hall. apply Hall. exact Hy.
Qed.

Lemma hd_order_by_least x l :
  hd_error (order_by le l) = Some x ->
  In x l /\ forall y, In y l -> le x y = true.
Proof.
  intros H. pose proof (order_by_sorted l) as Hs.
  destruct (order_by le l) as [|z s] eqn:E; [discriminate|].
  cbn [hd_error] in H. injection H as ->.
  split.
  - apply (In_order_by R le x l). rewrite E. left. reflexivity.
  - intros y Hy. apply (sorted_head_least x s y Hs).
    rewrite <- E. apply In_order_by. exact Hy.
Qed.

Lemma hd_order_by_none l : hd_error (order_by le l) = None -> l = [].
Proof.
  destruct l as [|x l]; [reflexivity|]. intros H. exfalso.
  assert (Hin : In x (order_by le (x :: l))) by (apply In_order_by; left; reflexivity).
  destruct (order_by le (x :: l)); [contradiction|discriminate].
Qed.

Lemma order_by_last x l :
  (forall y, In y l -> le y x = true) ->
  order_by le (l ++ [x]) = order_by le l ++ [x].
Proof.
  unfold order_by. induction l as [|y l IH]; intros H; [reflexivity|].
  cbn [app fold_right]. rewrite IH by (intros z Hz; apply H; right; exact Hz).
  assert (Hy : le y x = true) by (apply H; left; reflexivity).
  generalize (fold_right (insert_sorted le) [] l). intros s.
  induction s as [|z s IHs]; cbn [insert_sorted app].
  - rewrite Hy. reflexivity.
  - destruct (le y z); [reflexivity|]. rewrite IHs. reflexivity.
Qed.

End Sorting.

Lemma sorted_skipn R (P : R -> R -> Prop) n : forall l,
  StronglySorted P l -> StronglySorted P (skipn n l).
Proof.
  induction n as [|n IH]; intros l Hs; [exact Hs|].
  destruct l as [|x l]; [exact Hs|]. cbn [skipn].
  apply IH. apply StronglySorted_inv in Hs. tauto.
Qed.

Lemma sorted_firstn R (P : R -> R -> Prop) n : forall l,
  StronglySorted P l -> StronglySorted P (firstn n l).
Proof.
  induction n as [|n IH]; intros l Hs; [constructor|].
  destruct l as [|x l]; [constructor|]. cbn [firstn].
  apply StronglySorted_inv in Hs. destruct Hs as [Hs Hall].
  constructor; [apply IH; exact Hs|].
  rewrite Forall_forall in *. intros y Hy. apply Hall.
  apply (In_firstn_weaken _ _ _ _ Hy).
Qed.

Lemma sorted_limit_offset R (P : R -> R -> Prop) limit offset l :
  StronglySorted P l -> StronglySorted P (limit_offset limit offset l).
Proof.
  intros Hs. unfold limit_offset. destruct (limit <? 0).
  - apply sorted_skipn. exact Hs.
  - apply sorted_firstn. apply sorted_skipn. exact Hs.
Qed.

Lemma sorted_map A B (f : A -> B) (P : A -> A -> Prop) (Q : B -> B -> Prop) l :
  (forall a b, P a b -> Q (f a) (f b)) ->
  StronglySorted P l -> StronglySorted Q (map f l).
Proof.
  intros Hf. induction 1 as [|x l Hs IH Hall]; cbn [map]; constructor.
  - exact IH.
  - rewrite Forall_forall in *. intros y Hy. apply in_map_iff in Hy.
    destruct Hy as (a & <- & Ha). apply Hf. apply Hall. exact Ha.
Qed.

Lemma length_limit_offset_any R limit offset (l : list R) :
  0 <= limit -> Z.of_nat (List.length (limit_offset limit offset l)) <= limit.
Proof.
  intros H. unfold limit_offset.
  destruct (Z.ltb_spec limit 0); [lia|]. rewrite length_firstn. lia.
Qed.

(** *** The order of texts *)

Local Open Scope N_scope.

Lemma pystr_compare_refl a : pystr_compare a a = Eq.
Proof.
  induction a as [|x a IH]; [reflexivity|].
  cbn [pystr_compare]. rewrite N.compare_refl. exact IH.
Qed.

Lemma pystr_compare_eq a : forall b, pystr_compare a b = Eq -> a = b.
Proof.
  induction a as [|x a IH]; intros [|y b] H; cbn [pystr_compare] in H;
    try discriminate; [reflexivity|].
  destruct (N.compare_spec x y) as [->|?|?]; try discriminate.
  f_equal. apply IH. exact H.
Qed.

Lemma pystr_compare_antisym a : forall b,
  pystr_compare b a = CompOpp (pystr_compare a b).
Proof.
  induction a as [|x a IH]; intros [|y b]; cbn [pystr_compare]; try reflexivity.
  rewrite (N.compare_antisym x y).
  destruct (N.compare x y); cbn [CompOpp]; [apply IH|reflexivity|reflexivity].
Qed.

Lemma pystr_compare_lt_trans a : forall b c,
  pystr_compare a b = Lt -> pystr_compare b c = Lt -> pystr_compare a c = Lt.
Proof.
  induction a as [|x a IH]; intros [|y b] [|z c] H1 H2; cbn [pystr_compare] in *;
    try discriminate; try reflexivity.
  destruct (N.compare_spec x y) as [->|Hxy|Hxy]; try discriminate.
  - destruct (N.compare_spec y z) as [->|Hyz|Hyz]; try discriminate; [|reflexivity].
    apply (IH b c H1 H2).
  - destruct (N.compare_spec y z) as [->|Hyz|Hyz]; try discriminate.
    + destruct (N.compare_spec x z) as [->|?|?]; try lia. reflexivity.
    + destruct (N.compare_spec x z) as [->|?|?]; try lia. reflexivity.
Qed.

Lemma pystr_leb_total a b : pystr_leb a b = true \/ pystr_leb b a = true.
Proof.
  unfold pystr_leb. rewrite (pystr_compare_antisym a b).
  destruct (pystr_compare a b); cbn [CompOpp]; tauto.
Qed.

Lemma pystr_leb_trans a b c :
  pystr_leb a b = true -> pystr_leb b c = true -> pystr_leb a c = true.
Proof.
  unfold pystr_leb. intros H1 H2.
  destruct (pystr_compare a b) eqn:E1; try discriminate;
    destruct (pystr_compare b c) eqn:E2; try discriminate.
  - apply pystr_compare_eq in E1, E2. subst. rewrite pystr_compare_refl. reflexivity.
  - apply pystr_compare_eq in E1. subst. rewrite E2. reflexivity.
  - apply pystr_compare_eq in E2. subst. rewrite E1. reflexivity.
  - rewrite (pystr_compare_lt_trans a b c E1 E2). reflexivity.
Qed.

Lemma pystr_leb_antisym a b :
  pystr_leb a b = true -> pystr_leb b a = true -> a = b.
Proof.
  unfold pystr_leb. rewrite (pystr_compare_antisym a b).
  destruct (pystr_compare a b) eqn:E; cbn [CompOpp]; try discriminate.
  intros _ _. apply pystr_compare_eq. exact E.
Qed.

Lemma pystr_leb_refl a : pystr_leb a a = true.
Proof. unfold pystr_leb. rewrite pystr_compare_refl. reflexivity. Qed.

Local Close Scope N_scope.

Lemma by_text_desc_total R (key : R -> pystr) a b :
  by_text_desc key a b = true \/ by_text_desc key b a = true.
Proof. unfold by_text_desc. apply pystr_leb_total. Qed.

Lemma by_text_desc_trans R (key : R -> pystr) a b c :
  by_text_desc key a b = true -> by_text_desc key b c = true ->
  by_text_desc key a c = true.
Proof. unfold by_text_desc. intros H1 H2. apply (pystr_leb_trans _ _ _ H2 H1). Qed.

Lemma by_Z_total R (key : R -> Z) a b : by_Z key a b = true \/ by_Z key b a = true.
Proof. unfold by_Z. destruct (Z.leb_spec (key a) (key b)); [tauto|right]. apply Z.leb_le. lia. Qed.

Lemma by_Z_trans R (key : R -> Z) a b c :
  by_Z key a b = true -> by_Z key b c = true -> by_Z key a c = true.
Proof. unfold by_Z. rewrite !Z.leb_le. lia. Qed.

(** ** Pages of workouts, the latest workout and hydration *)

Lemma sorted_weaken R (P Q : R -> R -> Prop) l :
  (forall a b, P a b -> Q a b) -> StronglySorted P l -> StronglySorted Q l.
Proof.
  intros H Hs. rewrite <- (map_id l). apply (sorted_map R R (fun x => x) P Q l H Hs).
Qed.

Lemma select_sets_spec eid db :
  StronglySorted (fun a b => s_set_index a <= s_set_index b) (select_sets eid db)
  /\ forall s, In s (select_sets eid db)
               <-> In s (rows (sets db)) /\ s_exercise_id s = eid.
Proof.
  unfold select_sets. split.
  - apply (sorted_weaken _ (fun a b => by_Z s_set_index a b = true)).
    + intros a b H. apply Z.leb_le. exact H.
    + apply order_by_sorted; [apply by_Z_total|apply by_Z_trans].
  - intros s. rewrite In_order_by, filter_In, Z.eqb_eq. tauto.
Qed.

Lemma select_exercises_spec wid db :
  StronglySorted (fun a b => e_order_index a <= e_order_index b)
                 (select_exercises wid db)
  /\ forall e, In e (select_exercises wid db)
               <-> In e (rows (exercises db)) /\ e_workout_id e = wid.
Proof.
  unfold select_exercises. split.
  - apply (sorted_weaken _ (fun a b => by_Z e_order_index a b = true)).
    + intros a b H. apply Z.leb_le. exact H.
    + apply order_by_sorted; [apply by_Z_total|apply by_Z_trans].
  - intros e. rewrite In_order_by, filter_In, Z.eqb_eq. tauto.
Qed.

(** X4 (hydration).  On an open connection [_hydrate_workout] returns
    the row with its tags decoded and with exactly the exercises that
    refer to the workout, by ascending [order_index]; each exercise
    comes with exactly the sets that refer to it, by ascending
    [set_index].  The connection stays as it was. *)
Theorem hydrate_workout_in_order (row : workout_row) (s db : DB) (l : Z)
    (t : list stmt) :
  exists h extra,
    _hydrate_workout row (opened s db l t) = (Ok h, opened s db l (t ++ extra))
    /\ (wk_id h, wk_date_time h, wk_workout_type h, wk_notes h)
       = (w_id row, w_date_time row, w_workout_type row, w_notes row)
    /\ wk_tags h = deserialize_tags (w_tags row)
    /\ StronglySorted (fun a b => e_order_index a <= e_order_index b)
                      (map ex_row (wk_exercises h))
    /\ (forall e, In e (map ex_row (wk_exercises h))
                  <-> In e (rows (exercises db)) /\ e_workout_id e = w_id row)
    /\ (forall x, In x (wk_exercises h) ->
          StronglySorted (fun a b => s_set_index a <= s_set_index b) (ex_sets x)
          /\ forall sr, In sr (ex_sets x)
                        <-> In sr (rows (sets db))
                            /\ s_exercise_id sr = e_id (ex_row x)).
Proof.
  destruct (reads_hydrate row s db l t) as (extra & E & _).
  exists (hydrate db row), extra. split; [exact E|].
  unfold hydrate. cbn [wk_id wk_date_time wk_workout_type wk_notes wk_tags wk_exercises].
  split; [reflexivity|]. split; [reflexivity|].
  rewrite map_map. cbn [ex_row]. rewrite map_id.
  destruct (select_exercises_spec (w_id row) db) as (Hs & Hin).
  split; [exact Hs|]. split; [exact Hin|].
  intros x Hx. apply in_map_iff in Hx. destruct Hx as (e & <- & _).
  cbn [ex_sets ex_row]. apply select_sets_spec.
Qed.

(** *** [log_workout]: all rows or none *)

Lemma Permutation_insert_sorted R (le : R -> R -> bool) x l :
  Permutation (insert_sorted le x l) (x :: l).
Proof.
  induction l as [|y l IH]; cbn [insert_sorted]; [reflexivity|].
  destruct (le x y); [reflexivity|].
  apply perm_trans with (y :: x :: l); [apply perm_skip; exact IH|apply perm_swap].
Qed.

Lemma Permutation_order_by R (le : R -> R -> bool) l : Permutation (order_by le l) l.
Proof.
  unfold order_by. induction l as [|x l IH]; cbn [fold_right]; [constructor|].
  eapply perm_trans; [apply Permutation_insert_sorted|apply perm_skip; exact IH].
Qed.

(** ORDER BY leaves rows that are in order as they are. *)
Lemma order_by_sorted_same R (le : R -> R -> bool) l :
  StronglySorted (fun a b => le a b = true) l -> order_by le l = l.
Proof.
  unfold order_by. induction 1 as [|x l Hs IH Hall]; cbn [fold_right]; [reflexivity|].
  rewrite IH. destruct l as [|y l]; [reflexivity|]. cbn [insert_sorted].
  apply Forall_inv in Hall. rewrite Hall. reflexivity.
Qed.

Lemma filter_all A (p : A -> bool) l :
  (forall x, In x l -> p x = true) -> filter p l = l.
Proof.
  induction l as [|x l IH]; intros H; [reflexivity|]. cbn [filter].
  rewrite (H x (or_introl eq_refl)). f_equal. apply IH. intros y Hy. apply H. right. exact Hy.
Qed.

(** Rows whose keys count up from [i] are in order, and none is below [i]. *)
Lemma enumerated_sorted R A (key : R -> Z) : forall (l : list R) (l' : list A) i,
  map key l = map fst (enumerate_from i l') ->
  StronglySorted (fun a b => by_Z key a b = true) l
  /\ Forall (fun a => i <= key a) l.
Proof.
  induction l as [|x l IH]; intros l' i H; [split; constructor|].
  destruct l' as [|p l']; [discriminate|].
  cbn [map enumerate_from fst] in H. injection H as Hx Hl.
  destruct (IH l' (i + 1) Hl) as (Hs & Hall).
  split.
  - constructor; [exact Hs|]. rewrite Forall_forall in *. intros a Ha.
    unfold by_Z. apply Z.leb_le. specialize (Hall a Ha). lia.
  - constructor; [lia|]. rewrite Forall_forall in *. intros a Ha.
    specialize (Hall a Ha). lia.
Qed.

Lemma has_id_below R (rowid : R -> Z) (t : table R) id :
  has_id rowid id t = true -> id < next_rowid rowid t.
Proof.
  unfold has_id. rewrite existsb_exists. intros (r & Hr & E).
  apply Z.eqb_eq in E. subst id. apply next_rowid_fresh. exact Hr.
Qed.

(** What [_hydrate_workout] assembles, row by row. *)
Lemma hydrate_spec db row :
  (wk_id (hydrate db row), wk_date_time (hydrate db row),
   wk_workout_type (hydrate db row), wk_notes (hydrate db row))
  = (w_id row, w_date_time row, w_workout_type row, w_notes row)
  /\ wk_tags (hydrate db row) = deserialize_tags (w_tags row)
  /\ StronglySorted (fun a b => e_order_index a <= e_order_index b)
                    (map ex_row (wk_exercises (hydrate db row)))
  /\ Permutation (map ex_row (wk_exercises (hydrate db row)))
                 (filter (fun e => e_workout_id e =? w_id row) (rows (exercises db)))
  /\ (forall x, In x (wk_exercises (hydrate db row)) ->
        StronglySorted (fun a b => s_set_index a <= s_set_index b) (ex_sets x)
        /\ Permutation (ex_sets x)
             (filter (fun s => s_exercise_id s =? e_id (ex_row x)) (rows (sets db)))).
Proof.
  unfold hydrate. cbn [wk_id wk_date_time wk_workout_type wk_notes wk_tags wk_exercises].
  split; [reflexivity|]. split; [reflexivity|].
  rewrite map_map. cbn [ex_row]. rewrite map_id.
  split; [apply select_exercises_spec|].
  split; [apply Permutation_order_by|].
  intros x Hx. apply in_map_iff in Hx. destruct Hx as (e & <- & _).
  cbn [ex_sets ex_row]. split; [apply select_sets_spec|apply Permutation_order_by].
Qed.

Lemma map_constant A B C (f : A -> C) (c : C) (g : B -> C) (l : list A) (l' : list B) :
  map f l = map g l' -> (forall y, g y = c) -> forall x, In x l -> f x = c.
Proof.
  intros H Hg x Hx. apply (in_map f) in Hx. rewrite H in Hx.
  apply in_map_iff in Hx. destruct Hx as (y & <- & _). apply Hg.
Qed.

(** On a store whose references resolve, the exercises of a workout
    just logged are the rows it appended, in the order of the payload,
    and the sets of each are among the set rows it appended. *)
Lemma logged_exercises_selected A db te ts wid (exs : list A) newex :
  references_resolve db = true ->
  wid = next_rowid w_id (workouts db) ->
  rows te = rows (exercises db) ++ newex ->
  map e_workout_id newex = map (fun _ => wid) (enumerate_from 1 exs) ->
  map e_order_index newex = map fst (enumerate_from 1 exs) ->
  select_exercises wid (set_sets (set_exercises db te) ts) = newex.
Proof.
  intros Hrr -> Hrows Hwid Hord. unfold select_exercises.
  cbn [exercises set_sets set_exercises]. rewrite Hrows, filter_app.
  rewrite filter_none, filter_all; cbn [app].
  - apply order_by_sorted_same. apply (enumerated_sorted _ _ e_order_index newex exs 1 Hord).
  - intros e He. apply Z.eqb_eq.
    apply (map_constant _ _ _ e_workout_id (next_rowid w_id (workouts db))
             (fun _ => next_rowid w_id (workouts db)) newex _ Hwid); [reflexivity|exact He].
  - intros e He. apply Z.eqb_neq.
    unfold references_resolve in Hrr. rewrite !andb_true_iff in Hrr.
    destruct Hrr as ((((Hr & _) & _) & _) & _).
    unfold refers in Hr. rewrite forallb_forall in Hr.
    specialize (Hr e He). apply has_id_below in Hr. lia.
Qed.

Lemma logged_sets_selected db e newex newsets :
  references_resolve db = true ->
  map e_id newex = map fst (enumerate_from (next_rowid e_id (exercises db)) newex) ->
  In e newex ->
  filter (fun s => s_exercise_id s =? e_id e) (rows (sets db) ++ newsets)
  = filter (fun s => s_exercise_id s =? e_id e) newsets.
Proof.
  intros Hrr Hids He. rewrite filter_app, filter_none; [reflexivity|].
  intros s Hs. apply Z.eqb_neq.
  unfold references_resolve in Hrr. rewrite !andb_true_iff in Hrr.
  destruct Hrr as ((((_ & Hr) & _) & _) & _).
  unfold refers in Hr. rewrite forallb_forall in Hr.
  specialize (Hr s Hs). apply has_id_below in Hr.
  destruct (enumerated_sorted _ _ e_id newex newex _ Hids) as (_ & Hall).
  rewrite Forall_forall in Hall. specialize (Hall e He). lia.
Qed.

Section LogWorkoutWithinLimits.
Variable fromisoformat : pystr -> option datetime.
Variable tags_view : list json -> list pystr.
Variable exercises_view : list json -> list exercise_payload.
Variable lim : limits.

(** [_parse_json_array] under limits returns what the decoder with room
    to spare makes it return, or lets one of two errors through. *)
Lemma parse_json_array_in_sound A (view : list json -> list A) (a : py_arg A) p :
  In p (_parse_json_array_in lim view a) ->
  p = Ok (_parse_json_array view a) \/ p = Raise RecursionError \/ p = Raise ValueError.
Proof.
  destruct a as [|l|t|]; cbn [_parse_json_array_in _parse_json_array In];
    try (intros [<-|[]]; left; reflexivity).
  rewrite in_map_iff. intros (r & <- & Hr).
  destruct (json_loads_sound lim t r Hr) as [(v & -> & E)|[(-> & E)|[->| ->]]];
    rewrite ?E; auto.
  left. destruct v; reflexivity.
Qed.

Lemma parse_json_array_in_total A (view : list json -> list A) (a : py_arg A) :
  _parse_json_array_in lim view a <> [].
Proof.
  destruct a as [|l|t|]; cbn [_parse_json_array_in]; try discriminate.
  pose proof (json_loads_total lim t) as H.
  destruct (json_loads lim t); [contradiction|discriminate].
Qed.

Lemma parse_json_array_in_within A (view : list json -> list A) (a : py_arg A) :
  within_limits lim a ->
  _parse_json_array_in lim view a = [Ok (_parse_json_array view a)].
Proof.
  destruct a as [|l|t|]; cbn [_parse_json_array_in _parse_json_array within_limits];
    try reflexivity.
  intros ->. cbn [map]. destruct (loads t) as [v|]; [destruct v|]; reflexivity.
Qed.

Lemma log_workout_in_sound dt ty tags notes exs w o :
  In o (log_workout_in fromisoformat tags_view exercises_view lim dt ty tags notes exs w) ->
  o = log_workout fromisoformat tags_view exercises_view dt ty tags notes exs w
  \/ exists e, (e = RecursionError \/ e = ValueError) /\ o = (Raise e, w).
Proof.
  unfold log_workout_in. rewrite in_flat_map. intros (p & Hp & Ho).
  destruct (parse_json_array_in_sound _ tags_view tags p Hp) as [->|[->| ->]].
  - rewrite in_flat_map in Ho. destruct Ho as (q & Hq & Ho).
    destruct (parse_json_array_in_sound _ exercises_view exs q Hq) as [->|[->| ->]];
      destruct Ho as [<-|[]].
    + left. reflexivity.
    + right. exists RecursionError. split; [left|]; reflexivity.
    + right. exists ValueError. split; [right|]; reflexivity.
  - destruct Ho as [<-|[]]. right. exists RecursionError. split; [left|]; reflexivity.
  - destruct Ho as [<-|[]]. right. exists ValueError. split; [right|]; reflexivity.
Qed.

Lemma log_workout_in_total dt ty tags notes exs w :
  log_workout_in fromisoformat tags_view exercises_view lim dt ty tags notes exs w <> [].
Proof.
  unfold log_workout_in.
  pose proof (parse_json_array_in_total _ tags_view tags) as Ht.
  destruct (_parse_json_array_in lim tags_view tags) as [|p ps]; [contradiction|].
  cbn [flat_map]. destruct p as [tg|e]; [|discriminate].
  pose proof (parse_json_array_in_total _ exercises_view exs) as Hx.
  destruct (_parse_json_array_in lim exercises_view exs) as [|q qs]; [contradiction|].
  cbn [flat_map]. destruct q; discriminate.
Qed.

Lemma log_workout_in_within dt ty tags notes exs w :
  within_limits lim tags -> within_limits lim exs ->
  log_workout_in fromisoformat tags_view exercises_view lim dt ty tags notes exs w
  = [log_workout fromisoformat tags_view exercises_view dt ty tags notes exs w].
Proof.
  intros Ht Hx. unfold log_workout_in.
  rewrite (parse_json_array_in_within _ tags_view tags Ht). cbn [flat_map].
  rewrite (parse_json_array_in_within _ exercises_view exs Hx). reflexivity.
Qed.

End LogWorkoutWithinLimits.

(** C3 (atomicity of [log_workout]).  Whenever the call raises, whatever
    the input and wherever the failure occurs, the store is the one the
    call started with: no workout, exercise or set row of the call is in
    it.  Whenever it returns, the date was accepted and both list
    arguments were lists; the store holds one more workout row, with the
    next rowid and the columns of the call, one exercise row per payload
    with the workout's id, its 1-based position and the payload's
    columns, and for each exercise its set rows with the exercise's id;
    the new rows carry consecutive rowids from the next one of their
    table on, the sequences have moved to the last of them, the other
    tables are as they were, and the connection is closed.  The value
    returned carries the columns of the workout row and its tags
    decoded (the list that was given when it has no surrogate pair,
    the empty list when none was given), the exercises that refer to
    the workout in the new store by ascending [order_index], and with
    each the sets that refer to it by ascending [set_index]; on a store
    whose references resolve these exercises are the rows appended, in
    the order of the payload, each with sets among the rows appended.
    The call returns exactly on the inputs it accepts.  Within the
    limits [lim] of the interpreter the call ends in this way or, when
    [json.loads] of a text argument meets a limit, with [RecursionError]
    or [ValueError] before a connection is opened; it always ends in
    one way at least, and in this way only when the text arguments are
    within the limits. *)
Theorem log_workout_atomic
    (fromisoformat : pystr -> option datetime)
    (tags_view : list json -> list pystr)
    (exercises_view : list json -> list exercise_payload)
    (lim : limits)
    (date_time : pystr) (workout_type : option pystr) (tags : py_arg pystr)
    (notes : option pystr) (exs : py_arg exercise_payload) (db : DB) :
  let out :=
    call (log_workout fromisoformat tags_view exercises_view
            date_time workout_type tags notes exs) db in
  let outs :=
    log_workout_in fromisoformat tags_view exercises_view lim
      date_time workout_type tags notes exs (fresh db) in
  (forall e, fst out = Raise e -> store (snd out) = db)
  /\ (forall r, fst out = Ok r ->
      exists d tg ex newex newsets,
        let wrow := {| w_id := next_rowid w_id (workouts db);
                       w_date_time := isoformat d;
                       w_workout_type := workout_type;
                       w_tags := serialize_tags tg;
                       w_notes := notes |} in
        let db' := store (snd out) in
        fromisoformat date_time = Some d
        /\ normalized tags_view tags = Ok tg
        /\ normalized exercises_view exs = Ok ex
        /\ rows (workouts db') = rows (workouts db) ++ [wrow]
        /\ rows (exercises db') = rows (exercises db) ++ newex
        /\ rows (sets db') = rows (sets db) ++ newsets
        /\ map exercise_view newex
           = map (expected_exercise (w_id wrow)) (enumerate_from 1 (list_of ex))
        /\ map set_view newsets = flat_map expected_sets (combine newex (list_of ex))
        /\ map e_id newex
           = map fst (enumerate_from (next_rowid e_id (exercises db)) newex)
        /\ map s_id newsets
           = map fst (enumerate_from (next_rowid s_id (sets db)) newsets)
        /\ autoinc (workouts db') = w_id wrow
        /\ autoinc (exercises db') = last (map e_id newex) (autoinc (exercises db))
        /\ autoinc (sets db') = last (map s_id newsets) (autoinc (sets db))
        /\ nutrition_days db' = nutrition_days db
        /\ meals db' = meals db
        /\ meal_items db' = meal_items db
        /\ body_metrics db' = body_metrics db
        /\ skinfolds db' = skinfolds db
        /\ conn (snd out) = Closed
        /\ (wk_id r, wk_date_time r, wk_workout_type r, wk_notes r)
           = (w_id wrow, isoformat d, workout_type, notes)
        /\ wk_tags r = deserialize_tags (serialize_tags tg)
        /\ (tg = None -> wk_tags r = JArr [])
        /\ (forall T, tg = Some T -> forallb lossless T = true ->
              wk_tags r = JArr (map JStr T))
        /\ StronglySorted (fun a b => e_order_index a <= e_order_index b)
                          (map ex_row (wk_exercises r))
        /\ Permutation (map ex_row (wk_exercises r))
             (filter (fun e => e_workout_id e =? w_id wrow) (rows (exercises db')))
        /\ (forall x, In x (wk_exercises r) ->
              StronglySorted (fun a b => s_set_index a <= s_set_index b) (ex_sets x)
              /\ Permutation (ex_sets x)
                   (filter (fun s => s_exercise_id s =? e_id (ex_row x))
                           (rows (sets db'))))
        /\ (references_resolve db = true ->
              map ex_row (wk_exercises r) = newex
              /\ forall x, In x (wk_exercises r) ->
                   Permutation (ex_sets x)
                     (filter (fun s => s_exercise_id s =? e_id (ex_row x)) newsets)))
  /\ ((exists r, fst out = Ok r)
      <-> log_workout_accepts fromisoformat tags_view exercises_view
            date_time tags exs = true)
  /\ outs <> []
  /\ (forall o, In o outs ->
        o = out
        \/ exists e, (e = RecursionError \/ e = ValueError) /\ o = (Raise e, fresh db))
  /\ (within_limits lim tags -> within_limits lim exs -> outs = [out]).
Proof.
  intros out outs.
  assert (Hlim : outs <> []
                 /\ (forall o, In o outs ->
                       o = out
                       \/ exists e, (e = RecursionError \/ e = ValueError)
                                    /\ o = (Raise e, fresh db))
                 /\ (within_limits lim tags -> within_limits lim exs -> outs = [out])).
  { split; [apply log_workout_in_total|].
    split; [intros o; apply log_workout_in_sound|apply log_workout_in_within]. }
  pose proof (log_workout_run fromisoformat tags_view exercises_view
                date_time workout_type tags notes exs db) as H.
  fold out in H. unfold log_workout_outcome in H. unfold log_workout_accepts.
  destruct (normalized tags_view tags) as [tg|e1].
  2:{ destruct H as (e & He & Hs). rewrite He. repeat split; try apply Hlim.
      - intros _ _. exact Hs.
      - intros r Hr. discriminate.
      - intros (r & Hr). discriminate.
      - discriminate. }
  destruct (normalized exercises_view exs) as [ex|e2].
  2:{ destruct H as (e & He & Hs). rewrite He. repeat split; try apply Hlim.
      - intros _ _. exact Hs.
      - intros r Hr. discriminate.
      - intros (r & Hr). discriminate.
      - discriminate. }
  destruct (fromisoformat date_time) as [d|].
  2:{ destruct H as (e & He & Hs). rewrite He. repeat split; try apply Hlim.
      - intros _ _. exact Hs.
      - intros r Hr. discriminate.
      - intros (r & Hr). discriminate.
      - discriminate. }
  destruct (exercises_valid (list_of ex)).
  2:{ destruct H as (e & He & Hs). rewrite He. repeat split; try apply Hlim.
      - intros _ _. exact Hs.
      - intros r Hr. discriminate.
      - intros (r & Hr). discriminate.
      - discriminate. }
  destruct H as (tw & te & ts & newex & newsets & H).
  cbv zeta in H.
  destruct H as (Hr & Hs & Hc & Hw & He & Hss & Hve & Hvs & Hie & His & Haw & Hae & Has).
  split; [intros e E; rewrite Hr in E; discriminate|].
  split; [|split; [split; [reflexivity|intros _; eexists; exact Hr]|exact Hlim]].
  intros r E. rewrite Hr in E. injection E as <-.
  exists d, tg, ex, newex, newsets. cbv zeta. rewrite Hs.
  cbn [workouts exercises sets nutrition_days meals meal_items body_metrics skinfolds
       set_sets set_exercises set_workouts].
  set (wrow := {| w_id := next_rowid w_id (workouts db); w_date_time := isoformat d;
                  w_workout_type := workout_type; w_tags := serialize_tags tg;
                  w_notes := notes |}) in *.
  set (db' := set_sets (set_exercises (set_workouts db tw) te) ts) in *.
  destruct (hydrate_spec db' wrow) as (Hf & Ht & Hso & Hpe & Hx).
  do 19 (split; [first [reflexivity|assumption]|]).
  split; [exact Hf|]. split; [exact Ht|].
  split; [intros ->; rewrite Ht; reflexivity|].
  split.
  { intros T -> HT. rewrite Ht. cbn [wrow w_tags serialize_tags].
    destruct (dumps_not_empty T) as (c & t & Et).
    unfold deserialize_tags. rewrite Et, <- Et.
    rewrite (loads_dumps_str_list T HT). reflexivity. }
  split; [exact Hso|]. split; [exact Hpe|]. split; [exact Hx|].
  intros Hrr.
  assert (Hsel : map ex_row (wk_exercises (hydrate db' wrow)) = newex).
  { unfold hydrate. cbn [wk_exercises]. rewrite map_map. cbn [ex_row]. rewrite map_id.
    apply (logged_exercises_selected _ db te ts _ (list_of ex) newex Hrr eq_refl He).
    - apply (f_equal (map (fun v => fst (fst (fst (fst v)))))) in Hve.
      rewrite !map_map in Hve. exact Hve.
    - apply (f_equal (map (fun v => snd (fst (fst (fst v)))))) in Hve.
      rewrite !map_map in Hve. exact Hve. }
  split; [exact Hsel|].
  intros x Hx'. destruct (Hx x Hx') as (_ & Hp).
  cbn [db' sets set_sets] in Hp. rewrite Hss in Hp.
  rewrite (logged_sets_selected db (ex_row x) newex newsets Hrr Hie) in Hp; [exact Hp|].
  rewrite <- Hsel. apply in_map. exact Hx'.
Qed.

(** The call on two exercises of which the second has no name leaves
    the store as it was; the call on the first alone is accepted, and
    the workout it returns carries the exercise rows it appended. *)
Lemma log_workout_atomic_witness :
  store (snd (call (demo_log [squat; nameless]) demo_db)) = demo_db
  /\ exists r newex,
       fst (call (demo_log [squat]) demo_db) = Ok r
       /\ rows (exercises (store (snd (call (demo_log [squat]) demo_db))))
          = rows (exercises demo_db) ++ newex
       /\ map ex_row (wk_exercises r) = newex.
Proof.
  split.
  - pose proof (log_workout_atomic fromisoformat_seconds strings_view no_exercises_view
                  default_limits
                  (py "2026-01-06T23:59:59") None (ArgList [py "legs"; py "sprint"]) None
                  (ArgList [squat; nameless]) demo_db) as H.
    cbv zeta in H. destruct H as (Hraise & _).
    apply (Hraise ValueError). vm_compute. reflexivity.
  - pose proof (log_workout_atomic fromisoformat_seconds strings_view no_exercises_view
                  default_limits
                  (py "2026-01-06T23:59:59") None (ArgList [py "legs"; py "sprint"]) None
                  (ArgList [squat]) demo_db) as H.
    cbv zeta in H. destruct H as (_ & Hok & (_ & Hacc) & _).
    destruct Hacc as (r & Hr); [vm_compute; reflexivity|].
    destruct (Hok r Hr) as (d & tg & ex & newex & newsets & H).
    exists r, newex. split; [exact Hr|].
    split; [apply H|]. apply H. vm_compute. reflexivity.
Defined.

(** A text of 1500 opening brackets for the tags ends the call in
    [RecursionError], with no connection opened and the store as it
    was. *)
Lemma log_workout_beyond_limits :
  log_workout_in fromisoformat_seconds strings_view no_exercises_view default_limits
    (py "2026-01-06T23:59:59") None (ArgStr (repeat 91%N 1500)) None ArgNone
    (fresh demo_db)
  = [(Raise RecursionError, fresh demo_db)].
Proof. vm_compute. reflexivity. Qed.

(** *** [get_workouts] *)

Lemma selected_workouts_sorted lo hi ty tag limit offset db :
  StronglySorted (fun a b => pystr_leb (w_date_time b) (w_date_time a) = true)
                 (selected_workouts lo hi ty tag limit offset db).
Proof.
  unfold selected_workouts. apply sorted_limit_offset.
  apply (order_by_sorted _ (by_text_desc w_date_time));
    [apply by_text_desc_total|apply by_text_desc_trans].
Qed.

(** X5 ([get_workouts] pages).  With date filters that are absent, empty
    or accepted, [get_workouts] returns; the workouts come latest first;
    for a limit that is not negative there are at most [limit] of them;
    each is a stored workout that passes the type and tag filters,
    hydrated; and the argument [exercise_name_contains] has no effect
    on what is returned. *)
Theorem get_workouts_page (from_date to_date workout_type tag : option pystr)
    (exercise_name_contains : option pystr) (limit offset : Z) (db : DB) :
  bound_ok from_date = true -> bound_ok to_date = true ->
  exists ws,
    fst (call (get_workouts from_date to_date workout_type tag
                 exercise_name_contains limit offset) db) = Ok ws
    /\ StronglySorted
         (fun a b => pystr_leb (wk_date_time b) (wk_date_time a) = true) ws
    /\ (0 <= limit -> Z.of_nat (List.length ws) <= limit)
    /\ (forall h, In h ws ->
          exists w, In w (rows (workouts db)) /\ h = hydrate db w
                    /\ type_filter workout_type w = true
                    /\ tag_filter tag w = true)
    /\ (forall other,
          fst (call (get_workouts from_date to_date workout_type tag
                       other limit offset) db) = Ok ws).
Proof.
  intros Hfd Htd.
  pose proof (date_bound_ok from_date midnight Hfd) as Hlo.
  pose proof (date_bound_ok to_date last_second Htd) as Hhi.
  eexists. split; [apply (get_workouts_run _ _ _ _ _ _ _ _ _ _ Hlo Hhi)|].
  split; [|split; [|split]].
  - apply (sorted_map _ _ (hydrate db)
             (fun a b => pystr_leb (w_date_time b) (w_date_time a) = true)).
    + intros a b H. exact H.
    + apply selected_workouts_sorted.
  - intros Hl. rewrite length_map. unfold selected_workouts.
    apply length_limit_offset_any. exact Hl.
  - intros h Hh. apply in_map_iff in Hh. destruct Hh as (w & <- & Hw).
    apply In_selected in Hw. destruct Hw as (Hw & Hf).
    exists w. unfold workouts_where in Hf.
    apply andb_prop in Hf. destruct Hf as (Hf & Htag).
    apply andb_prop in Hf. destruct Hf as (_ & Hty).
    repeat split; assumption.
  - intros other. apply (get_workouts_run _ _ _ _ _ _ _ _ _ _ Hlo Hhi).
Qed.

(** On the sample store a page for the tag legs holds the one workout,
    whatever the exercise name asked for. *)
Lemma get_workouts_page_witness :
  exists ws,
    fst (call (get_workouts None (Some (py "2026-01-06")) None (Some (py "legs"))
                 (Some (py "bench")) 20 0) demo_db) = Ok ws
    /\ Z.of_nat (List.length ws) <= 20
    /\ fst (call (get_workouts None (Some (py "2026-01-06")) None (Some (py "legs"))
                    None 20 0) demo_db) = Ok ws.
Proof.
  destruct (get_workouts_page None (Some (py "2026-01-06")) None (Some (py "legs"))
              (Some (py "bench")) 20 0 demo_db)
    as (ws & Hr & _ & Hlen & _ & Hother); [reflexivity|reflexivity|].
  exists ws. split; [exact Hr|]. split; [apply Hlen; lia|apply Hother].
Defined.

(** *** [get_last_workout] *)

Lemma get_last_workout_call ty tag db :
  (truthy_str ty = true \/ truthy_str tag = true) ->
  exists tr,
    call (get_last_workout ty tag) db
    = (Ok (option_map (hydrate db)
             (hd_error
                (order_by (by_text_desc w_date_time)
                   (filter (fun w => type_filter ty w && tag_filter tag w)
                           (rows (workouts db)))))),
       {| store := db; conn := Closed; trace := tr |}).
Proof.
  intros Hsome. unfold call, get_last_workout.
  assert (Hc : negb (truthy_str ty) && negb (truthy_str tag) = false).
  { destruct Hsome as [-> | ->]; [reflexivity|apply andb_false_r]. }
  rewrite Hc. unfold bind at 1. unfold get_connection, fresh. cbn [store trace app].
  unfold bind at 1. unfold query at 1. cbn [conn c_db]. unfold log_stmt.
  cbn [store conn trace app].
  destruct (hd_error _) as [r|]; cbn [option_map].
  - destruct (reads_hydrate r db db 0 [SPragma; SSelect Tworkouts (Some 1)])
      as (extra & E & _).
    unfold opened in E. unfold bind at 1. rewrite E.
    unfold bind, close, ret. cbn [store trace]. eexists. reflexivity.
  - unfold bind, close, ret. cbn [store trace]. eexists. reflexivity.
Qed.

(** X6 ([get_last_workout]).  Without a workout type and without a tag
    the call raises [ValueError] before a connection is opened.
    Otherwise it returns and closes the connection: nothing when no
    stored workout passes the filters, and else one of the workouts that
    pass them, hydrated, whose [date_time] is not before that of any
    other workout that passes them. *)
Theorem get_last_workout_latest (workout_type tag : option pystr) (db : DB) :
  let out := call (get_last_workout workout_type tag) db in
  let passes := fun w => type_filter workout_type w && tag_filter tag w in
  (truthy_str workout_type = false -> truthy_str tag = false ->
     out = (Raise ValueError, fresh db))
  /\ (truthy_str workout_type = true \/ truthy_str tag = true ->
        conn (snd out) = Closed
        /\ ((forall w, In w (rows (workouts db)) -> passes w = false) ->
              fst out = Ok None)
        /\ ((exists w, In w (rows (workouts db)) /\ passes w = true) ->
              exists w,
                fst out = Ok (Some (hydrate db w))
                /\ In w (rows (workouts db)) /\ passes w = true
                /\ forall w', In w' (rows (workouts db)) -> passes w' = true ->
                              pystr_leb (w_date_time w') (w_date_time w) = true)).
Proof.
  intros out passes. split.
  - intros H1 H2. unfold out, call, get_last_workout. rewrite H1, H2. reflexivity.
  - intros Hsome. destruct (get_last_workout_call workout_type tag db Hsome) as (tr & E).
    unfold out. rewrite E. cbn [fst snd conn]. split; [reflexivity|].
    fold passes.
    destruct (hd_error (order_by (by_text_desc w_date_time)
                          (filter passes (rows (workouts db))))) as [r|] eqn:Hh.
    + apply (hd_order_by_least _ (by_text_desc w_date_time)
               (by_text_desc_total _ _) (by_text_desc_trans _ _)) in Hh.
      destruct Hh as (Hin & Hleast). apply filter_In in Hin. destruct Hin as (Hin & Hp).
      split.
      * intros Hnone. rewrite (Hnone r Hin) in Hp. discriminate.
      * intros _. exists r. cbn [option_map]. repeat split; try assumption.
        intros w' Hw' Hp'. apply (Hleast w'). apply filter_In. split; assumption.
    + apply hd_order_by_none in Hh. split.
      * intros _. reflexivity.
      * intros (w & Hw & Hp). exfalso.
        assert (Hin : In w (filter passes (rows (workouts db))))
          by (apply filter_In; split; assumption).
        rewrite Hh in Hin. contradiction.
Qed.

(** No filter at all is refused; on the sample store the latest workout
    tagged legs is workout 1. *)
Lemma get_last_workout_latest_witness :
  call (get_last_workout None (Some [])) demo_db = (Raise ValueError, fresh demo_db)
  /\ conn (snd (call (get_last_workout None (Some (py "legs"))) demo_db)) = Closed.
Proof.
  destruct (get_last_workout_latest None (Some []) demo_db) as (Hnone & _).
  destruct (get_last_workout_latest None (Some (py "legs")) demo_db) as (_ & Hsome).
  split.
  - apply Hnone; reflexivity.
  - apply Hsome. right. reflexivity.
Defined.

(** ** Nutrition days *)

Lemma find_update R (p hit : R -> bool) (f : R -> R) (l : list R) :
  (forall r, p (f r) = p r) ->
  find p (map (fun r => if hit r then f r else r) l)
  = option_map (fun r => if hit r then f r else r) (find p l).
Proof.
  intros Hp. induction l as [|x l IH]; [reflexivity|].
  cbn [map find].
  assert (E : p (if hit x then f x else x) = p x) by (destruct (hit x); [apply Hp|reflexivity]).
  rewrite E. destruct (p x); [reflexivity|exact IH].
Qed.

Lemma find_none_app R (p : R -> bool) (l : list R) x :
  find p l = None -> find p (l ++ [x]) = if p x then Some x else None.
Proof.
  induction l as [|y l IH]; cbn [app find]; [reflexivity|].
  destruct (p y); [discriminate|exact IH].
Qed.

Lemma find_none_forall R (p : R -> bool) (l : list R) :
  find p l = None -> forall r, In r l -> p r = false.
Proof. intros H r Hr. apply (find_none p l H r Hr). Qed.

Lemma pystr_eqb_refl a : pystr_eqb a a = true.
Proof. unfold pystr_eqb. destruct (list_eq_dec N.eq_dec a a); congruence. Qed.

Lemma next_rowid_nonzero R (rowid : R -> Z) (t : table R) :
  (next_rowid rowid t =? 0) = false.
Proof.
  apply Z.eqb_neq. unfold next_rowid.
  assert (0 <= max_rowid rowid (rows t)).
  { unfold max_rowid. induction (rows t) as [|x l IH]; cbn [fold_right]; lia. }
  lia.
Qed.


(** What a call of [upsert_nutrition_day] comes to. *)
Lemma upsert_nutrition_day_call date d notes db :
  _ensure_date date = Ok d ->
  exists tr,
    call (upsert_nutrition_day date notes) db
    = match find_day d db with
      | Some r0 =>
        (Ok (nd_id r0),
         {| store :=
              set_nutrition_days db
                (tbl_update (fun r => pystr_eqb (nd_date r) d)
                   (fun r => {| nd_id := nd_id r; nd_date := nd_date r;
                                nd_notes := notes |})
                   (tbl_conflict nd_id (nutrition_days db)));
            conn := Closed; trace := tr |})
      | None =>
        (Ok (next_rowid nd_id (nutrition_days db)),
         {| store :=
              set_nutrition_days db
                {| rows := rows (nutrition_days db)
                           ++ [{| nd_id := next_rowid nd_id (nutrition_days db);
                                  nd_date := d; nd_notes := notes |}];
                   autoinc := next_rowid nd_id (nutrition_days db) |};
            conn := Closed; trace := tr |})
      end.
Proof.
  intros Hd. unfold call, upsert_nutrition_day.
  unfold bind at 1. unfold lift at 1. rewrite Hd.
  unfold bind at 1. unfold get_connection, fresh. cbn [store trace app].
  unfold bind at 1. unfold insert at 1. cbn [conn c_db c_last_insert_rowid].
  unfold upsert_day. destruct (find_day d db) as [r0|] eqn:Hf.
  - cbn [store trace app]. rewrite Z.eqb_refl.
    unfold bind at 1. unfold bind at 1. unfold query at 1. cbn [conn c_db].
    unfold find_day at 1, tbl_update, tbl_conflict.
    cbn [nutrition_days set_nutrition_days rows].
    rewrite find_update by reflexivity. fold (find_day d db). rewrite Hf.
    cbn [option_map]. unfold log_stmt. cbn [store conn trace].
    unfold ret at 1. unfold bind, commit, close, ret. cbn [conn c_db store trace fst snd].
    eexists. f_equal. f_equal. destruct (pystr_eqb _ _); reflexivity.
  - unfold tbl_insert. cbn [store trace app].
    rewrite next_rowid_nonzero.
    unfold bind, ret, commit, close. cbn [conn c_db store trace fst snd].
    eexists. reflexivity.
Qed.

(** X7 ([upsert_nutrition_day]).  For an accepted date the call returns
    the id of the day's row and closes the connection.  Afterwards the
    first row for the date carries that id and the notes passed, absent
    notes included.  A date that had no row gets one new row under a
    fresh id; a date that had a row keeps its id, and no row is added or
    removed.  The other tables are not touched. *)
Theorem upsert_nutrition_day_by_date (date d : pystr) (notes : option pystr) (db : DB) :
  _ensure_date date = Ok d ->
  let out := call (upsert_nutrition_day date notes) db in
  let after := store (snd out) in
  exists id,
    fst out = Ok id
    /\ conn (snd out) = Closed
    /\ find_day d after = Some {| nd_id := id; nd_date := d; nd_notes := notes |}
    /\ (find_day d db = None ->
          rows (nutrition_days after)
          = rows (nutrition_days db)
            ++ [{| nd_id := id; nd_date := d; nd_notes := notes |}]
          /\ forall r, In r (rows (nutrition_days db)) -> nd_id r < id)
    /\ (forall r0, find_day d db = Some r0 ->
          id = nd_id r0
          /\ map nd_id (rows (nutrition_days after)) = map nd_id (rows (nutrition_days db))
          /\ map nd_date (rows (nutrition_days after))
             = map nd_date (rows (nutrition_days db)))
    /\ (workouts after, exercises after, sets after, meals after, meal_items after,
        body_metrics after, skinfolds after)
       = (workouts db, exercises db, sets db, meals db, meal_items db,
          body_metrics db, skinfolds db).
Proof.
  intros Hd out after.
  destruct (upsert_nutrition_day_call date d notes db Hd) as (tr & H).
  unfold after, out. rewrite H. clear H.
  destruct (find_day d db) as [r0|] eqn:Hf; cbn [fst snd store conn].
  - exists (nd_id r0).
    split; [reflexivity|]. split; [reflexivity|].
    assert (Hdate : nd_date r0 = d).
    { apply find_some in Hf. destruct Hf as (_ & E). apply pystr_eqb_eq. exact E. }
    split; [|split; [discriminate|split; [|reflexivity]]].
    + unfold find_day, tbl_update, tbl_conflict.
      cbn [nutrition_days set_nutrition_days rows].
      rewrite find_update by reflexivity. fold (find_day d db). rewrite Hf.
      cbn [option_map]. rewrite Hdate, pystr_eqb_refl. reflexivity.
    + intros r Hr0. injection Hr0 as <-. split; [reflexivity|].
      unfold tbl_update, tbl_conflict. cbn [nutrition_days set_nutrition_days rows].
      rewrite !map_map. split; apply map_ext; intros r;
        destruct (pystr_eqb (nd_date r) d); reflexivity.
  - exists (next_rowid nd_id (nutrition_days db)).
    split; [reflexivity|]. split; [reflexivity|].
    split; [|split; [|split; [discriminate|reflexivity]]].
    + unfold find_day. cbn [nutrition_days set_nutrition_days rows].
      rewrite find_none_app by exact Hf. cbn [nd_date]. rewrite pystr_eqb_refl.
      reflexivity.
    + intros _. split; [reflexivity|].
      intros r Hin. apply next_rowid_above. exact Hin.
Qed.

(** X8 ([upsert_nutrition_day] twice).  Repeating the call with the same
    arguments returns the same id and leaves the rows of every table as
    the first call left them.  The second call shows in the sequence of
    [nutrition_days] only, which moves on by one: the conflicting INSERT
    has drawn an id that no row will carry. *)
Theorem upsert_nutrition_day_idempotent (date d : pystr) (notes : option pystr)
    (db : DB) :
  _ensure_date date = Ok d ->
  let once := call (upsert_nutrition_day date notes) db in
  let twice := call (upsert_nutrition_day date notes) (store (snd once)) in
  fst twice = fst once
  /\ rows (nutrition_days (store (snd twice))) = rows (nutrition_days (store (snd once)))
  /\ autoinc (nutrition_days (store (snd twice)))
     = autoinc (nutrition_days (store (snd once))) + 1
  /\ (workouts (store (snd twice)), exercises (store (snd twice)),
      sets (store (snd twice)), meals (store (snd twice)),
      meal_items (store (snd twice)), body_metrics (store (snd twice)),
      skinfolds (store (snd twice)))
     = (workouts (store (snd once)), exercises (store (snd once)),
        sets (store (snd once)), meals (store (snd once)),
        meal_items (store (snd once)), body_metrics (store (snd once)),
        skinfolds (store (snd once))).
Proof.
  intros Hd once twice.
  destruct (upsert_nutrition_day_call date d notes db Hd) as (tr1 & H1).
  destruct (upsert_nutrition_day_call date d notes (store (snd once)) Hd) as (tr2 & H2).
  unfold twice. rewrite H2. clear H2. unfold once. rewrite H1. clear H1.
  destruct (find_day d db) as [r0|] eqn:Hf; cbn [fst snd store].
  - assert (E : find_day d
                  (set_nutrition_days db
                     (tbl_update (fun r => pystr_eqb (nd_date r) d)
                        (fun r => {| nd_id := nd_id r; nd_date := nd_date r;
                                     nd_notes := notes |})
                        (tbl_conflict nd_id (nutrition_days db))))
                = Some (if pystr_eqb (nd_date r0) d
                        then {| nd_id := nd_id r0; nd_date := nd_date r0;
                                nd_notes := notes |}
                        else r0)).
    { unfold find_day, tbl_update, tbl_conflict.
      cbn [nutrition_days set_nutrition_days rows].
      rewrite find_update by reflexivity. fold (find_day d db). rewrite Hf.
      reflexivity. }
    rewrite E. cbn [fst snd store]. split; [|split; [|split]].
    + destruct (pystr_eqb (nd_date r0) d); reflexivity.
    + unfold set_nutrition_days, tbl_update, tbl_conflict.
      cbn [nutrition_days rows autoinc].
      rewrite map_map. apply map_ext. intros r.
      destruct (pystr_eqb (nd_date r) d) eqn:E'; cbn [nd_date]; rewrite E'; reflexivity.
    + unfold set_nutrition_days, tbl_update, tbl_conflict.
      cbn [nutrition_days rows autoinc].
      apply next_rowid_drawn.
      * rewrite (max_rowid_same_ids _ nd_id _ (rows (nutrition_days db)));
          [apply next_rowid_over|].
        rewrite map_map. apply map_ext. intros r.
        destruct (pystr_eqb (nd_date r) d); reflexivity.
      * apply Z.lt_le_incl. apply next_rowid_positive_any.
    + reflexivity.
  - assert (E : find_day d
                  (set_nutrition_days db
                     {| rows := rows (nutrition_days db)
                                ++ [{| nd_id := next_rowid nd_id (nutrition_days db);
                                       nd_date := d; nd_notes := notes |}];
                        autoinc := next_rowid nd_id (nutrition_days db) |})
                = Some {| nd_id := next_rowid nd_id (nutrition_days db);
                          nd_date := d; nd_notes := notes |}).
    { unfold find_day. cbn [nutrition_days set_nutrition_days rows].
      rewrite find_none_app by exact Hf. cbn [nd_date].
      rewrite pystr_eqb_refl. reflexivity. }
    rewrite E. cbn [fst snd store nd_id]. split; [reflexivity|]. split; [|split].
    + unfold set_nutrition_days, tbl_update, tbl_conflict.
      cbn [nutrition_days rows autoinc].
      rewrite map_app. cbn [map nd_date]. rewrite pystr_eqb_refl.
      f_equal. rewrite <- (map_id (rows (nutrition_days db))) at 2.
      apply map_ext_in. intros r Hr.
      rewrite (find_none_forall _ _ _ Hf r Hr). reflexivity.
    + unfold set_nutrition_days, tbl_update, tbl_conflict.
      cbn [nutrition_days rows autoinc].
      apply next_rowid_drawn.
      * rewrite max_rowid_app. cbn [max_rowid fold_right nd_id].
        pose proof (next_rowid_over _ nd_id (nutrition_days db)).
        pose proof (next_rowid_positive_any _ nd_id (nutrition_days db)). lia.
      * apply Z.lt_le_incl. apply next_rowid_positive_any.
    + reflexivity.
Qed.

(** On the week of pizza nights, the day written [2026-1-6] is row 6;
    upserting it without notes keeps the row and clears its notes, and
    a second call changes nothing more. *)
Lemma upsert_nutrition_day_by_date_witness :
  exists id,
    fst (call (upsert_nutrition_day (py "2026-1-6") None) pizza_week) = Ok id
    /\ find_day (py "2026-01-06")
         (store (snd (call (upsert_nutrition_day (py "2026-1-6") None) pizza_week)))
       = Some {| nd_id := id; nd_date := py "2026-01-06"; nd_notes := None |}
    /\ id = 6.
Proof.
  destruct (upsert_nutrition_day_by_date (py "2026-1-6") (py "2026-01-06") None pizza_week)
    as (id & Hr & _ & Hf & _ & Hsame & _); [vm_compute; reflexivity|].
  exists id. split; [exact Hr|]. split; [exact Hf|].
  destruct (Hsame {| nd_id := 6; nd_date := py "2026-01-06";
                     nd_notes := Some (py "pizza night") |}) as (Hid & _);
    [vm_compute; reflexivity|exact Hid].
Defined.

Lemma upsert_nutrition_day_idempotent_witness :
  let once := call (upsert_nutrition_day (py "2026-02-01") (Some (py "rest day")))
                   pizza_week in
  let twice := call (upsert_nutrition_day (py "2026-02-01") (Some (py "rest day")))
                    (store (snd once)) in
  fst once = Ok 8 /\ fst twice = Ok 8
  /\ rows (nutrition_days (store (snd twice))) = rows (nutrition_days (store (snd once)))
  /\ autoinc (nutrition_days (store (snd once))) = 8
  /\ autoinc (nutrition_days (store (snd twice))) = 9.
Proof.
  intros once twice.
  destruct (upsert_nutrition_day_idempotent (py "2026-02-01") (py "2026-02-01")
              (Some (py "rest day")) pizza_week) as (Hr & Hs & Ha & _);
    [vm_compute; reflexivity|].
  fold once in Hr, Hs, Ha. fold twice in Hr, Hs, Ha.
  assert (H1 : fst once = Ok 8) by (vm_compute; reflexivity).
  assert (H2 : autoinc (nutrition_days (store (snd once))) = 8) by (vm_compute; reflexivity).
  split; [exact H1|]. split; [rewrite Hr; exact H1|]. split; [exact Hs|].
  split; [exact H2|]. rewrite Ha, H2. reflexivity.
Defined.

(** ** Meals *)

Lemma has_id_In R (rowid : R -> Z) id (t : table R) :
  has_id rowid id t = true <-> exists r, In r (rows t) /\ rowid r = id.
Proof.
  unfold has_id. rewrite existsb_exists. split; intros (r & Hr & E); exists r;
    (split; [exact Hr|]); apply Z.eqb_eq; exact E.
Qed.

Lemma next_rowid_not_there R (rowid : R -> Z) (t : table R) :
  has_id rowid (next_rowid rowid t) t = false.
Proof.
  apply not_true_is_false. intros H. apply has_id_In in H.
  destruct H as (r & Hr & E). pose proof (next_rowid_above R rowid t r Hr). lia.
Qed.

Lemma find_day_has_id d db day :
  find_day d db = Some day -> has_id nd_id (nd_id day) (nutrition_days db) = true.
Proof.
  intros H. apply find_some in H. destruct H as (Hin & _).
  apply has_id_In. exists day. split; [exact Hin|reflexivity].
Qed.

(** The first steps of the meal tools: the day of the date, created
    without notes when it is missing. *)
Lemma ensure_day_run d s db l t :
  exists extra,
    ensure_day d (opened s db l t)
    = match find_day d db with
      | Some day =>
        (Ok (nd_id day),
         opened s (set_nutrition_days db (tbl_conflict nd_id (nutrition_days db)))
           l (t ++ extra))
      | None =>
        (Ok (next_rowid nd_id (nutrition_days db)),
         opened s
           (set_nutrition_days db
              {| rows := rows (nutrition_days db)
                         ++ [{| nd_id := next_rowid nd_id (nutrition_days db);
                                nd_date := d; nd_notes := None |}];
                 autoinc := next_rowid nd_id (nutrition_days db) |})
           (next_rowid nd_id (nutrition_days db)) (t ++ extra))
      end.
Proof.
  exists [SInsert Tnutrition_days; SSelect Tnutrition_days None].
  unfold ensure_day, opened. unfold bind at 1. unfold insert at 1.
  cbn [conn c_db c_last_insert_rowid store trace]. unfold insert_or_ignore_day.
  destruct (find_day d db) as [day|] eqn:Hf.
  - unfold bind, query, log_stmt, ret. cbn [conn c_db store trace].
    change (find_day d (set_nutrition_days db (tbl_conflict nd_id (nutrition_days db))))
      with (find_day d db).
    rewrite Hf. rewrite <- app_assoc. reflexivity.
  - unfold tbl_insert. unfold bind, query, log_stmt, ret. cbn [conn c_db store trace].
    unfold find_day. cbn [nutrition_days set_nutrition_days rows].
    rewrite find_none_app by exact Hf. cbn [nd_date]. rewrite pystr_eqb_refl.
    rewrite <- app_assoc. reflexivity.
Qed.

Lemma find_meal_spec day_id name db m :
  find_meal day_id name db = Some m ->
  In m (rows (meals db)) /\ m_day_id m = day_id /\ m_name m = name.
Proof.
  intros H. apply find_some in H. destruct H as (Hin & E).
  apply andb_prop in E. destruct E as (E1 & E2).
  apply Z.eqb_eq in E1. apply pystr_eqb_eq in E2. tauto.
Qed.

(** What [upsert_meal] comes to on a store [db1] in which the day
    [day_id] exists, with [last] the last rowid of the connection. *)
Lemma upsert_meal_tail day_id name oi s db1 last t :
  has_id nd_id day_id (nutrition_days db1) = true ->
  (last <> 0 -> find_meal day_id name db1 = None) ->
  exists tr,
    (lastrowid <- insert (SInsert Tmeals) (upsert_meal_row day_id name oi) ;;
     meal_id <-
       (if lastrowid =? 0 then
          found <- query (SSelect Tmeals None) (find_meal day_id name) ;;
          match found with
          | Some r => ret (m_id r)
          | None => raise TypeError
          end
        else ret lastrowid) ;;
     commit ;; close ;; ret meal_id) (opened s db1 last t)
    = match find_meal day_id name db1 with
      | Some m0 =>
        (Ok (m_id m0),
         {| store :=
              set_meals db1
                (tbl_update (fun r => (m_day_id r =? day_id) && pystr_eqb (m_name r) name)
                   (fun r => {| m_id := m_id r; m_day_id := m_day_id r;
                                m_name := m_name r; m_order_index := oi |})
                   (tbl_conflict m_id (meals db1)));
            conn := Closed; trace := tr |})
      | None =>
        (Ok (next_rowid m_id (meals db1)),
         {| store :=
              set_meals db1
                {| rows := rows (meals db1)
                           ++ [{| m_id := next_rowid m_id (meals db1);
                                  m_day_id := day_id; m_name := name;
                                  m_order_index := oi |}];
                   autoinc := next_rowid m_id (meals db1) |};
            conn := Closed; trace := tr |})
      end.
Proof.
  intros Hday Hlast. unfold opened.
  unfold bind at 1. unfold insert at 1. cbn [conn c_db c_last_insert_rowid store trace].
  unfold upsert_meal_row. destruct (find_meal day_id name db1) as [m0|] eqn:Hf.
  - assert (last = 0).
    { destruct (Z.eq_dec last 0) as [E|E]; [exact E|].
      specialize (Hlast E). discriminate. }
    subst last. rewrite Z.eqb_refl.
    unfold bind at 1. unfold bind at 1. unfold query at 1. cbn [conn c_db].
    unfold find_meal at 1, tbl_update, tbl_conflict. cbn [meals set_meals rows].
    rewrite find_update by reflexivity. fold (find_meal day_id name db1). rewrite Hf.
    cbn [option_map]. unfold log_stmt. cbn [store conn trace].
    unfold ret at 1. unfold bind, commit, close, ret. cbn [conn c_db store trace fst snd].
    eexists. f_equal. f_equal.
    destruct ((m_day_id m0 =? day_id) && pystr_eqb (m_name m0) name); reflexivity.
  - rewrite Hday. unfold tbl_insert. rewrite next_rowid_nonzero.
    unfold bind, ret, commit, close. cbn [conn c_db store trace fst snd].
    eexists. reflexivity.
Qed.

Lemma day_ensured_found d db :
  find_day d (snd (day_ensured d db)) = Some (fst (day_ensured d db))
  /\ has_id nd_id (nd_id (fst (day_ensured d db)))
            (nutrition_days (snd (day_ensured d db))) = true.
Proof.
  unfold day_ensured. destruct (find_day d db) as [day|] eqn:Hf; cbn [fst snd].
  - split; [exact Hf|apply (find_day_has_id d db day Hf)].
  - split.
    + unfold find_day. cbn [nutrition_days set_nutrition_days rows].
      rewrite find_none_app by exact Hf. cbn [nd_date]. rewrite pystr_eqb_refl.
      reflexivity.
    + apply has_id_In. eexists. split; [|reflexivity].
      cbn [nutrition_days set_nutrition_days rows nd_id].
      apply in_or_app. right. left. reflexivity.
Qed.

Lemma meal_ensured_found day_id name db :
  find_meal day_id name (snd (meal_ensured day_id name db))
  = Some (fst (meal_ensured day_id name db))
  /\ has_id m_id (m_id (fst (meal_ensured day_id name db)))
            (meals (snd (meal_ensured day_id name db))) = true.
Proof.
  unfold meal_ensured. destruct (find_meal day_id name db) as [m|] eqn:Hf; cbn [fst snd].
  - split; [exact Hf|]. apply has_id_In. exists m. split; [|reflexivity].
    apply find_some in Hf. tauto.
  - split.
    + unfold find_meal. cbn [meals set_meals rows].
      rewrite find_none_app by exact Hf. cbn [m_day_id m_name].
      rewrite Z.eqb_refl, pystr_eqb_refl. reflexivity.
    + apply has_id_In. eexists. split; [|reflexivity].
      cbn [meals set_meals rows m_id]. apply in_or_app. right. left. reflexivity.
Qed.

Lemma ensure_day_ensured d s db l t :
  exists l' extra,
    ensure_day d (opened s db l t)
    = (Ok (nd_id (fst (day_ensured d db))),
       opened s (snd (day_ensured d db)) l' (t ++ extra))
    /\ (l = 0 -> l' <> 0 -> find_day d db = None).
Proof.
  destruct (ensure_day_run d s db l t) as (extra & E). rewrite E.
  unfold day_ensured. destruct (find_day d db); cbn [fst snd nd_id];
    eexists; exists extra; (split; [reflexivity|]); congruence.
Qed.


Lemma orphan_free_meal d name db :
  (forall m, In m (rows (meals db)) ->
             has_id nd_id (m_day_id m) (nutrition_days db) = true) ->
  find_day d db = None ->
  find_meal (nd_id (fst (day_ensured d db))) name (snd (day_ensured d db)) = None.
Proof.
  intros Hfk Hday. unfold day_ensured. rewrite Hday. cbn [fst snd nd_id].
  destruct (find_meal _ name _) as [m0|] eqn:Hm; [|reflexivity]. exfalso.
  destruct (find_meal_spec _ _ _ _ Hm) as (Hin & E1 & _).
  cbn [meals set_nutrition_days] in Hin.
  specialize (Hfk m0 Hin). rewrite E1 in Hfk.
  rewrite next_rowid_not_there in Hfk. discriminate.
Qed.

(** What a call of [upsert_meal] comes to on a store in which every
    meal belongs to an existing day. *)
Lemma upsert_meal_call date d name oi db :
  _ensure_date date = Ok d ->
  (forall m, In m (rows (meals db)) ->
             has_id nd_id (m_day_id m) (nutrition_days db) = true) ->
  exists tr,
    call (upsert_meal date name oi) db
    = match find_meal (nd_id (fst (day_ensured d db))) name (snd (day_ensured d db)) with
      | Some m0 =>
        (Ok (m_id m0),
         {| store :=
              set_meals (snd (day_ensured d db))
                (tbl_update
                   (fun r => (m_day_id r =? nd_id (fst (day_ensured d db)))
                             && pystr_eqb (m_name r) name)
                   (fun r => {| m_id := m_id r; m_day_id := m_day_id r;
                                m_name := m_name r; m_order_index := oi |})
                   (tbl_conflict m_id (meals (snd (day_ensured d db)))));
            conn := Closed; trace := tr |})
      | None =>
        (Ok (next_rowid m_id (meals (snd (day_ensured d db)))),
         {| store :=
              set_meals (snd (day_ensured d db))
                {| rows := rows (meals (snd (day_ensured d db)))
                           ++ [{| m_id := next_rowid m_id (meals (snd (day_ensured d db)));
                                  m_day_id := nd_id (fst (day_ensured d db));
                                  m_name := name; m_order_index := oi |}];
                   autoinc := next_rowid m_id (meals (snd (day_ensured d db))) |};
            conn := Closed; trace := tr |})
      end.
Proof.
  intros Hd Hfk.
  remember (call (upsert_meal date name oi) db) as o eqn:Ho.
  unfold call, upsert_meal in Ho.
  unfold bind at 1 in Ho. unfold lift at 1 in Ho. rewrite Hd in Ho.
  unfold bind at 1 in Ho. unfold get_connection, fresh in Ho. cbn [store trace app] in Ho.
  unfold bind at 1 in Ho.
  destruct (ensure_day_ensured d db db 0 [SPragma]) as (l1 & extra & E & Hl1).
  unfold opened in E at 1. rewrite E in Ho. clear E.
  destruct (day_ensured_found d db) as (_ & Hhas).
  destruct (upsert_meal_tail (nd_id (fst (day_ensured d db))) name oi db
              (snd (day_ensured d db)) l1 ([SPragma] ++ extra) Hhas) as (tr & T).
  - intros Hne. apply orphan_free_meal; [exact Hfk|]. apply Hl1; [reflexivity|exact Hne].
  - exists tr. rewrite Ho. exact T.
Qed.

(** X9 ([upsert_meal]).  On a store in which every meal belongs to an
    existing day, and for an accepted date, the call returns the id of
    the meal of that name on that day and closes the connection.  The
    day is created, without notes, when it is missing.  Afterwards the
    meal row for the day and the name carries the returned id and the
    order index passed: a meal that was missing is appended under a
    fresh id, and a meal that was there keeps its id with no row added
    or removed.  A day that was there keeps its row, and no other day
    row changes. *)
Theorem upsert_meal_by_name (date d name : pystr) (order_index : Z) (db : DB) :
  _ensure_date date = Ok d ->
  (forall m, In m (rows (meals db)) ->
             has_id nd_id (m_day_id m) (nutrition_days db) = true) ->
  let out := call (upsert_meal date name order_index) db in
  let after := store (snd out) in
  exists day meal_id,
    fst out = Ok meal_id
    /\ conn (snd out) = Closed
    /\ find_day d after = Some day
    /\ find_meal (nd_id day) name after
       = Some {| m_id := meal_id; m_day_id := nd_id day; m_name := name;
                 m_order_index := order_index |}
    /\ match find_day d db with
       | Some day0 =>
         day = day0 /\ rows (nutrition_days after) = rows (nutrition_days db)
       | None =>
         day = {| nd_id := next_rowid nd_id (nutrition_days db); nd_date := d;
                  nd_notes := None |}
         /\ rows (nutrition_days after) = rows (nutrition_days db) ++ [day]
       end
    /\ match find_meal (nd_id day) name db with
       | Some m0 =>
         meal_id = m_id m0
         /\ map m_id (rows (meals after)) = map m_id (rows (meals db))
       | None =>
         rows (meals after)
         = rows (meals db)
           ++ [{| m_id := meal_id; m_day_id := nd_id day; m_name := name;
                  m_order_index := order_index |}]
         /\ forall m, In m (rows (meals db)) -> m_id m < meal_id
       end
    /\ meal_items after = meal_items db.
Proof.
  intros Hd Hfk out after. unfold after, out. clear out after.
  destruct (upsert_meal_call date d name order_index db Hd Hfk) as (tr & E).
  rewrite E. clear E.
  destruct (day_ensured_found d db) as (Hday1 & _).
  pose proof (orphan_free_meal d name db Hfk) as Horphan.
  assert (Hdays : match find_day d db with
                  | Some day0 =>
                    fst (day_ensured d db) = day0
                    /\ rows (nutrition_days (snd (day_ensured d db)))
                       = rows (nutrition_days db)
                  | None =>
                    fst (day_ensured d db)
                    = {| nd_id := next_rowid nd_id (nutrition_days db); nd_date := d;
                         nd_notes := None |}
                    /\ rows (nutrition_days (snd (day_ensured d db)))
                       = rows (nutrition_days db) ++ [fst (day_ensured d db)]
                  end).
  { unfold day_ensured. destruct (find_day d db); split; reflexivity. }
  assert (Hmeals : meals (snd (day_ensured d db)) = meals db
                   /\ meal_items (snd (day_ensured d db)) = meal_items db).
  { unfold day_ensured. destruct (find_day d db); split; reflexivity. }
  destruct Hmeals as (Hmeals & Hitems).
  assert (Hsame : find_meal (nd_id (fst (day_ensured d db))) name (snd (day_ensured d db))
                  = find_meal (nd_id (fst (day_ensured d db))) name db).
  { unfold find_meal. rewrite Hmeals. reflexivity. }
  exists (fst (day_ensured d db)).
  destruct (find_meal (nd_id (fst (day_ensured d db))) name (snd (day_ensured d db)))
    as [m0|] eqn:Hm; cbn [fst snd store conn].
  - exists (m_id m0). destruct (find_meal_spec _ _ _ _ Hm) as (_ & E1 & E2).
    split; [reflexivity|]. split; [reflexivity|]. split; [exact Hday1|]. split.
    + unfold find_meal, tbl_update, tbl_conflict. cbn [meals set_meals rows].
      rewrite find_update by reflexivity.
      fold (find_meal (nd_id (fst (day_ensured d db))) name (snd (day_ensured d db))).
      rewrite Hm. cbn [option_map]. rewrite E1, E2, Z.eqb_refl, pystr_eqb_refl.
      reflexivity.
    + split; [exact Hdays|]. rewrite <- Hsame. split; [|exact Hitems].
      split; [reflexivity|].
      unfold tbl_update, tbl_conflict. cbn [meals set_meals rows]. rewrite Hmeals, map_map.
      apply map_ext. intros r. destruct (_ && _); reflexivity.
  - exists (next_rowid m_id (meals db)). rewrite Hmeals.
    split; [reflexivity|]. split; [reflexivity|]. split; [exact Hday1|]. split.
    + unfold find_meal. cbn [meals set_meals rows].
      rewrite find_none_app by (rewrite <- Hmeals; exact Hm). cbn [m_day_id m_name].
      rewrite Z.eqb_refl, pystr_eqb_refl. reflexivity.
    + split; [exact Hdays|]. rewrite <- Hsame. split; [|exact Hitems].
      split; [reflexivity|]. intros m Hin. apply next_rowid_above. exact Hin.
Qed.

(** On the sample day the meal lunch is row 1; upserting it with
    another order index keeps the id, and a meal new to the day gets
    the next id. *)
Lemma upsert_meal_by_name_witness :
  (exists day,
      fst (call (upsert_meal (py "2026-01-06") (py "lunch") 3) lunch_db) = Ok 1
      /\ find_meal (nd_id day) (py "lunch")
           (store (snd (call (upsert_meal (py "2026-01-06") (py "lunch") 3) lunch_db)))
         = Some {| m_id := 1; m_day_id := nd_id day; m_name := py "lunch";
                   m_order_index := 3 |})
  /\ fst (call (upsert_meal (py "2026-01-07") (py "lunch") 0) lunch_db) = Ok 2.
Proof.
  assert (Hfk : forall m, In m (rows (meals lunch_db)) ->
                          has_id nd_id (m_day_id m) (nutrition_days lunch_db) = true).
  { intros m [<-|[]]. reflexivity. }
  split.
  - destruct (upsert_meal_by_name (py "2026-01-06") (py "2026-01-06") (py "lunch") 3
                lunch_db) as (day & id & Hr & _ & _ & Hm & _);
      [vm_compute; reflexivity|exact Hfk|].
    assert (Hid : id = 1) by (vm_compute in Hr; congruence). subst id.
    exists day. split; [exact Hr|exact Hm].
  - vm_compute. reflexivity.
Defined.

(** ** Meal items *)

(** [INSERT OR IGNORE INTO meals] followed by the SELECT of the meal. *)
Lemma ensure_meal_run A day_id name (k : option meal_row -> M A) s db l t :
  has_id nd_id day_id (nutrition_days db) = true ->
  exists l' extra,
    (insert (SInsert Tmeals) (insert_or_ignore_meal day_id name) ;;
     found <- query (SSelect Tmeals None) (find_meal day_id name) ;;
     k found) (opened s db l t)
    = k (Some (fst (meal_ensured day_id name db)))
        (opened s (snd (meal_ensured day_id name db)) l' (t ++ extra)).
Proof.
  intros Hday. exists (match find_meal day_id name db with
                       | Some _ => l | None => next_rowid m_id (meals db) end),
                      [SInsert Tmeals; SSelect Tmeals None].
  unfold opened. unfold bind at 1. unfold insert at 1.
  cbn [conn c_db c_last_insert_rowid store trace].
  destruct (meal_ensured_found day_id name db) as (Hfound & _). revert Hfound.
  unfold insert_or_ignore_meal, meal_ensured.
  destruct (find_meal day_id name db) as [m|] eqn:Hf; cbn [fst snd]; intros Hfound.
  - unfold bind, query, log_stmt. cbn [conn c_db store trace].
    change (find_meal day_id name (set_meals db (tbl_conflict m_id (meals db))))
      with (find_meal day_id name db).
    rewrite Hf. rewrite <- app_assoc. reflexivity.
  - rewrite Hday. unfold tbl_insert. unfold bind, query, log_stmt.
    cbn [conn c_db store trace m_id]. rewrite Hfound. rewrite <- app_assoc. reflexivity.
Qed.

(** What a call of [add_or_update_meal_item] comes to. *)
Lemma add_or_update_meal_item_call date d meal_name f item_id db :
  _ensure_date date = Ok d ->
  let day := fst (day_ensured d db) in
  let db1 := snd (day_ensured d db) in
  let meal := fst (meal_ensured (nd_id day) meal_name db1) in
  let db2 := snd (meal_ensured (nd_id day) meal_name db1) in
  let updates := match item_id with Some id => negb (id =? 0) | None => false end in
  exists tr,
    call (add_or_update_meal_item date meal_name f item_id) db
    = if updates then
        (Ok (item_id, m_id meal, nd_id day),
         {| store :=
              set_meal_items db2
                (tbl_update
                   (fun r => mi_id r =? match item_id with Some id => id | None => 0 end)
                   (fun r => {| mi_id := mi_id r; mi_meal_id := mi_meal_id r;
                                mi_fields := f |})
                   (meal_items db2));
            conn := Closed; trace := tr |})
      else
        (Ok (Some (next_rowid mi_id (meal_items db2)), m_id meal, nd_id day),
         {| store :=
              set_meal_items db2
                {| rows := rows (meal_items db2)
                           ++ [{| mi_id := next_rowid mi_id (meal_items db2);
                                  mi_meal_id := m_id meal; mi_fields := f |}];
                   autoinc := next_rowid mi_id (meal_items db2) |};
            conn := Closed; trace := tr |}).
Proof.
  intros Hd day db1 meal db2 updates.
  remember (call (add_or_update_meal_item date meal_name f item_id) db) as o eqn:Ho.
  unfold call, add_or_update_meal_item in Ho.
  unfold bind at 1 in Ho. unfold lift at 1 in Ho. rewrite Hd in Ho.
  unfold bind at 1 in Ho. unfold get_connection, fresh in Ho. cbn [store trace app] in Ho.
  unfold bind at 1 in Ho.
  destruct (ensure_day_ensured d db db 0 [SPragma]) as (l1 & e1 & E1 & _).
  unfold opened in E1 at 1. rewrite E1 in Ho. clear E1.
  fold day db1 in Ho.
  destruct (day_ensured_found d db) as (_ & Hday). fold day db1 in Hday.
  match type of Ho with
  | o = bind _ (fun _ => bind _ ?k) _ =>
    destruct (ensure_meal_run _ (nd_id day) meal_name k db db1 l1 ([SPragma] ++ e1) Hday)
      as (l2 & e2 & E2)
  end.
  pose proof (eq_trans Ho E2) as Ho'. clear Ho E2. fold meal db2 in Ho'.
  cbv beta iota in Ho'.
  destruct (meal_ensured_found (nd_id day) meal_name db1) as (_ & Hmeal).
  fold meal db2 in Hmeal.
  assert (Hins :
    forall w, w = opened db db2 l2 (([SPragma] ++ e1) ++ e2) ->
    exists tr,
      (item_id0 <- (new <- insert (SInsert Tmeal_items) (insert_meal_item (m_id meal) f) ;;
                    ret (Some new)) ;;
       commit ;; close ;; ret (item_id0, m_id meal, nd_id day)) w
      = (Ok (Some (next_rowid mi_id (meal_items db2)), m_id meal, nd_id day),
         {| store :=
              set_meal_items db2
                {| rows := rows (meal_items db2)
                           ++ [{| mi_id := next_rowid mi_id (meal_items db2);
                                  mi_meal_id := m_id meal; mi_fields := f |}];
                   autoinc := next_rowid mi_id (meal_items db2) |};
            conn := Closed; trace := tr |})).
  { intros w ->. unfold opened, bind, insert, insert_meal_item, commit, close, ret.
    cbn [conn c_db store trace c_last_insert_rowid]. rewrite Hmeal.
    unfold tbl_insert. cbn [conn c_db store trace]. eexists. reflexivity. }
  subst o. unfold updates.
  destruct item_id as [id|]; [destruct (Z.eqb_spec id 0) as [->|Hne]|]; cbn [negb].
  - apply Hins. reflexivity.
  - unfold opened, bind, modify, update_meal_item, commit, close, ret.
    cbn [conn c_db store trace c_last_insert_rowid]. eexists. reflexivity.
  - apply Hins. reflexivity.
Qed.

Lemma day_ensured_others d db :
  meals (snd (day_ensured d db)) = meals db
  /\ meal_items (snd (day_ensured d db)) = meal_items db.
Proof. unfold day_ensured. destruct (find_day d db); split; reflexivity. Qed.

Lemma meal_ensured_others day_id name db :
  nutrition_days (snd (meal_ensured day_id name db)) = nutrition_days db
  /\ meal_items (snd (meal_ensured day_id name db)) = meal_items db.
Proof. unfold meal_ensured. destruct (find_meal day_id name db); split; reflexivity. Qed.

Lemma ensured_items d name db :
  meal_items (snd (meal_ensured (nd_id (fst (day_ensured d db))) name
                     (snd (day_ensured d db))))
  = meal_items db.
Proof.
  destruct (meal_ensured_others (nd_id (fst (day_ensured d db))) name
              (snd (day_ensured d db))) as (_ & ->).
  apply day_ensured_others.
Qed.

Lemma ensured_found d name db :
  let day := fst (day_ensured d db) in
  let db2 := snd (meal_ensured (nd_id day) name (snd (day_ensured d db))) in
  find_day d db2 = Some day
  /\ find_meal (nd_id day) name db2
     = Some (fst (meal_ensured (nd_id day) name (snd (day_ensured d db)))).
Proof.
  intros day db2. split.
  - unfold find_day, db2.
    destruct (meal_ensured_others (nd_id day) name (snd (day_ensured d db))) as (-> & _).
    apply day_ensured_found.
  - apply meal_ensured_found.
Qed.

Lemma add_meal_item_run (date d meal_name : pystr) (f : item_fields)
    (item_id : option Z) (db : DB) :
  _ensure_date date = Ok d ->
  item_id = None \/ item_id = Some 0 ->
  let out := call (add_or_update_meal_item date meal_name f item_id) db in
  let after := store (snd out) in
  exists day meal new_id,
    fst out = Ok (Some new_id, m_id meal, nd_id day)
    /\ conn (snd out) = Closed
    /\ find_day d after = Some day
    /\ find_meal (nd_id day) meal_name after = Some meal
    /\ rows (meal_items after)
       = rows (meal_items db)
         ++ [{| mi_id := new_id; mi_meal_id := m_id meal; mi_fields := f |}]
    /\ (forall i, In i (rows (meal_items db)) -> mi_id i < new_id)
    /\ select_items (m_id meal) after
       = select_items (m_id meal) db
         ++ [{| mi_id := new_id; mi_meal_id := m_id meal; mi_fields := f |}].
Proof.
  intros Hd Hid out after.
  destruct (add_or_update_meal_item_call date d meal_name f item_id db Hd) as (tr & E).
  cbv zeta in E. unfold after, out. rewrite E. clear E.
  assert (Hno : match item_id with Some id => negb (id =? 0) | None => false end = false)
    by (destruct Hid as [-> | ->]; reflexivity).
  rewrite Hno. cbn [fst snd store conn].
  destruct (ensured_found d meal_name db) as (Hday & Hmeal). cbv zeta in Hday, Hmeal.
  rewrite (ensured_items d meal_name db).
  eexists. eexists. eexists.
  split; [reflexivity|]. split; [reflexivity|].
  split; [exact Hday|]. split; [exact Hmeal|].
  cbn [meal_items set_meal_items rows].
  split; [reflexivity|]. split.
  - intros i Hi. apply next_rowid_above. exact Hi.
  - unfold select_items. cbn [meal_items set_meal_items rows].
    rewrite filter_app. cbn [filter mi_meal_id]. rewrite Z.eqb_refl. reflexivity.
Qed.

(** X10 ([add_or_update_meal_item], insertion).  For an accepted date and
    no item id (or the id 0) the call makes sure that the day and the
    meal of that name exist, appends one item with the fields passed to
    that meal under a fresh id, and returns the three ids; the item is
    the last of the meal's items. *)
Theorem add_meal_item_appends (date d meal_name : pystr) (f : item_fields)
    (item_id : option Z) (db : DB) :
  _ensure_date date = Ok d ->
  item_id = None \/ item_id = Some 0 ->
  let out := call (add_or_update_meal_item date meal_name f item_id) db in
  let after := store (snd out) in
  exists day meal new_id,
    fst out = Ok (Some new_id, m_id meal, nd_id day)
    /\ conn (snd out) = Closed
    /\ find_day d after = Some day
    /\ find_meal (nd_id day) meal_name after = Some meal
    /\ rows (meal_items after)
       = rows (meal_items db)
         ++ [{| mi_id := new_id; mi_meal_id := m_id meal; mi_fields := f |}]
    /\ (forall i, In i (rows (meal_items db)) -> mi_id i < new_id)
    /\ select_items (m_id meal) after
       = select_items (m_id meal) db
         ++ [{| mi_id := new_id; mi_meal_id := m_id meal; mi_fields := f |}].
Proof. apply add_meal_item_run. Qed.


(** X11 ([add_or_update_meal_item], update).  For an accepted date and an
    item id other than 0 the call rewrites the fields of the item with
    that id and returns that id.  No item is added or removed and every
    item stays in the meal it was in, whatever meal and date are named;
    when no item has the id, the items are left as they were and the
    call returns all the same.  The day and the meal named are created
    when missing. *)
Theorem update_meal_item_in_place (date d meal_name : pystr) (f : item_fields)
    (id : Z) (db : DB) :
  _ensure_date date = Ok d ->
  id <> 0 ->
  let out := call (add_or_update_meal_item date meal_name f (Some id)) db in
  let after := store (snd out) in
  exists day meal,
    fst out = Ok (Some id, m_id meal, nd_id day)
    /\ conn (snd out) = Closed
    /\ find_day d after = Some day
    /\ find_meal (nd_id day) meal_name after = Some meal
    /\ rows (meal_items after)
       = map (fun i => if mi_id i =? id
                       then {| mi_id := mi_id i; mi_meal_id := mi_meal_id i;
                               mi_fields := f |}
                       else i)
             (rows (meal_items db))
    /\ map (fun i => (mi_id i, mi_meal_id i)) (rows (meal_items after))
       = map (fun i => (mi_id i, mi_meal_id i)) (rows (meal_items db))
    /\ (has_id mi_id id (meal_items db) = false ->
          rows (meal_items after) = rows (meal_items db)).
Proof.
  intros Hd Hid out after.
  destruct (add_or_update_meal_item_call date d meal_name f (Some id) db Hd) as (tr & E).
  cbv zeta in E. unfold after, out. rewrite E. clear E.
  assert (Hup : negb (id =? 0) = true) by (apply negb_true_iff, Z.eqb_neq; exact Hid).
  rewrite Hup. cbn [fst snd store conn].
  destruct (ensured_found d meal_name db) as (Hday & Hmeal). cbv zeta in Hday, Hmeal.
  eexists. eexists.
  split; [reflexivity|]. split; [reflexivity|].
  split; [exact Hday|]. split; [exact Hmeal|].
  unfold tbl_update. cbn [meal_items set_meal_items rows].
  rewrite (ensured_items d meal_name db).
  split; [reflexivity|]. split.
  - rewrite map_map. apply map_ext. intros i. destruct (mi_id i =? id); reflexivity.
  - intros Hnone. rewrite <- (map_id (rows (meal_items db))) at 2.
    apply map_ext_in. intros i Hi.
    destruct (Z.eqb_spec (mi_id i) id) as [Heq|]; [|reflexivity]. exfalso.
    assert (has_id mi_id id (meal_items db) = true)
      by (apply has_id_In; exists i; split; assumption).
    congruence.
Qed.

(** A second serving of oats for the sample lunch is item 2 of meal 1;
    rewriting item 1 under the name of another meal creates that meal
    and leaves the item in meal 1; rewriting item 99 changes no item. *)
Lemma add_meal_item_appends_witness :
  exists day meal,
    fst (call (add_or_update_meal_item (py "2026-01-06") (py "lunch") oats None) lunch_db)
    = Ok (Some 2, m_id meal, nd_id day)
    /\ m_id meal = 1.
Proof.
  destruct (add_meal_item_appends (py "2026-01-06") (py "2026-01-06") (py "lunch") oats
              None lunch_db)
    as (day & meal & new_id & Hr & _ & _ & _ & _); [vm_compute; reflexivity|left; reflexivity|].
  exists day, meal.
  assert (H : new_id = 2 /\ m_id meal = 1).
  { pose proof Hr as Hc. vm_compute in Hc. injection Hc as E1 E2 E3.
    split; symmetry; assumption. }
  destruct H as (-> & Hm). split; [exact Hr|exact Hm].
Defined.

Lemma update_meal_item_in_place_witness :
  let moved := call (add_or_update_meal_item (py "2026-01-06") (py "dinner") oats (Some 1))
                    lunch_db in
  let missing := call (add_or_update_meal_item (py "2026-01-06") (py "lunch") oats (Some 99))
                      lunch_db in
  map (fun i => (mi_id i, mi_meal_id i)) (rows (meal_items (store (snd moved)))) = [(1, 1)]
  /\ List.length (rows (meals (store (snd moved)))) = 2%nat
  /\ (exists day meal, fst missing = Ok (Some 99, m_id meal, nd_id day))
  /\ rows (meal_items (store (snd missing))) = rows (meal_items lunch_db).
Proof.
  intros moved missing.
  destruct (update_meal_item_in_place (py "2026-01-06") (py "2026-01-06") (py "dinner") oats
              1 lunch_db) as (_ & _ & _ & _ & _ & _ & _ & Hpairs & _);
    [vm_compute; reflexivity|discriminate|].
  destruct (update_meal_item_in_place (py "2026-01-06") (py "2026-01-06") (py "lunch") oats
              99 lunch_db) as (day & meal & Hr & _ & _ & _ & _ & _ & Hnone);
    [vm_compute; reflexivity|discriminate|].
  fold moved in Hpairs. fold missing in Hr, Hnone.
  split; [rewrite Hpairs; reflexivity|]. split; [vm_compute; reflexivity|].
  split; [exists day, meal; exact Hr|]. apply Hnone. reflexivity.
Defined.

(** ** Deleting meals, items and days *)


Lemma filter_twice R (p q : R -> bool) (l : list R) :
  (forall x, In x l -> q x = true -> p x = true) ->
  filter p (filter q l) = filter q l.
Proof.
  intros H. apply filter_all. intros x Hx. apply filter_In in Hx.
  destruct Hx as (Hx & Hq). apply H; assumption.
Qed.

Lemma count_positive R (p : R -> bool) (t : table R) :
  (0 <? count_where p t) = existsb p (rows t).
Proof.
  unfold count_where. induction (rows t) as [|x l IH]; [reflexivity|].
  cbn [filter existsb]. destruct (p x); cbn [orb List.length].
  - apply Z.ltb_lt. lia.
  - exact IH.
Qed.

Lemma mem_ids_of R (rowid : R -> Z) (p : R -> bool) (l : list R) x :
  mem_Z x (map rowid (filter p l)) = existsb (fun r => p r && (rowid r =? x)) l.
Proof.
  unfold mem_Z. induction l as [|r l IH]; [reflexivity|].
  cbn [filter existsb]. destruct (p r); cbn [map existsb andb orb].
  - rewrite IH. rewrite (Z.eqb_sym x). reflexivity.
  - exact IH.
Qed.

Lemma delete_meal_call meal_id delete_items db :
  exists tr,
    call (delete_meal meal_id delete_items) db
    = (Ok (has_id m_id meal_id (meals db)),
       {| store :=
            let db1 :=
              if delete_items
              then set_meal_items db
                     (tbl_delete (fun i => mi_meal_id i =? meal_id) (meal_items db))
              else db in
            set_meal_items
              (set_meals db1 (tbl_delete (fun m => m_id m =? meal_id) (meals db1)))
              (tbl_delete
                 (fun i => mem_Z (mi_meal_id i)
                             (map m_id (filter (fun m => m_id m =? meal_id)
                                               (rows (meals db1)))))
                 (meal_items db1));
          conn := Closed; trace := tr |}).
Proof.
  unfold call, delete_meal, fresh.
  destruct delete_items;
    unfold bind, get_connection, modify, delete_items_where, delete_meals_where,
           commit, close, ret;
    cbn [conn c_db store trace c_last_insert_rowid fst snd];
    rewrite count_positive; eexists; reflexivity.
Qed.

(** X12 ([delete_meal]).  On a store in which every item belongs to an
    existing meal, the call removes the meal with the id and all items
    of that meal, and nothing else, whether [delete_items] is set or
    not: with the flag off the items go all the same, through the
    cascade of the schema.  The value tells whether the meal existed. *)
Theorem delete_meal_takes_items (meal_id : Z) (delete_items : bool) (db : DB) :
  (forall i, In i (rows (meal_items db)) ->
             has_id m_id (mi_meal_id i) (meals db) = true) ->
  let out := call (delete_meal meal_id delete_items) db in
  fst out = Ok (has_id m_id meal_id (meals db))
  /\ conn (snd out) = Closed
  /\ store (snd out)
     = set_meal_items
         (set_meals db
            {| rows := filter (fun m => negb (m_id m =? meal_id)) (rows (meals db));
               autoinc := autoinc (meals db) |})
         {| rows := filter (fun i => negb (mi_meal_id i =? meal_id))
                           (rows (meal_items db));
            autoinc := autoinc (meal_items db) |}.
Proof.
  intros Hfk out. destruct (delete_meal_call meal_id delete_items db) as (tr & E).
  unfold out. rewrite E. clear E. cbn [fst snd conn store].
  split; [reflexivity|]. split; [reflexivity|].
  destruct delete_items; cbv zeta; unfold tbl_delete, set_meal_items, set_meals;
    cbn [workouts exercises sets nutrition_days meals meal_items body_metrics
         skinfolds rows autoinc]; f_equal; f_equal.
  - apply filter_twice. intros i _ Hi. rewrite mem_ids_of.
    apply negb_true_iff. apply negb_true_iff in Hi.
    apply not_true_is_false. intros H. apply existsb_exists in H.
    destruct H as (m & _ & H). apply andb_prop in H. destruct H as (H1 & H2).
    apply Z.eqb_eq in H1, H2. apply Z.eqb_neq in Hi. congruence.
  - apply filter_ext_in. intros i Hi. f_equal. rewrite mem_ids_of.
    destruct (Z.eqb_spec (mi_meal_id i) meal_id) as [Heq|Hne].
    + specialize (Hfk i Hi). rewrite Heq in Hfk. unfold has_id in Hfk.
      apply existsb_exists in Hfk. destruct Hfk as (m & Hm & Hid).
      apply existsb_exists. exists m. split; [exact Hm|].
      rewrite Hid. cbn [andb]. rewrite Heq. exact Hid.
    + apply not_true_is_false. intros H. apply existsb_exists in H.
      destruct H as (m & _ & H). apply andb_prop in H. destruct H as (H1 & H2).
      apply Z.eqb_eq in H1, H2. congruence.
Qed.

(** The meal of the sample day goes with its item, flag or no flag. *)
Lemma delete_meal_takes_items_witness :
  store (snd (call (delete_meal 1 false) lunch_db))
  = store (snd (call (delete_meal 1 true) lunch_db))
  /\ rows (meal_items (store (snd (call (delete_meal 1 false) lunch_db)))) = []
  /\ fst (call (delete_meal 1 false) lunch_db) = Ok true.
Proof.
  assert (Hfk : forall i, In i (rows (meal_items lunch_db)) ->
                          has_id m_id (mi_meal_id i) (meals lunch_db) = true).
  { intros i [<-|[]]. reflexivity. }
  destruct (delete_meal_takes_items 1 false lunch_db Hfk) as (Hr & _ & Hs).
  destruct (delete_meal_takes_items 1 true lunch_db Hfk) as (_ & _ & Hs').
  split; [rewrite Hs, Hs'; reflexivity|]. split; [rewrite Hs; reflexivity|exact Hr].
Defined.

Lemma filter_same R (p : R -> bool) (l : list R) :
  filter p (filter p l) = filter p l.
Proof. apply filter_twice. intros x _ H. exact H. Qed.

Lemma filter_opposite R (p : R -> bool) (l : list R) :
  filter p (filter (fun x => negb (p x)) l) = [].
Proof.
  induction l as [|x l IH]; [reflexivity|]. cbn [filter].
  destruct (p x) eqn:E; cbn [negb filter]; [exact IH|]. rewrite E. exact IH.
Qed.

Lemma delete_nutrition_day_call date d cascade db :
  _ensure_date date = Ok d ->
  exists tr,
    call (delete_nutrition_day date cascade) db
    = (Ok (existsb (fun r => pystr_eqb (nd_date r) d) (rows (nutrition_days db))),
       {| store :=
            let day_ids :=
              map nd_id (filter (fun r => pystr_eqb (nd_date r) d)
                                (rows (nutrition_days db))) in
            let meal_ids :=
              map m_id (filter (fun m => mem_Z (m_day_id m) day_ids) (rows (meals db))) in
            set_meal_items
              (set_meals
                 (set_nutrition_days db
                    {| rows := filter (fun r => negb (pystr_eqb (nd_date r) d))
                                      (rows (nutrition_days db));
                       autoinc := autoinc (nutrition_days db) |})
                 {| rows := filter (fun m => negb (mem_Z (m_day_id m) day_ids))
                                   (rows (meals db));
                    autoinc := autoinc (meals db) |})
              {| rows := filter (fun i => negb (mem_Z (mi_meal_id i) meal_ids))
                                (rows (meal_items db));
                 autoinc := autoinc (meal_items db) |};
          conn := Closed; trace := tr |}).
Proof.
  intros Hd. cbv zeta.
  remember (map nd_id (filter (fun r => pystr_eqb (nd_date r) d)
                              (rows (nutrition_days db)))) as day_ids eqn:Hdays.
  assert (Hkeep : forall l : list meal_item_row,
            filter (fun i => negb (mem_Z (mi_meal_id i) [])) l = l).
  { intros l. apply filter_all. reflexivity. }
  unfold call, delete_nutrition_day, fresh.
  unfold bind at 1. unfold lift at 1. rewrite Hd.
  unfold bind at 1. unfold get_connection. cbn [store trace app].
  destruct cascade.
  - unfold bind at 1. unfold bind at 1. unfold query at 1. cbn [conn c_db].
    rewrite <- Hdays. unfold log_stmt. cbn [store conn trace].
    destruct (map m_id (filter (fun m => mem_Z (m_day_id m) day_ids) (rows (meals db))))
      as [|mid rest] eqn:Hids.
    + unfold bind, ret, modify, delete_meals_where, delete_days_where,
             delete_meals_where, commit, close, ret.
      cbn [conn c_db store trace c_last_insert_rowid fst snd].
      unfold tbl_delete, set_meal_items, set_meals, set_nutrition_days.
      cbn [workouts exercises sets nutrition_days meals meal_items body_metrics
           skinfolds rows autoinc].
      rewrite <- Hdays. rewrite Hids.
      rewrite (filter_opposite _ (fun m => mem_Z (m_day_id m) day_ids)).
      cbn [map]. rewrite !Hkeep, filter_same. rewrite count_positive.
      eexists. reflexivity.
    + unfold bind, ret, modify, delete_items_where, delete_meals_where,
             delete_days_where, delete_meals_where, commit, close, ret.
      cbn [conn c_db store trace c_last_insert_rowid fst snd].
      unfold tbl_delete, set_meal_items, set_meals, set_nutrition_days.
      cbn [workouts exercises sets nutrition_days meals meal_items body_metrics
           skinfolds rows autoinc].
      rewrite <- Hdays. rewrite Hids.
      rewrite (filter_opposite _ (fun m => mem_Z (m_day_id m) day_ids)).
      cbn [map]. rewrite Hkeep, !filter_same. rewrite count_positive.
      eexists. reflexivity.
  - unfold bind, ret, modify, delete_days_where, delete_meals_where, commit, close, ret.
    cbn [conn c_db store trace c_last_insert_rowid fst snd].
    unfold tbl_delete, set_meal_items, set_meals, set_nutrition_days.
    cbn [workouts exercises sets nutrition_days meals meal_items body_metrics
         skinfolds rows autoinc].
    rewrite <- Hdays. rewrite count_positive. eexists. reflexivity.
Qed.

(** X13 ([delete_nutrition_day]).  For an accepted date the call removes
    the rows of that date, the meals of those days and the items of
    those meals, and nothing else, whether [cascade] is set or not: with
    the flag off the meals and items go all the same, through the
    cascade of the schema.  The value tells whether the date had a
    row. *)
Theorem delete_nutrition_day_takes_meals (date d : pystr) (cascade : bool) (db : DB) :
  _ensure_date date = Ok d ->
  let out := call (delete_nutrition_day date cascade) db in
  let day_ids :=
    map nd_id (filter (fun r => pystr_eqb (nd_date r) d) (rows (nutrition_days db))) in
  let meal_ids :=
    map m_id (filter (fun m => mem_Z (m_day_id m) day_ids) (rows (meals db))) in
  fst out = Ok (existsb (fun r => pystr_eqb (nd_date r) d) (rows (nutrition_days db)))
  /\ conn (snd out) = Closed
  /\ store (snd out)
     = set_meal_items
         (set_meals
            (set_nutrition_days db
               {| rows := filter (fun r => negb (pystr_eqb (nd_date r) d))
                                 (rows (nutrition_days db));
                  autoinc := autoinc (nutrition_days db) |})
            {| rows := filter (fun m => negb (mem_Z (m_day_id m) day_ids))
                              (rows (meals db));
               autoinc := autoinc (meals db) |})
         {| rows := filter (fun i => negb (mem_Z (mi_meal_id i) meal_ids))
                           (rows (meal_items db));
            autoinc := autoinc (meal_items db) |}
  /\ store (snd out) = store (snd (call (delete_nutrition_day date (negb cascade)) db)).
Proof.
  intros Hd out day_ids meal_ids.
  destruct (delete_nutrition_day_call date d cascade db Hd) as (tr & E).
  destruct (delete_nutrition_day_call date d (negb cascade) db Hd) as (tr' & E').
  unfold out. rewrite E, E'. cbn [fst snd conn store]. repeat split.
Qed.

Lemma delete_nutrition_day_takes_meals_witness :
  fst (call (delete_nutrition_day (py "2026-01-06") false) lunch_db) = Ok true
  /\ rows (meals (store (snd (call (delete_nutrition_day (py "2026-01-06") false)
                                   lunch_db)))) = []
  /\ rows (meal_items (store (snd (call (delete_nutrition_day (py "2026-01-06") false)
                                        lunch_db)))) = [].
Proof.
  destruct (delete_nutrition_day_takes_meals (py "2026-01-06") (py "2026-01-06") false
              lunch_db) as (Hr & _ & Hs & _); [vm_compute; reflexivity|].
  split; [exact Hr|]. rewrite Hs. split; vm_compute; reflexivity.
Defined.

(** ** Tags as stored and tags as searched *)

Local Open Scope N_scope.

Lemma hex_digit_printable d : d < 16 -> printable (hex_digit d) = true.
Proof.
  intros H. unfold printable, hex_digit.
  destruct (N.ltb_spec d 10); apply andb_true_intro; split; apply N.leb_le; lia.
Qed.

Lemma hex4_printable n : forallb printable (hex4 n) = true.
Proof.
  unfold hex4. cbn [forallb].
  rewrite !hex_digit_printable by (apply N.mod_lt; discriminate). reflexivity.
Qed.

Lemma u_escape_printable n : forallb printable (u_escape n) = true.
Proof. unfold u_escape. cbn [forallb]. rewrite hex4_printable. reflexivity. Qed.

Lemma encode_char_printable c : forallb printable (encode_char c) = true.
Proof.
  unfold encode_char.
  repeat match goal with
         | |- forallb _ (if ?b then _ else _) = true =>
           destruct b eqn:?; [try reflexivity|]
         end.
  - cbn [forallb]. unfold printable. rewrite Heqb6. reflexivity.
  - apply u_escape_printable.
  - cbv zeta. rewrite forallb_app, !u_escape_printable. reflexivity.
Qed.

Lemma encode_basestring_printable s :
  forallb printable (encode_basestring_ascii s) = true.
Proof.
  unfold encode_basestring_ascii. cbn [forallb]. rewrite forallb_app.
  cbn [forallb]. rewrite andb_true_r. change (printable 34) with true. cbn [andb].
  induction s as [|c s IH]; [reflexivity|].
  cbn [flat_map]. rewrite forallb_app, encode_char_printable, IH. reflexivity.
Qed.

Lemma join_items_printable l :
  forallb (forallb printable) l = true -> forallb printable (join_items l) = true.
Proof.
  induction l as [|x l IH]; [reflexivity|]. cbn [forallb]. intros H.
  apply andb_prop in H. destruct H as (Hx & Hl).
  destruct l as [|y l']; [exact Hx|].
  rewrite join_items_cons, forallb_app, Hx. cbn [forallb andb].
  change (printable 44) with true. change (printable 32) with true. cbn [andb].
  apply IH. exact Hl.
Qed.

Lemma dumps_printable l : forallb printable (dumps_str_list l) = true.
Proof.
  unfold dumps_str_list. cbn [forallb]. change (printable 91) with true. cbn [andb].
  rewrite forallb_app. cbn [forallb]. change (printable 93) with true.
  rewrite !andb_true_r. apply join_items_printable.
  induction l as [|x l IH]; [reflexivity|].
  cbn [map forallb]. rewrite encode_basestring_printable, IH. reflexivity.
Qed.

(** X14 (stored tags are ASCII).  Whatever the tags, the text
    [serialize_tags] produces consists of printable ASCII characters
    only. *)
Theorem serialize_tags_printable (tags : list pystr) (text : pystr) :
  serialize_tags (Some tags) = Some text -> forallb printable text = true.
Proof. intros H. injection H as <-. apply dumps_printable. Qed.

Lemma serialize_tags_printable_witness :
  forallb printable (dumps_str_list [[99; 97; 102; 233]; [128512]]) = true.
Proof.
  apply (serialize_tags_printable [[99; 97; 102; 233]; [128512]]). reflexivity.
Defined.

(** *** LIKE *)

Lemma until_nul_same s : forallb (fun c => negb (c =? 0)) s = true -> until_nul s = s.
Proof.
  induction s as [|c s IH]; [reflexivity|]. cbn [forallb until_nul]. intros H.
  apply andb_prop in H. destruct H as (Hc & Hs). apply negb_true_iff in Hc.
  rewrite Hc, (IH Hs). reflexivity.
Qed.

Lemma until_nul_printable s : forallb printable s = true -> until_nul s = s.
Proof.
  intros H. apply until_nul_same. rewrite forallb_forall in *. intros c Hc.
  specialize (H c Hc). unfold printable in H. apply andb_prop in H. destruct H as (H & _).
  apply N.leb_le in H. apply negb_true_iff. apply N.eqb_neq. lia.
Qed.

Lemma until_nul_lower s : until_nul (sql_lower s) = sql_lower (until_nul s).
Proof.
  unfold sql_lower. induction s as [|c s IH]; [reflexivity|]. cbn [map until_nul].
  assert (E : (ascii_lower c =? 0) = (c =? 0)).
  { unfold ascii_lower. destruct ((65 <=? c) && (c <=? 90)) eqn:E; [|reflexivity].
    apply andb_prop in E. destruct E as (E1 & E2). apply N.leb_le in E1, E2.
    transitivity false; [apply N.eqb_neq; lia|symmetry; apply N.eqb_neq; lia]. }
  rewrite E. destruct (c =? 0); [reflexivity|]. cbn [map]. rewrite IH. reflexivity.
Qed.

Lemma until_nul_high a b :
  has_non_ascii (until_nul a) = true -> has_non_ascii (until_nul (a ++ b)) = true.
Proof.
  unfold has_non_ascii. induction a as [|c a IH]; [discriminate|].
  cbn [app until_nul]. destruct (c =? 0); [discriminate|].
  cbn [existsb]. intros H. apply orb_prop in H. destruct H as [H|H].
  - rewrite H. reflexivity.
  - rewrite (IH H). apply orb_true_r.
Qed.

Lemma like_percent p s :
  like_chars (37 :: p) s
  = like_chars p s || match s with [] => false | _ :: t => like_chars (37 :: p) t end.
Proof. destruct s; reflexivity. Qed.

Lemma like_literal c p s :
  c <> 37 ->
  like_chars (c :: p) s
  = match s with
    | [] => false
    | x :: s' => ((c =? 95) || eq_nocase c x) && like_chars p s'
    end.
Proof.
  intros H. cbn [like_chars]. apply N.eqb_neq in H. rewrite H. reflexivity.
Qed.

Lemma like_percent_skip p pre s : like_chars p s = true -> like_chars (37 :: p) (pre ++ s) = true.
Proof.
  intros H. induction pre as [|x pre IH]; rewrite like_percent.
  - cbn [app]. rewrite H. reflexivity.
  - cbn [app]. rewrite IH. apply orb_true_r.
Qed.

Lemma like_percent_end s : like_chars [37] s = true.
Proof.
  induction s as [|x s IH]; rewrite like_percent; [reflexivity|].
  rewrite IH. apply orb_true_r.
Qed.

Lemma eq_nocase_refl c : eq_nocase c c = true.
Proof. unfold eq_nocase. apply N.eqb_refl. Qed.

Lemma like_itself x : forall p rest,
  like_chars p rest = true -> like_chars (x ++ p) (x ++ rest) = true.
Proof.
  induction x as [|c x IH]; intros p rest H; [exact H|].
  cbn [app]. destruct (N.eq_dec c 37) as [->|Hc].
  - rewrite like_percent. cbn [app].
    replace (like_chars (37 :: x ++ p) (x ++ rest)) with true; [apply orb_true_r|].
    symmetry. apply (like_percent_skip (x ++ p) [] (x ++ rest)). apply IH. exact H.
  - rewrite like_literal by exact Hc. rewrite eq_nocase_refl, orb_true_r.
    apply IH. exact H.
Qed.

Lemma ascii_lower_high c x : 128 <= c -> eq_nocase c x = true -> 128 <= x.
Proof.
  unfold eq_nocase, ascii_lower. intros Hc H. apply N.eqb_eq in H.
  destruct ((65 <=? c) && (c <=? 90)) eqn:E1.
  - apply andb_prop in E1. destruct E1 as (_ & E1). apply N.leb_le in E1. lia.
  - destruct ((65 <=? x) && (x <=? 90)) eqn:E2; [|lia].
    apply andb_prop in E2. destruct E2 as (_ & E2). apply N.leb_le in E2. lia.
Qed.

Lemma like_needs_high p : forall s,
  like_chars p s = true -> has_non_ascii p = true -> has_non_ascii s = true.
Proof.
  unfold has_non_ascii.
  induction p as [|c p IH]; intros s H Hp; [discriminate|].
  cbn [existsb] in Hp. destruct (N.eq_dec c 37) as [->|Hc].
  - change (128 <=? 37) with false in Hp. cbn [orb] in Hp.
    induction s as [|x s IHs]; rewrite like_percent in H.
    + rewrite orb_false_r in H. apply (IH [] H Hp).
    + apply orb_prop in H. destruct H as [H|H].
      * apply (IH (x :: s) H Hp).
      * cbn [existsb]. rewrite (IHs H). apply orb_true_r.
  - rewrite like_literal in H by exact Hc.
    destruct s as [|x s]; [discriminate|].
    apply andb_prop in H. destruct H as (Hx & Hrest). cbn [existsb].
    apply orb_prop in Hp. destruct Hp as [Hhigh|Hp].
    + apply N.leb_le in Hhigh.
      apply orb_prop in Hx. destruct Hx as [Hx|Hx].
      * apply N.eqb_eq in Hx. lia.
      * apply (ascii_lower_high c x Hhigh) in Hx.
        apply N.leb_le in Hx. rewrite Hx. reflexivity.
    + rewrite (IH s Hrest Hp). apply orb_true_r.
Qed.

Lemma printable_not_high s : forallb printable s = true -> has_non_ascii s = false.
Proof.
  unfold has_non_ascii. induction s as [|c s IH]; [reflexivity|].
  cbn [forallb existsb]. intros H. apply andb_prop in H. destruct H as (Hc & Hs).
  rewrite (IH Hs), orb_false_r. unfold printable in Hc.
  apply andb_prop in Hc. destruct Hc as (_ & Hc). apply N.leb_le in Hc.
  apply N.leb_gt. lia.
Qed.

Lemma plain_encode_char c : plain_char c = true -> encode_char c = [c].
Proof.
  unfold plain_char, printable, encode_char. intros H.
  apply andb_prop in H. destruct H as (H & H92).
  apply andb_prop in H. destruct H as (H & H34).
  apply negb_true_iff in H92, H34. rewrite H34, H92.
  apply andb_prop in H. destruct H as (Hlo & Hhi).
  pose proof Hlo as Hlo'. apply N.leb_le in Hlo'.
  replace (c =? 10) with false by (symmetry; apply N.eqb_neq; lia).
  replace (c =? 13) with false by (symmetry; apply N.eqb_neq; lia).
  replace (c =? 9) with false by (symmetry; apply N.eqb_neq; lia).
  replace (c =? 8) with false by (symmetry; apply N.eqb_neq; lia).
  replace (c =? 12) with false by (symmetry; apply N.eqb_neq; lia).
  rewrite Hlo, Hhi. reflexivity.
Qed.

Lemma plain_encode s :
  forallb plain_char s = true -> encode_basestring_ascii s = 34 :: s ++ [34].
Proof.
  intros H. unfold encode_basestring_ascii. f_equal. f_equal.
  induction s as [|c s IH]; [reflexivity|].
  cbn [forallb] in H. apply andb_prop in H. destruct H as (Hc & Hs).
  cbn [flat_map]. rewrite (plain_encode_char c Hc), (IH Hs). reflexivity.
Qed.

Lemma join_items_In x l :
  In x l -> exists pre post, join_items l = pre ++ x ++ post.
Proof.
  induction l as [|y l IH]; [contradiction|]. intros [->|H].
  - destruct l as [|z l'].
    + exists [], []. cbn [join_items app]. rewrite app_nil_r. reflexivity.
    + exists [], (44 :: 32 :: join_items (z :: l')). reflexivity.
  - destruct (IH H) as (pre & post & E). destruct l as [|z l']; [contradiction|].
    exists (y ++ 44 :: 32 :: pre), post. rewrite join_items_cons, E.
    rewrite <- app_assoc. reflexivity.
Qed.

Lemma tag_pattern_matches t T :
  In t T -> forallb plain_char t = true ->
  like (tag_pattern t) (dumps_str_list T) = true.
Proof.
  intros Hin Hplain.
  assert (Hpr : forallb printable t = true).
  { rewrite forallb_forall in *. intros c Hc. specialize (Hplain c Hc).
    unfold plain_char in Hplain. apply andb_prop in Hplain. destruct Hplain as (H & _).
    apply andb_prop in H. destruct H as (H & _). exact H. }
  unfold like. rewrite (until_nul_printable (dumps_str_list T)) by apply dumps_printable.
  rewrite (until_nul_printable (tag_pattern t)).
  2:{ unfold tag_pattern. cbn [forallb]. rewrite forallb_app, Hpr. reflexivity. }
  destruct (join_items_In (encode_basestring_ascii t) (map encode_basestring_ascii T))
    as (pre & post & E); [apply in_map; exact Hin|].
  unfold dumps_str_list. rewrite E, (plain_encode t Hplain).
  unfold tag_pattern.
  assert (Etext : 91 :: (pre ++ (34 :: t ++ [34]) ++ post) ++ [93]
                  = (91 :: pre) ++ (34 :: t) ++ 34 :: post ++ [93]).
  { cbn [app]. f_equal. rewrite <- !app_assoc. cbn [app]. f_equal. f_equal.
    rewrite <- !app_assoc. reflexivity. }
  rewrite Etext. apply like_percent_skip.
  change (34 :: t ++ [34; 37]) with ((34 :: t) ++ [34; 37]).
  apply (like_itself (34 :: t)).
  rewrite like_literal by discriminate. rewrite eq_nocase_refl, orb_true_r.
  apply like_percent_end.
Qed.

Lemma tag_pattern_high t text :
  has_non_ascii (until_nul t) = true -> forallb printable text = true ->
  like (tag_pattern t) text = false.
Proof.
  intros Ht Htext. apply not_true_is_false. intros H.
  unfold like in H. rewrite (until_nul_printable text Htext) in H.
  apply like_needs_high in H.
  - rewrite (printable_not_high text Htext) in H. discriminate.
  - unfold tag_pattern.
    change (37 :: 34 :: t ++ [34; 37]) with ([37; 34] ++ t ++ [34; 37]).
    cbn [app until_nul]. change (37 =? 0) with false. change (34 =? 0) with false.
    cbv iota. unfold has_non_ascii. cbn [existsb].
    apply (until_nul_high t [34; 37]). exact Ht.
Qed.

Local Close Scope N_scope.

Lemma limit_offset_nil R limit offset : limit_offset limit offset (@nil R) = [].
Proof.
  unfold limit_offset. rewrite skipn_nil. destruct (limit <? 0); [reflexivity|].
  apply firstn_nil.
Qed.

Lemma filter_nothing R (p : R -> bool) (l : list R) :
  (forall x, In x l -> p x = false) -> filter p l = [].
Proof.
  induction l as [|x l IH]; intros H; [reflexivity|].
  cbn [filter]. rewrite (H x (or_introl eq_refl)).
  apply IH. intros y Hy. apply H. right. exact Hy.
Qed.

(** X15 (a tag is found again).  When [log_workout] returns for a list
    of tags, the workout it returns is among those [get_workouts] then
    returns, on an unlimited page, for any of these tags that is not
    empty and made of printable ASCII characters other than the quote
    and the backslash. *)
Theorem logged_workout_found_by_tag
    (fromisoformat : pystr -> option datetime)
    (tags_view : list json -> list pystr)
    (exercises_view : list json -> list exercise_payload)
    (date_time : pystr) (workout_type : option pystr) (tags : list pystr)
    (notes : option pystr) (exs : py_arg exercise_payload) (db : DB)
    (r : workout) (t : pystr) :
  let out :=
    call (log_workout fromisoformat tags_view exercises_view
            date_time workout_type (ArgList tags) notes exs) db in
  fst out = Ok r ->
  In t tags -> t <> [] -> forallb plain_char t = true ->
  exists ws,
    fst (call (get_workouts None None None (Some t) None (-1) 0) (store (snd out)))
    = Ok ws
    /\ In r ws.
Proof.
  intros out Hok Hin Hne Hplain.
  pose proof (log_workout_run fromisoformat tags_view exercises_view
                date_time workout_type (ArgList tags) notes exs db) as H.
  fold out in H. unfold log_workout_outcome in H.
  change (normalized tags_view (ArgList tags)) with (Ok (A:=option (list pystr)) (Some tags)) in H.
  destruct (normalized exercises_view exs) as [ex|e2];
    [|destruct H as (e & He & _); congruence].
  destruct (fromisoformat date_time) as [d|];
    [|destruct H as (e & He & _); congruence].
  destruct (exercises_valid (list_of ex));
    [|destruct H as (e & He & _); congruence].
  destruct H as (tw & te & ts & newex & newsets & H). cbv zeta in H.
  destruct H as (Hr & Hs & _ & Hw & _).
  rewrite Hr in Hok. injection Hok as <-. rewrite Hs.
  eexists. split.
  - apply (get_workouts_run None None None (Some t) None (-1) 0 _ None None);
      reflexivity.
  - apply in_map. apply In_selected_all. split.
    + cbn [workouts set_sets set_exercises set_workouts]. rewrite Hw.
      apply in_or_app. right. left. reflexivity.
    + unfold workouts_where. cbn [ge_bound le_bound type_filter andb].
      unfold tag_filter. destruct t as [|c t']; [congruence|].
      cbn [w_tags serialize_tags like_opt].
      apply tag_pattern_matches; assumption.
Qed.

(** The workout logged with the tags legs and sprint is found under
    sprint. *)
Lemma logged_workout_found_by_tag_witness :
  exists r ws,
    fst (call (demo_log [squat]) empty_db) = Ok r
    /\ fst (call (get_workouts None None None (Some (py "sprint")) None (-1) 0) demo_db)
       = Ok ws
    /\ In r ws.
Proof.
  assert (Hr : exists r, fst (call (demo_log [squat]) empty_db) = Ok r)
    by (eexists; vm_compute; reflexivity).
  destruct Hr as (r & Hr). exists r.
  destruct (logged_workout_found_by_tag fromisoformat_seconds strings_view
              no_exercises_view (py "2026-01-06T23:59:59") None
              [py "legs"; py "sprint"] None (ArgList [squat]) empty_db r (py "sprint")
              Hr) as (ws & Hws & Hin).
  - right. left. reflexivity.
  - discriminate.
  - reflexivity.
  - exists ws. split; [exact Hr|]. split; [exact Hws|exact Hin].
Defined.

(** X16 (a tag outside ASCII is never found).  On a store whose [tags]
    columns are empty or were written by [serialize_tags], and with date
    filters that are absent, empty or accepted, [get_workouts] with a
    tag that holds a character outside ASCII, before any NUL it may
    hold, returns no workout at all, whatever the tags stored: the
    stored text holds such characters as escapes only, and LIKE reads
    the pattern up to its first NUL.  The tag and the workout type are
    texts that can be encoded as UTF-8 and the pattern made of the tag
    is within the 50000 bytes SQLite allows, so that the statement
    runs. *)
Theorem tag_outside_ascii_finds_nothing
    (from_date to_date workout_type : option pystr) (tag : pystr)
    (exercise_name_contains : option pystr) (limit offset : Z) (db : DB) :
  bound_ok from_date = true -> bound_ok to_date = true ->
  utf8_text tag = true ->
  (forall t, workout_type = Some t -> utf8_text t = true) ->
  (utf8_size (tag_pattern tag) <= 50000)%N ->
  has_non_ascii (until_nul tag) = true ->
  (forall w, In w (rows (workouts db)) ->
             exists tags, w_tags w = serialize_tags tags) ->
  fst (call (get_workouts from_date to_date workout_type (Some tag)
               exercise_name_contains limit offset) db) = Ok [].
Proof.
  intros Hfd Htd _ _ _ Htag Hstored.
  rewrite (get_workouts_run _ _ _ _ _ _ _ _ _ _
             (date_bound_ok from_date midnight Hfd)
             (date_bound_ok to_date last_second Htd)).
  unfold selected_workouts. rewrite filter_nothing.
  - cbn [order_by fold_right]. rewrite limit_offset_nil. reflexivity.
  - intros w Hw. unfold workouts_where. apply andb_false_intro2.
    unfold tag_filter. destruct tag as [|c t']; [discriminate|].
    destruct (Hstored w Hw) as ([T|] & ->); cbn [serialize_tags like_opt]; [|reflexivity].
    apply tag_pattern_high; [exact Htag|apply dumps_printable].
Qed.

(** A workout logged with the tag [cafe], its last letter with an acute
    accent, is not found under that tag. *)
Lemma tag_outside_ascii_finds_nothing_witness :
  let cafe := [99; 97; 102; 233]%N in
  let db :=
    store (snd (call (log_workout fromisoformat_seconds strings_view no_exercises_view
                        (py "2026-01-06T23:59:59") None (ArgList [cafe]) None ArgNone)
                     empty_db)) in
  List.length (rows (workouts db)) = 1%nat
  /\ fst (call (get_workouts None None None (Some cafe) None 20 0) db) = Ok [].
Proof.
  intros cafe db. split; [vm_compute; reflexivity|].
  apply (tag_outside_ascii_finds_nothing None None None cafe None 20 0 db).
  - reflexivity.
  - reflexivity.
  - reflexivity.
  - discriminate.
  - vm_compute. discriminate.
  - reflexivity.
  - intros w [<-|[]]. exists (Some [cafe]). vm_compute. reflexivity.
Defined.

(** ** Searching without regard to case *)

Local Open Scope N_scope.

Lemma ascii_lower_twice c : ascii_lower (ascii_lower c) = ascii_lower c.
Proof.
  unfold ascii_lower. destruct ((65 <=? c) && (c <=? 90)) eqn:E; [|rewrite E; reflexivity].
  apply andb_prop in E. destruct E as (E1 & E2). apply N.leb_le in E1, E2.
  replace ((65 <=? c + 32) && (c + 32 <=? 90)) with false; [reflexivity|].
  symmetry. apply andb_false_intro2. apply N.leb_gt. lia.
Qed.

Lemma ascii_lower_percent c : (ascii_lower c =? 37) = (c =? 37).
Proof.
  unfold ascii_lower. destruct ((65 <=? c) && (c <=? 90)) eqn:E; [|reflexivity].
  apply andb_prop in E. destruct E as (E1 & E2). apply N.leb_le in E1, E2.
  transitivity false; [apply N.eqb_neq; lia|symmetry; apply N.eqb_neq; lia].
Qed.

Lemma ascii_lower_underscore c : (ascii_lower c =? 95) = (c =? 95).
Proof.
  unfold ascii_lower. destruct ((65 <=? c) && (c <=? 90)) eqn:E; [|reflexivity].
  apply andb_prop in E. destruct E as (E1 & E2). apply N.leb_le in E1, E2.
  transitivity false; [apply N.eqb_neq; lia|symmetry; apply N.eqb_neq; lia].
Qed.

Lemma like_chars_lower_pattern p : forall s, like_chars (sql_lower p) s = like_chars p s.
Proof.
  unfold sql_lower. induction p as [|c p IH]; intros s; [reflexivity|].
  cbn [map]. destruct (N.eq_dec c 37) as [->|Hc].
  - change (ascii_lower 37) with 37.
    induction s as [|x s IHs]; rewrite (like_percent (map ascii_lower p)), (like_percent p), IH.
    + reflexivity.
    + rewrite IHs. reflexivity.
  - assert (Hc' : ascii_lower c <> 37).
    { intros E. apply N.eqb_eq in E. rewrite ascii_lower_percent in E.
      apply N.eqb_eq in E. contradiction. }
    rewrite (like_literal _ _ _ Hc'), (like_literal _ _ _ Hc).
    destruct s as [|x s]; [reflexivity|].
    rewrite IH, ascii_lower_underscore. unfold eq_nocase.
    rewrite ascii_lower_twice. reflexivity.
Qed.

Lemma like_lower_pattern p s : like (sql_lower p) s = like p s.
Proof. unfold like. rewrite until_nul_lower. apply like_chars_lower_pattern. Qed.

Lemma like_same_folded p q s : sql_lower p = sql_lower q -> like p s = like q s.
Proof. intros H. rewrite <- (like_lower_pattern p), <- (like_lower_pattern q), H. reflexivity. Qed.

Lemma contains_pattern_folded p q :
  sql_lower p = sql_lower q ->
  sql_lower (contains_pattern p) = sql_lower (contains_pattern q).
Proof.
  unfold sql_lower, contains_pattern. cbn [map]. rewrite !map_app. intros ->. reflexivity.
Qed.

Local Close Scope N_scope.

Lemma like_opt_folded p q col :
  sql_lower p = sql_lower q ->
  like_opt (contains_pattern p) col = like_opt (contains_pattern q) col.
Proof.
  intros H. destruct col as [s|]; [|reflexivity]. cbn [like_opt].
  apply like_same_folded. apply contains_pattern_folded. exact H.
Qed.

Lemma search_results_folded p q domains fd td limit db :
  sql_lower p = sql_lower q ->
  search_results p domains fd td limit db = search_results q domains fd td limit db.
Proof.
  intros H.
  assert (Hw : forall l, found_workouts p fd td l db = found_workouts q fd td l db).
  { intros l. unfold found_workouts. f_equal. apply filter_ext. intros w.
    unfold workout_matches. rewrite !(like_opt_folded p q _ H). reflexivity. }
  assert (Hd : forall l, found_days p fd td l db = found_days q fd td l db).
  { intros l. unfold found_days. f_equal. apply filter_ext. intros w.
    unfold day_matches. rewrite !(like_opt_folded p q _ H). reflexivity. }
  assert (Hb : forall l, found_bodies p fd td l db = found_bodies q fd td l db).
  { intros l. unfold found_bodies. f_equal. apply filter_ext. intros w.
    unfold body_matches. rewrite !(like_opt_folded p q _ H). reflexivity. }
  assert (H1 : search_workout_part p domains fd td limit db
               = search_workout_part q domains fd td limit db).
  { unfold search_workout_part. rewrite Hw. reflexivity. }
  assert (H2 : search_nutrition_part p domains fd td limit db
               = search_nutrition_part q domains fd td limit db).
  { unfold search_nutrition_part. rewrite H1, Hd. reflexivity. }
  assert (H3 : search_body_part p domains fd td limit db
               = search_body_part q domains fd td limit db).
  { unfold search_body_part. rewrite H1, H2, Hb. reflexivity. }
  unfold search_results. rewrite H1, H2, H3. reflexivity.
Qed.

(** X17 (search and case).  With a limit that is not negative and date
    filters that are absent, empty or accepted, [search_logs] returns
    the same results for two queries that differ only in the case of
    ASCII letters: the LIKE of the three domain queries does not tell
    them apart. *)
Theorem search_logs_ignores_case (q1 q2 : pystr) (domains : option (list pystr))
    (from_date to_date : option pystr) (limit : Z) (db : DB) :
  0 <= limit -> bound_ok from_date = true -> bound_ok to_date = true ->
  sql_lower q1 = sql_lower q2 ->
  fst (call (search_logs q1 domains from_date to_date limit) db)
  = fst (call (search_logs q2 domains from_date to_date limit) db).
Proof.
  intros Hl Hfd Htd Hq.
  destruct (search_logs_call q1 domains from_date to_date limit db Hl Hfd Htd)
    as (tr1 & E1 & _).
  destruct (search_logs_call q2 domains from_date to_date limit db Hl Hfd Htd)
    as (tr2 & E2 & _).
  rewrite E1, E2. cbn [fst]. f_equal. apply search_results_folded. exact Hq.
Qed.

(** The notes say pizza night; PIZZA finds them as pizza does. *)
Lemma search_logs_ignores_case_witness :
  fst (call (search_logs (py "PIZZA") None None None 3) pizza_week)
  = fst (call (search_logs (py "pizza") None None None 3) pizza_week)
  /\ exists rs, fst (call (search_logs (py "PIZZA") None None None 3) pizza_week) = Ok rs
                /\ List.length rs = 3%nat.
Proof.
  split.
  - apply (search_logs_ignores_case (py "PIZZA") (py "pizza") None None None 3 pizza_week);
      [lia|reflexivity|reflexivity|reflexivity].
  - eexists. split; vm_compute; reflexivity.
Defined.

(** ** Dates in canonical form *)

Local Open Scope N_scope.

Lemma digit_matches a : a < 10 -> cclass_matches digit (48 + a) = true.
Proof.
  intros H. unfold digit, cclass_matches, is_decimal, decimal_value.
  cbn [decimal_runs find].
  replace ((48 <=? 48 + a) && (48 + a <? 48 + 10)) with true; [reflexivity|].
  symmetry. apply andb_true_intro. split; [apply N.leb_le|apply N.ltb_lt]; lia.
Qed.

Lemma months_days_all : months_days_ok = true.
Proof. vm_compute. reflexivity. Qed.

Lemma years_all : all_from (N.to_nat 10000) 0 year_ok = true.
Proof. vm_compute. reflexivity. Qed.

Lemma month_day_parses m d :
  1 <= m -> m <= 12 -> 1 <= d -> d <= 31 -> month_day_ok m d = true.
Proof.
  intros H1 H2 H3 H4.
  pose proof (all_from_spec _ _ _ months_days_all m) as Hm.
  cbv beta in Hm. specialize (Hm ltac:(lia) ltac:(lia)).
  apply (all_from_spec _ _ _ Hm d); lia.
Qed.

Lemma match_year y rest :
  match_items fmt_date (fmt04 y ++ 45 :: rest)
  = match match_items [re_m; Lit 45; re_d] rest with
    | Some (caps, r) => Some (fmt04 y :: caps, r)
    | None => None
    end.
Proof.
  unfold fmt_date, fmt04. cbn [app].
  cbn [match_items re_Y match_alt].
  rewrite !digit_matches by (apply N.mod_lt; discriminate).
  change (eq_nocase 45 45) with true. cbv iota.
  destruct (match_items [re_m; Lit 45; re_d] rest) as [[caps r]|]; reflexivity.
Qed.

Lemma strptime_isoformat y m d :
  valid_date y m d = true ->
  strptime_date fmt_date (date_isoformat y m d) = Some (y, m, d).
Proof.
  intros Hv. pose proof Hv as Hv'. unfold valid_date in Hv'.
  repeat (apply andb_prop in Hv'; destruct Hv' as [Hv' ?]).
  repeat match goal with
  | H : (_ <=? _) = true |- _ => apply N.leb_le in H
  end.
  assert (Hdays : days_in_month y m <= 31).
  { unfold days_in_month. destruct (m =? 2); [destruct (is_leap y); lia|].
    destruct ((m =? 4) || (m =? 6) || (m =? 9) || (m =? 11)); lia. }
  pose proof (month_day_parses m d ltac:(lia) ltac:(lia) ltac:(lia) ltac:(lia)) as Hmd.
  pose proof (all_below 10000 year_ok y years_all ltac:(lia)) as Hy.
  unfold year_ok in Hy. apply N.eqb_eq in Hy.
  unfold strptime_date, date_isoformat. rewrite match_year.
  unfold month_day_ok in Hmd.
  destruct (match_items [re_m; Lit 45; re_d] (fmt02 m ++ 45 :: fmt02 d))
    as [[[|a [|b [|c caps]]] [|x r]]|]; try discriminate.
  apply andb_prop in Hmd. destruct Hmd as (Ha & Hb).
  apply N.eqb_eq in Ha, Hb. cbn [map]. rewrite Hy, Ha, Hb, Hv. reflexivity.
Qed.

Lemma length_date_isoformat y m d : List.length (date_isoformat y m d) = 10%nat.
Proof. reflexivity. Qed.

Local Close Scope N_scope.

Lemma ensure_date_fixed (value s : pystr) :
  _ensure_date value = Ok s -> List.length s = 10%nat /\ _ensure_date s = Ok s.
Proof.
  intros H. destruct (ensure_date_valid value s H) as (y & m & d & -> & Hv).
  split; [reflexivity|].
  unfold _ensure_date. rewrite (strptime_isoformat y m d Hv). reflexivity.
Qed.

(** X18 (dates in canonical form).  Whatever text [_ensure_date]
    accepts, the result is the ten characters [YYYY-MM-DD] of a date of
    the calendar, and it is accepted in its turn and returned as it is:
    normalising twice is normalising once. *)
Theorem ensure_date_canonical (value s : pystr) :
  _ensure_date value = Ok s ->
  List.length s = 10%nat
  /\ _ensure_date s = Ok s
  /\ exists y m d, valid_date y m d = true /\ s = date_isoformat y m d.
Proof.
  intros H. destruct (ensure_date_valid value s H) as (y & m & d & -> & Hv).
  split; [reflexivity|]. split.
  - unfold _ensure_date. rewrite (strptime_isoformat y m d Hv). reflexivity.
  - exists y, m, d. split; [exact Hv|reflexivity].
Qed.

(** A date written without padding and with a time is brought to the
    padded date. *)
Lemma ensure_date_canonical_witness :
  _ensure_date (py "2026-1-6T7:05:09") = Ok (py "2026-01-06")
  /\ _ensure_date (py "2026-01-06") = Ok (py "2026-01-06").
Proof.
  assert (H : _ensure_date (py "2026-1-6T7:05:09") = Ok (py "2026-01-06"))
    by (vm_compute; reflexivity).
  split; [exact H|].
  apply (ensure_date_canonical (py "2026-1-6T7:05:09") (py "2026-01-06") H).
Defined.

(** ** Body metrics read back *)

Lemma reads_skinfolds b :
  reads (sf <- query (SSelect Tskinfolds None)
                 (fun db => filter (fun s => sf_body_metrics_id s =? bm_id b)
                                   (rows (skinfolds db))) ;;
         ret (b, fold_left (fun d s => dict_set (sf_site_name s) (sf_mm s) d) sf []))
        (fun db => (b, skinfolds_of (bm_id b) db)).
Proof.
  intros s db l t. unfold bind.
  destruct (reads_query _ (SSelect Tskinfolds None)
              (fun db => filter (fun s => sf_body_metrics_id s =? bm_id b)
                                (rows (skinfolds db)))
              eq_refl s db l t) as (e1 & E1 & Q1).
  rewrite E1. exists e1. split; [reflexivity|exact Q1].
Qed.

Lemma get_body_metrics_run fd td limit offset db lo hi :
  day_bound fd = Ok lo -> day_bound td = Ok hi ->
  exists tr,
    call (get_body_metrics fd td limit offset) db
    = (Ok (map (fun b => (b, skinfolds_of (bm_id b) db))
               (selected_metrics lo hi limit offset db)),
       {| store := db; conn := Closed; trace := tr |}).
Proof.
  intros Hlo Hhi.
  remember (call (get_body_metrics fd td limit offset) db) as out eqn:Ho.
  unfold call, get_body_metrics in Ho.
  unfold bind at 1 in Ho. unfold get_connection, fresh in Ho. cbn [store trace app] in Ho.
  unfold bind at 1 in Ho. unfold lift at 1 in Ho. rewrite Hlo in Ho.
  unfold bind at 1 in Ho. unfold lift at 1 in Ho. rewrite Hhi in Ho.
  unfold bind at 1 in Ho. unfold query at 1 in Ho. cbn [conn c_db store trace] in Ho.
  unfold log_stmt in Ho. cbn [conn c_db store trace] in Ho.
  fold (selected_metrics lo hi limit offset db) in Ho.
  unfold bind at 1 in Ho.
  destruct (reads_mapM _ _ _ (fun b db => (b, skinfolds_of (bm_id b) db))
              (selected_metrics lo hi limit offset db) reads_skinfolds
              db db 0 ([SPragma] ++ [SSelect Tbody_metrics (Some limit)])) as (t' & Hm & _).
  unfold opened in Hm. cbn [app] in Hm, Ho. rewrite Hm in Ho.
  unfold bind, close, ret in Ho. cbn [store trace] in Ho. subst out.
  eexists. reflexivity.
Qed.

Lemma dict_set_fresh V (k : pystr) (v : V) (d : list (pystr * V)) :
  ~ In k (map fst d) -> dict_set k v d = d ++ [(k, v)].
Proof.
  induction d as [|[k' v'] d IH]; intros H; [reflexivity|].
  cbn [dict_set]. destruct (pystr_eqb k k') eqn:E.
  - exfalso. apply H. left. cbn [fst]. symmetry. apply pystr_eqb_eq. exact E.
  - cbn [app]. f_equal. apply IH. intros Hin. apply H. right. exact Hin.
Qed.

Lemma dict_of_items R (key : R -> pystr) (val : R -> real) (l : list R) : forall acc,
  NoDup (map fst acc ++ map key l) ->
  fold_left (fun d s => dict_set (key s) (val s) d) l acc
  = acc ++ map (fun s => (key s, val s)) l.
Proof.
  induction l as [|x l IH]; intros acc Hnd; cbn [fold_left map].
  - rewrite app_nil_r. reflexivity.
  - cbn [map] in Hnd. rewrite dict_set_fresh.
    + rewrite IH.
      * rewrite <- app_assoc. reflexivity.
      * rewrite map_app. cbn [map fst]. rewrite <- app_assoc. exact Hnd.
    + apply NoDup_remove_2 in Hnd. intros Hin. apply Hnd.
      apply in_or_app. left. exact Hin.
Qed.

Lemma limit_offset_one R limit offset (x : R) :
  limit <> 0 -> offset <= 0 -> limit_offset limit offset [x] = [x].
Proof.
  intros Hl Ho. unfold limit_offset.
  replace (Z.to_nat offset) with 0%nat by lia. cbn [skipn].
  destruct (Z.ltb_spec limit 0); [reflexivity|].
  destruct (Z.to_nat limit) as [|n] eqn:E; [lia|]. cbn [firstn].
  rewrite firstn_nil. reflexivity.
Qed.

(** X19 (body metrics written and read back).  For an accepted date and
    a mapping of skinfold sites with distinct names, on a store whose
    skinfold rows all belong to existing measurements: when
    [log_body_metrics] returns an id, [get_body_metrics] asked for that
    one day (by the normalised date, with a limit other than 0 and no
    offset) then returns exactly one entry, with that id, the date, the
    weight and the notes passed, and with the skinfold mapping as it was
    passed. *)
Theorem logged_metrics_read_back (date d : pystr) (body_weight_kg : option real)
    (sf : option (list (pystr * real))) (notes : option pystr) (db : DB)
    (id limit offset : Z) :
  _ensure_date date = Ok d ->
  NoDup (map fst (list_of sf)) ->
  (forall s, In s (rows (skinfolds db)) ->
             has_id bm_id (sf_body_metrics_id s) (body_metrics db) = true) ->
  limit <> 0 -> offset <= 0 ->
  let out := call (log_body_metrics date body_weight_kg sf notes) db in
  fst out = Ok id ->
  fst (call (get_body_metrics (Some d) (Some d) limit offset) (store (snd out)))
  = Ok [({| bm_id := id; bm_date := d; bm_body_weight_kg := body_weight_kg;
            bm_notes := notes |},
         list_of sf)].
Proof.
  intros Hd Hnd Hfk Hl Hoff out Hok.
  pose proof (log_body_metrics_run date d body_weight_kg sf notes db Hd) as H.
  cbv zeta in H. fold out in H.
  destruct (date_logged d db) eqn:Hlogged; [destruct H as (H & _); congruence|].
  destruct H as (tsf & new & Hr & Hs & Hrows & Hview).
  rewrite Hr in Hok. injection Hok as <-.
  destruct (ensure_date_fixed date d Hd) as (Hlen & Hfix).
  assert (Hb : day_bound (Some d) = Ok (Some d)).
  { unfold day_bound, date_bound. destruct d as [|c d']; [discriminate|].
    rewrite Hfix, app_nil_r. reflexivity. }
  destruct (get_body_metrics_run (Some d) (Some d) limit offset (store (snd out))
              (Some d) (Some d) Hb Hb) as (tr & E).
  rewrite E. cbn [fst]. f_equal. rewrite Hs. cbn [bm_id].
  unfold selected_metrics. cbn [body_metrics set_skinfolds set_body_metrics rows].
  rewrite filter_app. cbn [filter bm_date ge_bound le_bound].
  rewrite pystr_leb_refl. cbn [andb].
  rewrite filter_nothing.
  - cbn [app order_by fold_right insert_sorted].
    rewrite limit_offset_one by assumption. cbn [map bm_id]. f_equal. f_equal.
    unfold skinfolds_of. cbn [skinfolds set_skinfolds]. rewrite Hrows, filter_app.
    rewrite filter_nothing.
    + cbn [app]. rewrite filter_all.
      * rewrite dict_of_items.
        -- cbn [app].
           transitivity (map (fun v : Z * pystr * real => (snd (fst v), snd v))
                             (map skinfold_view new)).
           ++ rewrite map_map. reflexivity.
           ++ rewrite Hview, map_map. cbn [fst snd]. rewrite <- (map_id (list_of sf)) at 2.
              apply map_ext. intros [k v]. reflexivity.
        -- cbn [map app].
           replace (map sf_site_name new)
             with (map (fun v : Z * pystr * real => snd (fst v)) (map skinfold_view new))
             by (rewrite map_map; reflexivity).
           rewrite Hview, map_map. cbn [fst snd]. exact Hnd.
      * intros s Hin. apply Z.eqb_eq.
        assert (Hsv : In (skinfold_view s) (map skinfold_view new))
          by (apply in_map; exact Hin).
        rewrite Hview in Hsv. apply in_map_iff in Hsv.
        destruct Hsv as (sm & Esm & _). unfold skinfold_view in Esm.
        injection Esm as E1 _ _. rewrite <- E1. reflexivity.
    + intros s Hin. apply Z.eqb_neq. intros Heq.
      specialize (Hfk s Hin). rewrite Heq in Hfk.
      rewrite next_rowid_not_there in Hfk. discriminate.
  - intros b Hin. unfold date_logged in Hlogged.
    destruct (pystr_leb d (bm_date b)) eqn:E1; [|reflexivity].
    destruct (pystr_leb (bm_date b) d) eqn:E2; [|reflexivity]. exfalso.
    pose proof (pystr_leb_antisym _ _ E1 E2) as Heq.
    assert (Hex : existsb (fun r => pystr_eqb (bm_date r) d) (rows (body_metrics db)) = true).
    { apply existsb_exists. exists b. split; [exact Hin|].
      rewrite <- Heq. apply pystr_eqb_refl. }
    congruence.
Qed.

Lemma logged_metrics_read_back_witness :
  let sf := Some [(py "abdomen", QArith_base.Qmake 10 1);
                  (py "chest", QArith_base.Qmake 12 1)] in
  let out := call (log_body_metrics (py "2026-1-6") None sf (Some (py "fasted")))
                  empty_db in
  fst out = Ok 1
  /\ fst (call (get_body_metrics (Some (py "2026-01-06")) (Some (py "2026-01-06")) 31 0)
               (store (snd out)))
     = Ok [({| bm_id := 1; bm_date := py "2026-01-06"; bm_body_weight_kg := None;
               bm_notes := Some (py "fasted") |}, list_of sf)].
Proof.
  intros sf out.
  assert (Hr : fst out = Ok 1) by (vm_compute; reflexivity).
  split; [exact Hr|].
  apply (logged_metrics_read_back (py "2026-1-6") (py "2026-01-06") None sf
           (Some (py "fasted")) empty_db 1 31 0).
  - vm_compute. reflexivity.
  - cbn [list_of sf map fst]. constructor.
    + intros [H|[]]. discriminate.
    + constructor; [intros []|constructor].
  - intros s [].
  - discriminate.
  - lia.
  - exact Hr.
Defined.

(** ** The history of an exercise *)

Lemma reads_history_entry we :
  reads (ss <- _load_sets (e_id (snd we)) ;;
         ret {| he_workout := fst we; he_exercise := snd we;
                he_tags := deserialize_tags (w_tags (fst we)); he_sets := ss |})
        (fun db => history_of db we).
Proof.
  intros s db l t. unfold bind.
  destruct (reads_load_sets (e_id (snd we)) s db l t) as (e1 & E1 & Q1). rewrite E1.
  exists e1. split; [reflexivity|exact Q1].
Qed.

Lemma get_exercise_history_run name fd td limit db lo hi :
  date_bound fd midnight = Ok lo -> date_bound td last_second = Ok hi ->
  exists tr,
    call (get_exercise_history name fd td limit) db
    = (Ok (map (history_of db) (selected_history name lo hi limit db)),
       {| store := db; conn := Closed; trace := tr |}).
Proof.
  intros Hlo Hhi.
  remember (call (get_exercise_history name fd td limit) db) as out eqn:Ho.
  unfold call, get_exercise_history in Ho.
  unfold bind at 1 in Ho. unfold get_connection, fresh in Ho. cbn [store trace app] in Ho.
  unfold bind at 1 in Ho. unfold lift at 1 in Ho. rewrite Hlo in Ho.
  unfold bind at 1 in Ho. unfold lift at 1 in Ho. rewrite Hhi in Ho.
  unfold bind at 1 in Ho. unfold query at 1 in Ho. cbn [conn c_db store trace] in Ho.
  unfold log_stmt in Ho. cbn [conn c_db store trace] in Ho.
  fold (selected_history name lo hi limit db) in Ho.
  unfold bind at 1 in Ho.
  destruct (reads_mapM _ _ _ (fun we db => history_of db we)
              (selected_history name lo hi limit db) reads_history_entry
              db db 0 ([SPragma] ++ [SSelect Tworkouts (Some limit)])) as (t' & Hm & _).
  unfold opened in Hm. cbn [app] in Hm, Ho. rewrite Hm in Ho.
  unfold bind, close, ret in Ho. cbn [store trace] in Ho. subst out.
  eexists. reflexivity.
Qed.

Lemma In_history_join name lo hi db w e :
  In (w, e) (history_join name lo hi db)
  <-> In w (rows (workouts db)) /\ In e (rows (exercises db))
      /\ e_workout_id e = w_id w
      /\ sql_lower (e_name e) = sql_lower name
      /\ ge_bound lo (w_date_time w) = true /\ le_bound hi (w_date_time w) = true.
Proof.
  unfold history_join. rewrite in_flat_map. split.
  - intros (w' & Hw & Hin). apply in_map_iff in Hin. destruct Hin as (e' & E & He).
    injection E as -> ->. apply filter_In in He. destruct He as (He & Hc).
    repeat (apply andb_prop in Hc; destruct Hc as (Hc & ?)).
    apply Z.eqb_eq in Hc. repeat split; try assumption.
    apply pystr_eqb_eq. assumption.
  - intros (Hw & He & Hid & Hn & Hlo & Hhi). exists w. split; [exact Hw|].
    apply in_map_iff. exists e. split; [reflexivity|]. apply filter_In.
    split; [exact He|]. rewrite Hlo, Hhi, Hn, pystr_eqb_refl, !andb_true_r.
    apply Z.eqb_eq. exact Hid.
Qed.

(** X20 ([get_exercise_history]).  With date filters that are absent,
    empty or accepted the call returns and closes the connection.  Every
    entry joins a stored workout inside the window of dates with one of
    its exercises whose name is the name asked for up to the case of
    ASCII letters, and carries the decoded tags and the sets of that
    exercise by ascending [set_index].  The entries come latest workout
    first, at most [limit] of them for a limit that is not negative;
    with a negative limit no such pair is left out. *)
Theorem exercise_history_entries (exercise_name : pystr)
    (from_date to_date : option pystr) (limit : Z) (db : DB) :
  bound_ok from_date = true -> bound_ok to_date = true ->
  let out := call (get_exercise_history exercise_name from_date to_date limit) db in
  let matches := fun (w : workout_row) (e : exercise_row) =>
    In w (rows (workouts db)) /\ In e (rows (exercises db))
    /\ e_workout_id e = w_id w
    /\ sql_lower (e_name e) = sql_lower exercise_name
    /\ in_window from_date to_date (w_date_time w) = true in
  exists entries,
    fst out = Ok entries
    /\ conn (snd out) = Closed
    /\ StronglySorted
         (fun a b => pystr_leb (w_date_time (he_workout b))
                               (w_date_time (he_workout a)) = true) entries
    /\ (0 <= limit -> Z.of_nat (List.length entries) <= limit)
    /\ (forall x, In x entries ->
          matches (he_workout x) (he_exercise x)
          /\ he_tags x = deserialize_tags (w_tags (he_workout x))
          /\ he_sets x = select_sets (e_id (he_exercise x)) db)
    /\ (limit < 0 -> forall w e, matches w e ->
          exists x, In x entries /\ he_workout x = w /\ he_exercise x = e).
Proof.
  intros Hfd Htd out matches.
  destruct (get_exercise_history_run exercise_name from_date to_date limit db _ _
              (date_bound_ok from_date midnight Hfd)
              (date_bound_ok to_date last_second Htd)) as (tr & E).
  unfold out. rewrite E. cbn [fst snd conn]. eexists. split; [reflexivity|].
  split; [reflexivity|]. split; [|split; [|split]].
  - apply (sorted_map _ _ (history_of db)
             (fun a b => pystr_leb (w_date_time (fst b)) (w_date_time (fst a)) = true)).
    + intros a b H. exact H.
    + unfold selected_history. apply sorted_limit_offset.
      apply (order_by_sorted _ (by_text_desc (fun we => w_date_time (fst we))));
        [apply by_text_desc_total|apply by_text_desc_trans].
  - intros Hl. rewrite length_map. unfold selected_history.
    apply length_limit_offset_any. exact Hl.
  - intros x Hx. apply in_map_iff in Hx. destruct Hx as ([w e] & <- & Hin).
    unfold selected_history in Hin. apply In_limit_offset in Hin.
    apply In_order_by in Hin. apply In_history_join in Hin.
    cbn [history_of he_workout he_exercise he_tags he_sets fst snd].
    destruct Hin as (Hw & He & Hid & Hn & Hlo & Hhi).
    split; [|split; reflexivity]. unfold matches, in_window.
    rewrite Hlo, Hhi. repeat split; assumption.
  - intros Hneg w e (Hw & He & Hid & Hn & Hwin).
    exists (history_of db (w, e)). split; [|split; reflexivity].
    apply in_map. unfold selected_history, limit_offset.
    apply Z.ltb_lt in Hneg. rewrite Hneg. cbn [Z.to_nat skipn].
    apply In_order_by. apply In_history_join.
    unfold in_window in Hwin. apply andb_prop in Hwin. destruct Hwin as (Hlo & Hhi).
    repeat split; assumption.
Qed.

(** Asked for SQUAT, the history of the sample store shows the Squat of
    its workout with the three sets. *)
Lemma exercise_history_entries_witness :
  let out :=
    call (get_exercise_history (py "SQUAT") None (Some (py "2026-01-06")) 20) demo_db in
  (exists entries,
      fst out = Ok entries /\ conn (snd out) = Closed
      /\ Z.of_nat (List.length entries) <= 20)
  /\ exists x,
       fst out = Ok [x]
       /\ e_name (he_exercise x) = py "Squat"
       /\ map s_set_index (he_sets x) = [1; 2; 7].
Proof.
  intros out. split.
  - destruct (exercise_history_entries (py "SQUAT") None (Some (py "2026-01-06")) 20
                demo_db) as (entries & Hr & Hc & _ & Hlen & _);
      [reflexivity|reflexivity|].
    exists entries. split; [exact Hr|]. split; [exact Hc|apply Hlen; lia].
  - eexists. split; [vm_compute; reflexivity|]. split; vm_compute; reflexivity.
Defined.

(** ** A nutrition day read back *)

Lemma reads_meal m :
  reads (items <- query (SSelect Tmeal_items None) (select_items (m_id m)) ;;
         ret {| ml_row := m; ml_items := items; ml_totals := item_totals items |})
        (fun db => meal_of db m).
Proof.
  intros s db l t. unfold bind.
  destruct (reads_query _ (SSelect Tmeal_items None) (select_items (m_id m))
              eq_refl s db l t) as (e1 & E1 & Q1).
  rewrite E1. exists e1. split; [reflexivity|exact Q1].
Qed.

Lemma get_nutrition_day_run date d db :
  _ensure_date date = Ok d ->
  exists tr,
    call (get_nutrition_day date) db
    = (Ok (option_map (day_view db) (find_day d db)),
       {| store := db; conn := Closed; trace := tr |}).
Proof.
  intros Hd.
  remember (call (get_nutrition_day date) db) as out eqn:Ho.
  unfold call, get_nutrition_day in Ho.
  unfold bind at 1 in Ho. unfold lift at 1 in Ho. rewrite Hd in Ho.
  unfold bind at 1 in Ho. unfold get_connection, fresh in Ho. cbn [store trace app] in Ho.
  unfold bind at 1 in Ho. unfold query at 1 in Ho. cbn [conn c_db store trace] in Ho.
  unfold log_stmt in Ho. cbn [conn c_db store trace] in Ho.
  destruct (find_day d db) as [day|]; cbn [option_map].
  - unfold bind at 1 in Ho. unfold query at 1 in Ho. cbn [conn c_db store trace] in Ho.
    unfold log_stmt in Ho. cbn [conn c_db store trace] in Ho.
    fold (meals_of_day (nd_id day) db) in Ho.
    unfold bind at 1 in Ho.
    destruct (reads_mapM _ _ _ (fun m db => meal_of db m)
                (meals_of_day (nd_id day) db) reads_meal
                db db 0 (([SPragma] ++ [SSelect Tnutrition_days None])
                         ++ [SSelect Tmeals None])) as (t' & Hm & _).
    unfold opened in Hm. cbn [app] in Hm, Ho. rewrite Hm in Ho.
    unfold bind, close, ret in Ho. cbn [store trace] in Ho. subst out.
    eexists. reflexivity.
  - unfold bind, close, ret in Ho. cbn [store trace] in Ho. subst out.
    eexists. reflexivity.
Qed.

Lemma meals_of_day_spec day_id db :
  StronglySorted (fun a b => m_order_index a <= m_order_index b) (meals_of_day day_id db)
  /\ forall m, In m (meals_of_day day_id db)
               <-> In m (rows (meals db)) /\ m_day_id m = day_id.
Proof.
  unfold meals_of_day. split.
  - apply (sorted_weaken _ (fun a b => by_Z m_order_index a b = true)).
    + intros a b H. apply Z.leb_le. exact H.
    + apply order_by_sorted; [apply by_Z_total|apply by_Z_trans].
  - intros m. rewrite In_order_by, filter_In, Z.eqb_eq. tauto.
Qed.

(** X21 ([get_nutrition_day]).  For an accepted date the call returns
    and closes the connection: nothing when no day has the date, and
    else the first row for the date with exactly the meals of that day,
    by ascending [order_index], each with exactly the items of that
    meal.  The five totals of a meal are the sums of the five macro
    columns over its items, and the five totals of the day the sums of
    the totals of its meals, each as Python's [sum] adds them up in the
    order in which the items and the meals are listed. *)
Theorem nutrition_day_view (date d : pystr) (db : DB) :
  _ensure_date date = Ok d ->
  let out := call (get_nutrition_day date) db in
  conn (snd out) = Closed
  /\ (find_day d db = None -> fst out = Ok None)
  /\ (forall day, find_day d db = Some day ->
        exists nd,
          fst out = Ok (Some nd)
          /\ day_row nd = day
          /\ StronglySorted (fun a b => m_order_index a <= m_order_index b)
                            (map ml_row (day_meals nd))
          /\ (forall m, In m (map ml_row (day_meals nd))
                        <-> In m (rows (meals db)) /\ m_day_id m = nd_id day)
          /\ (forall ml, In ml (day_meals nd) ->
                ml_totals ml
                = {| t_calories :=
                       Sum (map (fun i => Addend (calories (mi_fields i))) (ml_items ml));
                     t_protein_g :=
                       Sum (map (fun i => Addend (protein_g (mi_fields i))) (ml_items ml));
                     t_carbs_g :=
                       Sum (map (fun i => Addend (carbs_g (mi_fields i))) (ml_items ml));
                     t_fats_g :=
                       Sum (map (fun i => Addend (fats_g (mi_fields i))) (ml_items ml));
                     t_fiber_g :=
                       Sum (map (fun i => Addend (fiber_g (mi_fields i))) (ml_items ml)) |}
                /\ forall i, In i (ml_items ml)
                             <-> In i (rows (meal_items db))
                                 /\ mi_meal_id i = m_id (ml_row ml))
          /\ day_totals nd
             = {| t_calories := Sum (map (fun ml => t_calories (ml_totals ml)) (day_meals nd));
                  t_protein_g := Sum (map (fun ml => t_protein_g (ml_totals ml)) (day_meals nd));
                  t_carbs_g := Sum (map (fun ml => t_carbs_g (ml_totals ml)) (day_meals nd));
                  t_fats_g := Sum (map (fun ml => t_fats_g (ml_totals ml)) (day_meals nd));
                  t_fiber_g := Sum (map (fun ml => t_fiber_g (ml_totals ml)) (day_meals nd)) |}).
Proof.
  intros Hd out. destruct (get_nutrition_day_run date d db Hd) as (tr & E).
  unfold out. rewrite E. cbn [fst snd conn]. split; [reflexivity|]. split.
  - intros ->. reflexivity.
  - intros day ->. cbn [option_map]. eexists. split; [reflexivity|].
    unfold day_view. cbn [day_row day_meals].
    rewrite map_map. cbn [meal_of ml_row]. rewrite map_id.
    destruct (meals_of_day_spec (nd_id day) db) as (Hs & Hin).
    split; [reflexivity|]. split; [exact Hs|]. split; [exact Hin|].
    split; [|reflexivity].
    intros ml Hml. apply in_map_iff in Hml. destruct Hml as (m & <- & _).
    cbn [meal_of ml_totals ml_items ml_row]. split; [reflexivity|].
    intros i. unfold select_items. rewrite filter_In, Z.eqb_eq. tauto.
Qed.

Lemma nutrition_day_view_witness :
  exists nd,
    fst (call (get_nutrition_day (py "2026-1-6")) lunch_db) = Ok (Some nd)
    /\ nd_date (day_row nd) = py "2026-01-06"
    /\ fst (call (get_nutrition_day (py "2026-01-07")) lunch_db) = Ok None.
Proof.
  destruct (nutrition_day_view (py "2026-1-6") (py "2026-01-06") lunch_db)
    as (_ & _ & Hsome); [vm_compute; reflexivity|].
  destruct (nutrition_day_view (py "2026-01-07") (py "2026-01-07") lunch_db)
    as (_ & Hnone & _); [vm_compute; reflexivity|].
  destruct (Hsome {| nd_id := 1; nd_date := py "2026-01-06"; nd_notes := None |})
    as (nd & Hr & Hrow & _); [vm_compute; reflexivity|].
  exists nd. split; [exact Hr|]. split; [rewrite Hrow; reflexivity|].
  apply Hnone. vm_compute. reflexivity.
Defined.

(** X22 (an item added and read back).  When [add_or_update_meal_item]
    inserts (no item id, or the id 0) for an accepted date,
    [get_nutrition_day] for that date then returns the day whose id the
    call returned, and among its meals the meal named, whose items are
    the items it had followed by the new one. *)
Theorem added_item_read_back (date d meal_name : pystr) (f : item_fields)
    (item_id : option Z) (db : DB) :
  _ensure_date date = Ok d ->
  item_id = None \/ item_id = Some 0 ->
  let out := call (add_or_update_meal_item date meal_name f item_id) db in
  exists new_id meal_id day_id nd ml,
    fst out = Ok (Some new_id, meal_id, day_id)
    /\ fst (call (get_nutrition_day date) (store (snd out))) = Ok (Some nd)
    /\ nd_id (day_row nd) = day_id
    /\ In ml (day_meals nd)
    /\ m_id (ml_row ml) = meal_id /\ m_name (ml_row ml) = meal_name
    /\ ml_items ml
       = select_items meal_id db
         ++ [{| mi_id := new_id; mi_meal_id := meal_id; mi_fields := f |}].
Proof.
  intros Hd Hid out.
  destruct (add_meal_item_run date d meal_name f item_id db Hd Hid)
    as (day & meal & new_id & Hr & _ & Hday & Hmeal & _ & _ & Hitems).
  fold out in Hr, Hday, Hmeal, Hitems.
  destruct (get_nutrition_day_run date d (store (snd out)) Hd) as (tr & E).
  exists new_id, (m_id meal), (nd_id day), (day_view (store (snd out)) day),
         (meal_of (store (snd out)) meal).
  split; [exact Hr|]. rewrite E, Hday. cbn [fst option_map].
  split; [reflexivity|]. split; [reflexivity|].
  destruct (find_meal_spec _ _ _ _ Hmeal) as (Hin & Hmd & Hname).
  split; [|split; [reflexivity|split; [exact Hname|exact Hitems]]].
  unfold day_view. cbn [day_meals]. apply in_map.
  apply meals_of_day_spec. split; assumption.
Qed.

Lemma added_item_read_back_witness :
  exists new_id meal_id day_id nd ml,
    fst (call (add_or_update_meal_item (py "2026-01-06") (py "lunch") oats (Some 0))
              lunch_db) = Ok (Some new_id, meal_id, day_id)
    /\ fst (call (get_nutrition_day (py "2026-01-06"))
                 (store (snd (call (add_or_update_meal_item (py "2026-01-06")
                                      (py "lunch") oats (Some 0)) lunch_db))))
       = Ok (Some nd)
    /\ In ml (day_meals nd)
    /\ List.length (ml_items ml) = 2%nat.
Proof.
  destruct (added_item_read_back (py "2026-01-06") (py "2026-01-06") (py "lunch") oats
              (Some 0) lunch_db)
    as (new_id & meal_id & day_id & nd & ml & Hr & Hg & _ & Hin & _ & _ & Hitems);
    [vm_compute; reflexivity|right; reflexivity|].
  exists new_id, meal_id, day_id, nd, ml.
  split; [exact Hr|]. split; [exact Hg|]. split; [exact Hin|].
  rewrite Hitems, length_app. cbn [List.length].
  assert (Hm : meal_id = 1) by (vm_compute in Hr; congruence).
  subst meal_id. vm_compute. reflexivity.
Defined.

(** ** Invariants the tools keep *)

Lemma refers_spec R P (ref : R -> Z) (rowid : P -> Z) (c : table R) (p : table P) :
  refers ref rowid c p = true
  <-> forall r, In r (rows c) -> has_id rowid (ref r) p = true.
Proof. unfold refers. apply forallb_forall. Qed.

Lemma has_id_more P (rowid : P -> Z) id (p p' : table P) :
  (forall x, In x (map rowid (rows p)) -> In x (map rowid (rows p'))) ->
  has_id rowid id p = true -> has_id rowid id p' = true.
Proof.
  intros Hsub H. apply has_id_In in H. destruct H as (r & Hr & E).
  assert (Hin : In id (map rowid (rows p'))).
  { apply Hsub. rewrite <- E. apply in_map. exact Hr. }
  apply in_map_iff in Hin. destruct Hin as (r' & E' & Hr').
  apply has_id_In. exists r'. split; assumption.
Qed.

Lemma refers_more R P (ref : R -> Z) (rowid : P -> Z) (c : table R) (p p' : table P) :
  (forall x, In x (map rowid (rows p)) -> In x (map rowid (rows p'))) ->
  refers ref rowid c p = true -> refers ref rowid c p' = true.
Proof.
  intros Hsub H. apply refers_spec. intros r Hr.
  apply (has_id_more _ _ _ p p' Hsub). apply (proj1 (refers_spec _ _ _ _ _ _) H r Hr).
Qed.

Lemma refers_grow R P (ref : R -> Z) (rowid : P -> Z) (c c' : table R) (p p' : table P)
    (new : list R) :
  rows c' = rows c ++ new ->
  (forall x, In x (map rowid (rows p)) -> In x (map rowid (rows p'))) ->
  (forall r, In r new -> has_id rowid (ref r) p' = true) ->
  refers ref rowid c p = true -> refers ref rowid c' p' = true.
Proof.
  intros Hrows Hsub Hnew H. apply refers_spec. intros r Hr. rewrite Hrows in Hr.
  apply in_app_or in Hr. destruct Hr as [Hr|Hr].
  - apply (has_id_more _ _ _ p p' Hsub). apply (proj1 (refers_spec _ _ _ _ _ _) H r Hr).
  - apply Hnew. exact Hr.
Qed.

Lemma refers_fewer R P (ref : R -> Z) (rowid : P -> Z) (c c' : table R) (p p' : table P) :
  (forall r, In r (rows c') -> In r (rows c)) ->
  (forall r, In r (rows c') -> forall x, In x (rows p) -> rowid x = ref r ->
             In x (rows p')) ->
  refers ref rowid c p = true -> refers ref rowid c' p' = true.
Proof.
  intros Hsub Hkeep H. apply refers_spec. intros r Hr.
  pose proof (proj1 (refers_spec _ _ _ _ _ _) H r (Hsub r Hr)) as Hid.
  apply has_id_In in Hid. destruct Hid as (x & Hx & E).
  apply has_id_In. exists x. split; [|exact E]. apply (Hkeep r Hr x Hx E).
Qed.

Lemma references_split db :
  references_resolve db = true
  <-> refers e_workout_id w_id (exercises db) (workouts db) = true
      /\ refers s_exercise_id e_id (sets db) (exercises db) = true
      /\ refers m_day_id nd_id (meals db) (nutrition_days db) = true
      /\ refers mi_meal_id m_id (meal_items db) (meals db) = true
      /\ refers sf_body_metrics_id bm_id (skinfolds db) (body_metrics db) = true.
Proof. unfold references_resolve. rewrite !andb_true_iff. tauto. Qed.

Lemma invariants_kept_same db : invariants_kept db db.
Proof. split; intros H; exact H. Qed.

Lemma in_app_left A (l new : list A) x : In x l -> In x (l ++ new).
Proof. intros H. apply in_or_app. left. exact H. Qed.

(** *** The workout tools *)

Section WorkoutInvariants.
Variable fromisoformat : pystr -> option datetime.
Variable tags_view : list json -> list pystr.
Variable exercises_view : list json -> list exercise_payload.

Lemma log_workout_keeps dt ty tags notes exs db :
  invariants_kept db
    (store (snd (call (log_workout fromisoformat tags_view exercises_view
                         dt ty tags notes exs) db))).
Proof.
  pose proof (log_workout_run fromisoformat tags_view exercises_view
                dt ty tags notes exs db) as H.
  unfold log_workout_outcome in H.
  destruct (normalized tags_view tags) as [tg|?];
    [|destruct H as (? & _ & ->); apply invariants_kept_same].
  destruct (normalized exercises_view exs) as [ex|?];
    [|destruct H as (? & _ & ->); apply invariants_kept_same].
  destruct (fromisoformat dt) as [d|];
    [|destruct H as (? & _ & ->); apply invariants_kept_same].
  destruct (exercises_valid (list_of ex));
    [|destruct H as (? & _ & ->); apply invariants_kept_same].
  destruct H as (tw & te & ts & newex & newsets & H). cbv zeta in H.
  destruct H as (_ & -> & _ & Hw & He & Hs & Hve & Hvs & _).
  assert (Hwsub : forall x, In x (map w_id (rows (workouts db))) ->
                            In x (map w_id (rows tw))).
  { intros x Hx. rewrite Hw, map_app. apply in_app_left. exact Hx. }
  assert (Hesub : forall x, In x (map e_id (rows (exercises db))) ->
                            In x (map e_id (rows te))).
  { intros x Hx. rewrite He, map_app. apply in_app_left. exact Hx. }
  split.
  - rewrite !references_split.
    cbn [workouts exercises sets nutrition_days meals meal_items body_metrics skinfolds
         set_sets set_exercises set_workouts].
    intros (H1 & H2 & H3 & H4 & H5). repeat split; try assumption.
    + apply (refers_grow _ _ _ _ (exercises db) te (workouts db) tw newex He Hwsub);
        [|exact H1].
      intros e Hin. apply has_id_In.
      eexists. split; [rewrite Hw; apply in_or_app; right; left; reflexivity|].
      cbn [w_id].
      assert (Hv : In (exercise_view e) (map exercise_view newex))
        by (apply in_map; exact Hin).
      rewrite Hve in Hv. apply in_map_iff in Hv. destruct Hv as (ip & E & _).
      apply (f_equal (fun v : Z * Z * option pystr * option pystr * option pystr =>
                        fst (fst (fst (fst v))))) in E.
      unfold exercise_view, expected_exercise in E. cbn [fst w_id] in E.
      exact E.
    + apply (refers_grow _ _ _ _ (sets db) ts (exercises db) te newsets Hs Hesub);
        [|exact H2].
      intros s Hin.
      assert (Hv : In (set_view s) (map set_view newsets)) by (apply in_map; exact Hin).
      rewrite Hvs in Hv. apply in_flat_map in Hv. destruct Hv as (ep & Hep & Hv).
      unfold expected_sets in Hv. apply in_map_iff in Hv. destruct Hv as (ip & E & _).
      apply (f_equal (fun v : Z * Z * set_fields * Z => fst (fst (fst v)))) in E.
      unfold set_view, expected_set in E.
      destruct ep as [e p]. apply in_combine_l in Hep. cbn [fst] in E.
      symmetry in E.
      apply has_id_In. exists e. split; [|symmetry; exact E].
      rewrite He. apply in_or_app. right. exact Hep.
  - intros Ht w Hin.
    cbn [workouts set_sets set_exercises set_workouts] in Hin. rewrite Hw in Hin.
    apply in_app_or in Hin. destruct Hin as [Hin|[<-|[]]]; [apply Ht; exact Hin|].
    exists tg. reflexivity.
Qed.

End WorkoutInvariants.

Lemma add_exercise_keeps wid name cat notes db :
  invariants_kept db (store (snd (call (add_exercise wid name cat notes) db))).
Proof.
  rewrite add_exercise_call.
  destruct (has_id w_id wid (workouts db)) eqn:Hw; [|apply invariants_kept_same].
  cbv zeta. cbn [snd store]. split.
  - rewrite !references_split. cbn [workouts exercises sets nutrition_days meals
                                     meal_items body_metrics skinfolds set_exercises].
    intros (H1 & H2 & H3 & H4 & H5). repeat split; try assumption.
    + eapply (refers_grow _ _ _ _ (exercises db) _ (workouts db) (workouts db));
        [reflexivity|intros x Hx; exact Hx| |exact H1].
      intros e [<-|[]]. exact Hw.
    + apply (refers_more _ _ _ _ (sets db) (exercises db)); [|exact H2].
      intros x Hx. cbn [rows]. rewrite map_app. apply in_app_left. exact Hx.
  - intros Ht. exact Ht.
Qed.

Lemma add_set_keeps eid f wu db :
  invariants_kept db (store (snd (call (add_set eid f wu) db))).
Proof.
  rewrite add_set_call.
  destruct (negb (side_ok (side f))); [apply invariants_kept_same|].
  destruct (has_id e_id eid (exercises db)) eqn:He; [|apply invariants_kept_same].
  cbv zeta. cbn [snd store]. split.
  - rewrite !references_split. cbn [workouts exercises sets nutrition_days meals
                                     meal_items body_metrics skinfolds set_sets].
    intros (H1 & H2 & H3 & H4 & H5). repeat split; try assumption.
    eapply (refers_grow _ _ _ _ (sets db) _ (exercises db) (exercises db));
      [reflexivity|intros x Hx; exact Hx| |exact H2].
    intros s [<-|[]]. exact He.
  - intros Ht. exact Ht.
Qed.

(** *** The nutrition tools *)

Lemma refers_update R P (ref : R -> Z) (rowid : P -> Z) (c c' : table R) (p : table P)
    (f : R -> R) :
  rows c' = map f (rows c) -> (forall r, ref (f r) = ref r) ->
  refers ref rowid c p = true -> refers ref rowid c' p = true.
Proof.
  intros Hrows Hf H. apply refers_spec. intros r Hr. rewrite Hrows in Hr.
  apply in_map_iff in Hr. destruct Hr as (r0 & <- & Hr0). rewrite Hf.
  apply (proj1 (refers_spec _ _ _ _ _ _) H r0 Hr0).
Qed.

Lemma ids_after_update P (rowid : P -> Z) (hit : P -> bool) (f : P -> P) (t : table P) :
  (forall r, rowid (f r) = rowid r) ->
  forall x, In x (map rowid (rows t)) -> In x (map rowid (rows (tbl_update hit f t))).
Proof.
  intros Hf x Hx. unfold tbl_update. cbn [rows]. rewrite map_map.
  replace (map (fun r => rowid (if hit r then f r else r)) (rows t))
    with (map rowid (rows t)); [exact Hx|].
  apply map_ext. intros r. destruct (hit r); [symmetry; apply Hf|reflexivity].
Qed.

Lemma day_ensured_keeps d db :
  references_resolve db = true -> references_resolve (snd (day_ensured d db)) = true.
Proof.
  unfold day_ensured. destruct (find_day d db); cbn [snd]; [tauto|].
  rewrite !references_split.
  cbn [workouts exercises sets nutrition_days meals meal_items body_metrics skinfolds
       set_nutrition_days].
  intros (H1 & H2 & H3 & H4 & H5). repeat split; try assumption.
  apply (refers_more _ _ _ _ (meals db) (nutrition_days db)); [|exact H3].
  intros x Hx. cbn [rows]. rewrite map_app. apply in_app_left. exact Hx.
Qed.

Lemma meal_ensured_keeps day_id name db :
  has_id nd_id day_id (nutrition_days db) = true ->
  references_resolve db = true ->
  references_resolve (snd (meal_ensured day_id name db)) = true.
Proof.
  intros Hday. unfold meal_ensured. destruct (find_meal day_id name db); cbn [snd]; [tauto|].
  rewrite !references_split.
  cbn [workouts exercises sets nutrition_days meals meal_items body_metrics skinfolds
       set_meals].
  intros (H1 & H2 & H3 & H4 & H5). repeat split; try assumption.
  - eapply (refers_grow _ _ _ _ (meals db) _ (nutrition_days db) (nutrition_days db));
      [reflexivity|intros x Hx; exact Hx| |exact H3].
    intros m [<-|[]]. exact Hday.
  - apply (refers_more _ _ _ _ (meal_items db) (meals db)); [|exact H4].
    intros x Hx. cbn [rows]. rewrite map_app. apply in_app_left. exact Hx.
Qed.

Lemma day_ensured_workouts d db : workouts (snd (day_ensured d db)) = workouts db.
Proof. unfold day_ensured. destruct (find_day d db); reflexivity. Qed.

Lemma meal_ensured_workouts day_id name db :
  workouts (snd (meal_ensured day_id name db)) = workouts db.
Proof. unfold meal_ensured. destruct (find_meal day_id name db); reflexivity. Qed.

Lemma tags_serialized_same db db' :
  workouts db' = workouts db -> tags_serialized db -> tags_serialized db'.
Proof. unfold tags_serialized. intros ->. tauto. Qed.

Lemma upsert_nutrition_day_keeps date notes db :
  invariants_kept db (store (snd (call (upsert_nutrition_day date notes) db))).
Proof.
  destruct (_ensure_date date) as [d|e] eqn:Hd.
  - destruct (upsert_nutrition_day_call date d notes db Hd) as (tr & E). rewrite E.
    destruct (find_day d db); cbn [snd store]; split;
      try (apply tags_serialized_same; reflexivity);
      rewrite !references_split;
      cbn [workouts exercises sets nutrition_days meals meal_items body_metrics skinfolds
           set_nutrition_days];
      intros (H1 & H2 & H3 & H4 & H5); repeat split; try assumption.
    + apply (refers_more _ _ _ _ (meals db) (nutrition_days db)); [|exact H3].
      apply ids_after_update. reflexivity.
    + apply (refers_more _ _ _ _ (meals db) (nutrition_days db)); [|exact H3].
      intros x Hx. cbn [rows]. rewrite map_app. apply in_app_left. exact Hx.
  - unfold call, upsert_nutrition_day, bind, lift. rewrite Hd.
    apply invariants_kept_same.
Qed.

Lemma upsert_meal_keeps date name oi db :
  references_resolve db = true ->
  invariants_kept db (store (snd (call (upsert_meal date name oi) db))).
Proof.
  intros Hdb. destruct (_ensure_date date) as [d|e] eqn:Hd.
  - assert (Hfk : forall m, In m (rows (meals db)) ->
                            has_id nd_id (m_day_id m) (nutrition_days db) = true).
    { apply refers_spec. apply references_split in Hdb. tauto. }
    destruct (upsert_meal_call date d name oi db Hd Hfk) as (tr & E). rewrite E.
    pose proof (day_ensured_keeps d db Hdb) as H1.
    destruct (day_ensured_found d db) as (_ & Hhas).
    destruct (find_meal _ name _); cbn [snd store]; split;
      try (apply tags_serialized_same; cbn [workouts set_meals];
           apply day_ensured_workouts);
      intros _; revert H1; rewrite !references_split;
      cbn [workouts exercises sets nutrition_days meals meal_items body_metrics skinfolds
           set_meals];
      intros (H1 & H2 & H3 & H4 & H5); repeat split; try assumption.
    + apply (refers_update _ _ _ _ (meals (snd (day_ensured d db))) _ _
               (fun r => if (m_day_id r =? nd_id (fst (day_ensured d db)))
                            && pystr_eqb (m_name r) name
                         then {| m_id := m_id r; m_day_id := m_day_id r;
                                 m_name := m_name r; m_order_index := oi |}
                         else r)); [reflexivity| |exact H3].
      intros r. destruct (_ && _); reflexivity.
    + apply (refers_more _ _ _ _ (meal_items (snd (day_ensured d db)))
               (meals (snd (day_ensured d db)))); [|exact H4].
      apply ids_after_update. reflexivity.
    + eapply (refers_grow _ _ _ _ (meals (snd (day_ensured d db))) _ _ _);
        [reflexivity|intros x Hx; exact Hx| |exact H3].
      intros m [<-|[]]. exact Hhas.
    + apply (refers_more _ _ _ _ (meal_items (snd (day_ensured d db)))
               (meals (snd (day_ensured d db)))); [|exact H4].
      intros x Hx. cbn [rows]. rewrite map_app. apply in_app_left. exact Hx.
  - unfold call, upsert_meal, bind, lift. rewrite Hd. apply invariants_kept_same.
Qed.

Lemma add_or_update_meal_item_keeps date meal_name f item_id db :
  references_resolve db = true ->
  invariants_kept db
    (store (snd (call (add_or_update_meal_item date meal_name f item_id) db))).
Proof.
  intros Hdb. destruct (_ensure_date date) as [d|e] eqn:Hd.
  - destruct (add_or_update_meal_item_call date d meal_name f item_id db Hd) as (tr & E).
    cbv zeta in E. rewrite E. clear E.
    destruct (day_ensured_found d db) as (_ & Hhas).
    pose proof (meal_ensured_keeps _ meal_name _ Hhas (day_ensured_keeps d db Hdb)) as H2.
    destruct (meal_ensured_found (nd_id (fst (day_ensured d db))) meal_name
                (snd (day_ensured d db))) as (_ & Hmeal).
    set (db2 := snd (meal_ensured (nd_id (fst (day_ensured d db))) meal_name
                       (snd (day_ensured d db)))) in *.
    assert (Hw : workouts db2 = workouts db).
    { unfold db2. rewrite meal_ensured_workouts. apply day_ensured_workouts. }
    destruct (match item_id with Some id => negb (id =? 0) | None => false end);
      cbn [snd store]; split;
      try (apply tags_serialized_same; cbn [workouts set_meal_items]; exact Hw);
      intros _; revert H2; rewrite !references_split;
      cbn [workouts exercises sets nutrition_days meals meal_items body_metrics skinfolds
           set_meal_items];
      intros (H1 & H2 & H3 & H4 & H5); repeat split; try assumption.
    + apply (refers_update _ _ _ _ (meal_items db2) _ _
               (fun r => if mi_id r =? match item_id with Some id => id | None => 0 end
                         then {| mi_id := mi_id r; mi_meal_id := mi_meal_id r;
                                 mi_fields := f |}
                         else r)); [reflexivity| |exact H4].
      intros r. destruct (_ =? _); reflexivity.
    + eapply (refers_grow _ _ _ _ (meal_items db2) _ _ _);
        [reflexivity|intros x Hx; exact Hx| |exact H4].
      intros i [<-|[]]. exact Hmeal.
  - unfold call, add_or_update_meal_item, bind, lift. rewrite Hd.
    apply invariants_kept_same.
Qed.

(** *** The deletes *)

Lemma delete_meal_item_call item_id db :
  exists tr,
    call (delete_meal_item item_id) db
    = (Ok (has_id mi_id item_id (meal_items db)),
       {| store := set_meal_items db
                     (tbl_delete (fun i => mi_id i =? item_id) (meal_items db));
          conn := Closed; trace := tr |}).
Proof.
  unfold call, delete_meal_item, fresh.
  unfold bind, get_connection, modify, delete_items_where, commit, close, ret.
  cbn [conn c_db store trace c_last_insert_rowid fst snd].
  rewrite count_positive. eexists. reflexivity.
Qed.

Lemma In_filter_weaken R (p : R -> bool) (l : list R) x : In x (filter p l) -> In x l.
Proof. intros H. apply filter_In in H. tauto. Qed.

Lemma delete_meal_item_keeps item_id db :
  invariants_kept db (store (snd (call (delete_meal_item item_id) db))).
Proof.
  destruct (delete_meal_item_call item_id db) as (tr & E). rewrite E. cbn [snd store].
  split; [|apply tags_serialized_same; reflexivity].
  rewrite !references_split.
  cbn [workouts exercises sets nutrition_days meals meal_items body_metrics skinfolds
       set_meal_items].
  intros (H1 & H2 & H3 & H4 & H5). repeat split; try assumption.
  apply (refers_fewer _ _ _ _ (meal_items db) _ (meals db) (meals db)); [| |exact H4].
  - intros r. cbn [tbl_delete rows]. apply In_filter_weaken.
  - intros r _ x Hx _. exact Hx.
Qed.

Lemma delete_meal_keeps meal_id delete_items db :
  invariants_kept db (store (snd (call (delete_meal meal_id delete_items) db))).
Proof.
  destruct (delete_meal_call meal_id delete_items db) as (tr & E). rewrite E.
  cbn [snd store]. cbv zeta.
  assert (Hmeals : meals (if delete_items
                          then set_meal_items db
                                 (tbl_delete (fun i => mi_meal_id i =? meal_id)
                                             (meal_items db))
                          else db) = meals db) by (destruct delete_items; reflexivity).
  assert (Hitems : forall i,
            In i (rows (meal_items (if delete_items
                                    then set_meal_items db
                                           (tbl_delete (fun i => mi_meal_id i =? meal_id)
                                                       (meal_items db))
                                    else db))) ->
            In i (rows (meal_items db))).
  { destruct delete_items; [|tauto]. intros i. cbn [meal_items set_meal_items tbl_delete rows].
    apply In_filter_weaken. }
  split; [|apply tags_serialized_same; destruct delete_items; reflexivity].
  rewrite !references_split.
  cbn [workouts exercises sets nutrition_days meals meal_items body_metrics skinfolds
       set_meal_items set_meals].
  rewrite Hmeals.
  intros (H1 & H2 & H3 & H4 & H5).
  repeat split; try (destruct delete_items; assumption).
  - apply (refers_fewer _ _ _ _ (meals db) _ (nutrition_days db)); [| |exact H3].
    + intros r. cbn [tbl_delete rows]. apply In_filter_weaken.
    + intros r _ x Hx _. destruct delete_items; exact Hx.
  - apply (refers_fewer _ _ _ _ (meal_items db) _ (meals db)); [| |exact H4].
    + intros r Hr. cbn [tbl_delete rows] in Hr. apply In_filter_weaken in Hr.
      apply Hitems. exact Hr.
    + intros i Hi x Hx Hid. cbn [tbl_delete rows] in Hi |- *.
      apply filter_In in Hi. destruct Hi as (_ & Hi). apply negb_true_iff in Hi.
      apply filter_In. split; [exact Hx|]. apply negb_true_iff.
      apply not_true_is_false. intros Hdoomed. rewrite mem_ids_of in Hi.
      assert (Hex : existsb (fun r => (m_id r =? meal_id) && (m_id r =? mi_meal_id i))
                            (rows (meals db)) = true).
      { apply existsb_exists. exists x. split; [exact Hx|].
        rewrite Hdoomed, Hid, Z.eqb_refl. reflexivity. }
      congruence.
Qed.

Lemma delete_nutrition_day_keeps date cascade db :
  invariants_kept db (store (snd (call (delete_nutrition_day date cascade) db))).
Proof.
  destruct (_ensure_date date) as [d|e] eqn:Hd.
  - destruct (delete_nutrition_day_call date d cascade db Hd) as (tr & E). rewrite E.
    cbn [snd store]. cbv zeta.
    split; [|apply tags_serialized_same; reflexivity].
    rewrite !references_split.
    cbn [workouts exercises sets nutrition_days meals meal_items body_metrics skinfolds
         set_meal_items set_meals set_nutrition_days].
    intros (H1 & H2 & H3 & H4 & H5). repeat split; try assumption.
    + apply (refers_fewer _ _ _ _ (meals db) _ (nutrition_days db)); [| |exact H3].
      * intros r. cbn [rows]. apply In_filter_weaken.
      * intros m Hm x Hx Hid. cbn [rows] in Hm |- *.
        apply filter_In in Hm. destruct Hm as (_ & Hm). apply negb_true_iff in Hm.
        apply filter_In. split; [exact Hx|]. apply negb_true_iff.
        apply not_true_is_false. intros Hdoomed. rewrite mem_ids_of in Hm.
        assert (Hex : existsb (fun r => pystr_eqb (nd_date r) d && (nd_id r =? m_day_id m))
                              (rows (nutrition_days db)) = true).
        { apply existsb_exists. exists x. split; [exact Hx|].
          rewrite Hdoomed, Hid, Z.eqb_refl. reflexivity. }
        congruence.
    + apply (refers_fewer _ _ _ _ (meal_items db) _ (meals db)); [| |exact H4].
      * intros r. cbn [rows]. apply In_filter_weaken.
      * intros i Hi x Hx Hid. cbn [rows] in Hi |- *.
        apply filter_In in Hi. destruct Hi as (_ & Hi). apply negb_true_iff in Hi.
        apply filter_In. split; [exact Hx|]. apply negb_true_iff.
        apply not_true_is_false. intros Hdoomed. rewrite mem_ids_of in Hi.
        assert (Hex : existsb
                        (fun r =>
                           mem_Z (m_day_id r)
                             (map nd_id (filter (fun r0 => pystr_eqb (nd_date r0) d)
                                                (rows (nutrition_days db))))
                           && (m_id r =? mi_meal_id i))
                        (rows (meals db)) = true).
        { apply existsb_exists. exists x. split; [exact Hx|].
          rewrite Hdoomed, Hid, Z.eqb_refl. reflexivity. }
        congruence.
  - unfold call, delete_nutrition_day, bind, lift. rewrite Hd.
    apply invariants_kept_same.
Qed.

(** *** Body metrics *)

Lemma log_body_metrics_keeps date bw sf notes db :
  invariants_kept db (store (snd (call (log_body_metrics date bw sf notes) db))).
Proof.
  destruct (_ensure_date date) as [d|e] eqn:Hd.
  - pose proof (log_body_metrics_run date d bw sf notes db Hd) as H. cbv zeta in H.
    destruct (date_logged d db); [destruct H as (_ & ->); apply invariants_kept_same|].
    destruct H as (tsf & new & _ & -> & Hrows & Hview).
    split; [|apply tags_serialized_same; reflexivity].
    rewrite !references_split.
    cbn [workouts exercises sets nutrition_days meals meal_items body_metrics skinfolds
         set_skinfolds set_body_metrics].
    intros (H1 & H2 & H3 & H4 & H5). repeat split; try assumption.
    eapply (refers_grow _ _ _ _ (skinfolds db) tsf (body_metrics db) _ new Hrows);
      [| |exact H5].
    + intros x Hx. cbn [rows]. rewrite map_app. apply in_app_left. exact Hx.
    + intros s Hin. apply has_id_In. eexists. split.
      * cbn [rows]. apply in_or_app. right. left. reflexivity.
      * cbn [bm_id].
        assert (Hv : In (skinfold_view s) (map skinfold_view new))
          by (apply in_map; exact Hin).
        rewrite Hview in Hv. apply in_map_iff in Hv. destruct Hv as (sm & E & _).
        apply (f_equal (fun v : Z * pystr * real => fst (fst v))) in E.
        unfold skinfold_view in E. cbn [fst bm_id] in E. exact E.
  - unfold call, log_body_metrics, bind, lift. rewrite Hd. apply invariants_kept_same.
Qed.

(** *** All tools *)

Section AllToolsInvariants.
Variable fromisoformat : pystr -> option datetime.
Variable tags_view : list json -> list pystr.
Variable exercises_view : list json -> list exercise_payload.

Lemma run_tool_store_discard A (m : M A) db :
  store (snd (call (discard m) db)) = store (snd (call m db)).
Proof. unfold call, discard. destruct (m (fresh db)) as [[a|e] w]; reflexivity. Qed.

Lemma run_tool_keeps t db :
  references_resolve db = true ->
  invariants_kept db
    (store (snd (call (run_tool fromisoformat tags_view exercises_view t) db))).
Proof.
  intros Hdb.
  destruct (read_only t) eqn:Hro.
  - pose proof (keeps_store_read_only fromisoformat tags_view exercises_view t Hro
                  (fresh db)) as E.
    unfold call. rewrite E. apply invariants_kept_same.
  - destruct t; try discriminate; cbn [run_tool]; rewrite run_tool_store_discard.
    + apply log_workout_keeps.
    + apply add_exercise_keeps.
    + apply add_set_keeps.
    + apply upsert_nutrition_day_keeps.
    + apply upsert_meal_keeps. exact Hdb.
    + apply add_or_update_meal_item_keeps. exact Hdb.
    + apply delete_meal_item_keeps.
    + apply delete_meal_keeps.
    + apply delete_nutrition_day_keeps.
    + apply log_body_metrics_keeps.
Qed.

End AllToolsInvariants.

(** X23 (references).  On a store in which every exercise, set, meal,
    item and skinfold row refers to an existing row of its parent table,
    a call of any public tool, on any arguments, leaves a store of which
    the same holds, whether the call returns or raises. *)
Theorem tools_keep_references
    (fromisoformat : pystr -> option datetime)
    (tags_view : list json -> list pystr)
    (exercises_view : list json -> list exercise_payload)
    (t : tool_call) (db : DB) :
  references_resolve db = true ->
  references_resolve
    (store (snd (call (run_tool fromisoformat tags_view exercises_view t) db))) = true.
Proof.
  intros H. apply (run_tool_keeps fromisoformat tags_view exercises_view t db H). exact H.
Qed.

Lemma tools_keep_references_witness :
  references_resolve lunch_db = true
  /\ references_resolve
       (store (snd (call (run_tool fromisoformat_seconds strings_view no_exercises_view
                            (CallDeleteNutritionDay (py "2026-01-06") false))
                         lunch_db))) = true.
Proof.
  assert (H : references_resolve lunch_db = true) by (vm_compute; reflexivity).
  split; [exact H|].
  apply (tools_keep_references fromisoformat_seconds strings_view no_exercises_view
           (CallDeleteNutritionDay (py "2026-01-06") false) lunch_db H).
Defined.

(** X24 (stored tags).  On a store whose references resolve and whose
    [tags] columns are empty or were written by [serialize_tags], a call
    of any public tool leaves a store whose [tags] columns are such:
    [log_workout] is the only tool that writes the column, and it writes
    what [serialize_tags] gives. *)
Theorem tools_keep_tags_serialized
    (fromisoformat : pystr -> option datetime)
    (tags_view : list json -> list pystr)
    (exercises_view : list json -> list exercise_payload)
    (t : tool_call) (db : DB) :
  references_resolve db = true ->
  tags_serialized db ->
  tags_serialized
    (store (snd (call (run_tool fromisoformat tags_view exercises_view t) db))).
Proof.
  intros H. apply (run_tool_keeps fromisoformat tags_view exercises_view t db H).
Qed.

Lemma tools_keep_tags_serialized_witness :
  tags_serialized
    (store (snd (call (run_tool fromisoformat_seconds strings_view no_exercises_view
                         (CallLogWorkout (py "2026-02-01T08:00:00") None
                            (ArgList [py "push"]) None ArgNone))
                      demo_db))).
Proof.
  apply (tools_keep_tags_serialized fromisoformat_seconds strings_view no_exercises_view).
  - vm_compute. reflexivity.
  - intros w [<-|[]]. exists (Some [py "legs"; py "sprint"]). vm_compute. reflexivity.
Defined.

(** ** Summaries of nutrition days *)

Lemma reads_bind A B (m : M A) (k : A -> M B) (f : DB -> A) (g : A -> DB -> B) :
  reads m f -> (forall a, reads (k a) (g a)) ->
  reads (bind m k) (fun db => g (f db) db).
Proof.
  intros Hm Hk s db l t. unfold bind.
  destruct (Hm s db l t) as (e1 & E1 & Q1). rewrite E1.
  destruct (Hk (f db) s db l (t ++ e1)) as (e2 & E2 & Q2). rewrite E2.
  exists (e1 ++ e2). rewrite app_assoc. split; [reflexivity|].
  rewrite domain_queries_app, Q1, Q2. reflexivity.
Qed.

Lemma reads_day_totals day :
  reads (meal_rows <-
           query (SSelect Tmeals None)
             (fun db => filter (fun m => m_day_id m =? nd_id day) (rows (meals db))) ;;
         items <-
           mapM (fun m => query (SSelect Tmeal_items None) (select_items (m_id m)))
                meal_rows ;;
         ret (day, item_totals (List.concat items)))
        (fun db => (day, item_totals (items_of_day (nd_id day) db))).
Proof.
  apply (reads_bind _ _ _ _
           (fun db => filter (fun m => m_day_id m =? nd_id day) (rows (meals db)))
           (fun meal_rows db =>
              (day, item_totals
                      (List.concat (map (fun m => select_items (m_id m) db) meal_rows))))).
  - apply reads_query. reflexivity.
  - intros meal_rows.
    apply (reads_bind _ _ _ _
             (fun db => map (fun m => select_items (m_id m) db) meal_rows)
             (fun items _ => (day, item_totals (List.concat items)))).
    + apply (reads_mapM _ _ _ (fun m db => select_items (m_id m) db)).
      intros m. apply reads_query. reflexivity.
    + intros items. apply reads_ret.
Qed.

Lemma get_nutrition_days_summary_run fd td limit offset db lo hi :
  day_bound fd = Ok lo -> day_bound td = Ok hi ->
  exists tr,
    call (get_nutrition_days_summary fd td limit offset) db
    = (Ok (map (fun day => (day, item_totals (items_of_day (nd_id day) db)))
               (selected_days lo hi limit offset db)),
       {| store := db; conn := Closed; trace := tr |}).
Proof.
  intros Hlo Hhi.
  remember (call (get_nutrition_days_summary fd td limit offset) db) as out eqn:Ho.
  unfold call, get_nutrition_days_summary in Ho.
  unfold bind at 1 in Ho. unfold get_connection, fresh in Ho. cbn [store trace app] in Ho.
  unfold bind at 1 in Ho. unfold lift at 1 in Ho. rewrite Hlo in Ho.
  unfold bind at 1 in Ho. unfold lift at 1 in Ho. rewrite Hhi in Ho.
  unfold bind at 1 in Ho. unfold query at 1 in Ho. cbn [conn c_db store trace] in Ho.
  unfold log_stmt in Ho. cbn [conn c_db store trace] in Ho.
  fold (selected_days lo hi limit offset db) in Ho.
  unfold bind at 1 in Ho.
  destruct (reads_mapM _ _ _
              (fun day db => (day, item_totals (items_of_day (nd_id day) db)))
              (selected_days lo hi limit offset db) reads_day_totals
              db db 0 ([SPragma] ++ [SSelect Tnutrition_days (Some limit)]))
    as (t' & Hm & _).
  unfold opened in Hm. cbn [app] in Hm, Ho. rewrite Hm in Ho.
  unfold bind, close, ret in Ho. cbn [store trace] in Ho. subst out.
  eexists. reflexivity.
Qed.

Lemma In_items_of_day day_id db i :
  In i (items_of_day day_id db)
  <-> In i (rows (meal_items db))
      /\ exists m, In m (rows (meals db)) /\ m_day_id m = day_id
                   /\ mi_meal_id i = m_id m.
Proof.
  unfold items_of_day. rewrite in_concat. split.
  - intros (l & Hl & Hi). apply in_map_iff in Hl. destruct Hl as (m & <- & Hm).
    apply filter_In in Hm. destruct Hm as (Hm & Hd). apply Z.eqb_eq in Hd.
    unfold select_items in Hi. apply filter_In in Hi. destruct Hi as (Hi & E).
    apply Z.eqb_eq in E. split; [exact Hi|]. exists m. tauto.
  - intros (Hi & m & Hm & Hd & E). exists (select_items (m_id m) db). split.
    + apply in_map_iff. exists m. split; [reflexivity|].
      apply filter_In. split; [exact Hm|apply Z.eqb_eq; exact Hd].
    + unfold select_items. apply filter_In. split; [exact Hi|apply Z.eqb_eq; exact E].
Qed.

(** X25 ([get_nutrition_days_summary]).  With date filters that are
    absent, empty or accepted the call returns and closes the
    connection.  The days come latest date first, at most [limit] of
    them for a limit that is not negative; each is a stored day whose
    date lies between the two normalised dates, both included.  The
    totals of a day are the sums, as Python's [sum] adds them up, over
    the items of the meals of that day and over no other item: the
    meals taken one after the other, in an order that is left open, and
    the items of each meal in the order of the table. *)
Theorem nutrition_days_summary_page (from_date to_date : option pystr)
    (limit offset : Z) (db : DB) :
  bound_ok from_date = true -> bound_ok to_date = true ->
  let out := call (get_nutrition_days_summary from_date to_date limit offset) db in
  exists days,
    fst out = Ok days
    /\ conn (snd out) = Closed
    /\ StronglySorted (fun a b => pystr_leb (nd_date (fst b)) (nd_date (fst a)) = true)
                      days
    /\ (0 <= limit -> Z.of_nat (List.length days) <= limit)
    /\ (forall x, In x days ->
          In (fst x) (rows (nutrition_days db))
          /\ ge_bound (bound_day from_date) (nd_date (fst x)) = true
          /\ le_bound (bound_day to_date) (nd_date (fst x)) = true
          /\ exists ms,
               Permutation ms
                 (filter (fun m => m_day_id m =? nd_id (fst x)) (rows (meals db)))
               /\ let items :=
                    flat_map (fun m => filter (fun i => mi_meal_id i =? m_id m)
                                              (rows (meal_items db)))
                             ms in
                  snd x
                  = {| t_calories := Sum (map (fun i => Addend (calories (mi_fields i))) items);
                       t_protein_g := Sum (map (fun i => Addend (protein_g (mi_fields i))) items);
                       t_carbs_g := Sum (map (fun i => Addend (carbs_g (mi_fields i))) items);
                       t_fats_g := Sum (map (fun i => Addend (fats_g (mi_fields i))) items);
                       t_fiber_g := Sum (map (fun i => Addend (fiber_g (mi_fields i))) items) |}).
Proof.
  intros Hfd Htd out.
  destruct (get_nutrition_days_summary_run from_date to_date limit offset db _ _
              (day_bound_ok from_date Hfd) (day_bound_ok to_date Htd)) as (tr & E).
  unfold out. rewrite E. cbn [fst snd conn]. eexists. split; [reflexivity|].
  split; [reflexivity|]. split; [|split].
  - apply (sorted_map _ _ (fun day => (day, item_totals (items_of_day (nd_id day) db)))
             (fun a b => pystr_leb (nd_date b) (nd_date a) = true)).
    + intros a b H. exact H.
    + unfold selected_days. apply sorted_limit_offset.
      apply (order_by_sorted _ (by_text_desc nd_date));
        [apply by_text_desc_total|apply by_text_desc_trans].
  - intros Hl. rewrite length_map. unfold selected_days.
    apply length_limit_offset_any. exact Hl.
  - intros x Hx. apply in_map_iff in Hx. destruct Hx as (day & <- & Hin).
    unfold selected_days in Hin. apply In_limit_offset in Hin.
    apply In_order_by in Hin. apply filter_In in Hin. destruct Hin as (Hin & Hb).
    apply andb_prop in Hb. destruct Hb as (Hlo & Hhi). cbn [fst snd].
    repeat split; try assumption.
    exists (filter (fun m => m_day_id m =? nd_id day) (rows (meals db))).
    split; [apply Permutation_refl|]. cbv zeta.
    unfold items_of_day, select_items. rewrite flat_map_concat_map. reflexivity.
Qed.

Lemma nutrition_days_summary_page_witness :
  exists days,
    fst (call (get_nutrition_days_summary (Some (py "2026-01-03")) (Some (py "2026-1-5"))
                 2 0) pizza_week) = Ok days
    /\ map (fun x => nd_date (fst x)) days = [py "2026-01-05"; py "2026-01-04"].
Proof.
  destruct (nutrition_days_summary_page (Some (py "2026-01-03")) (Some (py "2026-1-5"))
              2 0 pizza_week) as (days & Hr & _); [reflexivity|reflexivity|].
  exists days. split; [exact Hr|].
  vm_compute in Hr. injection Hr as <-. reflexivity.
Defined.

(** ** [delete_meal_item] *)

(** X26 ([delete_meal_item]).  The call removes the item with the id and
    no other row, tells whether there was one, and closes the
    connection; a second call for the same id then tells that nothing
    was there and leaves the store as it is. *)
Theorem delete_meal_item_once (item_id : Z) (db : DB) :
  let out := call (delete_meal_item item_id) db in
  let again := call (delete_meal_item item_id) (store (snd out)) in
  fst out = Ok (has_id mi_id item_id (meal_items db))
  /\ conn (snd out) = Closed
  /\ store (snd out)
     = set_meal_items db
         {| rows := filter (fun i => negb (mi_id i =? item_id)) (rows (meal_items db));
            autoinc := autoinc (meal_items db) |}
  /\ fst again = Ok false
  /\ store (snd again) = store (snd out).
Proof.
  intros out again.
  destruct (delete_meal_item_call item_id db) as (tr & E).
  destruct (delete_meal_item_call item_id (store (snd out))) as (tr' & E').
  unfold again. rewrite E'. unfold out. rewrite E. cbn [fst snd store conn].
  split; [reflexivity|]. split; [reflexivity|]. split; [reflexivity|].
  assert (Hgone : has_id mi_id item_id
                    (meal_items
                       (set_meal_items db
                          (tbl_delete (fun i => mi_id i =? item_id) (meal_items db))))
                  = false).
  { apply not_true_is_false. intros H. apply has_id_In in H.
    destruct H as (i & Hi & Hid). cbn [meal_items set_meal_items tbl_delete rows] in Hi.
    apply filter_In in Hi. destruct Hi as (_ & Hi). apply negb_true_iff in Hi.
    apply Z.eqb_neq in Hi. contradiction. }
  split; [rewrite Hgone; reflexivity|].
  unfold set_meal_items, tbl_delete.
  cbn [workouts exercises sets nutrition_days meals meal_items body_metrics skinfolds
       rows autoinc].
  f_equal. f_equal. apply filter_same.
Qed.

(** ** List arguments passed as JSON text *)

Lemma parse_not_a_list A (view : list json -> list A) t :
  (forall l, loads t <> Some (JArr l)) ->
  _parse_json_array view (ArgStr t) = ArgStr t.
Proof.
  intros H. unfold _parse_json_array.
  destruct (loads t) as [[| | | | |l|]|] eqn:E; try reflexivity.
  exfalso. apply (H l). reflexivity.
Qed.

(** X27 (list arguments as text).  As the interpreter runs it within
    its limits [lim], [log_workout] given its tags as the JSON text of a
    list of strings (free of adjacent surrogate pairs) that
    [json.loads] decodes without reaching a limit ends as it ends given
    the list that text decodes to.  Given, for the tags or for the
    exercises, a text that [json.loads] takes without reaching a limit
    and that does not decode to a JSON list, it raises [TypeError]
    before a connection is opened, and nothing is written.  An error
    other than [JSONDecodeError] that [json.loads] can raise on the
    text of the tags, [RecursionError] or [ValueError], ends the call,
    also before a connection is opened. *)
Theorem log_workout_text_arguments
    (fromisoformat : pystr -> option datetime)
    (tags_view : list json -> list pystr)
    (exercises_view : list json -> list exercise_payload)
    (lim : limits)
    (date_time : pystr) (workout_type notes : option pystr) (db : DB) :
  let run tags exs :=
    log_workout_in fromisoformat tags_view exercises_view lim
      date_time workout_type tags notes exs (fresh db) in
  (forall T exs,
      forallb lossless T = true ->
      within_limits lim (@ArgStr pystr (dumps_str_list T)) ->
      run (ArgStr (dumps_str_list T)) exs = run (ArgList (tags_view (map JStr T))) exs)
  /\ (forall t exs,
        within_limits lim (@ArgStr pystr t) ->
        within_limits lim exs ->
        (forall l, loads t <> Some (JArr l)) ->
        run (ArgStr t) exs = [(Raise TypeError, fresh db)])
  /\ (forall t tags,
        within_limits lim (@ArgStr exercise_payload t) ->
        (forall l, loads t <> Some (JArr l)) ->
        run (ArgList tags) (ArgStr t) = [(Raise TypeError, fresh db)])
  /\ (forall t exs e,
        In (Raise e) (json_loads lim t) -> e <> JSONDecodeError ->
        In (Raise e, fresh db) (run (ArgStr t) exs)).
Proof.
  intros run. unfold run, log_workout_in. split; [|split; [|split]].
  - intros T exs HT Hw.
    rewrite (parse_json_array_in_within lim _ tags_view _ Hw).
    unfold _parse_json_array at 1. rewrite (loads_dumps_str_list T HT). reflexivity.
  - intros t exs Hw Hx Ht.
    rewrite (parse_json_array_in_within lim _ tags_view _ Hw).
    rewrite (parse_json_array_in_within lim _ exercises_view _ Hx).
    rewrite (parse_not_a_list _ tags_view t Ht). reflexivity.
  - intros t tags Hw Ht.
    rewrite (parse_json_array_in_within lim _ exercises_view _ Hw).
    rewrite (parse_not_a_list _ exercises_view t Ht). reflexivity.
  - intros t exs e He Hne. apply in_flat_map. exists (Raise e). split.
    + cbn [_parse_json_array_in]. apply in_map_iff. exists (Raise e).
      split; [|exact He]. destruct e; try reflexivity. contradiction.
    + left. reflexivity.
Qed.

(** Tags passed as the text of a list are stored as the list is; the
    text of a number is refused; a text of 1500 opening brackets ends
    the call in [RecursionError]. *)
Lemma log_workout_text_arguments_witness :
  let run tags exs :=
    log_workout_in fromisoformat_seconds strings_view no_exercises_view default_limits
      (py "2026-01-06T23:59:59") None tags None exs (fresh empty_db) in
  run (ArgStr (dumps_str_list [py "legs"; py "sprint"])) (ArgList [squat])
  = [call (demo_log [squat]) empty_db]
  /\ run (ArgStr (py "5")) ArgNone = [(Raise TypeError, fresh empty_db)]
  /\ In (Raise RecursionError, fresh empty_db) (run (ArgStr (repeat 91%N 1500)) ArgNone).
Proof.
  destruct (log_workout_text_arguments fromisoformat_seconds strings_view
              no_exercises_view default_limits (py "2026-01-06T23:59:59") None None
              empty_db)
    as (Hlist & Htext & _ & Hdeep).
  cbv zeta. split; [|split].
  - rewrite (Hlist [py "legs"; py "sprint"] (ArgList [squat]));
      [reflexivity|reflexivity|vm_compute; reflexivity].
  - apply Htext; [vm_compute; reflexivity|exact I|].
    intros l. vm_compute. discriminate.
  - apply Hdeep; [vm_compute; left; reflexivity|discriminate].
Defined.

(** ** Appended rows as hydration shows them *)

Lemma select_sets_added eid f wu db :
  select_sets eid
    (set_sets db {| rows := rows (sets db) ++ [added_set eid f wu db];
                    autoinc := s_id (added_set eid f wu db) |})
  = select_sets eid db ++ [added_set eid f wu db].
Proof.
  unfold select_sets. cbn [sets set_sets rows]. rewrite filter_app.
  cbn [filter added_set s_exercise_id]. rewrite Z.eqb_refl.
  apply order_by_last. intros y Hy. unfold by_Z. apply Z.leb_le.
  unfold added_set. cbn [s_set_index]. unfold next_set_index, sets_of.
  assert (s_set_index y
          <= coalesce_max (map s_set_index
                             (filter (fun s => s_exercise_id s =? eid) (rows (sets db))))).
  { apply coalesce_max_ge. apply in_map. exact Hy. }
  lia.
Qed.

(** X28 (a set added and loaded).  When [add_set] is given an exercise
    that exists and a side the schema allows, [_load_sets] for that
    exercise afterwards returns the sets it returned before, in the same
    order, followed by the new set, which carries the fields and the
    warm-up flag passed. *)
Theorem added_set_loaded_last (exercise_id : Z) (f : set_fields) (is_warmup : bool)
    (db s : DB) (l : Z) (t : list stmt) :
  has_id e_id exercise_id (exercises db) = true ->
  side_ok (side f) = true ->
  let out := call (add_set exercise_id f is_warmup) db in
  exists before new,
    fst (_load_sets exercise_id (opened s db l t)) = Ok before
    /\ fst out = Ok (s_id new)
    /\ fst (_load_sets exercise_id (opened s (store (snd out)) l t))
       = Ok (before ++ [new])
    /\ (s_exercise_id new, s_fields new, s_is_warmup new)
       = (exercise_id, f, if is_warmup then 1 else 0).
Proof.
  intros Hex Hside out.
  destruct (add_set_run exercise_id f is_warmup db Hex Hside) as (Hr & Hs & _).
  fold out in Hr, Hs.
  exists (select_sets exercise_id db), (added_set exercise_id f is_warmup db).
  split; [reflexivity|]. split; [exact Hr|]. split; [|reflexivity].
  rewrite Hs. unfold _load_sets, query, opened. cbn [conn c_db fst].
  rewrite select_sets_added. reflexivity.
Qed.

Lemma added_set_loaded_last_witness :
  exists before new,
    fst (_load_sets 1 (opened demo_db demo_db 0 [])) = Ok before
    /\ map s_set_index before = [1; 2; 7]
    /\ fst (_load_sets 1 (opened demo_db
                            (store (snd (call (add_set 1 no_fields true) demo_db))) 0 []))
       = Ok (before ++ [new])
    /\ s_is_warmup new = 1.
Proof.
  destruct (added_set_loaded_last 1 no_fields true demo_db demo_db 0 [])
    as (before & new & Hb & _ & Ha & Hcols); [reflexivity|reflexivity|].
  exists before, new. split; [exact Hb|]. split.
  - vm_compute in Hb. injection Hb as <-. reflexivity.
  - split; [exact Ha|]. injection Hcols as _ _ E. exact E.
Defined.

Lemma select_exercises_added wid row db :
  e_workout_id row = wid ->
  (forall e, In e (exercises_of wid db) -> e_order_index e <= e_order_index row) ->
  select_exercises wid
    (set_exercises db {| rows := rows (exercises db) ++ [row]; autoinc := e_id row |})
  = select_exercises wid db ++ [row].
Proof.
  intros Hw Hmax. unfold select_exercises. cbn [exercises set_exercises rows].
  rewrite filter_app. cbn [filter]. rewrite Hw, Z.eqb_refl.
  apply order_by_last. intros y Hy. unfold by_Z. apply Z.leb_le. apply Hmax. exact Hy.
Qed.

(** X29 (an exercise added and hydrated).  On a store in which every set
    belongs to an existing exercise, when [add_exercise] is given a
    workout that exists, [_hydrate_workout] for that workout afterwards
    returns the exercises it returned before, each with the sets it
    had, followed by the new exercise without any set. *)
Theorem added_exercise_hydrated_last (name : pystr) (category notes : option pystr)
    (row : workout_row) (db s : DB) (l : Z) (t : list stmt) :
  In row (rows (workouts db)) ->
  (forall x, In x (rows (sets db)) ->
             has_id e_id (s_exercise_id x) (exercises db) = true) ->
  let out := call (add_exercise (w_id row) name category notes) db in
  exists before after new,
    fst (_hydrate_workout row (opened s db l t)) = Ok before
    /\ fst out = Ok (e_id new)
    /\ fst (_hydrate_workout row (opened s (store (snd out)) l t)) = Ok after
    /\ wk_exercises after = wk_exercises before ++ [{| ex_row := new; ex_sets := [] |}]
    /\ (e_name new, e_category new, e_notes new) = (name, category, notes).
Proof.
  intros Hrow Hfk out.
  assert (Hw : has_id w_id (w_id row) (workouts db) = true)
    by (apply has_id_In; exists row; split; [exact Hrow|reflexivity]).
  pose proof (add_exercise_call (w_id row) name category notes db) as E.
  rewrite Hw in E. cbv zeta in E.
  set (new := {| e_id := next_rowid e_id (exercises db); e_workout_id := w_id row;
                 e_order_index :=
                   coalesce_max (map e_order_index (exercises_of (w_id row) db)) + 1;
                 e_name := name; e_category := category; e_notes := notes |}) in *.
  destruct (reads_hydrate row s db l t) as (x1 & E1 & _).
  destruct (reads_hydrate row s (store (snd out)) l t) as (x2 & E2 & _).
  exists (hydrate db row), (hydrate (store (snd out)) row), new.
  rewrite E1, E2. unfold out. rewrite E. cbn [fst snd store].
  split; [reflexivity|]. split; [reflexivity|]. split; [reflexivity|].
  split; [|reflexivity].
  unfold hydrate. cbn [wk_exercises].
  rewrite (select_exercises_added (w_id row) new db eq_refl).
  - rewrite map_app. cbn [map e_id new]. f_equal. f_equal. f_equal.
    unfold select_sets. cbn [sets set_exercises]. rewrite filter_nothing; [reflexivity|].
    intros x Hx. apply Z.eqb_neq. intros Heq.
    specialize (Hfk x Hx). rewrite Heq in Hfk.
    rewrite next_rowid_not_there in Hfk. discriminate.
  - intros e He. cbn [e_order_index new].
    assert (e_order_index e
            <= coalesce_max (map e_order_index (exercises_of (w_id row) db))).
    { apply coalesce_max_ge. apply in_map. exact He. }
    lia.
Qed.

Lemma added_exercise_hydrated_last_witness :
  exists before after new,
    fst (_hydrate_workout (nth 0 (rows (workouts demo_db))
                             {| w_id := 0; w_date_time := []; w_workout_type := None;
                                w_tags := None; w_notes := None |})
           (opened demo_db
              (store (snd (call (add_exercise 1 (py "Row") None None) demo_db))) 0 []))
    = Ok after
    /\ wk_exercises after = wk_exercises before ++ [{| ex_row := new; ex_sets := [] |}]
    /\ List.length (wk_exercises before) = 1%nat
    /\ e_name new = py "Row".
Proof.
  destruct (added_exercise_hydrated_last (py "Row") None None
              (nth 0 (rows (workouts demo_db))
                 {| w_id := 0; w_date_time := []; w_workout_type := None;
                    w_tags := None; w_notes := None |})
              demo_db demo_db 0 [])
    as (before & after & new & Hb & _ & Ha & Hex & Hcols).
  - vm_compute. left. reflexivity.
  - intros x Hx. vm_compute in Hx.
    destruct Hx as [<-|[<-|[<-|[]]]]; reflexivity.
  - exists before, after, new. split; [exact Ha|]. split; [exact Hex|]. split.
    + vm_compute in Hb. injection Hb as <-. reflexivity.
    + injection Hcols as E _ _. exact E.
Defined.
